(** * eFuse controller driver (xilnvm, versal_net server): model and properties

    Shallow embedding of [xnvm_efuse.c].  The driver talks to the eFuse
    controller through register accessors and helper routines that live in
    other translation units; those are modelled as external calls whose
    answers come from an environment, and every call is logged in a trace.
    Machine words are [Z] with the 32-bit wrap-around written out. *)

From Stdlib Require Import ZArith List Bool Lia.
Import ListNotations.
Local Open Scope Z_scope.

(** ** 32-bit words *)

Definition u32 (x : Z) : Z := x mod 2 ^ 32.

Definition u32_add (a b : Z) : Z := u32 (a + b).
Definition u32_sub (a b : Z) : Z := u32 (a - b).
Definition u32_mul (a b : Z) : Z := u32 (a * b).
Definition u32_shl (a n : Z) : Z := u32 (Z.shiftl a n).
Definition u32_shr (a n : Z) : Z := Z.shiftr a n.
Definition u32_not (a : Z) : Z := u32 (Z.lnot a).

(** [(int)x] for a [u32 x]: the values from [2^31] on come out negative. *)
Definition int_of_u32 (x : Z) : Z := if x <? 2 ^ 31 then x else x - 2 ^ 32.

(** C's [!=] on integers. *)
Definition neqb (a b : Z) : bool := negb (a =? b).
Infix "!=?" := neqb (at level 70, no associativity) : Z_scope.

(** A pointer to an array of words: [None] is NULL, [Some f] gives the word
    stored [i] elements past the pointer. *)
Definition words : Type := Z -> Z.
Definition ptr : Type := option words.

(** [&p[k]] *)
Definition offset_ptr (p : words) (k : Z) : words := fun i => p (k + i).
(** [p[i] = v] *)
Definition store (p : words) (i v : Z) : words :=
  fun j => if j =? i then v else p j.

(** ** Constants of headers that are not part of the sources

    [xstatus.h], [xnvm_efuse.h], [xnvm_efuse_hw.h] and
    [xnvm_efuse_common_hw.h] are not available: their macros and
    enumerators are taken as parameters, under their own names. *)

(** Status codes of [xstatus.h] and [TRUE] of [xil_types.h]. *)
Class XStatus_h : Type := {
  TRUE : Z;
  XST_FAILURE : Z;
  XST_SUCCESS : Z;
  XST_TIMEOUT : Z
}.

(** Enumerators, sizes and error codes of [xnvm_efuse.h] and [xnvm_efuse_common.h]. *)
Class XNvm_Efuse_h : Type := {
  XNVM_EFUSE_AES_KEY : Z;
  XNVM_EFUSE_BLACK_IV : Z;
  XNVM_EFUSE_DATA_PARTITION_IV_RANGE : Z;
  XNVM_EFUSE_DME_REVOKE_0 : Z;
  XNVM_EFUSE_DME_REVOKE_1 : Z;
  XNVM_EFUSE_DME_REVOKE_2 : Z;
  XNVM_EFUSE_DME_REVOKE_3 : Z;
  XNVM_EFUSE_DME_USER_KEY_0 : Z;
  XNVM_EFUSE_DME_USER_KEY_1 : Z;
  XNVM_EFUSE_DME_USER_KEY_2 : Z;
  XNVM_EFUSE_DME_USER_KEY_3 : Z;
  XNVM_EFUSE_MARGIN_RD : Z;
  XNVM_EFUSE_META_HEADER_IV_RANGE : Z;
  XNVM_EFUSE_MODE_PGM : Z;
  XNVM_EFUSE_PAGE_0 : Z;
  XNVM_EFUSE_PAGE_1 : Z;
  XNVM_EFUSE_PAGE_2 : Z;
  XNVM_EFUSE_PLM_IV_RANGE : Z;
  XNVM_EFUSE_PPK0 : Z;
  XNVM_EFUSE_PPK1 : Z;
  XNVM_EFUSE_PPK2 : Z;
  XNVM_EFUSE_USER_KEY_0 : Z;
  XNVM_EFUSE_USER_KEY_1 : Z;
  XNVM_MAX_REVOKE_ID_FUSES : Z;
  XNVM_UDS_SIZE_IN_WORDS : Z;
  XNVM_WORD_LEN : Z;
  XNVM_EFUSE_ERR_BEFORE_PROGRAMMING : Z;
  XNVM_EFUSE_ERR_CACHE_PARITY : Z;
  XNVM_EFUSE_ERR_DME_MODE_SET : Z;
  XNVM_EFUSE_ERR_FUSE_PROTECTED : Z;
  XNVM_EFUSE_ERR_GLITCH_DETECTED : Z;
  XNVM_EFUSE_ERR_INVALID_PARAM : Z;
  XNVM_EFUSE_ERR_PGM : Z;
  XNVM_EFUSE_ERR_PGM_TIMEOUT : Z;
  XNVM_EFUSE_ERR_PGM_VERIFY : Z;
  XNVM_EFUSE_ERR_PUF_AUX_ALREADY_PRGMD : Z;
  XNVM_EFUSE_ERR_PUF_CHASH_ALREADY_PRGMD : Z;
  XNVM_EFUSE_ERR_PUF_SYN_ALREADY_PRGMD : Z;
  XNVM_EFUSE_ERR_RD_TIMEOUT : Z;
  XNVM_EFUSE_ERR_WRITE_AES_KEY : Z;
  XNVM_EFUSE_ERR_WRITE_BOOT_ENV_CTRL : Z;
  XNVM_EFUSE_ERR_WRITE_BOOT_MODE_DISABLE : Z;
  XNVM_EFUSE_ERR_WRITE_DEC_EFUSE_ONLY : Z;
  XNVM_EFUSE_ERR_WRITE_DME_MODE : Z;
  XNVM_EFUSE_ERR_WRITE_DME_REVOKE_0 : Z;
  XNVM_EFUSE_ERR_WRITE_GLITCH_CFG : Z;
  XNVM_EFUSE_ERR_WRITE_GLITCH_WRLK : Z;
  XNVM_EFUSE_ERR_WRITE_META_HEADER_IV_RANGE : Z;
  XNVM_EFUSE_ERR_WRITE_MISC1_CTRL_BITS : Z;
  XNVM_EFUSE_ERR_WRITE_MISC_CTRL_BITS : Z;
  XNVM_EFUSE_ERR_WRITE_OFFCHIP_REVOKE_IDS : Z;
  XNVM_EFUSE_ERR_WRITE_PLM_UPDATE : Z;
  XNVM_EFUSE_ERR_WRITE_PPK0_HASH : Z;
  XNVM_EFUSE_ERR_WRITE_PUF_AUX : Z;
  XNVM_EFUSE_ERR_WRITE_PUF_CHASH : Z;
  XNVM_EFUSE_ERR_WRITE_PUF_HELPER_DATA : Z;
  XNVM_EFUSE_ERR_WRITE_PUF_SYN_DATA : Z;
  XNVM_EFUSE_ERR_WRITE_REVOCATION_IDS : Z;
  XNVM_EFUSE_ERR_WRITE_RO_SWAP : Z;
  XNVM_EFUSE_ERR_WRITE_SEC_CTRL_BITS : Z;
  XNVM_EFUSE_ERR_WRITE_UDS : Z;
  XNVM_EFUSE_ERR_WRITE_USER_KEY0 : Z;
  XNVM_EFUSE_ERR_WRITE_USER_KEY1 : Z
}.

(** Register offsets, masks and shifts of the controller and of the cache. *)
Class XNvm_EfuseHw_h : Type := {
  XNVM_EFUSE_ADDR_COLUMN_SHIFT : Z;
  XNVM_EFUSE_ADDR_PAGE_SHIFT : Z;
  XNVM_EFUSE_ADDR_ROW_SHIFT : Z;
  XNVM_EFUSE_AES_CRC_REG_OFFSET : Z;
  XNVM_EFUSE_AES_USR_KEY0_CRC_REG_OFFSET : Z;
  XNVM_EFUSE_AES_USR_KEY1_CRC_REG_OFFSET : Z;
  XNVM_EFUSE_CACHE_ANLG_TRIM_3_OFFSET : Z;
  XNVM_EFUSE_CACHE_BASEADDR : Z;
  XNVM_EFUSE_CACHE_BLACK_IV_OFFSET : Z;
  XNVM_EFUSE_CACHE_BOOT_ENV_CTRL_OFFSET : Z;
  XNVM_EFUSE_CACHE_DATA_PARTITION_IV_OFFSET : Z;
  XNVM_EFUSE_CACHE_DEC_EFUSE_ONLY_MASK : Z;
  XNVM_EFUSE_CACHE_DME_FIPS_DME_MODE_MASK : Z;
  XNVM_EFUSE_CACHE_DME_FIPS_OFFSET : Z;
  XNVM_EFUSE_CACHE_METAHEADER_IV_RANGE_OFFSET : Z;
  XNVM_EFUSE_CACHE_MISC_CTRL_CACHE_OFFSET : Z;
  XNVM_EFUSE_CACHE_PLM_IV_RANGE_OFFSET : Z;
  XNVM_EFUSE_CACHE_PUF_CHASH_OFFSET : Z;
  XNVM_EFUSE_CACHE_PUF_ECC_PUF_CTRL_ECC_23_0_MASK : Z;
  XNVM_EFUSE_CACHE_PUF_ECC_PUF_CTRL_OFFSET : Z;
  XNVM_EFUSE_CACHE_PUF_SYN_DATA_OFFSET : Z;
  XNVM_EFUSE_CACHE_SECURITY_CONTROL_PUF_DIS_MASK : Z;
  XNVM_EFUSE_CACHE_SECURITY_CONTROL_PUF_SYN_LK_MASK : Z;
  XNVM_EFUSE_CACHE_SECURITY_CONTROL_UDS_WR_LK_MASK : Z;
  XNVM_EFUSE_CACHE_SECURITY_CTRL_OFFSET : Z;
  XNVM_EFUSE_CACHE_SEC_MISC_1_OFFSET : Z;
  XNVM_EFUSE_CTRL_BASEADDR : Z;
  XNVM_EFUSE_CTRL_STATUS_AES_CRC_DONE_MASK : Z;
  XNVM_EFUSE_CTRL_STATUS_AES_CRC_PASS_MASK : Z;
  XNVM_EFUSE_CTRL_STATUS_AES_USER_KEY_0_CRC_DONE_MASK : Z;
  XNVM_EFUSE_CTRL_STATUS_AES_USER_KEY_0_CRC_PASS_MASK : Z;
  XNVM_EFUSE_CTRL_STATUS_AES_USER_KEY_1_CRC_DONE_MASK : Z;
  XNVM_EFUSE_CTRL_STATUS_AES_USER_KEY_1_CRC_PASS_MASK : Z;
  XNVM_EFUSE_CTRL_STATUS_UDS_DICE_CRC_DONE_MASK : Z;
  XNVM_EFUSE_CTRL_STATUS_UDS_DICE_CRC_PASS_MASK : Z;
  XNVM_EFUSE_CTRL_UDS_DICE_CRC_OFFSET : Z;
  XNVM_EFUSE_GLITCH_CONFIG_DATA_MASK : Z;
  XNVM_EFUSE_ISR_CACHE_ERROR : Z;
  XNVM_EFUSE_ISR_PGM_DONE : Z;
  XNVM_EFUSE_ISR_PGM_ERROR : Z;
  XNVM_EFUSE_ISR_RD_DONE : Z;
  XNVM_EFUSE_ISR_REG_OFFSET : Z;
  XNVM_EFUSE_IV_NUM_OF_CACHE_ROWS : Z;
  XNVM_EFUSE_MAX_BITS_IN_ROW : Z;
  XNVM_EFUSE_PGM_ADDR_REG_OFFSET : Z;
  XNVM_EFUSE_PGM_TIMEOUT_VAL : Z;
  XNVM_EFUSE_RD_ADDR_REG_OFFSET : Z;
  XNVM_EFUSE_RD_DATA_REG_OFFSET : Z;
  XNVM_EFUSE_RD_TIMEOUT_VAL : Z
}.

(** Row and column numbers of the fuse fields. *)
Class XNvm_EfuseLayout_h : Type := {
  XNVM_EFUSE_AES_KEY_0_TO_127_COL_END_NUM : Z;
  XNVM_EFUSE_AES_KEY_0_TO_127_COL_START_NUM : Z;
  XNVM_EFUSE_AES_KEY_0_TO_127_NUM_OF_ROWS : Z;
  XNVM_EFUSE_AES_KEY_0_TO_127_START_ROW : Z;
  XNVM_EFUSE_AES_KEY_128_TO_255_COL_END_NUM : Z;
  XNVM_EFUSE_AES_KEY_128_TO_255_COL_START_NUM : Z;
  XNVM_EFUSE_AES_KEY_128_TO_255_NUM_OF_ROWS : Z;
  XNVM_EFUSE_AES_KEY_128_TO_255_START_ROW : Z;
  XNVM_EFUSE_ANLG_TRIM_3_START_ROW : Z;
  XNVM_EFUSE_BLACK_IV_END_COL_NUM : Z;
  XNVM_EFUSE_BLACK_IV_NUM_OF_ROWS : Z;
  XNVM_EFUSE_BLACK_IV_START_COL_NUM : Z;
  XNVM_EFUSE_BLACK_IV_START_ROW : Z;
  XNVM_EFUSE_BOOT_ENV_CTRL_END_COL_NUM : Z;
  XNVM_EFUSE_BOOT_ENV_CTRL_NUM_OF_ROWS : Z;
  XNVM_EFUSE_BOOT_ENV_CTRL_START_COL_NUM : Z;
  XNVM_EFUSE_BOOT_ENV_CTRL_START_ROW : Z;
  XNVM_EFUSE_BOOT_MODE_END_COL_NUM : Z;
  XNVM_EFUSE_BOOT_MODE_NUM_OF_ROWS : Z;
  XNVM_EFUSE_BOOT_MODE_START_COL_NUM : Z;
  XNVM_EFUSE_BOOT_MODE_START_ROW : Z;
  XNVM_EFUSE_DATA_PARTITION_IV_END_COL_NUM : Z;
  XNVM_EFUSE_DATA_PARTITION_IV_NUM_OF_ROWS : Z;
  XNVM_EFUSE_DATA_PARTITION_IV_START_COL_NUM : Z;
  XNVM_EFUSE_DATA_PARTITION_IV_START_ROW : Z;
  XNVM_EFUSE_DEC_ONLY_END_COL_NUM : Z;
  XNVM_EFUSE_DEC_ONLY_NUM_OF_ROWS : Z;
  XNVM_EFUSE_DEC_ONLY_START_COL_NUM : Z;
  XNVM_EFUSE_DICE_UDS_0_TO_63_END_COL_NUM : Z;
  XNVM_EFUSE_DICE_UDS_0_TO_63_NUM_OF_ROWS : Z;
  XNVM_EFUSE_DICE_UDS_0_TO_63_START_COL_NUM : Z;
  XNVM_EFUSE_DICE_UDS_0_TO_63_START_ROW : Z;
  XNVM_EFUSE_DICE_UDS_192_TO_255_END_COL_NUM : Z;
  XNVM_EFUSE_DICE_UDS_192_TO_255_NUM_OF_ROWS : Z;
  XNVM_EFUSE_DICE_UDS_192_TO_255_START_COL_NUM : Z;
  XNVM_EFUSE_DICE_UDS_192_TO_255_START_ROW : Z;
  XNVM_EFUSE_DICE_UDS_256_TO_383_END_COL_NUM : Z;
  XNVM_EFUSE_DICE_UDS_256_TO_383_NUM_OF_ROWS : Z;
  XNVM_EFUSE_DICE_UDS_256_TO_383_START_COL_NUM : Z;
  XNVM_EFUSE_DICE_UDS_256_TO_383_START_ROW : Z;
  XNVM_EFUSE_DICE_UDS_64_TO_191_END_COL_NUM : Z;
  XNVM_EFUSE_DICE_UDS_64_TO_191_NUM_OF_ROWS : Z;
  XNVM_EFUSE_DICE_UDS_64_TO_191_START_COL_NUM : Z;
  XNVM_EFUSE_DICE_UDS_64_TO_191_START_ROW : Z;
  XNVM_EFUSE_DISABLE_PLM_UPDATE_COL_NUM : Z;
  XNVM_EFUSE_DISABLE_PLM_UPDATE_ROW : Z;
  XNVM_EFUSE_DME_FIPS_NUM_OF_ROWS : Z;
  XNVM_EFUSE_DME_FIPS_ROW : Z;
  XNVM_EFUSE_DME_MODE_END_COL_NUM : Z;
  XNVM_EFUSE_DME_MODE_NUM_OF_ROWS : Z;
  XNVM_EFUSE_DME_MODE_START_COL_NUM : Z;
  XNVM_EFUSE_DME_MODE_START_ROW : Z;
  XNVM_EFUSE_DME_REVOKE_0_0_COL_NUM : Z;
  XNVM_EFUSE_DME_REVOKE_0_1_COL_NUM : Z;
  XNVM_EFUSE_DME_REVOKE_0_AND_1_ROW : Z;
  XNVM_EFUSE_DME_REVOKE_1_0_COL_NUM : Z;
  XNVM_EFUSE_DME_REVOKE_1_1_COL_NUM : Z;
  XNVM_EFUSE_DME_REVOKE_2_0_COL_NUM : Z;
  XNVM_EFUSE_DME_REVOKE_2_1_COL_NUM : Z;
  XNVM_EFUSE_DME_REVOKE_2_AND_3_ROW : Z;
  XNVM_EFUSE_DME_REVOKE_3_0_COL_NUM : Z;
  XNVM_EFUSE_DME_REVOKE_3_1_COL_NUM : Z;
  XNVM_EFUSE_DME_USER_KEY_0_END_COL_NUM : Z;
  XNVM_EFUSE_DME_USER_KEY_0_START_COL_NUM : Z;
  XNVM_EFUSE_DME_USER_KEY_0_START_ROW : Z;
  XNVM_EFUSE_DME_USER_KEY_1_END_COL_NUM : Z;
  XNVM_EFUSE_DME_USER_KEY_1_START_COL_NUM : Z;
  XNVM_EFUSE_DME_USER_KEY_1_START_ROW : Z;
  XNVM_EFUSE_DME_USER_KEY_2_END_COL_NUM : Z;
  XNVM_EFUSE_DME_USER_KEY_2_START_COL_NUM : Z;
  XNVM_EFUSE_DME_USER_KEY_2_START_ROW : Z;
  XNVM_EFUSE_DME_USER_KEY_3_END_COL_NUM : Z;
  XNVM_EFUSE_DME_USER_KEY_3_START_COL_NUM : Z;
  XNVM_EFUSE_DME_USER_KEY_3_START_ROW : Z;
  XNVM_EFUSE_DME_USER_KEY_NUM_OF_ROWS : Z;
  XNVM_EFUSE_FIPS_MODE_END_COL_NUM : Z;
  XNVM_EFUSE_FIPS_MODE_START_COL_NUM : Z;
  XNVM_EFUSE_FIPS_VERSION_COL_0_NUM : Z;
  XNVM_EFUSE_FIPS_VERSION_COL_1_NUM : Z;
  XNVM_EFUSE_FIPS_VERSION_COL_2_NUM : Z;
  XNVM_EFUSE_GLITCH_DET_CONFIG_END_COL_NUM : Z;
  XNVM_EFUSE_GLITCH_DET_CONFIG_NUM_OF_ROWS : Z;
  XNVM_EFUSE_GLITCH_DET_CONFIG_START_COL_NUM : Z;
  XNVM_EFUSE_GLITCH_DET_WR_LK_COL_NUM : Z;
  XNVM_EFUSE_GLITCH_DET_WR_LK_ROW : Z;
  XNVM_EFUSE_IP_DISABLE_ROW : Z;
  XNVM_EFUSE_METAHEADER_IV_NUM_OF_ROWS : Z;
  XNVM_EFUSE_METAHEADER_IV_RANGE_END_COL_NUM : Z;
  XNVM_EFUSE_METAHEADER_IV_RANGE_START_COL_NUM : Z;
  XNVM_EFUSE_META_HEADER_IV_START_ROW : Z;
  XNVM_EFUSE_MISC_CTRL_END_COL_NUM : Z;
  XNVM_EFUSE_MISC_CTRL_NUM_OF_ROWS : Z;
  XNVM_EFUSE_MISC_CTRL_START_COL_NUM : Z;
  XNVM_EFUSE_MISC_CTRL_START_ROW : Z;
  XNVM_EFUSE_OFFCHIP_REVOKE_ID_START_ROW : Z;
  XNVM_EFUSE_PAGE_0_PUF_SYN_DATA_NUM_OF_ROWS : Z;
  XNVM_EFUSE_PAGE_0_PUF_SYN_DATA_ROW : Z;
  XNVM_EFUSE_PAGE_1_PUF_SYN_DATA_NUM_OF_ROWS : Z;
  XNVM_EFUSE_PAGE_1_PUF_SYN_DATA_ROW : Z;
  XNVM_EFUSE_PLM_IV_NUM_OF_ROWS : Z;
  XNVM_EFUSE_PLM_IV_RANGE_END_COL_NUM : Z;
  XNVM_EFUSE_PLM_IV_RANGE_START_COL_NUM : Z;
  XNVM_EFUSE_PLM_IV_START_ROW : Z;
  XNVM_EFUSE_PPK0_HASH_END_COL_NUM : Z;
  XNVM_EFUSE_PPK0_HASH_START_COL_NUM : Z;
  XNVM_EFUSE_PPK0_HASH_START_ROW : Z;
  XNVM_EFUSE_PPK1_HASH_END_COL_NUM : Z;
  XNVM_EFUSE_PPK1_HASH_START_COL_NUM : Z;
  XNVM_EFUSE_PPK1_HASH_START_ROW : Z;
  XNVM_EFUSE_PPK2_HASH_END_COL_NUM : Z;
  XNVM_EFUSE_PPK2_HASH_START_COL_NUM : Z;
  XNVM_EFUSE_PPK2_HASH_START_ROW : Z;
  XNVM_EFUSE_PPK_HASH_NUM_OF_ROWS : Z;
  XNVM_EFUSE_PUF_AUX_END_COL_NUM : Z;
  XNVM_EFUSE_PUF_AUX_NUM_OF_ROWS : Z;
  XNVM_EFUSE_PUF_AUX_ROW : Z;
  XNVM_EFUSE_PUF_AUX_START_COL_NUM : Z;
  XNVM_EFUSE_PUF_CHASH_END_COL_NUM : Z;
  XNVM_EFUSE_PUF_CHASH_NUM_OF_ROWS : Z;
  XNVM_EFUSE_PUF_CHASH_ROW : Z;
  XNVM_EFUSE_PUF_CHASH_START_COL_NUM : Z;
  XNVM_EFUSE_PUF_HD_INVLD_COL_NUM : Z;
  XNVM_EFUSE_PUF_REGEN_DIS_COL_NUM : Z;
  XNVM_EFUSE_PUF_REGIS_DIS_COL_NUM : Z;
  XNVM_EFUSE_PUF_RO_SWAP_EN_END_COL_NUM : Z;
  XNVM_EFUSE_PUF_RO_SWAP_EN_ROW : Z;
  XNVM_EFUSE_PUF_RO_SWAP_EN_START_COL_NUM : Z;
  XNVM_EFUSE_PUF_RO_SWAP_NUM_OF_ROWS : Z;
  XNVM_EFUSE_PUF_SYN_DATA_END_COL_NUM : Z;
  XNVM_EFUSE_PUF_SYN_DATA_NUM_OF_ROWS : Z;
  XNVM_EFUSE_PUF_SYN_DATA_START_COL_NUM : Z;
  XNVM_EFUSE_REVOKE_ID_0_TO_127_START_COL_NUM : Z;
  XNVM_EFUSE_REVOKE_ID_0_TO_127_START_ROW : Z;
  XNVM_EFUSE_REVOKE_ID_128_TO_255_START_COL_NUM : Z;
  XNVM_EFUSE_REVOKE_ID_128_TO_255_START_ROW : Z;
  XNVM_EFUSE_SECURITY_MISC1_END_COL_NUM : Z;
  XNVM_EFUSE_SECURITY_MISC1_NUM_OF_ROWS : Z;
  XNVM_EFUSE_SECURITY_MISC1_START_COL_NUM : Z;
  XNVM_EFUSE_SECURITY_MISC1_START_ROW : Z;
  XNVM_EFUSE_SECURITY_MISC_0_START_ROW : Z;
  XNVM_EFUSE_SEC_CTRL_END_COL_NUM : Z;
  XNVM_EFUSE_SEC_CTRL_NUM_OF_ROWS : Z;
  XNVM_EFUSE_SEC_CTRL_START_COL_NUM : Z;
  XNVM_EFUSE_SEC_CTRL_START_ROW : Z;
  XNVM_EFUSE_USER_KEY0_0_TO_63_COL_END_NUM : Z;
  XNVM_EFUSE_USER_KEY0_0_TO_63_COL_START_NUM : Z;
  XNVM_EFUSE_USER_KEY0_0_TO_63_NUM_OF_ROWS : Z;
  XNVM_EFUSE_USER_KEY0_0_TO_63_START_ROW : Z;
  XNVM_EFUSE_USER_KEY0_192_TO_255_COL_END_NUM : Z;
  XNVM_EFUSE_USER_KEY0_192_TO_255_COL_START_NUM : Z;
  XNVM_EFUSE_USER_KEY0_192_TO_255_NUM_OF_ROWS : Z;
  XNVM_EFUSE_USER_KEY0_192_TO_255_START_ROW : Z;
  XNVM_EFUSE_USER_KEY0_64_TO_191_COL_END_NUM : Z;
  XNVM_EFUSE_USER_KEY0_64_TO_191_COL_START_NUM : Z;
  XNVM_EFUSE_USER_KEY0_64_TO_191_NUM_OF_ROWS : Z;
  XNVM_EFUSE_USER_KEY0_64_TO_191_START_ROW : Z;
  XNVM_EFUSE_USER_KEY1_0_TO_63_END_COL_NUM : Z;
  XNVM_EFUSE_USER_KEY1_0_TO_63_NUM_OF_ROWS : Z;
  XNVM_EFUSE_USER_KEY1_0_TO_63_START_COL_NUM : Z;
  XNVM_EFUSE_USER_KEY1_0_TO_63_START_ROW : Z;
  XNVM_EFUSE_USER_KEY1_128_TO_255_END_COL_NUM : Z;
  XNVM_EFUSE_USER_KEY1_128_TO_255_NUM_OF_ROWS : Z;
  XNVM_EFUSE_USER_KEY1_128_TO_255_START_COL_NUM : Z;
  XNVM_EFUSE_USER_KEY1_128_TO_255_START_ROW : Z;
  XNVM_EFUSE_USER_KEY1_64_TO_127_END_COL_NUM : Z;
  XNVM_EFUSE_USER_KEY1_64_TO_127_NUM_OF_ROWS : Z;
  XNVM_EFUSE_USER_KEY1_64_TO_127_START_COL_NUM : Z;
  XNVM_EFUSE_USER_KEY1_64_TO_127_START_ROW : Z
}.

(** Macros defined in [xnvm_efuse.c] itself. *)
Definition XNVM_EFUSE_ERROR_BYTE_SHIFT : Z := 8.
Definition XNVM_EFUSE_ERROR_NIBBLE_SHIFT : Z := 4.
Definition XNVM_EFUSE_MAX_FIPS_VERSION : Z := 7.
Definition XNVM_EFUSE_MAX_FIPS_MODE : Z := 0xFF.
Definition XNVM_EFUSE_BITS_IN_A_BYTE : Z := 8.
Definition XNVM_EFUSE_SEC_DEF_VAL_ALL_BIT_SET : Z := 0xFFFFFFFF.
Definition REVERSE_POLYNOMIAL : Z := 0x82F63B78.
Definition XNVM_EFUSE_SKIP_VERIFY : Z := 1.
Definition XNVM_EFUSE_PROGRAM_VERIFY : Z := 0.

(** ** Calls that leave the translation unit, and the trace of a run *)

(** Routines the driver calls but that are defined in other files
    ([xnvm_efuse_common.c], [xnvm_validate.c], [xnvm_utils.c], [xil_util.c],
    [xil_printf.c]).  Each constructor carries the arguments of the call. *)
Inductive Call : Type :=
| CReadReg (BaseAddress RegOffset : Z)
| CWriteReg (BaseAddress RegOffset Data : Z)
| CWaitForEvents (EventsRegAddr EventsMask WaitEvents Timeout : Z)
| CSetupController (Op RdMode : Z)
| CResetReadMode
| CDisableProgramming
| CLockController
| CCacheReload
| CCheckZeros (CacheOffset NumOfRows : Z)
| CCheckAesKeyCrc (CrcRegOffset CrcDoneMask CrcPassMask Crc : Z)
| CAesCrcCalc (Key : words)
| CValidateAesKeyWriteReq (KeyType : Z)
| CValidatePpkHashWriteReq (PpkType : Z)
| CValidateIvWriteReq (IvType : Z) (EfuseIv : words)
| CValidateDecOnlyRequest
| CValidateFipsInfo (FipsMode FipsVersion : Z)
| Cxil_printf (Row Col Data Idx : Z).

(** Bookkeeping marks: they record that control reached a point of the
    driver and have no effect on the run. *)
Inductive Mark : Type :=
| Enter_CloseController
| Enter_PgmAndVerifyBit (Page Row Col SkipVerify : Z)
| Visit (Row Col : Z) (Bit : bool).

(** An external call is logged with its answer: the returned value and the
    value left in its output parameter, if it has one. *)
Inductive Event : Type :=
| Ext (c : Call) (r : Z * Z)
| Ghost (m : Mark).

Definition Trace : Type := list Event.

(** The world around the driver: what an external call answers after a given
    history, what memory holds next to a local variable whose address is
    taken, and how many iterations a loop may run before the run is
    abandoned. *)
Record Env : Type := {
  respond : Trace -> Call -> Z * Z;
  stack : Z -> Z;
  fuel : nat
}.

(** How a piece of driver code ends: it falls through with a value, it
    jumps to the label [END] of its function with the value of [Status], or
    the run has no outcome: a loop exceeded the iteration budget, or the
    code went outside an object and C gives it no behaviour from there on
    ([undefined_behaviour] below). *)
Inductive Outcome (A : Type) : Type :=
| Normal (a : A) (t : Trace)
| GotoEND (Status : Z) (t : Trace)
| OutOfFuel.
Arguments Normal {A} a t.
Arguments GotoEND {A} Status t.
Arguments OutOfFuel {A}.

Definition M (A : Type) : Type := Env -> Trace -> Outcome A.

Definition ret {A} (a : A) : M A := fun _ t => Normal a t.

Definition bind {A B} (m : M A) (k : A -> M B) : M B :=
  fun e t =>
    match m e t with
    | Normal a t' => k a e t'
    | GotoEND s t' => GotoEND s t'
    | OutOfFuel => OutOfFuel
    end.

Declare Scope drv_scope.
Delimit Scope drv_scope with drv.
Notation "x <- m ;; k" := (bind m (fun x => k))
  (at level 61, m at next level, right associativity) : drv_scope.
Notation "' p <- m ;; k" := (bind m (fun x => let p := x in k))
  (at level 61, p pattern, m at next level, right associativity) : drv_scope.
Notation "m ;; k" := (bind m (fun _ => k))
  (at level 61, right associativity) : drv_scope.
Local Open Scope drv_scope.

(** [goto END;] with the current value of [Status]. *)
Definition goto_END {A} (Status : Z) : M A := fun _ t => GotoEND Status t.

(** [END: return Status;] closes a function body: jumps to the label and
    normal completion both deliver [Status]. *)
Definition END_label (body : M Z) : M Z :=
  fun e t =>
    match body e t with
    | Normal s t' => Normal s t'
    | GotoEND s t' => Normal s t'
    | OutOfFuel => OutOfFuel
    end.

Definition when (c : bool) (m : M unit) : M unit := if c then m else ret tt.

(** An access outside the object a pointer points into.  The C program has
    no defined behaviour from there on: the run has no outcome, whatever the
    iteration budget, and no statement about a returning call applies to
    it. *)
Definition undefined_behaviour {A} : M A := fun _ _ => OutOfFuel.

Definition call (c : Call) : M (Z * Z) :=
  fun e t => let r := respond e t c in Normal r (t ++ [Ext c r]).

Definition ghost (m : Mark) : M unit :=
  fun _ t => Normal tt (t ++ [Ghost m]).

(** [&v] for a local [u32 v]: word 0 is [v], the words after it are whatever
    the stack holds. *)
Definition addr_of (v : Z) : M words :=
  fun e t => Normal (fun i => if i =? 0 then v else stack e i) t.

(** A local [u32 a[n] = {0U}]. *)
Definition zero_array (n : Z) : M words :=
  fun e t => Normal (fun i => if (0 <=? i) && (i <? n) then 0 else stack e i) t.

(** [while (cond) { body }] over the loop's variables [s]. *)
Fixpoint while_fuel {S} (n : nat) (cond : S -> bool) (body : S -> M S) (s : S)
  : M S :=
  match n with
  | O => fun _ _ => OutOfFuel
  | Datatypes.S n' =>
      if cond s then s' <- body s ;; while_fuel n' cond body s' else ret s
  end.

Definition while {S} (cond : S -> bool) (body : S -> M S) (s : S) : M S :=
  fun e t => while_fuel (fuel e) cond body s e t.

(** What a trace shows. *)
Definition is_close (ev : Event) : bool :=
  match ev with Ghost Enter_CloseController => true | _ => false end.
Definition close_count (t : Trace) : nat := length (filter is_close t).

Definition is_setup (ev : Event) : bool :=
  match ev with Ext (CSetupController _ _) _ => true | _ => false end.
Definition setup_count (t : Trace) : nat := length (filter is_setup t).

(** The single-bit program/verify operations started, in order:
    (page, row, column, skip-verify). *)
Fixpoint pgm_ops (t : Trace) : list (Z * Z * Z * Z) :=
  match t with
  | [] => []
  | Ghost (Enter_PgmAndVerifyBit p r c s) :: t' => (p, r, c, s) :: pgm_ops t'
  | _ :: t' => pgm_ops t'
  end.

(** The (row, column) positions walked, in order, with the data bit seen. *)
Fixpoint visits (t : Trace) : list (Z * Z * bool) :=
  match t with
  | [] => []
  | Ghost (Visit r c b) :: t' => (r, c, b) :: visits t'
  | _ :: t' => visits t'
  end.

(** The cache words read. *)
Fixpoint cache_reads (base : Z) (t : Trace) : list Z :=
  match t with
  | [] => []
  | Ext (CReadReg b o) _ :: t' =>
      if b =? base then o :: cache_reads base t' else cache_reads base t'
  | _ :: t' => cache_reads base t'
  end.

(** ** The driver *)

Section Driver.
Context {xst : XStatus_h} {api : XNvm_Efuse_h} {hw : XNvm_EfuseHw_h}
        {layout : XNvm_EfuseLayout_h}.

(** Reading a [u32] through a pointer. *)
Definition load (p : words) (i : Z) : Z := u32 (p i).

(** *** Register accessors and helpers of other files *)

Definition XNvm_EfuseReadReg (BaseAddress RegOffset : Z) : M Z :=
  r <- call (CReadReg BaseAddress RegOffset) ;; ret (u32 (fst r)).

Definition XNvm_EfuseWriteReg (BaseAddress RegOffset Data : Z) : M unit :=
  _ <- call (CWriteReg BaseAddress RegOffset Data) ;; ret tt.

(** Returns the status and the value left in [*Events]. *)
Definition Xil_WaitForEvents (EventsRegAddr EventsMask WaitEvents Timeout : Z)
  : M (Z * Z) :=
  r <- call (CWaitForEvents EventsRegAddr EventsMask WaitEvents Timeout) ;;
  ret (fst r, u32 (snd r)).

Definition status_of (c : Call) : M Z := r <- call c ;; ret (fst r).

Definition XNvm_EfuseSetupController (Op RdMode : Z) : M Z :=
  status_of (CSetupController Op RdMode).
Definition XNvm_EfuseResetReadMode : M Z := status_of CResetReadMode.
Definition XNvm_EfuseDisableProgramming : M Z := status_of CDisableProgramming.
Definition XNvm_EfuseLockController : M Z := status_of CLockController.
Definition XNvm_EfuseCacheReload : M Z := status_of CCacheReload.
Definition XNvm_EfuseCheckZeros (CacheOffset NumOfRows : Z) : M Z :=
  status_of (CCheckZeros CacheOffset NumOfRows).
Definition XNvm_EfuseCheckAesKeyCrc (CrcRegOffset CrcDoneMask CrcPassMask Crc : Z)
  : M Z :=
  status_of (CCheckAesKeyCrc CrcRegOffset CrcDoneMask CrcPassMask Crc).
Definition XNvm_AesCrcCalc (Key : words) : M Z :=
  r <- call (CAesCrcCalc Key) ;; ret (u32 (fst r)).
Definition XNvm_EfuseValidateAesKeyWriteReq (KeyType : Z) : M Z :=
  status_of (CValidateAesKeyWriteReq KeyType).
Definition XNvm_EfuseValidatePpkHashWriteReq (PpkType : Z) : M Z :=
  status_of (CValidatePpkHashWriteReq PpkType).
Definition XNvm_EfuseValidateIvWriteReq (IvType : Z) (EfuseIv : words) : M Z :=
  status_of (CValidateIvWriteReq IvType EfuseIv).
Definition XNvm_EfuseValidateDecOnlyRequest : M Z :=
  status_of CValidateDecOnlyRequest.
Definition XNvm_EfuseValidateFipsInfo (FipsMode FipsVersion : Z) : M Z :=
  status_of (CValidateFipsInfo FipsMode FipsVersion).
Definition xil_printf (Row Col Data Idx : Z) : M unit :=
  _ <- call (Cxil_printf Row Col Data Idx) ;; ret tt.

(** *** [XNvm_EfusePgmBit] *)

Definition XNvm_EfusePgmBit (Page Row Col : Z) : M Z :=
  let PgmAddr :=
    Z.lor (Z.lor (u32_shl Page XNVM_EFUSE_ADDR_PAGE_SHIFT)
                 (u32_shl Row XNVM_EFUSE_ADDR_ROW_SHIFT))
          (u32_shl Col XNVM_EFUSE_ADDR_COLUMN_SHIFT) in
  XNvm_EfuseWriteReg XNVM_EFUSE_CTRL_BASEADDR XNVM_EFUSE_PGM_ADDR_REG_OFFSET
                     PgmAddr ;;
  '(Status, EventMask) <-
    Xil_WaitForEvents (XNVM_EFUSE_CTRL_BASEADDR + XNVM_EFUSE_ISR_REG_OFFSET)
                      (Z.lor XNVM_EFUSE_ISR_PGM_DONE XNVM_EFUSE_ISR_PGM_ERROR)
                      (Z.lor XNVM_EFUSE_ISR_PGM_DONE XNVM_EFUSE_ISR_PGM_ERROR)
                      XNVM_EFUSE_PGM_TIMEOUT_VAL ;;
  let Status :=
    if XST_TIMEOUT =? Status then XNVM_EFUSE_ERR_PGM_TIMEOUT
    else if Z.land EventMask XNVM_EFUSE_ISR_PGM_ERROR =? XNVM_EFUSE_ISR_PGM_ERROR
         then XNVM_EFUSE_ERR_PGM
         else XST_SUCCESS in
  XNvm_EfuseWriteReg XNVM_EFUSE_CTRL_BASEADDR XNVM_EFUSE_ISR_REG_OFFSET
                     (Z.lor XNVM_EFUSE_ISR_PGM_DONE XNVM_EFUSE_ISR_PGM_ERROR) ;;
  ret Status.

(** *** [XNvm_EfuseVerifyBit] *)

Definition XNvm_EfuseVerifyBit (Page Row Col : Z) : M Z :=
  let RdAddr :=
    Z.lor (u32_shl Page XNVM_EFUSE_ADDR_PAGE_SHIFT)
          (u32_shl Row XNVM_EFUSE_ADDR_ROW_SHIFT) in
  XNvm_EfuseWriteReg XNVM_EFUSE_CTRL_BASEADDR XNVM_EFUSE_RD_ADDR_REG_OFFSET
                     RdAddr ;;
  '(Status, EventMask) <-
    Xil_WaitForEvents (XNVM_EFUSE_CTRL_BASEADDR + XNVM_EFUSE_ISR_REG_OFFSET)
                      XNVM_EFUSE_ISR_RD_DONE XNVM_EFUSE_ISR_RD_DONE
                      XNVM_EFUSE_RD_TIMEOUT_VAL ;;
  Status <-
    (if XST_TIMEOUT =? Status then ret XNVM_EFUSE_ERR_RD_TIMEOUT
     else if Z.land EventMask XNVM_EFUSE_ISR_RD_DONE =? XNVM_EFUSE_ISR_RD_DONE
          then
            RegData <- XNvm_EfuseReadReg XNVM_EFUSE_CTRL_BASEADDR
                                         XNVM_EFUSE_RD_DATA_REG_OFFSET ;;
            if Z.land RegData (u32_shl 1 Col) !=? 0 then ret XST_SUCCESS
            else ret XST_FAILURE
          else ret XNVM_EFUSE_ERR_PGM_VERIFY) ;;
  XNvm_EfuseWriteReg XNVM_EFUSE_CTRL_BASEADDR XNVM_EFUSE_ISR_REG_OFFSET
                     XNVM_EFUSE_ISR_RD_DONE ;;
  ret Status.

(** *** [XNvm_EfusePgmAndVerifyBit] *)

Definition XNvm_EfusePgmAndVerifyBit (Page Row Col SkipVerify : Z) : M Z :=
  ghost (Enter_PgmAndVerifyBit Page Row Col SkipVerify) ;;
  Status <- XNvm_EfusePgmBit Page Row Col ;;
  if XST_SUCCESS =? Status then
    if SkipVerify =? 0 then XNvm_EfuseVerifyBit Page Row Col
    else ret Status
  else ret Status.

(** *** [XNvm_EfusePgmAndVerifyData] *)

Record XNvm_EfusePrgmInfo : Type := {
  StartRow : Z;
  ColStart : Z;
  ColEnd : Z;
  NumOfRows : Z;
  SkipVerify : Z;
  EfuseType : Z
}.

(** The variables of the two loops.  [DataPtr] counts the words it has
    moved past [RowData]. *)
Record Cursor : Type := {
  Row : Z;
  Col : Z;
  Idx : Z;
  DataPtr : Z;
  Data : Z
}.

(** One turn of [while (Col <= EfusePrgmInfo->ColEnd)]. *)
Definition walk_bit (EfusePrgmInfo : XNvm_EfusePrgmInfo) (RowData : words)
  (s : Cursor) : M Cursor :=
  ghost (Visit (Row s) (Col s) (Z.land (Data s) 1 !=? 0)) ;;
  when (Z.land (Data s) 1 !=? 0)
    (Status <- XNvm_EfusePgmAndVerifyBit (EfuseType EfusePrgmInfo) (Row s)
                 (Col s) (SkipVerify EfusePrgmInfo) ;;
     when (Status !=? XST_SUCCESS) (goto_END Status)) ;;
  let Col' := u32_add (Col s) 1 in
  let Idx' := u32_add (Idx s) 1 in
  if Idx' =? XNVM_EFUSE_MAX_BITS_IN_ROW then
    let DataPtr' := DataPtr s + 1 in
    ret {| Row := Row s; Col := Col'; Idx := 0; DataPtr := DataPtr';
           Data := load RowData DataPtr' |}
  else
    ret {| Row := Row s; Col := Col'; Idx := Idx'; DataPtr := DataPtr s;
           Data := u32_shr (Data s) 1 |}.

(** One turn of [while (Row < EndRow)]. *)
Definition walk_row (EfusePrgmInfo : XNvm_EfusePrgmInfo) (RowData : words)
  (s : Cursor) : M Cursor :=
  let s := {| Row := Row s; Col := ColStart EfusePrgmInfo; Idx := Idx s;
              DataPtr := DataPtr s; Data := Data s |} in
  xil_printf (Row s) (Col s) (Data s) (Idx s) ;;
  s <- while (fun s => Col s <=? ColEnd EfusePrgmInfo)
             (walk_bit EfusePrgmInfo RowData) s ;;
  ret {| Row := u32_add (Row s) 1; Col := Col s; Idx := Idx s;
         DataPtr := DataPtr s; Data := Data s |}.

(** The two nested loops, from [Data = *DataPtr] to the end of the outer
    loop; the value is the state of the loop variables on exit. *)
Definition XNvm_EfusePgmAndVerifyData_walk (EfusePrgmInfo : XNvm_EfusePrgmInfo)
  (RowData : words) : M Cursor :=
  let EndRow := u32_add (StartRow EfusePrgmInfo) (NumOfRows EfusePrgmInfo) in
  while (fun s => Row s <? EndRow) (walk_row EfusePrgmInfo RowData)
        {| Row := StartRow EfusePrgmInfo; Col := 0; Idx := 0; DataPtr := 0;
           Data := load RowData 0 |}.

Definition XNvm_EfusePgmAndVerifyData (EfusePrgmInfo : XNvm_EfusePrgmInfo)
  (RowData : ptr) : M Z :=
  END_label
    (let EndRow := u32_add (StartRow EfusePrgmInfo) (NumOfRows EfusePrgmInfo) in
     when ((EfuseType EfusePrgmInfo !=? XNVM_EFUSE_PAGE_0) &&
           (EfuseType EfusePrgmInfo !=? XNVM_EFUSE_PAGE_1) &&
           (EfuseType EfusePrgmInfo !=? XNVM_EFUSE_PAGE_2))
       (goto_END XNVM_EFUSE_ERR_INVALID_PARAM) ;;
     match RowData with
     | None => goto_END XNVM_EFUSE_ERR_INVALID_PARAM
     | Some DataPtr =>
         when (NumOfRows EfusePrgmInfo =? 0)
           (goto_END XNVM_EFUSE_ERR_INVALID_PARAM) ;;
         s <- XNvm_EfusePgmAndVerifyData_walk EfusePrgmInfo DataPtr ;;
         if Row s !=? EndRow then ret XNVM_EFUSE_ERR_GLITCH_DETECTED
         else ret XST_SUCCESS
     end).

(** *** [XNvm_EfuseComputeProgrammableBits]

    The value is the status and the contents of [PrgmData] on return. *)
Definition XNvm_EfuseComputeProgrammableBits (ReqData PrgmData : ptr)
  (StartOffset EndOffset : Z) : M (Z * ptr) :=
  match ReqData, PrgmData with
  | Some Req, Some Prgm =>
      IsrStatus <- XNvm_EfuseReadReg XNVM_EFUSE_CTRL_BASEADDR
                                     XNVM_EFUSE_ISR_REG_OFFSET ;;
      if Z.land IsrStatus XNVM_EFUSE_ISR_CACHE_ERROR
         =? XNVM_EFUSE_ISR_CACHE_ERROR
      then ret (XNVM_EFUSE_ERR_CACHE_PARITY, Some Prgm)
      else
        s <- while (fun s : Z * words => fst s <=? EndOffset)
               (fun s =>
                  let Offset := fst s in
                  ReadReg <- XNvm_EfuseReadReg XNVM_EFUSE_CACHE_BASEADDR
                                               Offset ;;
                  let Idx := u32_sub Offset StartOffset / XNVM_WORD_LEN in
                  ret (u32_add Offset XNVM_WORD_LEN,
                       store (snd s) Idx
                             (Z.land (u32_not ReadReg) (load Req Idx))))
               (StartOffset, Prgm) ;;
        ret (XST_SUCCESS, Some (snd s))
  | _, _ => ret (XNVM_EFUSE_ERR_INVALID_PARAM, PrgmData)
  end.

(** The same function called with a [PrgmData] that is a caller's local
    array [u32 a[Len]].  [words] has no length, so the call carries it: the
    store [PrgmData[Idx] = ...] is inside the array for [Idx < Len] only.
    At any other index it lands on what the caller's frame holds next to
    the array, and the run has no outcome.  The callers that pass the
    address of a single [u32] with [StartOffset = EndOffset] store word 0
    only and use the function above. *)
Definition XNvm_EfuseComputeProgrammableBits_array (Len : Z)
  (ReqData PrgmData : ptr) (StartOffset EndOffset : Z) : M (Z * ptr) :=
  match ReqData, PrgmData with
  | Some Req, Some Prgm =>
      IsrStatus <- XNvm_EfuseReadReg XNVM_EFUSE_CTRL_BASEADDR
                                     XNVM_EFUSE_ISR_REG_OFFSET ;;
      if Z.land IsrStatus XNVM_EFUSE_ISR_CACHE_ERROR
         =? XNVM_EFUSE_ISR_CACHE_ERROR
      then ret (XNVM_EFUSE_ERR_CACHE_PARITY, Some Prgm)
      else
        s <- while (fun s : Z * words => fst s <=? EndOffset)
               (fun s =>
                  let Offset := fst s in
                  ReadReg <- XNvm_EfuseReadReg XNVM_EFUSE_CACHE_BASEADDR
                                               Offset ;;
                  let Idx := u32_sub Offset StartOffset / XNVM_WORD_LEN in
                  if Idx <? Len
                  then ret (u32_add Offset XNVM_WORD_LEN,
                            store (snd s) Idx
                                  (Z.land (u32_not ReadReg) (load Req Idx)))
                  else undefined_behaviour)
               (StartOffset, Prgm) ;;
        ret (XST_SUCCESS, Some (snd s))
  | _, _ => ret (XNVM_EFUSE_ERR_INVALID_PARAM, PrgmData)
  end.

(** *** [XNvm_EfuseCloseController] *)

Definition XNvm_EfuseCloseController : M Z :=
  ghost Enter_CloseController ;;
  END_label
    (Status <- XNvm_EfuseResetReadMode ;;
     when (Status !=? XST_SUCCESS) (goto_END Status) ;;
     Status <- XNvm_EfuseDisableProgramming ;;
     when (Status !=? XST_SUCCESS) (goto_END Status) ;;
     XNvm_EfuseLockController).

(** *** [XNvm_EfuseCacheLoadNPrgmProtectionBits] *)

Definition XNvm_EfuseCacheLoadNPrgmProtectionBits : M Z :=
  XNvm_EfuseCacheReload.

(** *** [XNvm_UdsCrcCalc] *)

(** One turn of the bit loops: [Crc] and [Value] after processing the low
    bit of [Value]. *)
Definition crc_bit (s : Z * Z) : Z * Z :=
  let '(Crc, Value) := s in
  let Temp1Crc := u32_shr Crc 1 in
  let Temp2Crc := Z.lxor Temp1Crc REVERSE_POLYNOMIAL in
  (if Z.land (Z.lxor Value Crc) 1 !=? 0 then Temp2Crc else Temp1Crc,
   u32_shr Value 1).

(** The function is declared [int] and ends in [return Crc;] with a [u32
    Crc]: the value returned is the CRC converted to [int]. *)
Definition XNvm_UdsCrcCalc (Uds : words) : Z :=
  let Crc :=
    fold_left
      (fun Crc Idx =>
         let Value := load Uds (XNVM_UDS_SIZE_IN_WORDS - Idx - 1) in
         let Crc := fst (Nat.iter 32 crc_bit (Crc, Value)) in
         let Value := u32_sub XNVM_UDS_SIZE_IN_WORDS Idx in
         fst (Nat.iter 5 crc_bit (Crc, Value)))
      (map Z.of_nat (seq 0 (Z.to_nat XNVM_UDS_SIZE_IN_WORDS))) 0 in
  int_of_u32 Crc.

(** *** [XNvm_EfusePrgmFipsInfo] *)

Definition XNvm_EfusePrgmFipsInfo (FipsMode FipsVersion : Z) : M Z :=
  END_label
    (let PrgmFipsVer := FipsVersion in
     let EfusePrgmInfo :=
       {| StartRow := XNVM_EFUSE_DME_FIPS_ROW;
          ColStart := XNVM_EFUSE_FIPS_MODE_START_COL_NUM;
          ColEnd := XNVM_EFUSE_FIPS_MODE_END_COL_NUM;
          NumOfRows := XNVM_EFUSE_DME_FIPS_NUM_OF_ROWS;
          SkipVerify := 0;
          EfuseType := XNVM_EFUSE_PAGE_0 |} in
     pFipsMode <- addr_of FipsMode ;;
     Status <- XNvm_EfusePgmAndVerifyData EfusePrgmInfo (Some pFipsMode) ;;
     when (Status !=? XST_SUCCESS) (goto_END Status) ;;
     Status <-
       (if Z.land PrgmFipsVer 0x01 =? 0x01 then
          Status <- XNvm_EfusePgmAndVerifyBit XNVM_EFUSE_PAGE_0
                      XNVM_EFUSE_IP_DISABLE_ROW
                      XNVM_EFUSE_FIPS_VERSION_COL_0_NUM
                      XNVM_EFUSE_PROGRAM_VERIFY ;;
          when (Status !=? XST_SUCCESS) (goto_END Status) ;;
          ret Status
        else ret Status) ;;
     let PrgmFipsVer := u32_shr PrgmFipsVer 1 in
     Status <-
       (if Z.land PrgmFipsVer 0x01 =? 0x01 then
          Status <- XNvm_EfusePgmAndVerifyBit XNVM_EFUSE_PAGE_0
                      XNVM_EFUSE_IP_DISABLE_ROW
                      XNVM_EFUSE_FIPS_VERSION_COL_1_NUM
                      XNVM_EFUSE_PROGRAM_VERIFY ;;
          when (Status !=? XST_SUCCESS) (goto_END Status) ;;
          ret Status
        else ret Status) ;;
     let PrgmFipsVer := u32_shr PrgmFipsVer 1 in
     if Z.land PrgmFipsVer 0x01 =? 0x01 then
       XNvm_EfusePgmAndVerifyBit XNVM_EFUSE_PAGE_0
         XNVM_EFUSE_IP_DISABLE_ROW
         XNVM_EFUSE_FIPS_VERSION_COL_2_NUM
         XNVM_EFUSE_PROGRAM_VERIFY
     else ret Status).

(** *** [XNvm_EfuseWritePufSecCtrl] *)

Definition XNvm_EfuseWritePufSecCtrl (PufSecCtrlBits : Z) : M Z :=
  END_label
    (let PufEccCtrlBits := PufSecCtrlBits in
     when (Z.land PufEccCtrlBits 0x01 =? 0x01)
       (Status <- XNvm_EfusePgmAndVerifyBit XNVM_EFUSE_PAGE_0
                    XNVM_EFUSE_PUF_AUX_ROW
                    XNVM_EFUSE_PUF_REGIS_DIS_COL_NUM
                    XNVM_EFUSE_PROGRAM_VERIFY ;;
        when (Status !=? XST_SUCCESS) (goto_END Status)) ;;
     let PufEccCtrlBits := u32_shr PufEccCtrlBits 1 in
     when (Z.land PufEccCtrlBits 0x01 =? 0x01)
       (Status <- XNvm_EfusePgmAndVerifyBit XNVM_EFUSE_PAGE_0
                    XNVM_EFUSE_PUF_AUX_ROW
                    XNVM_EFUSE_PUF_HD_INVLD_COL_NUM
                    XNVM_EFUSE_PROGRAM_VERIFY ;;
        when (Status !=? XST_SUCCESS) (goto_END Status)) ;;
     let PufEccCtrlBits := u32_shr PufEccCtrlBits 1 in
     when (Z.land PufEccCtrlBits 0x01 =? 0x01)
       (Status <- XNvm_EfusePgmAndVerifyBit XNVM_EFUSE_PAGE_0
                    XNVM_EFUSE_PUF_AUX_ROW
                    XNVM_EFUSE_PUF_REGEN_DIS_COL_NUM
                    XNVM_EFUSE_PROGRAM_VERIFY ;;
        goto_END Status) ;;
     ret XST_SUCCESS).

(** *** [XNvm_EfuseWritePufSynData] *)

Definition XNvm_EfuseWritePufSynData (SynData : ptr) : M Z :=
  END_label
    (match SynData with
     | None => goto_END XNVM_EFUSE_ERR_INVALID_PARAM
     | Some SynData =>
         let EfusePrgmInfo :=
           {| StartRow := XNVM_EFUSE_PAGE_0_PUF_SYN_DATA_ROW;
              ColStart := XNVM_EFUSE_PUF_SYN_DATA_START_COL_NUM;
              ColEnd := XNVM_EFUSE_PUF_SYN_DATA_END_COL_NUM;
              NumOfRows := XNVM_EFUSE_PAGE_0_PUF_SYN_DATA_NUM_OF_ROWS;
              SkipVerify := 0;
              EfuseType := XNVM_EFUSE_PAGE_0 |} in
         Status <- XNvm_EfusePgmAndVerifyData EfusePrgmInfo (Some SynData) ;;
         when (Status !=? XST_SUCCESS) (goto_END Status) ;;
         let EfusePrgmInfo :=
           {| StartRow := XNVM_EFUSE_PAGE_1_PUF_SYN_DATA_ROW;
              ColStart := XNVM_EFUSE_PUF_SYN_DATA_START_COL_NUM;
              ColEnd := XNVM_EFUSE_PUF_SYN_DATA_END_COL_NUM;
              NumOfRows := XNVM_EFUSE_PAGE_1_PUF_SYN_DATA_NUM_OF_ROWS;
              SkipVerify := 0;
              EfuseType := XNVM_EFUSE_PAGE_1 |} in
         XNvm_EfusePgmAndVerifyData EfusePrgmInfo
           (Some (offset_ptr SynData 64))
     end).

(** *** [XNvm_EfuseWritePufChash], [XNvm_EfuseWritePufAux],
        [XNvm_EfuseWriteRoSwapEn] *)

Definition XNvm_EfuseWritePufChash (Chash : Z) : M Z :=
  let EfusePrgmInfo :=
    {| StartRow := XNVM_EFUSE_PUF_CHASH_ROW;
       ColStart := XNVM_EFUSE_PUF_CHASH_START_COL_NUM;
       ColEnd := XNVM_EFUSE_PUF_CHASH_END_COL_NUM;
       NumOfRows := XNVM_EFUSE_PUF_CHASH_NUM_OF_ROWS;
       SkipVerify := 0;
       EfuseType := XNVM_EFUSE_PAGE_0 |} in
  pChash <- addr_of Chash ;;
  XNvm_EfusePgmAndVerifyData EfusePrgmInfo (Some pChash).

Definition XNvm_EfuseWritePufAux (Aux : Z) : M Z :=
  let AuxData := Z.land Aux XNVM_EFUSE_CACHE_PUF_ECC_PUF_CTRL_ECC_23_0_MASK in
  let EfusePrgmInfo :=
    {| StartRow := XNVM_EFUSE_PUF_AUX_ROW;
       ColStart := XNVM_EFUSE_PUF_AUX_START_COL_NUM;
       ColEnd := XNVM_EFUSE_PUF_AUX_END_COL_NUM;
       NumOfRows := XNVM_EFUSE_PUF_AUX_NUM_OF_ROWS;
       SkipVerify := 0;
       EfuseType := XNVM_EFUSE_PAGE_0 |} in
  pAuxData <- addr_of AuxData ;;
  XNvm_EfusePgmAndVerifyData EfusePrgmInfo (Some pAuxData).

Definition XNvm_EfuseWriteRoSwapEn (RoSwap : Z) : M Z :=
  let EfusePrgmInfo :=
    {| StartRow := XNVM_EFUSE_PUF_RO_SWAP_EN_ROW;
       ColStart := XNVM_EFUSE_PUF_RO_SWAP_EN_START_COL_NUM;
       ColEnd := XNVM_EFUSE_PUF_RO_SWAP_EN_END_COL_NUM;
       NumOfRows := XNVM_EFUSE_PUF_RO_SWAP_NUM_OF_ROWS;
       SkipVerify := 0;
       EfuseType := XNVM_EFUSE_PAGE_0 |} in
  pRoSwap <- addr_of RoSwap ;;
  XNvm_EfusePgmAndVerifyData EfusePrgmInfo (Some pRoSwap).

(** *** [XNvm_EfuseIsPufHelperDataEmpty] *)

Definition XNvm_EfuseIsPufHelperDataEmpty : M Z :=
  END_label
    (Status <- XNvm_EfuseCheckZeros XNVM_EFUSE_CACHE_PUF_CHASH_OFFSET
                                    XNVM_EFUSE_PUF_CHASH_NUM_OF_ROWS ;;
     when (Status !=? XST_SUCCESS)
       (goto_END XNVM_EFUSE_ERR_PUF_CHASH_ALREADY_PRGMD) ;;
     RowDataVal <- XNvm_EfuseReadReg XNVM_EFUSE_CACHE_BASEADDR
                     XNVM_EFUSE_CACHE_PUF_ECC_PUF_CTRL_OFFSET ;;
     when (Z.land RowDataVal XNVM_EFUSE_CACHE_PUF_ECC_PUF_CTRL_ECC_23_0_MASK
           !=? 0x00)
       (goto_END XNVM_EFUSE_ERR_PUF_AUX_ALREADY_PRGMD) ;;
     Status <- XNvm_EfuseCheckZeros XNVM_EFUSE_CACHE_PUF_SYN_DATA_OFFSET
                                    XNVM_EFUSE_PUF_SYN_DATA_NUM_OF_ROWS ;;
     when (Status !=? XST_SUCCESS)
       (goto_END XNVM_EFUSE_ERR_PUF_SYN_ALREADY_PRGMD) ;;
     ret Status).

(** *** [XNvm_EfusePrgmDmeUserKey] *)

Definition XNvm_EfusePrgmDmeUserKey (KeyType : Z) (EfuseKey : words) : M Z :=
  END_label
    (EfusePrgmInfo <-
       (if KeyType =? XNVM_EFUSE_DME_USER_KEY_0 then
          ret {| StartRow := XNVM_EFUSE_DME_USER_KEY_0_START_ROW;
                 ColStart := XNVM_EFUSE_DME_USER_KEY_0_START_COL_NUM;
                 ColEnd := XNVM_EFUSE_DME_USER_KEY_0_END_COL_NUM;
                 NumOfRows := XNVM_EFUSE_DME_USER_KEY_NUM_OF_ROWS;
                 SkipVerify := 0;
                 EfuseType := XNVM_EFUSE_PAGE_0 |}
        else if KeyType =? XNVM_EFUSE_DME_USER_KEY_1 then
          ret {| StartRow := XNVM_EFUSE_DME_USER_KEY_1_START_ROW;
                 ColStart := XNVM_EFUSE_DME_USER_KEY_1_START_COL_NUM;
                 ColEnd := XNVM_EFUSE_DME_USER_KEY_1_END_COL_NUM;
                 NumOfRows := XNVM_EFUSE_DME_USER_KEY_NUM_OF_ROWS;
                 SkipVerify := 0;
                 EfuseType := XNVM_EFUSE_PAGE_0 |}
        else if KeyType =? XNVM_EFUSE_DME_USER_KEY_2 then
          ret {| StartRow := XNVM_EFUSE_DME_USER_KEY_2_START_ROW;
                 ColStart := XNVM_EFUSE_DME_USER_KEY_2_START_COL_NUM;
                 ColEnd := XNVM_EFUSE_DME_USER_KEY_2_END_COL_NUM;
                 NumOfRows := XNVM_EFUSE_DME_USER_KEY_NUM_OF_ROWS;
                 SkipVerify := 0;
                 EfuseType := XNVM_EFUSE_PAGE_0 |}
        else if KeyType =? XNVM_EFUSE_DME_USER_KEY_3 then
          ret {| StartRow := XNVM_EFUSE_DME_USER_KEY_3_START_ROW;
                 ColStart := XNVM_EFUSE_DME_USER_KEY_3_START_COL_NUM;
                 ColEnd := XNVM_EFUSE_DME_USER_KEY_3_END_COL_NUM;
                 NumOfRows := XNVM_EFUSE_DME_USER_KEY_NUM_OF_ROWS;
                 SkipVerify := 0;
                 EfuseType := XNVM_EFUSE_PAGE_0 |}
        else goto_END XNVM_EFUSE_ERR_INVALID_PARAM) ;;
     Status <- XNvm_EfusePgmAndVerifyData EfusePrgmInfo (Some EfuseKey) ;;
     if Status !=? XST_SUCCESS
     then ret (Z.lor Status XNVM_EFUSE_ERR_WRITE_AES_KEY)
     else ret Status).

(** *** [XNvm_EfusePrgmIv]

    [PrgmIv] is a local array of [XNVM_EFUSE_IV_NUM_OF_CACHE_ROWS] words,
    and the calculator is called on it with an end offset of that many
    words past the start. *)

Definition XNvm_EfusePrgmIv (IvType : Z) (EfuseIv : words) : M Z :=
  END_label
    (PrgmIv <- zero_array XNVM_EFUSE_IV_NUM_OF_CACHE_ROWS ;;
     '(IvOffset, Row, StartColNum, EndColNum, NumOfRows) <-
       (if IvType =? XNVM_EFUSE_META_HEADER_IV_RANGE then
          ret (XNVM_EFUSE_CACHE_METAHEADER_IV_RANGE_OFFSET,
               XNVM_EFUSE_META_HEADER_IV_START_ROW,
               XNVM_EFUSE_METAHEADER_IV_RANGE_START_COL_NUM,
               XNVM_EFUSE_METAHEADER_IV_RANGE_END_COL_NUM,
               XNVM_EFUSE_METAHEADER_IV_NUM_OF_ROWS)
        else if IvType =? XNVM_EFUSE_BLACK_IV then
          ret (XNVM_EFUSE_CACHE_BLACK_IV_OFFSET,
               XNVM_EFUSE_BLACK_IV_START_ROW,
               XNVM_EFUSE_BLACK_IV_START_COL_NUM,
               XNVM_EFUSE_BLACK_IV_END_COL_NUM,
               XNVM_EFUSE_BLACK_IV_NUM_OF_ROWS)
        else if IvType =? XNVM_EFUSE_PLM_IV_RANGE then
          ret (XNVM_EFUSE_CACHE_PLM_IV_RANGE_OFFSET,
               XNVM_EFUSE_PLM_IV_START_ROW,
               XNVM_EFUSE_PLM_IV_RANGE_START_COL_NUM,
               XNVM_EFUSE_PLM_IV_RANGE_END_COL_NUM,
               XNVM_EFUSE_PLM_IV_NUM_OF_ROWS)
        else if IvType =? XNVM_EFUSE_DATA_PARTITION_IV_RANGE then
          ret (XNVM_EFUSE_CACHE_DATA_PARTITION_IV_OFFSET,
               XNVM_EFUSE_DATA_PARTITION_IV_START_ROW,
               XNVM_EFUSE_DATA_PARTITION_IV_START_COL_NUM,
               XNVM_EFUSE_DATA_PARTITION_IV_END_COL_NUM,
               XNVM_EFUSE_DATA_PARTITION_IV_NUM_OF_ROWS)
        else goto_END XNVM_EFUSE_ERR_INVALID_PARAM) ;;
     '(Status, PrgmIv) <-
       XNvm_EfuseComputeProgrammableBits_array XNVM_EFUSE_IV_NUM_OF_CACHE_ROWS
         (Some EfuseIv) (Some PrgmIv) IvOffset
         (u32_add IvOffset
                  (u32_mul XNVM_EFUSE_IV_NUM_OF_CACHE_ROWS XNVM_WORD_LEN)) ;;
     when (Status !=? XST_SUCCESS) (goto_END Status) ;;
     let EfusePrgmInfo :=
       {| StartRow := Row;
          ColStart := StartColNum;
          ColEnd := EndColNum;
          NumOfRows := NumOfRows;
          SkipVerify := 0;
          EfuseType := XNVM_EFUSE_PAGE_0 |} in
     Status <- XNvm_EfusePgmAndVerifyData EfusePrgmInfo PrgmIv ;;
     if Status !=? XST_SUCCESS
     then ret (Z.lor Status
                 (XNVM_EFUSE_ERR_WRITE_META_HEADER_IV_RANGE +
                  Z.shiftl IvType XNVM_EFUSE_ERROR_BYTE_SHIFT))
     else ret Status).

(** *** [XNvm_EfusePrgmPpkHash] *)

Definition XNvm_EfusePrgmPpkHash (PpkType : Z) (EfuseHash : ptr) : M Z :=
  END_label
    (match EfuseHash with
     | None => goto_END XNVM_EFUSE_ERR_INVALID_PARAM
     | Some Hash =>
         '(Row, StartColNum, EndColNum) <-
           (if PpkType =? XNVM_EFUSE_PPK0 then
              ret (XNVM_EFUSE_PPK0_HASH_START_ROW,
                   XNVM_EFUSE_PPK0_HASH_START_COL_NUM,
                   XNVM_EFUSE_PPK0_HASH_END_COL_NUM)
            else if PpkType =? XNVM_EFUSE_PPK1 then
              ret (XNVM_EFUSE_PPK1_HASH_START_ROW,
                   XNVM_EFUSE_PPK1_HASH_START_COL_NUM,
                   XNVM_EFUSE_PPK1_HASH_END_COL_NUM)
            else if PpkType =? XNVM_EFUSE_PPK2 then
              ret (XNVM_EFUSE_PPK2_HASH_START_ROW,
                   XNVM_EFUSE_PPK2_HASH_START_COL_NUM,
                   XNVM_EFUSE_PPK2_HASH_END_COL_NUM)
            else goto_END XNVM_EFUSE_ERR_INVALID_PARAM) ;;
         let EfusePrgmInfo :=
           {| StartRow := Row;
              ColStart := StartColNum;
              ColEnd := EndColNum;
              NumOfRows := XNVM_EFUSE_PPK_HASH_NUM_OF_ROWS;
              SkipVerify := 0;
              EfuseType := XNVM_EFUSE_PAGE_0 |} in
         Status <- XNvm_EfusePgmAndVerifyData EfusePrgmInfo (Some Hash) ;;
         if Status !=? XST_SUCCESS
         then ret (Z.lor Status
                     (XNVM_EFUSE_ERR_WRITE_PPK0_HASH +
                      Z.shiftl PpkType XNVM_EFUSE_ERROR_BYTE_SHIFT))
         else ret Status
     end).

(** *** [XNvm_EfusePrgmAesKey] *)

Definition XNvm_EfusePrgmAesKey (KeyType : Z) (EfuseKey : ptr) : M Z :=
  END_label
    (match EfuseKey with
     | None => goto_END XNVM_EFUSE_ERR_INVALID_PARAM
     | Some Key =>
         '(CrcRegOffset, CrcDoneMask, CrcPassMask) <-
           (if KeyType =? XNVM_EFUSE_AES_KEY then
              Status <- XNvm_EfusePgmAndVerifyData
                {| StartRow := XNVM_EFUSE_AES_KEY_0_TO_127_START_ROW;
                   ColStart := XNVM_EFUSE_AES_KEY_0_TO_127_COL_START_NUM;
                   ColEnd := XNVM_EFUSE_AES_KEY_0_TO_127_COL_END_NUM;
                   NumOfRows := XNVM_EFUSE_AES_KEY_0_TO_127_NUM_OF_ROWS;
                   SkipVerify := XNVM_EFUSE_SKIP_VERIFY;
                   EfuseType := XNVM_EFUSE_PAGE_0 |} (Some Key) ;;
              when (Status !=? XST_SUCCESS)
                (goto_END (Z.lor Status XNVM_EFUSE_ERR_WRITE_AES_KEY)) ;;
              Status <- XNvm_EfusePgmAndVerifyData
                {| StartRow := XNVM_EFUSE_AES_KEY_128_TO_255_START_ROW;
                   ColStart := XNVM_EFUSE_AES_KEY_128_TO_255_COL_START_NUM;
                   ColEnd := XNVM_EFUSE_AES_KEY_128_TO_255_COL_END_NUM;
                   NumOfRows := XNVM_EFUSE_AES_KEY_128_TO_255_NUM_OF_ROWS;
                   SkipVerify := XNVM_EFUSE_SKIP_VERIFY;
                   EfuseType := XNVM_EFUSE_PAGE_0 |}
                (Some (offset_ptr Key 4)) ;;
              when (Status !=? XST_SUCCESS)
                (goto_END (Z.lor Status XNVM_EFUSE_ERR_WRITE_AES_KEY)) ;;
              ret (XNVM_EFUSE_AES_CRC_REG_OFFSET,
                   XNVM_EFUSE_CTRL_STATUS_AES_CRC_DONE_MASK,
                   XNVM_EFUSE_CTRL_STATUS_AES_CRC_PASS_MASK)
            else if KeyType =? XNVM_EFUSE_USER_KEY_0 then
              Status <- XNvm_EfusePgmAndVerifyData
                {| StartRow := XNVM_EFUSE_USER_KEY0_0_TO_63_START_ROW;
                   ColStart := XNVM_EFUSE_USER_KEY0_0_TO_63_COL_START_NUM;
                   ColEnd := XNVM_EFUSE_USER_KEY0_0_TO_63_COL_END_NUM;
                   NumOfRows := XNVM_EFUSE_USER_KEY0_0_TO_63_NUM_OF_ROWS;
                   SkipVerify := XNVM_EFUSE_SKIP_VERIFY;
                   EfuseType := XNVM_EFUSE_PAGE_0 |} (Some Key) ;;
              when (Status !=? XST_SUCCESS)
                (goto_END (Z.lor Status XNVM_EFUSE_ERR_WRITE_USER_KEY0)) ;;
              Status <- XNvm_EfusePgmAndVerifyData
                {| StartRow := XNVM_EFUSE_USER_KEY0_64_TO_191_START_ROW;
                   ColStart := XNVM_EFUSE_USER_KEY0_64_TO_191_COL_START_NUM;
                   ColEnd := XNVM_EFUSE_USER_KEY0_64_TO_191_COL_END_NUM;
                   NumOfRows := XNVM_EFUSE_USER_KEY0_64_TO_191_NUM_OF_ROWS;
                   SkipVerify := XNVM_EFUSE_SKIP_VERIFY;
                   EfuseType := XNVM_EFUSE_PAGE_0 |}
                (Some (offset_ptr Key 2)) ;;
              when (Status !=? XST_SUCCESS)
                (goto_END (Z.lor Status XNVM_EFUSE_ERR_WRITE_USER_KEY0)) ;;
              Status <- XNvm_EfusePgmAndVerifyData
                {| StartRow := XNVM_EFUSE_USER_KEY0_192_TO_255_START_ROW;
                   ColStart := XNVM_EFUSE_USER_KEY0_192_TO_255_COL_START_NUM;
                   ColEnd := XNVM_EFUSE_USER_KEY0_192_TO_255_COL_END_NUM;
                   NumOfRows := XNVM_EFUSE_USER_KEY0_192_TO_255_NUM_OF_ROWS;
                   SkipVerify := XNVM_EFUSE_SKIP_VERIFY;
                   EfuseType := XNVM_EFUSE_PAGE_0 |}
                (Some (offset_ptr Key 6)) ;;
              when (Status !=? XST_SUCCESS)
                (goto_END (Z.lor Status XNVM_EFUSE_ERR_WRITE_USER_KEY0)) ;;
              ret (XNVM_EFUSE_AES_USR_KEY0_CRC_REG_OFFSET,
                   XNVM_EFUSE_CTRL_STATUS_AES_USER_KEY_0_CRC_DONE_MASK,
                   XNVM_EFUSE_CTRL_STATUS_AES_USER_KEY_0_CRC_PASS_MASK)
            else if KeyType =? XNVM_EFUSE_USER_KEY_1 then
              Status <- XNvm_EfusePgmAndVerifyData
                {| StartRow := XNVM_EFUSE_USER_KEY1_0_TO_63_START_ROW;
                   ColStart := XNVM_EFUSE_USER_KEY1_0_TO_63_START_COL_NUM;
                   ColEnd := XNVM_EFUSE_USER_KEY1_0_TO_63_END_COL_NUM;
                   NumOfRows := XNVM_EFUSE_USER_KEY1_0_TO_63_NUM_OF_ROWS;
                   SkipVerify := XNVM_EFUSE_SKIP_VERIFY;
                   EfuseType := XNVM_EFUSE_PAGE_0 |} (Some Key) ;;
              when (Status !=? XST_SUCCESS)
                (goto_END (Z.lor Status XNVM_EFUSE_ERR_WRITE_USER_KEY1)) ;;
              Status <- XNvm_EfusePgmAndVerifyData
                {| StartRow := XNVM_EFUSE_USER_KEY1_64_TO_127_START_ROW;
                   ColStart := XNVM_EFUSE_USER_KEY1_64_TO_127_START_COL_NUM;
                   ColEnd := XNVM_EFUSE_USER_KEY1_64_TO_127_END_COL_NUM;
                   NumOfRows := XNVM_EFUSE_USER_KEY1_64_TO_127_NUM_OF_ROWS;
                   SkipVerify := XNVM_EFUSE_SKIP_VERIFY;
                   EfuseType := XNVM_EFUSE_PAGE_0 |}
                (Some (offset_ptr Key 2)) ;;
              when (Status !=? XST_SUCCESS)
                (goto_END (Z.lor Status XNVM_EFUSE_ERR_WRITE_USER_KEY1)) ;;
              Status <- XNvm_EfusePgmAndVerifyData
                {| StartRow := XNVM_EFUSE_USER_KEY1_128_TO_255_START_ROW;
                   ColStart := XNVM_EFUSE_USER_KEY1_128_TO_255_START_COL_NUM;
                   ColEnd := XNVM_EFUSE_USER_KEY1_128_TO_255_END_COL_NUM;
                   NumOfRows := XNVM_EFUSE_USER_KEY1_128_TO_255_NUM_OF_ROWS;
                   SkipVerify := XNVM_EFUSE_SKIP_VERIFY;
                   EfuseType := XNVM_EFUSE_PAGE_0 |}
                (Some (offset_ptr Key 4)) ;;
              when (Status !=? XST_SUCCESS)
                (goto_END (Z.lor Status XNVM_EFUSE_ERR_WRITE_USER_KEY1)) ;;
              ret (XNVM_EFUSE_AES_USR_KEY1_CRC_REG_OFFSET,
                   XNVM_EFUSE_CTRL_STATUS_AES_USER_KEY_1_CRC_DONE_MASK,
                   XNVM_EFUSE_CTRL_STATUS_AES_USER_KEY_1_CRC_PASS_MASK)
            else goto_END XNVM_EFUSE_ERR_INVALID_PARAM) ;;
         Status <- XNvm_EfuseCacheLoadNPrgmProtectionBits ;;
         when (Status !=? XST_SUCCESS)
           (goto_END (Z.lor Status XNVM_EFUSE_ERR_WRITE_AES_KEY)) ;;
         Crc <- XNvm_AesCrcCalc Key ;;
         Status <- XNvm_EfuseCheckAesKeyCrc CrcRegOffset CrcDoneMask
                     CrcPassMask Crc ;;
         when (Status !=? XST_SUCCESS)
           (goto_END (Z.lor Status
                        (XNVM_EFUSE_ERR_WRITE_AES_KEY +
                         Z.shiftl KeyType XNVM_EFUSE_ERROR_BYTE_SHIFT))) ;;
         ret XST_SUCCESS
     end).

(** *** The public write functions

    Each function is given in two parts: [_body] is the code before the
    label [END] and yields the value [Status] has on reaching it; the
    function itself adds the code after the label. *)

Definition XNvm_EfuseWriteAesKey_body (KeyType : Z) (EfuseKey : ptr) : M Z :=
  END_label
    (when ((KeyType !=? XNVM_EFUSE_AES_KEY) &&
           (KeyType !=? XNVM_EFUSE_USER_KEY_0) &&
           (KeyType !=? XNVM_EFUSE_USER_KEY_1))
       (goto_END XNVM_EFUSE_ERR_INVALID_PARAM) ;;
     match EfuseKey with
     | None => goto_END XNVM_EFUSE_ERR_INVALID_PARAM
     | Some _ =>
         Status <- XNvm_EfuseSetupController XNVM_EFUSE_MODE_PGM
                                             XNVM_EFUSE_MARGIN_RD ;;
         when (Status !=? XST_SUCCESS) (goto_END Status) ;;
         Status <- XNvm_EfuseValidateAesKeyWriteReq KeyType ;;
         when (Status !=? XST_SUCCESS)
           (goto_END (Z.lor Status XNVM_EFUSE_ERR_BEFORE_PROGRAMMING)) ;;
         XNvm_EfusePrgmAesKey KeyType EfuseKey
     end).

Definition XNvm_EfuseWriteAesKey (KeyType : Z) (EfuseKey : ptr) : M Z :=
  Status <- XNvm_EfuseWriteAesKey_body KeyType EfuseKey ;;
  CloseStatus <- XNvm_EfuseCloseController ;;
  ret (if XST_SUCCESS =? Status then CloseStatus else Status).

Definition XNvm_EfuseWritePpkHash_body (PpkType : Z) (EfuseHash : ptr) : M Z :=
  END_label
    (when ((PpkType !=? XNVM_EFUSE_PPK0) &&
           (PpkType !=? XNVM_EFUSE_PPK1) &&
           (PpkType !=? XNVM_EFUSE_PPK2))
       (goto_END XNVM_EFUSE_ERR_INVALID_PARAM) ;;
     match EfuseHash with
     | None => goto_END XNVM_EFUSE_ERR_INVALID_PARAM
     | Some _ =>
         Status <- XNvm_EfuseSetupController XNVM_EFUSE_MODE_PGM
                                             XNVM_EFUSE_MARGIN_RD ;;
         when (Status !=? XST_SUCCESS) (goto_END Status) ;;
         Status <- XNvm_EfuseValidatePpkHashWriteReq PpkType ;;
         when (Status !=? XST_SUCCESS)
           (goto_END (Z.lor Status XNVM_EFUSE_ERR_BEFORE_PROGRAMMING)) ;;
         XNvm_EfusePrgmPpkHash PpkType EfuseHash
     end).

Definition XNvm_EfuseWritePpkHash (PpkType : Z) (EfuseHash : ptr) : M Z :=
  Status <- XNvm_EfuseWritePpkHash_body PpkType EfuseHash ;;
  CloseStatus <- XNvm_EfuseCloseController ;;
  ret (if XST_SUCCESS =? Status then CloseStatus else Status).

Definition XNvm_EfuseWriteIv_body (IvType : Z) (EfuseIv : ptr) : M Z :=
  END_label
    (when ((IvType !=? XNVM_EFUSE_META_HEADER_IV_RANGE) &&
           (IvType !=? XNVM_EFUSE_BLACK_IV) &&
           (IvType !=? XNVM_EFUSE_PLM_IV_RANGE) &&
           (IvType !=? XNVM_EFUSE_DATA_PARTITION_IV_RANGE))
       (goto_END XNVM_EFUSE_ERR_INVALID_PARAM) ;;
     match EfuseIv with
     | None => goto_END XNVM_EFUSE_ERR_INVALID_PARAM
     | Some Iv =>
         Status <- XNvm_EfuseSetupController XNVM_EFUSE_MODE_PGM
                                             XNVM_EFUSE_MARGIN_RD ;;
         when (Status !=? XST_SUCCESS) (goto_END Status) ;;
         Status <- XNvm_EfuseValidateIvWriteReq IvType Iv ;;
         when (Status !=? XST_SUCCESS)
           (goto_END (Z.lor Status XNVM_EFUSE_ERR_BEFORE_PROGRAMMING)) ;;
         XNvm_EfusePrgmIv IvType Iv
     end).

Definition XNvm_EfuseWriteIv (IvType : Z) (EfuseIv : ptr) : M Z :=
  Status <- XNvm_EfuseWriteIv_body IvType EfuseIv ;;
  CloseStatus <- XNvm_EfuseCloseController ;;
  ret (if XST_SUCCESS =? Status then CloseStatus else Status).

(** [if (EnvDisFlag != TRUE) { //TODO Temp and Voltage checks }] *)
Definition env_checks_TODO (EnvDisFlag : Z) : M unit :=
  when (EnvDisFlag !=? TRUE) (ret tt).

Definition XNvm_EfuseWriteGlitchConfigBits_body (EnvDisFlag GlitchConfig : Z)
  : M Z :=
  END_label
    (env_checks_TODO EnvDisFlag ;;
     Status <- XNvm_EfuseSetupController XNVM_EFUSE_MODE_PGM
                                         XNVM_EFUSE_MARGIN_RD ;;
     when (Status !=? XST_SUCCESS) (goto_END Status) ;;
     pGlitchConfig <- addr_of GlitchConfig ;;
     pPrgmGlitchConfig <- addr_of 0 ;;
     '(Status, pPrgmGlitchConfig) <-
       XNvm_EfuseComputeProgrammableBits (Some pGlitchConfig)
         (Some pPrgmGlitchConfig)
         XNVM_EFUSE_CACHE_ANLG_TRIM_3_OFFSET
         XNVM_EFUSE_CACHE_ANLG_TRIM_3_OFFSET ;;
     when (Status !=? XST_SUCCESS) (goto_END Status) ;;
     let PrgmGlitchConfig :=
       match pPrgmGlitchConfig with Some p => load p 0 | None => 0 end in
     let GlitchDetVal :=
       Z.land PrgmGlitchConfig XNVM_EFUSE_GLITCH_CONFIG_DATA_MASK in
     let GlitchDetWrLk :=
       Z.land PrgmGlitchConfig (u32_not XNVM_EFUSE_GLITCH_CONFIG_DATA_MASK) in
     let EfusePrgmInfo :=
       {| StartRow := XNVM_EFUSE_ANLG_TRIM_3_START_ROW;
          ColStart := XNVM_EFUSE_GLITCH_DET_CONFIG_START_COL_NUM;
          ColEnd := XNVM_EFUSE_GLITCH_DET_CONFIG_END_COL_NUM;
          NumOfRows := XNVM_EFUSE_GLITCH_DET_CONFIG_NUM_OF_ROWS;
          SkipVerify := 0;
          EfuseType := XNVM_EFUSE_PAGE_0 |} in
     pGlitchDetVal <- addr_of GlitchDetVal ;;
     Status <- XNvm_EfusePgmAndVerifyData EfusePrgmInfo (Some pGlitchDetVal) ;;
     when (Status !=? XST_SUCCESS)
       (goto_END (Z.lor Status XNVM_EFUSE_ERR_WRITE_GLITCH_CFG)) ;;
     if GlitchDetWrLk !=? 0 then
       Status <- XNvm_EfusePgmAndVerifyBit XNVM_EFUSE_PAGE_0
                   XNVM_EFUSE_GLITCH_DET_WR_LK_ROW
                   XNVM_EFUSE_GLITCH_DET_WR_LK_COL_NUM
                   XNVM_EFUSE_PROGRAM_VERIFY ;;
       if Status !=? XST_SUCCESS
       then ret (Z.lor Status XNVM_EFUSE_ERR_WRITE_GLITCH_WRLK)
       else ret Status
     else ret Status).

Definition XNvm_EfuseWriteGlitchConfigBits (EnvDisFlag GlitchConfig : Z) : M Z :=
  Status <- XNvm_EfuseWriteGlitchConfigBits_body EnvDisFlag GlitchConfig ;;
  CloseStatus <- XNvm_EfuseCloseController ;;
  ret (if XST_SUCCESS =? Status then CloseStatus else Status).

Definition XNvm_EfuseWriteDecOnly_body (EnvDisFlag : Z) : M Z :=
  END_label
    (let Data := XNVM_EFUSE_CACHE_DEC_EFUSE_ONLY_MASK in
     env_checks_TODO EnvDisFlag ;;
     Status <- XNvm_EfuseSetupController XNVM_EFUSE_MODE_PGM
                                         XNVM_EFUSE_MARGIN_RD ;;
     when (Status !=? XST_SUCCESS) (goto_END Status) ;;
     Status <- XNvm_EfuseValidateDecOnlyRequest ;;
     when (Status !=? XST_SUCCESS)
       (goto_END (Z.lor Status XNVM_EFUSE_ERR_BEFORE_PROGRAMMING)) ;;
     let EfusePrgmInfo :=
       {| StartRow := XNVM_EFUSE_SECURITY_MISC_0_START_ROW;
          ColStart := XNVM_EFUSE_DEC_ONLY_START_COL_NUM;
          ColEnd := XNVM_EFUSE_DEC_ONLY_END_COL_NUM;
          NumOfRows := XNVM_EFUSE_DEC_ONLY_NUM_OF_ROWS;
          SkipVerify := 0;
          EfuseType := XNVM_EFUSE_PAGE_0 |} in
     pData <- addr_of Data ;;
     Status <- XNvm_EfusePgmAndVerifyData EfusePrgmInfo (Some pData) ;;
     if Status !=? XST_SUCCESS
     then ret (Z.lor Status XNVM_EFUSE_ERR_WRITE_DEC_EFUSE_ONLY)
     else ret Status).

Definition XNvm_EfuseWriteDecOnly (EnvDisFlag : Z) : M Z :=
  Status <- XNvm_EfuseWriteDecOnly_body EnvDisFlag ;;
  CloseStatus <- XNvm_EfuseCloseController ;;
  ret (if XST_SUCCESS =? Status then CloseStatus else Status).

Definition XNvm_EfuseWriteRevocationID_body (EnvDisFlag RevokeIdNum : Z) : M Z :=
  END_label
    (when ((RevokeIdNum =? 0) || (RevokeIdNum >? XNVM_MAX_REVOKE_ID_FUSES))
       (goto_END XNVM_EFUSE_ERR_INVALID_PARAM) ;;
     env_checks_TODO EnvDisFlag ;;
     Status <- XNvm_EfuseSetupController XNVM_EFUSE_MODE_PGM
                                         XNVM_EFUSE_MARGIN_RD ;;
     when (Status !=? XST_SUCCESS) (goto_END Status) ;;
     let '(RevokeIdRow, RevokeIdCol) :=
       if (RevokeIdNum >=? 1) && (RevokeIdNum <=? 128)
       then (XNVM_EFUSE_REVOKE_ID_0_TO_127_START_ROW,
             XNVM_EFUSE_REVOKE_ID_0_TO_127_START_COL_NUM)
       else (XNVM_EFUSE_REVOKE_ID_128_TO_255_START_ROW,
             XNVM_EFUSE_REVOKE_ID_128_TO_255_START_COL_NUM) in
     let RevokeIdRow :=
       u32_add RevokeIdRow
               (u32_sub RevokeIdNum 1 / XNVM_EFUSE_BITS_IN_A_BYTE) in
     let RevokeIdCol :=
       u32_add RevokeIdCol
               (u32_sub RevokeIdNum 1 mod XNVM_EFUSE_BITS_IN_A_BYTE) in
     Status <- XNvm_EfusePgmAndVerifyBit XNVM_EFUSE_PAGE_0 RevokeIdRow
                 RevokeIdCol XNVM_EFUSE_PROGRAM_VERIFY ;;
     if Status !=? XST_SUCCESS
     then ret (Z.lor Status XNVM_EFUSE_ERR_WRITE_REVOCATION_IDS)
     else ret Status).

Definition XNvm_EfuseWriteRevocationID (EnvDisFlag RevokeIdNum : Z) : M Z :=
  Status <- XNvm_EfuseWriteRevocationID_body EnvDisFlag RevokeIdNum ;;
  CloseStatus <- XNvm_EfuseCloseController ;;
  ret (if XST_SUCCESS =? Status then CloseStatus else Status).

Definition XNvm_EfuseWriteOffChipRevokeID_body (EnvDisFlag OffchipIdNum : Z)
  : M Z :=
  END_label
    (when ((OffchipIdNum =? 0) || (OffchipIdNum >? XNVM_MAX_REVOKE_ID_FUSES))
       (goto_END XNVM_EFUSE_ERR_INVALID_PARAM) ;;
     env_checks_TODO EnvDisFlag ;;
     Status <- XNvm_EfuseSetupController XNVM_EFUSE_MODE_PGM
                                         XNVM_EFUSE_MARGIN_RD ;;
     when (Status !=? XST_SUCCESS) (goto_END Status) ;;
     let OffchipIdRow :=
       u32_add XNVM_EFUSE_OFFCHIP_REVOKE_ID_START_ROW
               (u32_sub OffchipIdNum 1 / XNVM_EFUSE_MAX_BITS_IN_ROW) in
     let OffchipIdCol := u32_sub OffchipIdNum 1 mod XNVM_EFUSE_MAX_BITS_IN_ROW in
     Status <- XNvm_EfusePgmAndVerifyBit XNVM_EFUSE_PAGE_0 OffchipIdRow
                 OffchipIdCol XNVM_EFUSE_PROGRAM_VERIFY ;;
     if Status !=? XST_SUCCESS
     then ret (Z.lor Status XNVM_EFUSE_ERR_WRITE_OFFCHIP_REVOKE_IDS)
     else ret Status).

Definition XNvm_EfuseWriteOffChipRevokeID (EnvDisFlag OffchipIdNum : Z) : M Z :=
  Status <- XNvm_EfuseWriteOffChipRevokeID_body EnvDisFlag OffchipIdNum ;;
  CloseStatus <- XNvm_EfuseCloseController ;;
  ret (if XST_SUCCESS =? Status then CloseStatus else Status).

Definition XNvm_EfuseWriteMiscCtrlBits_body (EnvDisFlag MiscCtrlBits : Z) : M Z :=
  END_label
    (env_checks_TODO EnvDisFlag ;;
     Status <- XNvm_EfuseSetupController XNVM_EFUSE_MODE_PGM
                                         XNVM_EFUSE_MARGIN_RD ;;
     when (Status !=? XST_SUCCESS) (goto_END Status) ;;
     pMiscCtrlBits <- addr_of MiscCtrlBits ;;
     pRdMiscCtrlBits <- addr_of 0 ;;
     '(Status, pRdMiscCtrlBits) <-
       XNvm_EfuseComputeProgrammableBits (Some pMiscCtrlBits) (Some pRdMiscCtrlBits)
         XNVM_EFUSE_CACHE_MISC_CTRL_CACHE_OFFSET
         XNVM_EFUSE_CACHE_MISC_CTRL_CACHE_OFFSET ;;
     when (Status !=? XST_SUCCESS) (goto_END Status) ;;
     let EfusePrgmInfo :=
       {| StartRow := XNVM_EFUSE_MISC_CTRL_START_ROW;
          ColStart := XNVM_EFUSE_MISC_CTRL_START_COL_NUM;
          ColEnd := XNVM_EFUSE_MISC_CTRL_END_COL_NUM;
          NumOfRows := XNVM_EFUSE_MISC_CTRL_NUM_OF_ROWS;
          SkipVerify := 0;
          EfuseType := XNVM_EFUSE_PAGE_0 |} in
     Status <- XNvm_EfusePgmAndVerifyData EfusePrgmInfo pRdMiscCtrlBits ;;
     if Status !=? XST_SUCCESS
     then ret (Z.lor Status XNVM_EFUSE_ERR_WRITE_MISC_CTRL_BITS)
     else ret Status).

Definition XNvm_EfuseWriteMiscCtrlBits (EnvDisFlag MiscCtrlBits : Z) : M Z :=
  Status <- XNvm_EfuseWriteMiscCtrlBits_body EnvDisFlag MiscCtrlBits ;;
  CloseStatus <- XNvm_EfuseCloseController ;;
  ret (if XST_SUCCESS =? Status then CloseStatus else Status).

Definition XNvm_EfuseWriteSecCtrlBits_body (EnvDisFlag SecCtrlBits : Z) : M Z :=
  END_label
    (env_checks_TODO EnvDisFlag ;;
     Status <- XNvm_EfuseSetupController XNVM_EFUSE_MODE_PGM
                                         XNVM_EFUSE_MARGIN_RD ;;
     when (Status !=? XST_SUCCESS) (goto_END Status) ;;
     pSecCtrlBits <- addr_of SecCtrlBits ;;
     pRdSecCtrlBits <- addr_of 0 ;;
     '(Status, pRdSecCtrlBits) <-
       XNvm_EfuseComputeProgrammableBits (Some pSecCtrlBits) (Some pRdSecCtrlBits)
         XNVM_EFUSE_CACHE_SECURITY_CTRL_OFFSET
         XNVM_EFUSE_CACHE_SECURITY_CTRL_OFFSET ;;
     when (Status !=? XST_SUCCESS) (goto_END Status) ;;
     let EfusePrgmInfo :=
       {| StartRow := XNVM_EFUSE_SEC_CTRL_START_ROW;
          ColStart := XNVM_EFUSE_SEC_CTRL_START_COL_NUM;
          ColEnd := XNVM_EFUSE_SEC_CTRL_END_COL_NUM;
          NumOfRows := XNVM_EFUSE_SEC_CTRL_NUM_OF_ROWS;
          SkipVerify := 0;
          EfuseType := XNVM_EFUSE_PAGE_0 |} in
     Status <- XNvm_EfusePgmAndVerifyData EfusePrgmInfo pRdSecCtrlBits ;;
     if Status !=? XST_SUCCESS
     then ret (Z.lor Status XNVM_EFUSE_ERR_WRITE_SEC_CTRL_BITS)
     else ret Status).

Definition XNvm_EfuseWriteSecCtrlBits (EnvDisFlag SecCtrlBits : Z) : M Z :=
  Status <- XNvm_EfuseWriteSecCtrlBits_body EnvDisFlag SecCtrlBits ;;
  CloseStatus <- XNvm_EfuseCloseController ;;
  ret (if XST_SUCCESS =? Status then CloseStatus else Status).

Definition XNvm_EfuseWriteMisc1Bits_body (EnvDisFlag Misc1Bits : Z) : M Z :=
  END_label
    (env_checks_TODO EnvDisFlag ;;
     Status <- XNvm_EfuseSetupController XNVM_EFUSE_MODE_PGM
                                         XNVM_EFUSE_MARGIN_RD ;;
     when (Status !=? XST_SUCCESS) (goto_END Status) ;;
     pMisc1Bits <- addr_of Misc1Bits ;;
     pRdMisc1Bits <- addr_of 0 ;;
     '(Status, pRdMisc1Bits) <-
       XNvm_EfuseComputeProgrammableBits (Some pMisc1Bits) (Some pRdMisc1Bits)
         XNVM_EFUSE_CACHE_SEC_MISC_1_OFFSET
         XNVM_EFUSE_CACHE_SEC_MISC_1_OFFSET ;;
     when (Status !=? XST_SUCCESS) (goto_END Status) ;;
     let EfusePrgmInfo :=
       {| StartRow := XNVM_EFUSE_SECURITY_MISC1_START_ROW;
          ColStart := XNVM_EFUSE_SECURITY_MISC1_START_COL_NUM;
          ColEnd := XNVM_EFUSE_SECURITY_MISC1_END_COL_NUM;
          NumOfRows := XNVM_EFUSE_SECURITY_MISC1_NUM_OF_ROWS;
          SkipVerify := 0;
          EfuseType := XNVM_EFUSE_PAGE_0 |} in
     Status <- XNvm_EfusePgmAndVerifyData EfusePrgmInfo pRdMisc1Bits ;;
     if Status !=? XST_SUCCESS
     then ret (Z.lor Status XNVM_EFUSE_ERR_WRITE_MISC1_CTRL_BITS)
     else ret Status).

Definition XNvm_EfuseWriteMisc1Bits (EnvDisFlag Misc1Bits : Z) : M Z :=
  Status <- XNvm_EfuseWriteMisc1Bits_body EnvDisFlag Misc1Bits ;;
  CloseStatus <- XNvm_EfuseCloseController ;;
  ret (if XST_SUCCESS =? Status then CloseStatus else Status).

Definition XNvm_EfuseWriteBootEnvCtrlBits_body (EnvDisFlag BootEnvCtrlBits : Z) : M Z :=
  END_label
    (env_checks_TODO EnvDisFlag ;;
     Status <- XNvm_EfuseSetupController XNVM_EFUSE_MODE_PGM
                                         XNVM_EFUSE_MARGIN_RD ;;
     when (Status !=? XST_SUCCESS) (goto_END Status) ;;
     pBootEnvCtrlBits <- addr_of BootEnvCtrlBits ;;
     pRdBootEnvCtrlBits <- addr_of 0 ;;
     '(Status, pRdBootEnvCtrlBits) <-
       XNvm_EfuseComputeProgrammableBits (Some pBootEnvCtrlBits) (Some pRdBootEnvCtrlBits)
         XNVM_EFUSE_CACHE_BOOT_ENV_CTRL_OFFSET
         XNVM_EFUSE_CACHE_BOOT_ENV_CTRL_OFFSET ;;
     when (Status !=? XST_SUCCESS) (goto_END Status) ;;
     let EfusePrgmInfo :=
       {| StartRow := XNVM_EFUSE_BOOT_ENV_CTRL_START_ROW;
          ColStart := XNVM_EFUSE_BOOT_ENV_CTRL_START_COL_NUM;
          ColEnd := XNVM_EFUSE_BOOT_ENV_CTRL_END_COL_NUM;
          NumOfRows := XNVM_EFUSE_BOOT_ENV_CTRL_NUM_OF_ROWS;
          SkipVerify := 0;
          EfuseType := XNVM_EFUSE_PAGE_0 |} in
     Status <- XNvm_EfusePgmAndVerifyData EfusePrgmInfo pRdBootEnvCtrlBits ;;
     if Status !=? XST_SUCCESS
     then ret (Z.lor Status XNVM_EFUSE_ERR_WRITE_BOOT_ENV_CTRL)
     else ret Status).

Definition XNvm_EfuseWriteBootEnvCtrlBits (EnvDisFlag BootEnvCtrlBits : Z) : M Z :=
  Status <- XNvm_EfuseWriteBootEnvCtrlBits_body EnvDisFlag BootEnvCtrlBits ;;
  CloseStatus <- XNvm_EfuseCloseController ;;
  ret (if XST_SUCCESS =? Status then CloseStatus else Status).

Definition XNvm_EfuseWriteFipsInfo_body (EnvDisFlag FipsMode FipsVersion : Z)
  : M Z :=
  END_label
    (when (FipsVersion >? XNVM_EFUSE_MAX_FIPS_VERSION)
       (goto_END XNVM_EFUSE_ERR_INVALID_PARAM) ;;
     when (FipsMode >? XNVM_EFUSE_MAX_FIPS_MODE)
       (goto_END XNVM_EFUSE_ERR_INVALID_PARAM) ;;
     env_checks_TODO EnvDisFlag ;;
     Status <- XNvm_EfuseSetupController XNVM_EFUSE_MODE_PGM
                                         XNVM_EFUSE_MARGIN_RD ;;
     when (Status !=? XST_SUCCESS) (goto_END Status) ;;
     Status <- XNvm_EfuseValidateFipsInfo FipsMode FipsVersion ;;
     when (Status !=? XST_SUCCESS)
       (goto_END (Z.lor Status XNVM_EFUSE_ERR_BEFORE_PROGRAMMING)) ;;
     XNvm_EfusePrgmFipsInfo FipsMode FipsVersion).

Definition XNvm_EfuseWriteFipsInfo (EnvDisFlag FipsMode FipsVersion : Z) : M Z :=
  Status <- XNvm_EfuseWriteFipsInfo_body EnvDisFlag FipsMode FipsVersion ;;
  CloseStatus <- XNvm_EfuseCloseController ;;
  ret (if XST_SUCCESS =? Status then CloseStatus else Status).

Definition XNvm_EfuseWriteUds_body (EnvDisFlag : Z) (EfuseUds : ptr) : M Z :=
  END_label
    (match EfuseUds with
     | None => goto_END XNVM_EFUSE_ERR_INVALID_PARAM
     | Some Uds =>
         env_checks_TODO EnvDisFlag ;;
         Status <- XNvm_EfuseSetupController XNVM_EFUSE_MODE_PGM
                                             XNVM_EFUSE_MARGIN_RD ;;
         when (Status !=? XST_SUCCESS) (goto_END Status) ;;
         SecCtrlBits <- XNvm_EfuseReadReg XNVM_EFUSE_CACHE_BASEADDR
                          XNVM_EFUSE_CACHE_SECURITY_CTRL_OFFSET ;;
         when (Z.land SecCtrlBits
                 XNVM_EFUSE_CACHE_SECURITY_CONTROL_UDS_WR_LK_MASK !=? 0)
           (goto_END (Z.lor (Z.lor XNVM_EFUSE_ERR_FUSE_PROTECTED
                                   XNVM_EFUSE_ERR_WRITE_UDS)
                            XNVM_EFUSE_ERR_BEFORE_PROGRAMMING)) ;;
         Status <- XNvm_EfusePgmAndVerifyData
           {| StartRow := XNVM_EFUSE_DICE_UDS_0_TO_63_START_ROW;
              ColStart := XNVM_EFUSE_DICE_UDS_0_TO_63_START_COL_NUM;
              ColEnd := XNVM_EFUSE_DICE_UDS_0_TO_63_END_COL_NUM;
              NumOfRows := XNVM_EFUSE_DICE_UDS_0_TO_63_NUM_OF_ROWS;
              SkipVerify := XNVM_EFUSE_SKIP_VERIFY;
              EfuseType := XNVM_EFUSE_PAGE_0 |} (Some Uds) ;;
         when (Status !=? XST_SUCCESS) (goto_END Status) ;;
         Status <- XNvm_EfusePgmAndVerifyData
           {| StartRow := XNVM_EFUSE_DICE_UDS_64_TO_191_START_ROW;
              ColStart := XNVM_EFUSE_DICE_UDS_64_TO_191_START_COL_NUM;
              ColEnd := XNVM_EFUSE_DICE_UDS_64_TO_191_END_COL_NUM;
              NumOfRows := XNVM_EFUSE_DICE_UDS_64_TO_191_NUM_OF_ROWS;
              SkipVerify := XNVM_EFUSE_SKIP_VERIFY;
              EfuseType := XNVM_EFUSE_PAGE_0 |} (Some (offset_ptr Uds 2)) ;;
         when (Status !=? XST_SUCCESS) (goto_END Status) ;;
         Status <- XNvm_EfusePgmAndVerifyData
           {| StartRow := XNVM_EFUSE_DICE_UDS_192_TO_255_START_ROW;
              ColStart := XNVM_EFUSE_DICE_UDS_192_TO_255_START_COL_NUM;
              ColEnd := XNVM_EFUSE_DICE_UDS_192_TO_255_END_COL_NUM;
              NumOfRows := XNVM_EFUSE_DICE_UDS_192_TO_255_NUM_OF_ROWS;
              SkipVerify := XNVM_EFUSE_SKIP_VERIFY;
              EfuseType := XNVM_EFUSE_PAGE_0 |} (Some (offset_ptr Uds 6)) ;;
         when (Status !=? XST_SUCCESS) (goto_END Status) ;;
         Status <- XNvm_EfusePgmAndVerifyData
           {| StartRow := XNVM_EFUSE_DICE_UDS_256_TO_383_START_ROW;
              ColStart := XNVM_EFUSE_DICE_UDS_256_TO_383_START_COL_NUM;
              ColEnd := XNVM_EFUSE_DICE_UDS_256_TO_383_END_COL_NUM;
              NumOfRows := XNVM_EFUSE_DICE_UDS_256_TO_383_NUM_OF_ROWS;
              SkipVerify := XNVM_EFUSE_SKIP_VERIFY;
              EfuseType := XNVM_EFUSE_PAGE_0 |} (Some (offset_ptr Uds 8)) ;;
         when (Status !=? XST_SUCCESS) (goto_END Status) ;;
         Status <- XNvm_EfuseCacheLoadNPrgmProtectionBits ;;
         when (Status !=? XST_SUCCESS)
           (goto_END (Z.lor Status XNVM_EFUSE_ERR_WRITE_UDS)) ;;
         (* [u32 Crc] takes the [int] the CRC function returns *)
         let Crc := u32 (XNvm_UdsCrcCalc Uds) in
         Status <- XNvm_EfuseCheckAesKeyCrc XNVM_EFUSE_CTRL_UDS_DICE_CRC_OFFSET
                     XNVM_EFUSE_CTRL_STATUS_UDS_DICE_CRC_DONE_MASK
                     XNVM_EFUSE_CTRL_STATUS_UDS_DICE_CRC_PASS_MASK Crc ;;
         if Status !=? XST_SUCCESS
         then ret (Z.lor Status XNVM_EFUSE_ERR_WRITE_UDS)
         else ret Status
     end).

Definition XNvm_EfuseWriteUds (EnvDisFlag : Z) (EfuseUds : ptr) : M Z :=
  Status <- XNvm_EfuseWriteUds_body EnvDisFlag EfuseUds ;;
  CloseStatus <- XNvm_EfuseCloseController ;;
  ret (if XST_SUCCESS =? Status then CloseStatus else Status).

(** The condition of the first [if] of [XNvm_EfuseWriteDmeUserKey], with the
    parentheses of the source. *)
Definition DmeKeyType_rejected (KeyType : Z) : bool :=
  (KeyType !=? XNVM_EFUSE_DME_USER_KEY_0) &&
  (KeyType !=? XNVM_EFUSE_DME_USER_KEY_1) &&
  ((KeyType !=? XNVM_EFUSE_DME_USER_KEY_2) &&
   (KeyType !=? XNVM_EFUSE_DME_USER_KEY_3)).

(** [XNvm_EfuseWriteDmeUserKey] from its second [if] to the label [END]. *)
Definition XNvm_EfuseWriteDmeUserKey_checked (KeyType : Z) (EfuseKey : ptr)
  : M Z :=
  match EfuseKey with
  | None => goto_END XNVM_EFUSE_ERR_INVALID_PARAM
  | Some Key =>
      r <- XNvm_EfuseReadReg XNVM_EFUSE_CACHE_BASEADDR
                             XNVM_EFUSE_CACHE_DME_FIPS_OFFSET ;;
      let DmeModeCacheVal :=
        Z.land r XNVM_EFUSE_CACHE_DME_FIPS_DME_MODE_MASK in
      when (DmeModeCacheVal !=? 0)
        (goto_END (Z.lor XNVM_EFUSE_ERR_DME_MODE_SET
                         XNVM_EFUSE_ERR_BEFORE_PROGRAMMING)) ;;
      Status <- XNvm_EfuseSetupController XNVM_EFUSE_MODE_PGM
                                          XNVM_EFUSE_MARGIN_RD ;;
      when (Status !=? XST_SUCCESS) (goto_END Status) ;;
      XNvm_EfusePrgmDmeUserKey KeyType Key
  end.

Definition XNvm_EfuseWriteDmeUserKey_body (KeyType : Z) (EfuseKey : ptr) : M Z :=
  END_label
    (when (DmeKeyType_rejected KeyType)
       (goto_END XNVM_EFUSE_ERR_INVALID_PARAM) ;;
     XNvm_EfuseWriteDmeUserKey_checked KeyType EfuseKey).

Definition XNvm_EfuseWriteDmeUserKey (KeyType : Z) (EfuseKey : ptr) : M Z :=
  Status <- XNvm_EfuseWriteDmeUserKey_body KeyType EfuseKey ;;
  CloseStatus <- XNvm_EfuseCloseController ;;
  ret (if XST_SUCCESS =? Status then CloseStatus else Status).

Definition XNvm_EfuseWriteDmeRevoke_body (EnvDisFlag RevokeNum : Z) : M Z :=
  END_label
    (when ((RevokeNum !=? XNVM_EFUSE_DME_REVOKE_0) &&
           (RevokeNum !=? XNVM_EFUSE_DME_REVOKE_1) &&
           (RevokeNum !=? XNVM_EFUSE_DME_REVOKE_2) &&
           (RevokeNum !=? XNVM_EFUSE_DME_REVOKE_3))
       (goto_END XNVM_EFUSE_ERR_INVALID_PARAM) ;;
     env_checks_TODO EnvDisFlag ;;
     Status <- XNvm_EfuseSetupController XNVM_EFUSE_MODE_PGM
                                         XNVM_EFUSE_MARGIN_RD ;;
     when (Status !=? XST_SUCCESS) (goto_END Status) ;;
     '(Row, Col_0_Num, Col_1_Num) <-
       (if RevokeNum =? XNVM_EFUSE_DME_REVOKE_0 then
          ret (XNVM_EFUSE_DME_REVOKE_0_AND_1_ROW,
               XNVM_EFUSE_DME_REVOKE_0_0_COL_NUM,
               XNVM_EFUSE_DME_REVOKE_0_1_COL_NUM)
        else if RevokeNum =? XNVM_EFUSE_DME_REVOKE_1 then
          ret (XNVM_EFUSE_DME_REVOKE_0_AND_1_ROW,
               XNVM_EFUSE_DME_REVOKE_1_0_COL_NUM,
               XNVM_EFUSE_DME_REVOKE_1_1_COL_NUM)
        else if RevokeNum =? XNVM_EFUSE_DME_REVOKE_2 then
          ret (XNVM_EFUSE_DME_REVOKE_2_AND_3_ROW,
               XNVM_EFUSE_DME_REVOKE_2_0_COL_NUM,
               XNVM_EFUSE_DME_REVOKE_2_1_COL_NUM)
        else if RevokeNum =? XNVM_EFUSE_DME_REVOKE_3 then
          ret (XNVM_EFUSE_DME_REVOKE_2_AND_3_ROW,
               XNVM_EFUSE_DME_REVOKE_3_0_COL_NUM,
               XNVM_EFUSE_DME_REVOKE_3_1_COL_NUM)
        else goto_END XNVM_EFUSE_ERR_INVALID_PARAM) ;;
     Status <- XNvm_EfusePgmAndVerifyBit XNVM_EFUSE_PAGE_0 Row Col_0_Num
                 XNVM_EFUSE_PROGRAM_VERIFY ;;
     when (Status !=? XST_SUCCESS)
       (goto_END (Z.lor Status
                    (XNVM_EFUSE_ERR_WRITE_DME_REVOKE_0 +
                     Z.shiftl RevokeNum XNVM_EFUSE_ERROR_BYTE_SHIFT))) ;;
     Status <- XNvm_EfusePgmAndVerifyBit XNVM_EFUSE_PAGE_0 Row Col_1_Num
                 XNVM_EFUSE_PROGRAM_VERIFY ;;
     if Status !=? XST_SUCCESS
     then ret (Z.lor Status
                 (XNVM_EFUSE_ERR_WRITE_DME_REVOKE_0 +
                  Z.shiftl RevokeNum XNVM_EFUSE_ERROR_BYTE_SHIFT))
     else ret Status).

Definition XNvm_EfuseWriteDmeRevoke (EnvDisFlag RevokeNum : Z) : M Z :=
  Status <- XNvm_EfuseWriteDmeRevoke_body EnvDisFlag RevokeNum ;;
  CloseStatus <- XNvm_EfuseCloseController ;;
  ret (if XST_SUCCESS =? Status then CloseStatus else Status).

Definition XNvm_EfuseWriteDisableInplacePlmUpdate_body (EnvDisFlag : Z) : M Z :=
  END_label
    (env_checks_TODO EnvDisFlag ;;
     Status <- XNvm_EfuseSetupController XNVM_EFUSE_MODE_PGM
                                         XNVM_EFUSE_MARGIN_RD ;;
     when (Status !=? XST_SUCCESS) (goto_END Status) ;;
     Status <- XNvm_EfusePgmAndVerifyBit XNVM_EFUSE_PAGE_0
                 XNVM_EFUSE_DISABLE_PLM_UPDATE_ROW
                 XNVM_EFUSE_DISABLE_PLM_UPDATE_COL_NUM
                 XNVM_EFUSE_PROGRAM_VERIFY ;;
     if Status !=? XST_SUCCESS
     then ret (Z.lor Status XNVM_EFUSE_ERR_WRITE_PLM_UPDATE)
     else ret Status).

Definition XNvm_EfuseWriteDisableInplacePlmUpdate (EnvDisFlag : Z) : M Z :=
  Status <- XNvm_EfuseWriteDisableInplacePlmUpdate_body EnvDisFlag ;;
  CloseStatus <- XNvm_EfuseCloseController ;;
  ret (if XST_SUCCESS =? Status then CloseStatus else Status).

Definition XNvm_EfuseWriteBootModeDisable_body (EnvDisFlag BootModeMask : Z)
  : M Z :=
  END_label
    (env_checks_TODO EnvDisFlag ;;
     Status <- XNvm_EfuseSetupController XNVM_EFUSE_MODE_PGM
                                         XNVM_EFUSE_MARGIN_RD ;;
     when (Status !=? XST_SUCCESS) (goto_END Status) ;;
     let EfusePrgmInfo :=
       {| StartRow := XNVM_EFUSE_BOOT_MODE_START_ROW;
          ColStart := XNVM_EFUSE_BOOT_MODE_START_COL_NUM;
          ColEnd := XNVM_EFUSE_BOOT_MODE_END_COL_NUM;
          NumOfRows := XNVM_EFUSE_BOOT_MODE_NUM_OF_ROWS;
          SkipVerify := 0;
          EfuseType := XNVM_EFUSE_PAGE_0 |} in
     pBootModeMask <- addr_of BootModeMask ;;
     Status <- XNvm_EfusePgmAndVerifyData EfusePrgmInfo (Some pBootModeMask) ;;
     if Status !=? XST_SUCCESS
     then ret (Z.lor Status XNVM_EFUSE_ERR_WRITE_BOOT_MODE_DISABLE)
     else ret Status).

Definition XNvm_EfuseWriteBootModeDisable (EnvDisFlag BootModeMask : Z) : M Z :=
  Status <- XNvm_EfuseWriteBootModeDisable_body EnvDisFlag BootModeMask ;;
  CloseStatus <- XNvm_EfuseCloseController ;;
  ret (if XST_SUCCESS =? Status then CloseStatus else Status).

Definition XNvm_EfuseWriteDmeMode_body (EnvDisFlag DmeMode : Z) : M Z :=
  END_label
    (env_checks_TODO EnvDisFlag ;;
     Status <- XNvm_EfuseSetupController XNVM_EFUSE_MODE_PGM
                                         XNVM_EFUSE_MARGIN_RD ;;
     when (Status !=? XST_SUCCESS) (goto_END Status) ;;
     let EfusePrgmInfo :=
       {| StartRow := XNVM_EFUSE_DME_MODE_START_ROW;
          ColStart := XNVM_EFUSE_DME_MODE_START_COL_NUM;
          ColEnd := XNVM_EFUSE_DME_MODE_END_COL_NUM;
          NumOfRows := XNVM_EFUSE_DME_MODE_NUM_OF_ROWS;
          SkipVerify := 0;
          EfuseType := XNVM_EFUSE_PAGE_0 |} in
     pDmeMode <- addr_of DmeMode ;;
     Status <- XNvm_EfusePgmAndVerifyData EfusePrgmInfo (Some pDmeMode) ;;
     if Status !=? XST_SUCCESS
     then ret (Z.lor Status XNVM_EFUSE_ERR_WRITE_DME_MODE)
     else ret Status).

Definition XNvm_EfuseWriteDmeMode (EnvDisFlag DmeMode : Z) : M Z :=
  Status <- XNvm_EfuseWriteDmeMode_body EnvDisFlag DmeMode ;;
  CloseStatus <- XNvm_EfuseCloseController ;;
  ret (if XST_SUCCESS =? Status then CloseStatus else Status).

(** The fields of [XNvm_EfusePufHdAddr] the driver reads. *)
Record XNvm_EfusePufHdAddr : Type := {
  EnvMonitorDis : Z;
  PrgmPufHelperData : Z;
  EfuseSynData : words;
  Chash : Z;
  Aux : Z;
  RoSwap : Z;
  PufSecCtrlBits : Z
}.

Definition XNvm_EfuseWritePuf_body (PufHelperData : option XNvm_EfusePufHdAddr)
  : M Z :=
  END_label
    (match PufHelperData with
     | None => goto_END XNVM_EFUSE_ERR_INVALID_PARAM
     | Some PufHelperData =>
         Status <- XNvm_EfuseSetupController XNVM_EFUSE_MODE_PGM
                                             XNVM_EFUSE_MARGIN_RD ;;
         when (Status !=? XST_SUCCESS) (goto_END Status) ;;
         PufSecurityCtrlReg <- XNvm_EfuseReadReg XNVM_EFUSE_CACHE_BASEADDR
                                 XNVM_EFUSE_CACHE_PUF_ECC_PUF_CTRL_OFFSET ;;
         when (Z.land PufSecurityCtrlReg
                 (Z.lor XNVM_EFUSE_CACHE_SECURITY_CONTROL_PUF_DIS_MASK
                        XNVM_EFUSE_CACHE_SECURITY_CONTROL_PUF_SYN_LK_MASK)
               !=? 0x0)
           (goto_END (Z.lor XNVM_EFUSE_ERR_FUSE_PROTECTED
                            XNVM_EFUSE_ERR_WRITE_PUF_HELPER_DATA)) ;;
         env_checks_TODO (EnvMonitorDis PufHelperData) ;;
         when (PrgmPufHelperData PufHelperData =? TRUE)
           (Status <- XNvm_EfuseIsPufHelperDataEmpty ;;
            when (Status !=? XST_SUCCESS)
              (goto_END (Z.lor Status XNVM_EFUSE_ERR_BEFORE_PROGRAMMING)) ;;
            Status <- XNvm_EfuseWritePufSynData
                        (Some (EfuseSynData PufHelperData)) ;;
            when (Status !=? XST_SUCCESS)
              (goto_END (Z.lor Status XNVM_EFUSE_ERR_WRITE_PUF_SYN_DATA)) ;;
            Status <- XNvm_EfuseWritePufChash (Chash PufHelperData) ;;
            when (Status !=? XST_SUCCESS)
              (goto_END (Z.lor Status XNVM_EFUSE_ERR_WRITE_PUF_CHASH)) ;;
            Status <- XNvm_EfuseWritePufAux (Aux PufHelperData) ;;
            when (Status !=? XST_SUCCESS)
              (goto_END (Z.lor Status XNVM_EFUSE_ERR_WRITE_PUF_AUX)) ;;
            Status <- XNvm_EfuseWriteRoSwapEn (RoSwap PufHelperData) ;;
            when (Status !=? XST_SUCCESS)
              (goto_END (Z.lor Status XNVM_EFUSE_ERR_WRITE_RO_SWAP))) ;;
         XNvm_EfuseWritePufSecCtrl (PufSecCtrlBits PufHelperData)
     end).

Definition XNvm_EfuseWritePuf (PufHelperData : option XNvm_EfusePufHdAddr)
  : M Z :=
  Status <- XNvm_EfuseWritePuf_body PufHelperData ;;
  CloseStatus <- XNvm_EfuseCloseController ;;
  ret (if XST_SUCCESS =? Status then CloseStatus else Status).

(** *** Vocabulary for the properties *)

(** [m] never enters the close sequence: whatever it appends to the trace
    holds no [Enter_CloseController]. *)
Definition no_close {A} (m : M A) : Prop :=
  forall e t,
    match m e t with
    | Normal _ t' | GotoEND _ t' =>
        exists d, t' = t ++ d /\ close_count d = 0%nat
    | OutOfFuel => True
    end.

(** The close discipline of a write function [f] whose code before the label
    [END] is [body]: a call that returns has run [body] to the label, then
    the close sequence, once, and nothing else; it returns the status of
    [body] unless that is success, in which case it returns the status of
    the close sequence.  A call has an outcome unless [body] has none. *)
Definition closes_once (body f : M Z) : Prop :=
  forall e t,
    match f e t with
    | Normal st t' =>
        exists Status d1 CloseStatus d2,
          body e t = Normal Status (t ++ d1) /\
          XNvm_EfuseCloseController e (t ++ d1)
            = Normal CloseStatus (t ++ d1 ++ d2) /\
          t' = t ++ d1 ++ d2 /\
          close_count d1 = 0%nat /\
          close_count d2 = 1%nat /\
          close_count (d1 ++ d2) = 1%nat /\
          st = (if XST_SUCCESS =? Status then CloseStatus else Status)
    | GotoEND _ _ => False
    | OutOfFuel => body e t = OutOfFuel
    end.

(** Bit [N] of a word stream: bit [N mod 32] of word [N / 32]. *)
Definition stream_bit (D : words) (N : Z) : bool :=
  Z.testbit (D (N / 32)) (N mod 32).

(** The rows and the columns of a program range, and its window: the
    positions row by row, each row from [ColStart] to [ColEnd]. *)
Definition range_rows (info : XNvm_EfusePrgmInfo) : list Z :=
  map (fun i => StartRow info + Z.of_nat i)
      (seq 0 (Z.to_nat (NumOfRows info))).

Definition range_cols (info : XNvm_EfusePrgmInfo) : list Z :=
  map (fun i => ColStart info + Z.of_nat i)
      (seq 0 (Z.to_nat (ColEnd info - ColStart info + 1))).

Definition window (info : XNvm_EfusePrgmInfo) : list (Z * Z) :=
  flat_map (fun r => map (pair r) (range_cols info)) (range_rows info).

(** The single-bit operations a walk starts, given what it visited: one for
    each position whose data bit was set. *)
Definition ops_of (info : XNvm_EfusePrgmInfo) (v : list (Z * Z * bool))
  : list (Z * Z * Z * Z) :=
  map (fun x => (EfuseType info, fst (fst x), snd (fst x), SkipVerify info))
      (filter snd v).

(** Every single-bit operation on a position of the window succeeds,
    whatever happened before. *)
Definition every_bit_succeeds (e : Env) (info : XNvm_EfusePrgmInfo) : Prop :=
  forall t r c,
    StartRow info <= r < StartRow info + NumOfRows info ->
    ColStart info <= c <= ColEnd info ->
    exists t',
      XNvm_EfusePgmAndVerifyBit (EfuseType info) r c (SkipVerify info) e t
        = Normal XST_SUCCESS t'.

(** Well-formed program range: a page of the device, at least one row, rows
    and columns that are 32-bit numbers, columns in order. *)
Definition range_ok (info : XNvm_EfusePrgmInfo) : Prop :=
  (EfuseType info = XNVM_EFUSE_PAGE_0 \/ EfuseType info = XNVM_EFUSE_PAGE_1 \/
   EfuseType info = XNVM_EFUSE_PAGE_2) /\
  0 < NumOfRows info /\
  0 <= StartRow info /\ StartRow info + NumOfRows info < 2 ^ 32 /\
  0 <= ColStart info /\ ColStart info <= ColEnd info /\
  ColEnd info < 2 ^ 32 - 1.

(** The loop variables of the walk agree with the word stream [D] after [n]
    bits have been consumed. *)
Definition stream_inv (D : words) (n : Z) (s : Cursor) : Prop :=
  Idx s = n mod 32 /\ DataPtr s = n / 32 /\
  Data s = Z.shiftr (load D (n / 32)) (n mod 32).

(** The bits recorded in a list of visits are the bits of [D] from bit [n]
    on, in order. *)
Fixpoint bits_ok (D : words) (n : Z) (l : list (Z * Z * bool)) : Prop :=
  match l with
  | [] => True
  | x :: l' => snd x = stream_bit D n /\ bits_ok D (n + 1) l'
  end.

(** The cache-error flag as [XNvm_EfuseComputeProgrammableBits] would see it
    if it read the ISR after history [t]. *)
Definition isr_cache_error (e : Env) (t : Trace) : bool :=
  let IsrStatus :=
    u32 (fst (respond e t (CReadReg XNVM_EFUSE_CTRL_BASEADDR
                                    XNVM_EFUSE_ISR_REG_OFFSET))) in
  Z.land IsrStatus XNVM_EFUSE_ISR_CACHE_ERROR =? XNVM_EFUSE_ISR_CACHE_ERROR.

(** The cache holds [cache]: a read of the cache at an offset returns the
    word stored there, at any time. *)
Definition cache_holds (e : Env) (cache : Z -> Z) : Prop :=
  forall t Offset,
    u32 (fst (respond e t (CReadReg XNVM_EFUSE_CACHE_BASEADDR Offset)))
    = cache Offset.

(** Where the specification puts revocation id [id]: ids up to 128 count
    from the low-range base, larger ids from the high-range base; the row
    moves by [(id-1)/8] and the column by [(id-1)%8]. *)
Definition revoke_id_base (id : Z) : Z * Z :=
  if id <=? 128
  then (XNVM_EFUSE_REVOKE_ID_0_TO_127_START_ROW,
        XNVM_EFUSE_REVOKE_ID_0_TO_127_START_COL_NUM)
  else (XNVM_EFUSE_REVOKE_ID_128_TO_255_START_ROW,
        XNVM_EFUSE_REVOKE_ID_128_TO_255_START_COL_NUM).

Definition revoke_id_position (id : Z) : Z * Z :=
  (fst (revoke_id_base id) + (id - 1) / 8,
   snd (revoke_id_base id) + (id - 1) mod 8).

(** The base rows and columns of the revocation ids leave room for the
    largest offsets without leaving the 32-bit range. *)
Definition revoke_layout_ok : Prop :=
  0 <= XNVM_EFUSE_REVOKE_ID_0_TO_127_START_ROW /\
  XNVM_EFUSE_REVOKE_ID_0_TO_127_START_ROW + 31 < 2 ^ 32 /\
  0 <= XNVM_EFUSE_REVOKE_ID_0_TO_127_START_COL_NUM /\
  XNVM_EFUSE_REVOKE_ID_0_TO_127_START_COL_NUM + 7 < 2 ^ 32 /\
  0 <= XNVM_EFUSE_REVOKE_ID_128_TO_255_START_ROW /\
  XNVM_EFUSE_REVOKE_ID_128_TO_255_START_ROW + 31 < 2 ^ 32 /\
  0 <= XNVM_EFUSE_REVOKE_ID_128_TO_255_START_COL_NUM /\
  XNVM_EFUSE_REVOKE_ID_128_TO_255_START_COL_NUM + 7 < 2 ^ 32.

(** Opening the controller for programming succeeds, whenever asked. *)
Definition setup_succeeds (e : Env) : Prop :=
  forall t,
    fst (respond e t (CSetupController XNVM_EFUSE_MODE_PGM
                                       XNVM_EFUSE_MARGIN_RD))
    = XST_SUCCESS.

(** What a walk over the window of [info] sees when it runs to the end:
    the positions of the window, each with the next bit of the stream. *)
Definition expected_visits (info : XNvm_EfusePrgmInfo) (D : words)
  : list (Z * Z * bool) :=
  combine (window info)
          (map (fun k => stream_bit D (Z.of_nat k))
               (seq 0 (length (window info)))).

(** The memory seen through [&v] in environment [e]. *)
Definition local_word (e : Env) (v : Z) : words :=
  fun i => if i =? 0 then v else stack e i.

(** The program range of the FIPS mode bits, as [XNvm_EfusePrgmFipsInfo]
    sets it up. *)
Definition fips_mode_range : XNvm_EfusePrgmInfo :=
  {| StartRow := XNVM_EFUSE_DME_FIPS_ROW;
     ColStart := XNVM_EFUSE_FIPS_MODE_START_COL_NUM;
     ColEnd := XNVM_EFUSE_FIPS_MODE_END_COL_NUM;
     NumOfRows := XNVM_EFUSE_DME_FIPS_NUM_OF_ROWS;
     SkipVerify := 0;
     EfuseType := XNVM_EFUSE_PAGE_0 |}.

(** The single-bit operations that program the FIPS mode [FipsMode]. *)
Definition fips_mode_ops (e : Env) (FipsMode : Z) : list (Z * Z * Z * Z) :=
  ops_of fips_mode_range
         (expected_visits fips_mode_range (local_word e FipsMode)).

(** The single-bit operation that programs a FIPS version bit. *)
Definition fips_version_op (Col : Z) : Z * Z * Z * Z :=
  (XNVM_EFUSE_PAGE_0, XNVM_EFUSE_IP_DISABLE_ROW, Col,
   XNVM_EFUSE_PROGRAM_VERIFY).

(** One operation for each of the three low bits of the version that is
    set, lowest bit first. *)
Definition fips_version_ops (FipsVersion : Z) : list (Z * Z * Z * Z) :=
  (if Z.testbit FipsVersion 0
   then [fips_version_op XNVM_EFUSE_FIPS_VERSION_COL_0_NUM] else []) ++
  (if Z.testbit FipsVersion 1
   then [fips_version_op XNVM_EFUSE_FIPS_VERSION_COL_1_NUM] else []) ++
  (if Z.testbit FipsVersion 2
   then [fips_version_op XNVM_EFUSE_FIPS_VERSION_COL_2_NUM] else []).

(** The FIPS request passes validation, whenever asked. *)
Definition fips_validation_succeeds (e : Env) : Prop :=
  forall t FipsMode FipsVersion,
    fst (respond e t (CValidateFipsInfo FipsMode FipsVersion)) = XST_SUCCESS.

(** Programming a FIPS version bit succeeds, whatever happened before. *)
Definition fips_version_bits_succeed (e : Env) : Prop :=
  forall t Col,
    Col = XNVM_EFUSE_FIPS_VERSION_COL_0_NUM \/
    Col = XNVM_EFUSE_FIPS_VERSION_COL_1_NUM \/
    Col = XNVM_EFUSE_FIPS_VERSION_COL_2_NUM ->
    exists t',
      XNvm_EfusePgmAndVerifyBit XNVM_EFUSE_PAGE_0 XNVM_EFUSE_IP_DISABLE_ROW
        Col XNVM_EFUSE_PROGRAM_VERIFY e t
      = Normal XST_SUCCESS t'.

(** Cooperative hardware.  A program pulse completes in time and without
    the error event; a read completes in time with the read-done event and
    the row read back has every bit set. *)
Definition programs_promptly (e : Env) : Prop :=
  forall t,
    let w :=
      respond e t
        (CWaitForEvents (XNVM_EFUSE_CTRL_BASEADDR + XNVM_EFUSE_ISR_REG_OFFSET)
           (Z.lor XNVM_EFUSE_ISR_PGM_DONE XNVM_EFUSE_ISR_PGM_ERROR)
           (Z.lor XNVM_EFUSE_ISR_PGM_DONE XNVM_EFUSE_ISR_PGM_ERROR)
           XNVM_EFUSE_PGM_TIMEOUT_VAL) in
    fst w = XST_SUCCESS /\
    Z.land (u32 (snd w)) XNVM_EFUSE_ISR_PGM_ERROR <> XNVM_EFUSE_ISR_PGM_ERROR.

Definition reads_back_set (e : Env) : Prop :=
  forall t,
    let w :=
      respond e t
        (CWaitForEvents (XNVM_EFUSE_CTRL_BASEADDR + XNVM_EFUSE_ISR_REG_OFFSET)
           XNVM_EFUSE_ISR_RD_DONE XNVM_EFUSE_ISR_RD_DONE
           XNVM_EFUSE_RD_TIMEOUT_VAL) in
    fst w = XST_SUCCESS /\
    Z.land (u32 (snd w)) XNVM_EFUSE_ISR_RD_DONE = XNVM_EFUSE_ISR_RD_DONE /\
    u32 (fst (respond e t (CReadReg XNVM_EFUSE_CTRL_BASEADDR
                                    XNVM_EFUSE_RD_DATA_REG_OFFSET)))
    = 0xFFFFFFFF.

(** A computation returns: with the iteration budget above [2^32] it ends
    normally, neither without an outcome nor through a stray jump. *)
Definition always_returns {A} (m : M A) : Prop :=
  forall e t, 2 ^ 32 < Z.of_nat (fuel e) -> exists a t', m e t = Normal a t'.

(** A computation ends: it has an outcome.  It may still leave through a
    jump to [END], which the label catches. *)
Definition ends {A} (m : M A) : Prop :=
  forall e t, 2 ^ 32 < Z.of_nat (fuel e) -> m e t <> OutOfFuel.

(** The row and column numbers of the layout. *)
Definition layout_numbers : list Z :=
  [
   XNVM_EFUSE_AES_KEY_0_TO_127_COL_END_NUM;
   XNVM_EFUSE_AES_KEY_0_TO_127_COL_START_NUM;
   XNVM_EFUSE_AES_KEY_0_TO_127_NUM_OF_ROWS;
   XNVM_EFUSE_AES_KEY_0_TO_127_START_ROW;
   XNVM_EFUSE_AES_KEY_128_TO_255_COL_END_NUM;
   XNVM_EFUSE_AES_KEY_128_TO_255_COL_START_NUM;
   XNVM_EFUSE_AES_KEY_128_TO_255_NUM_OF_ROWS;
   XNVM_EFUSE_AES_KEY_128_TO_255_START_ROW;
   XNVM_EFUSE_ANLG_TRIM_3_START_ROW;
   XNVM_EFUSE_BLACK_IV_END_COL_NUM;
   XNVM_EFUSE_BLACK_IV_NUM_OF_ROWS;
   XNVM_EFUSE_BLACK_IV_START_COL_NUM;
   XNVM_EFUSE_BLACK_IV_START_ROW;
   XNVM_EFUSE_BOOT_ENV_CTRL_END_COL_NUM;
   XNVM_EFUSE_BOOT_ENV_CTRL_NUM_OF_ROWS;
   XNVM_EFUSE_BOOT_ENV_CTRL_START_COL_NUM;
   XNVM_EFUSE_BOOT_ENV_CTRL_START_ROW;
   XNVM_EFUSE_BOOT_MODE_END_COL_NUM;
   XNVM_EFUSE_BOOT_MODE_NUM_OF_ROWS;
   XNVM_EFUSE_BOOT_MODE_START_COL_NUM;
   XNVM_EFUSE_BOOT_MODE_START_ROW;
   XNVM_EFUSE_DATA_PARTITION_IV_END_COL_NUM;
   XNVM_EFUSE_DATA_PARTITION_IV_NUM_OF_ROWS;
   XNVM_EFUSE_DATA_PARTITION_IV_START_COL_NUM;
   XNVM_EFUSE_DATA_PARTITION_IV_START_ROW;
   XNVM_EFUSE_DEC_ONLY_END_COL_NUM;
   XNVM_EFUSE_DEC_ONLY_NUM_OF_ROWS;
   XNVM_EFUSE_DEC_ONLY_START_COL_NUM;
   XNVM_EFUSE_DICE_UDS_0_TO_63_END_COL_NUM;
   XNVM_EFUSE_DICE_UDS_0_TO_63_NUM_OF_ROWS;
   XNVM_EFUSE_DICE_UDS_0_TO_63_START_COL_NUM;
   XNVM_EFUSE_DICE_UDS_0_TO_63_START_ROW;
   XNVM_EFUSE_DICE_UDS_192_TO_255_END_COL_NUM;
   XNVM_EFUSE_DICE_UDS_192_TO_255_NUM_OF_ROWS;
   XNVM_EFUSE_DICE_UDS_192_TO_255_START_COL_NUM;
   XNVM_EFUSE_DICE_UDS_192_TO_255_START_ROW;
   XNVM_EFUSE_DICE_UDS_256_TO_383_END_COL_NUM;
   XNVM_EFUSE_DICE_UDS_256_TO_383_NUM_OF_ROWS;
   XNVM_EFUSE_DICE_UDS_256_TO_383_START_COL_NUM;
   XNVM_EFUSE_DICE_UDS_256_TO_383_START_ROW;
   XNVM_EFUSE_DICE_UDS_64_TO_191_END_COL_NUM;
   XNVM_EFUSE_DICE_UDS_64_TO_191_NUM_OF_ROWS;
   XNVM_EFUSE_DICE_UDS_64_TO_191_START_COL_NUM;
   XNVM_EFUSE_DICE_UDS_64_TO_191_START_ROW;
   XNVM_EFUSE_DISABLE_PLM_UPDATE_COL_NUM;
   XNVM_EFUSE_DISABLE_PLM_UPDATE_ROW;
   XNVM_EFUSE_DME_FIPS_NUM_OF_ROWS;
   XNVM_EFUSE_DME_FIPS_ROW;
   XNVM_EFUSE_DME_MODE_END_COL_NUM;
   XNVM_EFUSE_DME_MODE_NUM_OF_ROWS;
   XNVM_EFUSE_DME_MODE_START_COL_NUM;
   XNVM_EFUSE_DME_MODE_START_ROW;
   XNVM_EFUSE_DME_REVOKE_0_0_COL_NUM;
   XNVM_EFUSE_DME_REVOKE_0_1_COL_NUM;
   XNVM_EFUSE_DME_REVOKE_0_AND_1_ROW;
   XNVM_EFUSE_DME_REVOKE_1_0_COL_NUM;
   XNVM_EFUSE_DME_REVOKE_1_1_COL_NUM;
   XNVM_EFUSE_DME_REVOKE_2_0_COL_NUM;
   XNVM_EFUSE_DME_REVOKE_2_1_COL_NUM;
   XNVM_EFUSE_DME_REVOKE_2_AND_3_ROW;
   XNVM_EFUSE_DME_REVOKE_3_0_COL_NUM;
   XNVM_EFUSE_DME_REVOKE_3_1_COL_NUM;
   XNVM_EFUSE_DME_USER_KEY_0_END_COL_NUM;
   XNVM_EFUSE_DME_USER_KEY_0_START_COL_NUM;
   XNVM_EFUSE_DME_USER_KEY_0_START_ROW;
   XNVM_EFUSE_DME_USER_KEY_1_END_COL_NUM;
   XNVM_EFUSE_DME_USER_KEY_1_START_COL_NUM;
   XNVM_EFUSE_DME_USER_KEY_1_START_ROW;
   XNVM_EFUSE_DME_USER_KEY_2_END_COL_NUM;
   XNVM_EFUSE_DME_USER_KEY_2_START_COL_NUM;
   XNVM_EFUSE_DME_USER_KEY_2_START_ROW;
   XNVM_EFUSE_DME_USER_KEY_3_END_COL_NUM;
   XNVM_EFUSE_DME_USER_KEY_3_START_COL_NUM;
   XNVM_EFUSE_DME_USER_KEY_3_START_ROW;
   XNVM_EFUSE_DME_USER_KEY_NUM_OF_ROWS;
   XNVM_EFUSE_FIPS_MODE_END_COL_NUM;
   XNVM_EFUSE_FIPS_MODE_START_COL_NUM;
   XNVM_EFUSE_FIPS_VERSION_COL_0_NUM;
   XNVM_EFUSE_FIPS_VERSION_COL_1_NUM;
   XNVM_EFUSE_FIPS_VERSION_COL_2_NUM;
   XNVM_EFUSE_GLITCH_DET_CONFIG_END_COL_NUM;
   XNVM_EFUSE_GLITCH_DET_CONFIG_NUM_OF_ROWS;
   XNVM_EFUSE_GLITCH_DET_CONFIG_START_COL_NUM;
   XNVM_EFUSE_GLITCH_DET_WR_LK_COL_NUM;
   XNVM_EFUSE_GLITCH_DET_WR_LK_ROW;
   XNVM_EFUSE_IP_DISABLE_ROW;
   XNVM_EFUSE_METAHEADER_IV_NUM_OF_ROWS;
   XNVM_EFUSE_METAHEADER_IV_RANGE_END_COL_NUM;
   XNVM_EFUSE_METAHEADER_IV_RANGE_START_COL_NUM;
   XNVM_EFUSE_META_HEADER_IV_START_ROW;
   XNVM_EFUSE_MISC_CTRL_END_COL_NUM;
   XNVM_EFUSE_MISC_CTRL_NUM_OF_ROWS;
   XNVM_EFUSE_MISC_CTRL_START_COL_NUM;
   XNVM_EFUSE_MISC_CTRL_START_ROW;
   XNVM_EFUSE_OFFCHIP_REVOKE_ID_START_ROW;
   XNVM_EFUSE_PAGE_0_PUF_SYN_DATA_NUM_OF_ROWS;
   XNVM_EFUSE_PAGE_0_PUF_SYN_DATA_ROW;
   XNVM_EFUSE_PAGE_1_PUF_SYN_DATA_NUM_OF_ROWS;
   XNVM_EFUSE_PAGE_1_PUF_SYN_DATA_ROW;
   XNVM_EFUSE_PLM_IV_NUM_OF_ROWS;
   XNVM_EFUSE_PLM_IV_RANGE_END_COL_NUM;
   XNVM_EFUSE_PLM_IV_RANGE_START_COL_NUM;
   XNVM_EFUSE_PLM_IV_START_ROW;
   XNVM_EFUSE_PPK0_HASH_END_COL_NUM;
   XNVM_EFUSE_PPK0_HASH_START_COL_NUM;
   XNVM_EFUSE_PPK0_HASH_START_ROW;
   XNVM_EFUSE_PPK1_HASH_END_COL_NUM;
   XNVM_EFUSE_PPK1_HASH_START_COL_NUM;
   XNVM_EFUSE_PPK1_HASH_START_ROW;
   XNVM_EFUSE_PPK2_HASH_END_COL_NUM;
   XNVM_EFUSE_PPK2_HASH_START_COL_NUM;
   XNVM_EFUSE_PPK2_HASH_START_ROW;
   XNVM_EFUSE_PPK_HASH_NUM_OF_ROWS;
   XNVM_EFUSE_PUF_AUX_END_COL_NUM;
   XNVM_EFUSE_PUF_AUX_NUM_OF_ROWS;
   XNVM_EFUSE_PUF_AUX_ROW;
   XNVM_EFUSE_PUF_AUX_START_COL_NUM;
   XNVM_EFUSE_PUF_CHASH_END_COL_NUM;
   XNVM_EFUSE_PUF_CHASH_NUM_OF_ROWS;
   XNVM_EFUSE_PUF_CHASH_ROW;
   XNVM_EFUSE_PUF_CHASH_START_COL_NUM;
   XNVM_EFUSE_PUF_HD_INVLD_COL_NUM;
   XNVM_EFUSE_PUF_REGEN_DIS_COL_NUM;
   XNVM_EFUSE_PUF_REGIS_DIS_COL_NUM;
   XNVM_EFUSE_PUF_RO_SWAP_EN_END_COL_NUM;
   XNVM_EFUSE_PUF_RO_SWAP_EN_ROW;
   XNVM_EFUSE_PUF_RO_SWAP_EN_START_COL_NUM;
   XNVM_EFUSE_PUF_RO_SWAP_NUM_OF_ROWS;
   XNVM_EFUSE_PUF_SYN_DATA_END_COL_NUM;
   XNVM_EFUSE_PUF_SYN_DATA_NUM_OF_ROWS;
   XNVM_EFUSE_PUF_SYN_DATA_START_COL_NUM;
   XNVM_EFUSE_REVOKE_ID_0_TO_127_START_COL_NUM;
   XNVM_EFUSE_REVOKE_ID_0_TO_127_START_ROW;
   XNVM_EFUSE_REVOKE_ID_128_TO_255_START_COL_NUM;
   XNVM_EFUSE_REVOKE_ID_128_TO_255_START_ROW;
   XNVM_EFUSE_SECURITY_MISC1_END_COL_NUM;
   XNVM_EFUSE_SECURITY_MISC1_NUM_OF_ROWS;
   XNVM_EFUSE_SECURITY_MISC1_START_COL_NUM;
   XNVM_EFUSE_SECURITY_MISC1_START_ROW;
   XNVM_EFUSE_SECURITY_MISC_0_START_ROW;
   XNVM_EFUSE_SEC_CTRL_END_COL_NUM;
   XNVM_EFUSE_SEC_CTRL_NUM_OF_ROWS;
   XNVM_EFUSE_SEC_CTRL_START_COL_NUM;
   XNVM_EFUSE_SEC_CTRL_START_ROW;
   XNVM_EFUSE_USER_KEY0_0_TO_63_COL_END_NUM;
   XNVM_EFUSE_USER_KEY0_0_TO_63_COL_START_NUM;
   XNVM_EFUSE_USER_KEY0_0_TO_63_NUM_OF_ROWS;
   XNVM_EFUSE_USER_KEY0_0_TO_63_START_ROW;
   XNVM_EFUSE_USER_KEY0_192_TO_255_COL_END_NUM;
   XNVM_EFUSE_USER_KEY0_192_TO_255_COL_START_NUM;
   XNVM_EFUSE_USER_KEY0_192_TO_255_NUM_OF_ROWS;
   XNVM_EFUSE_USER_KEY0_192_TO_255_START_ROW;
   XNVM_EFUSE_USER_KEY0_64_TO_191_COL_END_NUM;
   XNVM_EFUSE_USER_KEY0_64_TO_191_COL_START_NUM;
   XNVM_EFUSE_USER_KEY0_64_TO_191_NUM_OF_ROWS;
   XNVM_EFUSE_USER_KEY0_64_TO_191_START_ROW;
   XNVM_EFUSE_USER_KEY1_0_TO_63_END_COL_NUM;
   XNVM_EFUSE_USER_KEY1_0_TO_63_NUM_OF_ROWS;
   XNVM_EFUSE_USER_KEY1_0_TO_63_START_COL_NUM;
   XNVM_EFUSE_USER_KEY1_0_TO_63_START_ROW;
   XNVM_EFUSE_USER_KEY1_128_TO_255_END_COL_NUM;
   XNVM_EFUSE_USER_KEY1_128_TO_255_NUM_OF_ROWS;
   XNVM_EFUSE_USER_KEY1_128_TO_255_START_COL_NUM;
   XNVM_EFUSE_USER_KEY1_128_TO_255_START_ROW;
   XNVM_EFUSE_USER_KEY1_64_TO_127_END_COL_NUM;
   XNVM_EFUSE_USER_KEY1_64_TO_127_NUM_OF_ROWS;
   XNVM_EFUSE_USER_KEY1_64_TO_127_START_COL_NUM;
   XNVM_EFUSE_USER_KEY1_64_TO_127_START_ROW
  ].

(** The cache offsets the programmable-bits calculator is called with: those
    of the one-word fields, and those of the IVs. *)
Definition cache_offsets : list Z :=
  [XNVM_EFUSE_CACHE_ANLG_TRIM_3_OFFSET;
   XNVM_EFUSE_CACHE_MISC_CTRL_CACHE_OFFSET;
   XNVM_EFUSE_CACHE_SECURITY_CTRL_OFFSET;
   XNVM_EFUSE_CACHE_SEC_MISC_1_OFFSET;
   XNVM_EFUSE_CACHE_BOOT_ENV_CTRL_OFFSET].

Definition iv_cache_offsets : list Z :=
  [XNVM_EFUSE_CACHE_METAHEADER_IV_RANGE_OFFSET;
   XNVM_EFUSE_CACHE_BLACK_IV_OFFSET;
   XNVM_EFUSE_CACHE_PLM_IV_RANGE_OFFSET;
   XNVM_EFUSE_CACHE_DATA_PARTITION_IV_OFFSET].

(** The parameters are sane: row and column numbers are 32-bit numbers
    other than [0xFFFFFFFF], a word has a positive length, and the cache
    windows end at least one word below [2^32]. *)
Definition layout_in_range : Prop :=
  Forall (fun c => 0 <= c < 2 ^ 32 - 1) layout_numbers /\
  0 < XNVM_WORD_LEN /\
  Forall (fun o => 0 <= o /\ o + XNVM_WORD_LEN < 2 ^ 32) cache_offsets /\
  Forall (fun o =>
            0 <= o /\
            u32_add o (u32_mul XNVM_EFUSE_IV_NUM_OF_CACHE_ROWS XNVM_WORD_LEN)
            + XNVM_WORD_LEN < 2 ^ 32)
         iv_cache_offsets.

(** The discipline of a public write function [f] with code [body] before
    [END]: it closes once, and on sane parameters it returns. *)
Definition write_discipline (body f : M Z) : Prop :=
  closes_once body f /\ (layout_in_range -> always_returns f).

(** ** Vocabulary of further properties *)

(** The status codes of the bit primitives other than success are failures. *)
Definition bit_errors_are_failures : Prop :=
  XNVM_EFUSE_ERR_PGM_TIMEOUT <> XST_SUCCESS /\
  XNVM_EFUSE_ERR_PGM <> XST_SUCCESS /\
  XNVM_EFUSE_ERR_RD_TIMEOUT <> XST_SUCCESS /\
  XNVM_EFUSE_ERR_PGM_VERIFY <> XST_SUCCESS /\
  XST_FAILURE <> XST_SUCCESS.

(** The single-bit operation a range walk starts at a position. *)
Definition bit_op (info : XNvm_EfusePrgmInfo) (r c : Z) : M Z :=
  XNvm_EfusePgmAndVerifyBit (EfuseType info) r c (SkipVerify info).

(** What a walk started at history [t] leaves behind when it stops early
    with status [st] and history [t']: a single-bit operation that returned
    [st], not success, and nothing after it. *)
Definition stopped_by (e : Env) (info : XNvm_EfusePrgmInfo) (t : Trace)
  (st : Z) (t' : Trace) : Prop :=
  exists d0 r c, bit_op info r c e (t ++ d0) = Normal st t' /\
                 st <> XST_SUCCESS.

(** The single-bit operations started in a piece of trace [d] that follows
    the history [t], in order, each with the status it returned: (page,
    row, column, skip-verify, status).  The status is that of the operation
    run from the history at its mark. *)
Fixpoint bit_results (e : Env) (t d : Trace) : list (Z * Z * Z * Z * Z) :=
  match d with
  | [] => []
  | ev :: d' =>
      match ev with
      | Ghost (Enter_PgmAndVerifyBit p r c s) =>
          match XNvm_EfusePgmAndVerifyBit p r c s e t with
          | Normal st _ => [(p, r, c, s, st)]
          | _ => []
          end
      | _ => []
      end ++ bit_results e (t ++ [ev]) d'
  end.

(** Every operation of a list of results returned success. *)
Definition all_succeeded (rs : list (Z * Z * Z * Z * Z)) : Prop :=
  Forall (fun x => snd x = XST_SUCCESS) rs.

(** What a loop of the range walk leaves when it is left through [goto END]
    with status [st]: operations that succeeded, then one that returned
    [st], not success, and nothing after it. *)
Definition failed_last (e : Env) (info : XNvm_EfusePrgmInfo) (t : Trace)
  (st : Z) (t' : Trace) : Prop :=
  exists d0 r c dop,
    t' = t ++ d0 ++ dop /\
    all_succeeded (bit_results e t d0) /\
    bit_op info r c e (t ++ d0) = Normal st (t ++ d0 ++ dop) /\
    bit_results e (t ++ d0) dop
    = [(EfuseType info, r, c, SkipVerify info, st)] /\
    st <> XST_SUCCESS.

(** A position of row [r0] between two columns, and a position of the
    window of a program range as the code bounds it. *)
Definition in_row (lo hi r0 : Z) (p : Z * Z) : Prop :=
  fst p = r0 /\ lo <= snd p <= hi.

Definition in_window (info : XNvm_EfusePrgmInfo) (p : Z * Z) : Prop :=
  StartRow info <= fst p < u32_add (StartRow info) (NumOfRows info) /\
  ColStart info <= snd p <= ColEnd info.

(** The calls that leave the driver, in order. *)
Definition calls_of (t : Trace) : list Call :=
  flat_map (fun ev => match ev with Ext c _ => [c] | Ghost _ => [] end) t.

(** [d] starts no single-bit operation before a call that opens the
    controller for programming has returned success. *)
Fixpoint opened_first (d : Trace) : bool :=
  match d with
  | [] => true
  | Ext (CSetupController Op RdMode) r :: d' =>
      if (Op =? XNVM_EFUSE_MODE_PGM) && (RdMode =? XNVM_EFUSE_MARGIN_RD) &&
         (fst r =? XST_SUCCESS)
      then true else opened_first d'
  | Ghost (Enter_PgmAndVerifyBit _ _ _ _) :: _ => false
  | _ :: d' => opened_first d'
  end.

(** [m] starts no single-bit operation; [m] only adds to the trace; what
    [m] adds to the trace has the controller opened first. *)
Definition quiet {A} (m : M A) : Prop :=
  forall e t,
    match m e t with
    | Normal _ t' | GotoEND _ t' => exists d, t' = t ++ d /\ pgm_ops d = []
    | OutOfFuel => True
    end.

Definition grows {A} (m : M A) : Prop :=
  forall e t,
    match m e t with
    | Normal _ t' | GotoEND _ t' => exists d, t' = t ++ d
    | OutOfFuel => True
    end.

Definition guarded {A} (m : M A) : Prop :=
  forall e t,
    match m e t with
    | Normal _ t' | GotoEND _ t' =>
        exists d, t' = t ++ d /\ opened_first d = true
    | OutOfFuel => True
    end.

(** A call of [f] that returns has programmed nothing before opening the
    controller for programming with success. *)
Definition programs_only_when_open (f : M Z) : Prop :=
  forall e t Status t',
    f e t = Normal Status t' ->
    exists d, t' = t ++ d /\ opened_first d = true.

(** A call of [f] is refused: it returns the invalid-parameter code without
    opening the controller and without programming anything. *)
Definition refused (f : M Z) : Prop :=
  forall e t,
    exists d, f e t = Normal XNVM_EFUSE_ERR_INVALID_PARAM (t ++ d) /\
              pgm_ops d = [] /\ setup_count d = 0%nat.

(** The way of a write function [f] with a validation step [validate] to its
    programming code.  A request that is not [accepted] is refused.  For an
    accepted one the controller is opened; when that fails its status is
    returned, and when the validation that follows fails, its status tagged
    as an error before programming; in both cases nothing is programmed. *)
Definition validates_before_programming (accepted : Prop) (validate : Call)
  (f : M Z) : Prop :=
  (~ accepted -> refused f) /\
  (accepted ->
   forall e t,
     let setup := CSetupController XNVM_EFUSE_MODE_PGM XNVM_EFUSE_MARGIN_RD in
     let r1 := respond e t setup in
     let r2 := respond e (t ++ [Ext setup r1]) validate in
     (fst r1 <> XST_SUCCESS ->
      exists d, f e t = Normal (fst r1) (t ++ d) /\ pgm_ops d = []) /\
     (fst r1 = XST_SUCCESS -> fst r2 <> XST_SUCCESS ->
      exists d,
        f e t = Normal (Z.lor (fst r2) XNVM_EFUSE_ERR_BEFORE_PROGRAMMING)
                       (t ++ d) /\
        pgm_ops d = [])).

(** The single-bit operations [XNvm_EfuseWritePufSecCtrl] is asked for: one
    for each of the three low bits of its argument that is set, lowest bit
    first. *)
Definition puf_sec_ctrl_op (Col : Z) : Z * Z * Z * Z :=
  (XNVM_EFUSE_PAGE_0, XNVM_EFUSE_PUF_AUX_ROW, Col, XNVM_EFUSE_PROGRAM_VERIFY).

Definition puf_sec_ctrl_ops (PufSecCtrlBits : Z) : list (Z * Z * Z * Z) :=
  (if Z.testbit PufSecCtrlBits 0
   then [puf_sec_ctrl_op XNVM_EFUSE_PUF_REGIS_DIS_COL_NUM] else []) ++
  (if Z.testbit PufSecCtrlBits 1
   then [puf_sec_ctrl_op XNVM_EFUSE_PUF_HD_INVLD_COL_NUM] else []) ++
  (if Z.testbit PufSecCtrlBits 2
   then [puf_sec_ctrl_op XNVM_EFUSE_PUF_REGEN_DIS_COL_NUM] else []).

(** Where [XNvm_EfuseWriteOffChipRevokeID] puts id [id]: 32 ids to a row,
    from the start row of the off-chip revocation ids. *)
Definition offchip_revoke_position (id : Z) : Z * Z :=
  (XNVM_EFUSE_OFFCHIP_REVOKE_ID_START_ROW + (id - 1) / 32, (id - 1) mod 32).

(** The row and the two columns of a DME revoke number, as
    [XNvm_EfuseWriteDmeRevoke] selects them. *)
Definition dme_revoke_bits (RevokeNum : Z) : option (Z * Z * Z) :=
  if RevokeNum =? XNVM_EFUSE_DME_REVOKE_0 then
    Some (XNVM_EFUSE_DME_REVOKE_0_AND_1_ROW,
          XNVM_EFUSE_DME_REVOKE_0_0_COL_NUM, XNVM_EFUSE_DME_REVOKE_0_1_COL_NUM)
  else if RevokeNum =? XNVM_EFUSE_DME_REVOKE_1 then
    Some (XNVM_EFUSE_DME_REVOKE_0_AND_1_ROW,
          XNVM_EFUSE_DME_REVOKE_1_0_COL_NUM, XNVM_EFUSE_DME_REVOKE_1_1_COL_NUM)
  else if RevokeNum =? XNVM_EFUSE_DME_REVOKE_2 then
    Some (XNVM_EFUSE_DME_REVOKE_2_AND_3_ROW,
          XNVM_EFUSE_DME_REVOKE_2_0_COL_NUM, XNVM_EFUSE_DME_REVOKE_2_1_COL_NUM)
  else if RevokeNum =? XNVM_EFUSE_DME_REVOKE_3 then
    Some (XNVM_EFUSE_DME_REVOKE_2_AND_3_ROW,
          XNVM_EFUSE_DME_REVOKE_3_0_COL_NUM, XNVM_EFUSE_DME_REVOKE_3_1_COL_NUM)
  else None.

(** The program ranges of the four words of control bits, as their write
    functions set them up. *)
Definition misc_ctrl_range : XNvm_EfusePrgmInfo :=
  {| StartRow := XNVM_EFUSE_MISC_CTRL_START_ROW;
     ColStart := XNVM_EFUSE_MISC_CTRL_START_COL_NUM;
     ColEnd := XNVM_EFUSE_MISC_CTRL_END_COL_NUM;
     NumOfRows := XNVM_EFUSE_MISC_CTRL_NUM_OF_ROWS;
     SkipVerify := XNVM_EFUSE_PROGRAM_VERIFY;
     EfuseType := XNVM_EFUSE_PAGE_0 |}.

Definition sec_ctrl_range : XNvm_EfusePrgmInfo :=
  {| StartRow := XNVM_EFUSE_SEC_CTRL_START_ROW;
     ColStart := XNVM_EFUSE_SEC_CTRL_START_COL_NUM;
     ColEnd := XNVM_EFUSE_SEC_CTRL_END_COL_NUM;
     NumOfRows := XNVM_EFUSE_SEC_CTRL_NUM_OF_ROWS;
     SkipVerify := XNVM_EFUSE_PROGRAM_VERIFY;
     EfuseType := XNVM_EFUSE_PAGE_0 |}.

Definition misc1_range : XNvm_EfusePrgmInfo :=
  {| StartRow := XNVM_EFUSE_SECURITY_MISC1_START_ROW;
     ColStart := XNVM_EFUSE_SECURITY_MISC1_START_COL_NUM;
     ColEnd := XNVM_EFUSE_SECURITY_MISC1_END_COL_NUM;
     NumOfRows := XNVM_EFUSE_SECURITY_MISC1_NUM_OF_ROWS;
     SkipVerify := XNVM_EFUSE_PROGRAM_VERIFY;
     EfuseType := XNVM_EFUSE_PAGE_0 |}.

Definition boot_env_ctrl_range : XNvm_EfusePrgmInfo :=
  {| StartRow := XNVM_EFUSE_BOOT_ENV_CTRL_START_ROW;
     ColStart := XNVM_EFUSE_BOOT_ENV_CTRL_START_COL_NUM;
     ColEnd := XNVM_EFUSE_BOOT_ENV_CTRL_END_COL_NUM;
     NumOfRows := XNVM_EFUSE_BOOT_ENV_CTRL_NUM_OF_ROWS;
     SkipVerify := XNVM_EFUSE_PROGRAM_VERIFY;
     EfuseType := XNVM_EFUSE_PAGE_0 |}.

(** A word of control bits fits its range: the cache offset and the rows
    and columns are 32-bit numbers, and the window has at most the 32
    positions of one word. *)
Definition word_range_ok (Offset : Z) (info : XNvm_EfusePrgmInfo) : Prop :=
  0 <= Offset /\ Offset + XNVM_WORD_LEN < 2 ^ 32 /\
  0 <= StartRow info /\ 0 <= NumOfRows info /\
  StartRow info + NumOfRows info < 2 ^ 32 /\
  0 <= ColStart info /\ ColEnd info < 2 ^ 32 - 1 /\
  (length (window info) <= 32)%nat.

(** A single-bit operation for bit [N] of a word of control bits: at the
    [N]-th position of the window of the range, on its page and in its
    verification mode, for a bit that is requested in [Bits] and not yet
    there in the cache word at [Offset]. *)
Definition new_bit_op (cache : Z -> Z) (Offset Bits : Z)
  (info : XNvm_EfusePrgmInfo) (op : Z * Z * Z * Z) : Prop :=
  exists (N : nat) (r c : Z),
    op = (EfuseType info, r, c, SkipVerify info) /\
    nth_error (window info) N = Some (r, c) /\
    (N < 32)%nat /\
    Z.testbit Bits (Z.of_nat N) = true /\
    Z.testbit (cache Offset) (Z.of_nat N) = false.

(** Code that starts only single-bit operations with property [P], and a
    function whose calls that return have started only such operations. *)
Definition programs_within (P : Z * Z * Z * Z -> Prop) (e : Env) {A}
  (m : M A) : Prop :=
  forall t,
    match m e t with
    | Normal _ t' | GotoEND _ t' =>
        exists d, t' = t ++ d /\ Forall P (pgm_ops d)
    | OutOfFuel => True
    end.

Definition programs_only (P : Z * Z * Z * Z -> Prop) (e : Env) (f : M Z)
  : Prop :=
  forall t Status t',
    f e t = Normal Status t' ->
    exists d, t' = t ++ d /\ Forall P (pgm_ops d).

(** The page and the verification mode of a single-bit operation, and the
    three kinds of operation the write functions start: on page 0 without
    reading the bit back, on page 0 with the bit read back, and the same on
    page 0 or page 1. *)
Definition op_page (op : Z * Z * Z * Z) : Z := fst (fst (fst op)).
Definition op_skip (op : Z * Z * Z * Z) : Z := snd op.

Definition page0_unverified (op : Z * Z * Z * Z) : Prop :=
  op_page op = XNVM_EFUSE_PAGE_0 /\ op_skip op = XNVM_EFUSE_SKIP_VERIFY.

Definition page0_verified (op : Z * Z * Z * Z) : Prop :=
  op_page op = XNVM_EFUSE_PAGE_0 /\ op_skip op = XNVM_EFUSE_PROGRAM_VERIFY.

Definition page01_verified (op : Z * Z * Z * Z) : Prop :=
  (op_page op = XNVM_EFUSE_PAGE_0 \/ op_page op = XNVM_EFUSE_PAGE_1) /\
  op_skip op = XNVM_EFUSE_PROGRAM_VERIFY.

(** The program range of the glitch configuration data and the single-bit
    operation for its write lock, as [XNvm_EfuseWriteGlitchConfigBits] sets
    them up. *)
Definition glitch_config_range : XNvm_EfusePrgmInfo :=
  {| StartRow := XNVM_EFUSE_ANLG_TRIM_3_START_ROW;
     ColStart := XNVM_EFUSE_GLITCH_DET_CONFIG_START_COL_NUM;
     ColEnd := XNVM_EFUSE_GLITCH_DET_CONFIG_END_COL_NUM;
     NumOfRows := XNVM_EFUSE_GLITCH_DET_CONFIG_NUM_OF_ROWS;
     SkipVerify := XNVM_EFUSE_PROGRAM_VERIFY;
     EfuseType := XNVM_EFUSE_PAGE_0 |}.

Definition glitch_write_lock_op : Z * Z * Z * Z :=
  (XNVM_EFUSE_PAGE_0, XNVM_EFUSE_GLITCH_DET_WR_LK_ROW,
   XNVM_EFUSE_GLITCH_DET_WR_LK_COL_NUM, XNVM_EFUSE_PROGRAM_VERIFY).

(** What a call of [XNvm_EfuseWriteGlitchConfigBits] started at history [t]
    may add to it, [new] being the requested bits the cache does not have:
    no programming at all; or a walk of the configuration range over the
    data bits of [new], followed by nothing more or by the lock operation,
    the latter only after a walk that returned success and when [new] has a
    bit outside the data mask. *)
Definition locks_after_config (e : Env) (new : Z) (t d : Trace) : Prop :=
  pgm_ops d = [] \/
  exists d1 D st d2 d3,
    d = d1 ++ d2 ++ d3 /\ pgm_ops d1 = [] /\
    D 0 = Z.land new XNVM_EFUSE_GLITCH_CONFIG_DATA_MASK /\
    XNvm_EfusePgmAndVerifyData glitch_config_range (Some D) e (t ++ d1)
      = Normal st (t ++ d1 ++ d2) /\
    (pgm_ops d3 = [] \/
     pgm_ops d3 = [glitch_write_lock_op] /\ st = XST_SUCCESS /\
     Z.land new (u32_not XNVM_EFUSE_GLITCH_CONFIG_DATA_MASK) <> 0).

(** The cache offset and the program range of an IV type, as
    [XNvm_EfusePrgmIv] selects them; [None] for any other type. *)
Definition iv_range_of (IvType : Z) : option (Z * XNvm_EfusePrgmInfo) :=
  if IvType =? XNVM_EFUSE_META_HEADER_IV_RANGE then
    Some (XNVM_EFUSE_CACHE_METAHEADER_IV_RANGE_OFFSET,
          {| StartRow := XNVM_EFUSE_META_HEADER_IV_START_ROW;
             ColStart := XNVM_EFUSE_METAHEADER_IV_RANGE_START_COL_NUM;
             ColEnd := XNVM_EFUSE_METAHEADER_IV_RANGE_END_COL_NUM;
             NumOfRows := XNVM_EFUSE_METAHEADER_IV_NUM_OF_ROWS;
             SkipVerify := XNVM_EFUSE_PROGRAM_VERIFY;
             EfuseType := XNVM_EFUSE_PAGE_0 |})
  else if IvType =? XNVM_EFUSE_BLACK_IV then
    Some (XNVM_EFUSE_CACHE_BLACK_IV_OFFSET,
          {| StartRow := XNVM_EFUSE_BLACK_IV_START_ROW;
             ColStart := XNVM_EFUSE_BLACK_IV_START_COL_NUM;
             ColEnd := XNVM_EFUSE_BLACK_IV_END_COL_NUM;
             NumOfRows := XNVM_EFUSE_BLACK_IV_NUM_OF_ROWS;
             SkipVerify := XNVM_EFUSE_PROGRAM_VERIFY;
             EfuseType := XNVM_EFUSE_PAGE_0 |})
  else if IvType =? XNVM_EFUSE_PLM_IV_RANGE then
    Some (XNVM_EFUSE_CACHE_PLM_IV_RANGE_OFFSET,
          {| StartRow := XNVM_EFUSE_PLM_IV_START_ROW;
             ColStart := XNVM_EFUSE_PLM_IV_RANGE_START_COL_NUM;
             ColEnd := XNVM_EFUSE_PLM_IV_RANGE_END_COL_NUM;
             NumOfRows := XNVM_EFUSE_PLM_IV_NUM_OF_ROWS;
             SkipVerify := XNVM_EFUSE_PROGRAM_VERIFY;
             EfuseType := XNVM_EFUSE_PAGE_0 |})
  else if IvType =? XNVM_EFUSE_DATA_PARTITION_IV_RANGE then
    Some (XNVM_EFUSE_CACHE_DATA_PARTITION_IV_OFFSET,
          {| StartRow := XNVM_EFUSE_DATA_PARTITION_IV_START_ROW;
             ColStart := XNVM_EFUSE_DATA_PARTITION_IV_START_COL_NUM;
             ColEnd := XNVM_EFUSE_DATA_PARTITION_IV_END_COL_NUM;
             NumOfRows := XNVM_EFUSE_DATA_PARTITION_IV_NUM_OF_ROWS;
             SkipVerify := XNVM_EFUSE_PROGRAM_VERIFY;
             EfuseType := XNVM_EFUSE_PAGE_0 |})
  else None.

End Driver.

(** ** A test configuration

    Concrete values for the parameters, used to run the model in the
    examples below.  They are chosen for the examples: the headers that
    define the real values are not part of the sources. *)

Definition test_xstatus : XStatus_h := {|
  TRUE := 1;
  XST_FAILURE := 1;
  XST_SUCCESS := 0;
  XST_TIMEOUT := 31
|}.

Definition test_api : XNvm_Efuse_h := {|
  XNVM_EFUSE_AES_KEY := 0;
  XNVM_EFUSE_BLACK_IV := 1;
  XNVM_EFUSE_DATA_PARTITION_IV_RANGE := 3;
  XNVM_EFUSE_DME_REVOKE_0 := 0;
  XNVM_EFUSE_DME_REVOKE_1 := 1;
  XNVM_EFUSE_DME_REVOKE_2 := 2;
  XNVM_EFUSE_DME_REVOKE_3 := 3;
  XNVM_EFUSE_DME_USER_KEY_0 := 0;
  XNVM_EFUSE_DME_USER_KEY_1 := 1;
  XNVM_EFUSE_DME_USER_KEY_2 := 2;
  XNVM_EFUSE_DME_USER_KEY_3 := 3;
  XNVM_EFUSE_MARGIN_RD := 1;
  XNVM_EFUSE_META_HEADER_IV_RANGE := 0;
  XNVM_EFUSE_MODE_PGM := 1;
  XNVM_EFUSE_PAGE_0 := 0;
  XNVM_EFUSE_PAGE_1 := 1;
  XNVM_EFUSE_PAGE_2 := 2;
  XNVM_EFUSE_PLM_IV_RANGE := 2;
  XNVM_EFUSE_PPK0 := 0;
  XNVM_EFUSE_PPK1 := 1;
  XNVM_EFUSE_PPK2 := 2;
  XNVM_EFUSE_USER_KEY_0 := 1;
  XNVM_EFUSE_USER_KEY_1 := 2;
  XNVM_MAX_REVOKE_ID_FUSES := 256;
  XNVM_UDS_SIZE_IN_WORDS := 12;
  XNVM_WORD_LEN := 4;
  XNVM_EFUSE_ERR_BEFORE_PROGRAMMING := 0x8100;
  XNVM_EFUSE_ERR_CACHE_PARITY := 0x8200;
  XNVM_EFUSE_ERR_DME_MODE_SET := 0x8300;
  XNVM_EFUSE_ERR_FUSE_PROTECTED := 0x8400;
  XNVM_EFUSE_ERR_GLITCH_DETECTED := 0x8500;
  XNVM_EFUSE_ERR_INVALID_PARAM := 0x8600;
  XNVM_EFUSE_ERR_PGM := 0x8700;
  XNVM_EFUSE_ERR_PGM_TIMEOUT := 0x8800;
  XNVM_EFUSE_ERR_PGM_VERIFY := 0x8900;
  XNVM_EFUSE_ERR_PUF_AUX_ALREADY_PRGMD := 0x8a00;
  XNVM_EFUSE_ERR_PUF_CHASH_ALREADY_PRGMD := 0x8b00;
  XNVM_EFUSE_ERR_PUF_SYN_ALREADY_PRGMD := 0x8c00;
  XNVM_EFUSE_ERR_RD_TIMEOUT := 0x8d00;
  XNVM_EFUSE_ERR_WRITE_AES_KEY := 0x8e00;
  XNVM_EFUSE_ERR_WRITE_BOOT_ENV_CTRL := 0x8f00;
  XNVM_EFUSE_ERR_WRITE_BOOT_MODE_DISABLE := 0x9000;
  XNVM_EFUSE_ERR_WRITE_DEC_EFUSE_ONLY := 0x9100;
  XNVM_EFUSE_ERR_WRITE_DME_MODE := 0x9200;
  XNVM_EFUSE_ERR_WRITE_DME_REVOKE_0 := 0x9300;
  XNVM_EFUSE_ERR_WRITE_GLITCH_CFG := 0x9400;
  XNVM_EFUSE_ERR_WRITE_GLITCH_WRLK := 0x9500;
  XNVM_EFUSE_ERR_WRITE_META_HEADER_IV_RANGE := 0x9600;
  XNVM_EFUSE_ERR_WRITE_MISC1_CTRL_BITS := 0x9700;
  XNVM_EFUSE_ERR_WRITE_MISC_CTRL_BITS := 0x9800;
  XNVM_EFUSE_ERR_WRITE_OFFCHIP_REVOKE_IDS := 0x9900;
  XNVM_EFUSE_ERR_WRITE_PLM_UPDATE := 0x9a00;
  XNVM_EFUSE_ERR_WRITE_PPK0_HASH := 0x9b00;
  XNVM_EFUSE_ERR_WRITE_PUF_AUX := 0x9c00;
  XNVM_EFUSE_ERR_WRITE_PUF_CHASH := 0x9d00;
  XNVM_EFUSE_ERR_WRITE_PUF_HELPER_DATA := 0x9e00;
  XNVM_EFUSE_ERR_WRITE_PUF_SYN_DATA := 0x9f00;
  XNVM_EFUSE_ERR_WRITE_REVOCATION_IDS := 0xa000;
  XNVM_EFUSE_ERR_WRITE_RO_SWAP := 0xa100;
  XNVM_EFUSE_ERR_WRITE_SEC_CTRL_BITS := 0xa200;
  XNVM_EFUSE_ERR_WRITE_UDS := 0xa300;
  XNVM_EFUSE_ERR_WRITE_USER_KEY0 := 0xa400;
  XNVM_EFUSE_ERR_WRITE_USER_KEY1 := 0xa500
|}.

Definition test_hw : XNvm_EfuseHw_h := {|
  XNVM_EFUSE_ADDR_COLUMN_SHIFT := 0;
  XNVM_EFUSE_ADDR_PAGE_SHIFT := 13;
  XNVM_EFUSE_ADDR_ROW_SHIFT := 5;
  XNVM_EFUSE_AES_CRC_REG_OFFSET := 0x10;
  XNVM_EFUSE_AES_USR_KEY0_CRC_REG_OFFSET := 0x20;
  XNVM_EFUSE_AES_USR_KEY1_CRC_REG_OFFSET := 0x30;
  XNVM_EFUSE_CACHE_ANLG_TRIM_3_OFFSET := 0x40;
  XNVM_EFUSE_CACHE_BASEADDR := 0xF1250000;
  XNVM_EFUSE_CACHE_BLACK_IV_OFFSET := 0x50;
  XNVM_EFUSE_CACHE_BOOT_ENV_CTRL_OFFSET := 0x60;
  XNVM_EFUSE_CACHE_DATA_PARTITION_IV_OFFSET := 0x70;
  XNVM_EFUSE_CACHE_DEC_EFUSE_ONLY_MASK := 0x1;
  XNVM_EFUSE_CACHE_DME_FIPS_DME_MODE_MASK := 0x2;
  XNVM_EFUSE_CACHE_DME_FIPS_OFFSET := 0x80;
  XNVM_EFUSE_CACHE_METAHEADER_IV_RANGE_OFFSET := 0x90;
  XNVM_EFUSE_CACHE_MISC_CTRL_CACHE_OFFSET := 0xa0;
  XNVM_EFUSE_CACHE_PLM_IV_RANGE_OFFSET := 0xb0;
  XNVM_EFUSE_CACHE_PUF_CHASH_OFFSET := 0xc0;
  XNVM_EFUSE_CACHE_PUF_ECC_PUF_CTRL_ECC_23_0_MASK := 0x00FFFFFF;
  XNVM_EFUSE_CACHE_PUF_ECC_PUF_CTRL_OFFSET := 0xd0;
  XNVM_EFUSE_CACHE_PUF_SYN_DATA_OFFSET := 0xe0;
  XNVM_EFUSE_CACHE_SECURITY_CONTROL_PUF_DIS_MASK := 0x4;
  XNVM_EFUSE_CACHE_SECURITY_CONTROL_PUF_SYN_LK_MASK := 0x8;
  XNVM_EFUSE_CACHE_SECURITY_CONTROL_UDS_WR_LK_MASK := 0x10;
  XNVM_EFUSE_CACHE_SECURITY_CTRL_OFFSET := 0xf0;
  XNVM_EFUSE_CACHE_SEC_MISC_1_OFFSET := 0x100;
  XNVM_EFUSE_CTRL_BASEADDR := 0xF1240000;
  XNVM_EFUSE_CTRL_STATUS_AES_CRC_DONE_MASK := 0x20;
  XNVM_EFUSE_CTRL_STATUS_AES_CRC_PASS_MASK := 0x40;
  XNVM_EFUSE_CTRL_STATUS_AES_USER_KEY_0_CRC_DONE_MASK := 0x80;
  XNVM_EFUSE_CTRL_STATUS_AES_USER_KEY_0_CRC_PASS_MASK := 0x100;
  XNVM_EFUSE_CTRL_STATUS_AES_USER_KEY_1_CRC_DONE_MASK := 0x200;
  XNVM_EFUSE_CTRL_STATUS_AES_USER_KEY_1_CRC_PASS_MASK := 0x400;
  XNVM_EFUSE_CTRL_STATUS_UDS_DICE_CRC_DONE_MASK := 0x800;
  XNVM_EFUSE_CTRL_STATUS_UDS_DICE_CRC_PASS_MASK := 0x1000;
  XNVM_EFUSE_CTRL_UDS_DICE_CRC_OFFSET := 0x110;
  XNVM_EFUSE_GLITCH_CONFIG_DATA_MASK := 0x7FFFFFFF;
  XNVM_EFUSE_ISR_CACHE_ERROR := 0x10;
  XNVM_EFUSE_ISR_PGM_DONE := 0x1;
  XNVM_EFUSE_ISR_PGM_ERROR := 0x2;
  XNVM_EFUSE_ISR_RD_DONE := 0x4;
  XNVM_EFUSE_ISR_REG_OFFSET := 0x120;
  XNVM_EFUSE_IV_NUM_OF_CACHE_ROWS := 3;
  XNVM_EFUSE_MAX_BITS_IN_ROW := 32;
  XNVM_EFUSE_PGM_ADDR_REG_OFFSET := 0x130;
  XNVM_EFUSE_PGM_TIMEOUT_VAL := 100;
  XNVM_EFUSE_RD_ADDR_REG_OFFSET := 0x140;
  XNVM_EFUSE_RD_DATA_REG_OFFSET := 0x150;
  XNVM_EFUSE_RD_TIMEOUT_VAL := 100
|}.

Definition test_layout : XNvm_EfuseLayout_h := {|
  XNVM_EFUSE_AES_KEY_0_TO_127_COL_END_NUM := 31;
  XNVM_EFUSE_AES_KEY_0_TO_127_COL_START_NUM := 0;
  XNVM_EFUSE_AES_KEY_0_TO_127_NUM_OF_ROWS := 2;
  XNVM_EFUSE_AES_KEY_0_TO_127_START_ROW := 1;
  XNVM_EFUSE_AES_KEY_128_TO_255_COL_END_NUM := 31;
  XNVM_EFUSE_AES_KEY_128_TO_255_COL_START_NUM := 0;
  XNVM_EFUSE_AES_KEY_128_TO_255_NUM_OF_ROWS := 2;
  XNVM_EFUSE_AES_KEY_128_TO_255_START_ROW := 4;
  XNVM_EFUSE_ANLG_TRIM_3_START_ROW := 7;
  XNVM_EFUSE_BLACK_IV_END_COL_NUM := 31;
  XNVM_EFUSE_BLACK_IV_NUM_OF_ROWS := 2;
  XNVM_EFUSE_BLACK_IV_START_COL_NUM := 0;
  XNVM_EFUSE_BLACK_IV_START_ROW := 10;
  XNVM_EFUSE_BOOT_ENV_CTRL_END_COL_NUM := 31;
  XNVM_EFUSE_BOOT_ENV_CTRL_NUM_OF_ROWS := 1;
  XNVM_EFUSE_BOOT_ENV_CTRL_START_COL_NUM := 0;
  XNVM_EFUSE_BOOT_ENV_CTRL_START_ROW := 13;
  XNVM_EFUSE_BOOT_MODE_END_COL_NUM := 31;
  XNVM_EFUSE_BOOT_MODE_NUM_OF_ROWS := 1;
  XNVM_EFUSE_BOOT_MODE_START_COL_NUM := 0;
  XNVM_EFUSE_BOOT_MODE_START_ROW := 16;
  XNVM_EFUSE_DATA_PARTITION_IV_END_COL_NUM := 31;
  XNVM_EFUSE_DATA_PARTITION_IV_NUM_OF_ROWS := 2;
  XNVM_EFUSE_DATA_PARTITION_IV_START_COL_NUM := 0;
  XNVM_EFUSE_DATA_PARTITION_IV_START_ROW := 19;
  XNVM_EFUSE_DEC_ONLY_END_COL_NUM := 31;
  XNVM_EFUSE_DEC_ONLY_NUM_OF_ROWS := 1;
  XNVM_EFUSE_DEC_ONLY_START_COL_NUM := 0;
  XNVM_EFUSE_DICE_UDS_0_TO_63_END_COL_NUM := 31;
  XNVM_EFUSE_DICE_UDS_0_TO_63_NUM_OF_ROWS := 2;
  XNVM_EFUSE_DICE_UDS_0_TO_63_START_COL_NUM := 0;
  XNVM_EFUSE_DICE_UDS_0_TO_63_START_ROW := 22;
  XNVM_EFUSE_DICE_UDS_192_TO_255_END_COL_NUM := 31;
  XNVM_EFUSE_DICE_UDS_192_TO_255_NUM_OF_ROWS := 2;
  XNVM_EFUSE_DICE_UDS_192_TO_255_START_COL_NUM := 0;
  XNVM_EFUSE_DICE_UDS_192_TO_255_START_ROW := 25;
  XNVM_EFUSE_DICE_UDS_256_TO_383_END_COL_NUM := 31;
  XNVM_EFUSE_DICE_UDS_256_TO_383_NUM_OF_ROWS := 2;
  XNVM_EFUSE_DICE_UDS_256_TO_383_START_COL_NUM := 0;
  XNVM_EFUSE_DICE_UDS_256_TO_383_START_ROW := 28;
  XNVM_EFUSE_DICE_UDS_64_TO_191_END_COL_NUM := 31;
  XNVM_EFUSE_DICE_UDS_64_TO_191_NUM_OF_ROWS := 2;
  XNVM_EFUSE_DICE_UDS_64_TO_191_START_COL_NUM := 0;
  XNVM_EFUSE_DICE_UDS_64_TO_191_START_ROW := 31;
  XNVM_EFUSE_DISABLE_PLM_UPDATE_COL_NUM := 3;
  XNVM_EFUSE_DISABLE_PLM_UPDATE_ROW := 34;
  XNVM_EFUSE_DME_FIPS_NUM_OF_ROWS := 1;
  XNVM_EFUSE_DME_FIPS_ROW := 37;
  XNVM_EFUSE_DME_MODE_END_COL_NUM := 31;
  XNVM_EFUSE_DME_MODE_NUM_OF_ROWS := 1;
  XNVM_EFUSE_DME_MODE_START_COL_NUM := 0;
  XNVM_EFUSE_DME_MODE_START_ROW := 40;
  XNVM_EFUSE_DME_REVOKE_0_0_COL_NUM := 6;
  XNVM_EFUSE_DME_REVOKE_0_1_COL_NUM := 9;
  XNVM_EFUSE_DME_REVOKE_0_AND_1_ROW := 43;
  XNVM_EFUSE_DME_REVOKE_1_0_COL_NUM := 9;
  XNVM_EFUSE_DME_REVOKE_1_1_COL_NUM := 12;
  XNVM_EFUSE_DME_REVOKE_2_0_COL_NUM := 12;
  XNVM_EFUSE_DME_REVOKE_2_1_COL_NUM := 15;
  XNVM_EFUSE_DME_REVOKE_2_AND_3_ROW := 46;
  XNVM_EFUSE_DME_REVOKE_3_0_COL_NUM := 15;
  XNVM_EFUSE_DME_REVOKE_3_1_COL_NUM := 18;
  XNVM_EFUSE_DME_USER_KEY_0_END_COL_NUM := 31;
  XNVM_EFUSE_DME_USER_KEY_0_START_COL_NUM := 0;
  XNVM_EFUSE_DME_USER_KEY_0_START_ROW := 49;
  XNVM_EFUSE_DME_USER_KEY_1_END_COL_NUM := 31;
  XNVM_EFUSE_DME_USER_KEY_1_START_COL_NUM := 0;
  XNVM_EFUSE_DME_USER_KEY_1_START_ROW := 52;
  XNVM_EFUSE_DME_USER_KEY_2_END_COL_NUM := 31;
  XNVM_EFUSE_DME_USER_KEY_2_START_COL_NUM := 0;
  XNVM_EFUSE_DME_USER_KEY_2_START_ROW := 55;
  XNVM_EFUSE_DME_USER_KEY_3_END_COL_NUM := 31;
  XNVM_EFUSE_DME_USER_KEY_3_START_COL_NUM := 0;
  XNVM_EFUSE_DME_USER_KEY_3_START_ROW := 58;
  XNVM_EFUSE_DME_USER_KEY_NUM_OF_ROWS := 2;
  XNVM_EFUSE_FIPS_MODE_END_COL_NUM := 7;
  XNVM_EFUSE_FIPS_MODE_START_COL_NUM := 0;
  XNVM_EFUSE_FIPS_VERSION_COL_0_NUM := 3;
  XNVM_EFUSE_FIPS_VERSION_COL_1_NUM := 7;
  XNVM_EFUSE_FIPS_VERSION_COL_2_NUM := 11;
  XNVM_EFUSE_GLITCH_DET_CONFIG_END_COL_NUM := 31;
  XNVM_EFUSE_GLITCH_DET_CONFIG_NUM_OF_ROWS := 1;
  XNVM_EFUSE_GLITCH_DET_CONFIG_START_COL_NUM := 0;
  XNVM_EFUSE_GLITCH_DET_WR_LK_COL_NUM := 0;
  XNVM_EFUSE_GLITCH_DET_WR_LK_ROW := 61;
  XNVM_EFUSE_IP_DISABLE_ROW := 64;
  XNVM_EFUSE_METAHEADER_IV_NUM_OF_ROWS := 2;
  XNVM_EFUSE_METAHEADER_IV_RANGE_END_COL_NUM := 31;
  XNVM_EFUSE_METAHEADER_IV_RANGE_START_COL_NUM := 0;
  XNVM_EFUSE_META_HEADER_IV_START_ROW := 67;
  XNVM_EFUSE_MISC_CTRL_END_COL_NUM := 31;
  XNVM_EFUSE_MISC_CTRL_NUM_OF_ROWS := 1;
  XNVM_EFUSE_MISC_CTRL_START_COL_NUM := 0;
  XNVM_EFUSE_MISC_CTRL_START_ROW := 70;
  XNVM_EFUSE_OFFCHIP_REVOKE_ID_START_ROW := 73;
  XNVM_EFUSE_PAGE_0_PUF_SYN_DATA_NUM_OF_ROWS := 2;
  XNVM_EFUSE_PAGE_0_PUF_SYN_DATA_ROW := 76;
  XNVM_EFUSE_PAGE_1_PUF_SYN_DATA_NUM_OF_ROWS := 2;
  XNVM_EFUSE_PAGE_1_PUF_SYN_DATA_ROW := 79;
  XNVM_EFUSE_PLM_IV_NUM_OF_ROWS := 2;
  XNVM_EFUSE_PLM_IV_RANGE_END_COL_NUM := 31;
  XNVM_EFUSE_PLM_IV_RANGE_START_COL_NUM := 0;
  XNVM_EFUSE_PLM_IV_START_ROW := 82;
  XNVM_EFUSE_PPK0_HASH_END_COL_NUM := 31;
  XNVM_EFUSE_PPK0_HASH_START_COL_NUM := 0;
  XNVM_EFUSE_PPK0_HASH_START_ROW := 85;
  XNVM_EFUSE_PPK1_HASH_END_COL_NUM := 31;
  XNVM_EFUSE_PPK1_HASH_START_COL_NUM := 0;
  XNVM_EFUSE_PPK1_HASH_START_ROW := 88;
  XNVM_EFUSE_PPK2_HASH_END_COL_NUM := 31;
  XNVM_EFUSE_PPK2_HASH_START_COL_NUM := 0;
  XNVM_EFUSE_PPK2_HASH_START_ROW := 91;
  XNVM_EFUSE_PPK_HASH_NUM_OF_ROWS := 2;
  XNVM_EFUSE_PUF_AUX_END_COL_NUM := 31;
  XNVM_EFUSE_PUF_AUX_NUM_OF_ROWS := 1;
  XNVM_EFUSE_PUF_AUX_ROW := 94;
  XNVM_EFUSE_PUF_AUX_START_COL_NUM := 0;
  XNVM_EFUSE_PUF_CHASH_END_COL_NUM := 31;
  XNVM_EFUSE_PUF_CHASH_NUM_OF_ROWS := 2;
  XNVM_EFUSE_PUF_CHASH_ROW := 97;
  XNVM_EFUSE_PUF_CHASH_START_COL_NUM := 0;
  XNVM_EFUSE_PUF_HD_INVLD_COL_NUM := 15;
  XNVM_EFUSE_PUF_REGEN_DIS_COL_NUM := 15;
  XNVM_EFUSE_PUF_REGIS_DIS_COL_NUM := 18;
  XNVM_EFUSE_PUF_RO_SWAP_EN_END_COL_NUM := 31;
  XNVM_EFUSE_PUF_RO_SWAP_EN_ROW := 100;
  XNVM_EFUSE_PUF_RO_SWAP_EN_START_COL_NUM := 0;
  XNVM_EFUSE_PUF_RO_SWAP_NUM_OF_ROWS := 1;
  XNVM_EFUSE_PUF_SYN_DATA_END_COL_NUM := 31;
  XNVM_EFUSE_PUF_SYN_DATA_NUM_OF_ROWS := 2;
  XNVM_EFUSE_PUF_SYN_DATA_START_COL_NUM := 0;
  XNVM_EFUSE_REVOKE_ID_0_TO_127_START_COL_NUM := 0;
  XNVM_EFUSE_REVOKE_ID_0_TO_127_START_ROW := 103;
  XNVM_EFUSE_REVOKE_ID_128_TO_255_START_COL_NUM := 0;
  XNVM_EFUSE_REVOKE_ID_128_TO_255_START_ROW := 106;
  XNVM_EFUSE_SECURITY_MISC1_END_COL_NUM := 31;
  XNVM_EFUSE_SECURITY_MISC1_NUM_OF_ROWS := 1;
  XNVM_EFUSE_SECURITY_MISC1_START_COL_NUM := 0;
  XNVM_EFUSE_SECURITY_MISC1_START_ROW := 109;
  XNVM_EFUSE_SECURITY_MISC_0_START_ROW := 112;
  XNVM_EFUSE_SEC_CTRL_END_COL_NUM := 31;
  XNVM_EFUSE_SEC_CTRL_NUM_OF_ROWS := 1;
  XNVM_EFUSE_SEC_CTRL_START_COL_NUM := 0;
  XNVM_EFUSE_SEC_CTRL_START_ROW := 115;
  XNVM_EFUSE_USER_KEY0_0_TO_63_COL_END_NUM := 31;
  XNVM_EFUSE_USER_KEY0_0_TO_63_COL_START_NUM := 0;
  XNVM_EFUSE_USER_KEY0_0_TO_63_NUM_OF_ROWS := 2;
  XNVM_EFUSE_USER_KEY0_0_TO_63_START_ROW := 118;
  XNVM_EFUSE_USER_KEY0_192_TO_255_COL_END_NUM := 31;
  XNVM_EFUSE_USER_KEY0_192_TO_255_COL_START_NUM := 0;
  XNVM_EFUSE_USER_KEY0_192_TO_255_NUM_OF_ROWS := 2;
  XNVM_EFUSE_USER_KEY0_192_TO_255_START_ROW := 121;
  XNVM_EFUSE_USER_KEY0_64_TO_191_COL_END_NUM := 31;
  XNVM_EFUSE_USER_KEY0_64_TO_191_COL_START_NUM := 0;
  XNVM_EFUSE_USER_KEY0_64_TO_191_NUM_OF_ROWS := 2;
  XNVM_EFUSE_USER_KEY0_64_TO_191_START_ROW := 124;
  XNVM_EFUSE_USER_KEY1_0_TO_63_END_COL_NUM := 31;
  XNVM_EFUSE_USER_KEY1_0_TO_63_NUM_OF_ROWS := 2;
  XNVM_EFUSE_USER_KEY1_0_TO_63_START_COL_NUM := 0;
  XNVM_EFUSE_USER_KEY1_0_TO_63_START_ROW := 127;
  XNVM_EFUSE_USER_KEY1_128_TO_255_END_COL_NUM := 31;
  XNVM_EFUSE_USER_KEY1_128_TO_255_NUM_OF_ROWS := 2;
  XNVM_EFUSE_USER_KEY1_128_TO_255_START_COL_NUM := 0;
  XNVM_EFUSE_USER_KEY1_128_TO_255_START_ROW := 130;
  XNVM_EFUSE_USER_KEY1_64_TO_127_END_COL_NUM := 31;
  XNVM_EFUSE_USER_KEY1_64_TO_127_NUM_OF_ROWS := 2;
  XNVM_EFUSE_USER_KEY1_64_TO_127_START_COL_NUM := 0;
  XNVM_EFUSE_USER_KEY1_64_TO_127_START_ROW := 133
|}.

(** An environment in which the hardware always answers promptly and
    favourably: every wait returns at once with the done event alone, the
    row read back has every bit set, every other register reads zero and
    every helper reports success. *)
Definition test_respond (t : Trace) (c : Call) : Z * Z :=
  match c with
  | CReadReg b o =>
      if (b =? 0xF1240000) && (o =? @XNVM_EFUSE_RD_DATA_REG_OFFSET test_hw)
      then (0xFFFFFFFF, 0) else (0, 0)
  | CWaitForEvents _ m _ _ =>
      (0, if m =? 0x4 then 0x4 else 0x1)
  | _ => (0, 0)
  end.

Definition test_env : Env :=
  {| respond := test_respond; stack := fun _ => 0; fuel := 64 |}.

(** The same hardware, except that fuses do not take: the row read back is
    all zeros. *)
Definition blank_respond (t : Trace) (c : Call) : Z * Z :=
  match c with
  | CWaitForEvents _ m _ _ => (0, if m =? 0x4 then 0x4 else 0x1)
  | _ => (0, 0)
  end.

Definition blank_env : Env :=
  {| respond := blank_respond; stack := fun _ => 0; fuel := 64 |}.

(** The same hardware with the cache-error flag raised in the ISR. *)
Definition parity_respond (t : Trace) (c : Call) : Z * Z :=
  match c with
  | CReadReg b o =>
      if (b =? 0xF1240000) && (o =? @XNVM_EFUSE_ISR_REG_OFFSET test_hw)
      then (0x10, 0) else (0xFFFF0000, 0)
  | _ => test_respond t c
  end.

Definition parity_env : Env :=
  {| respond := parity_respond; stack := fun _ => 0; fuel := 64 |}.

(** A cache in which every word reads [0xFFFF0000]. *)
Definition half_respond (t : Trace) (c : Call) : Z * Z :=
  match c with
  | CReadReg b o => if b =? 0xF1250000 then (0xFFFF0000, 0) else (0, 0)
  | _ => test_respond t c
  end.

Definition half_env : Env :=
  {| respond := half_respond; stack := fun _ => 0; fuel := 64 |}.

(** A one-word buffer holding [v]. *)
Definition one_word (v : Z) : words := fun i => if i =? 0 then v else 0.

(** A program range eight columns wide and five rows high, and two words of
    data for it. *)
Definition test_range : XNvm_EfusePrgmInfo :=
  {| StartRow := 2; ColStart := 4; ColEnd := 11; NumOfRows := 5;
     SkipVerify := 0; EfuseType := 0 |}.

Definition test_data : words :=
  fun i => if i =? 0 then 0x80000001 else 0x3.

(** Hardware on which re-locking the controller fails. *)
Definition lock_fails_respond (t : Trace) (c : Call) : Z * Z :=
  match c with
  | CLockController => (1, 0)
  | _ => test_respond t c
  end.

Definition lock_fails_env : Env :=
  {| respond := lock_fails_respond; stack := fun _ => 0; fuel := 64 |}.

(** Hardware on which every program pulse reports the error event, and
    re-locking the controller fails as well. *)
Definition pgm_error_respond (t : Trace) (c : Call) : Z * Z :=
  match c with
  | CWaitForEvents _ _ _ _ => (0, 0x2)
  | CLockController => (1, 0)
  | _ => test_respond t c
  end.

Definition pgm_error_env : Env :=
  {| respond := pgm_error_respond; stack := fun _ => 0; fuel := 64 |}.

(** The favourable hardware with a cache in which every word reads
    [0x00FF0000]. *)
Definition cached_respond (t : Trace) (c : Call) : Z * Z :=
  match c with
  | CReadReg b o =>
      if b =? 0xF1250000 then (0x00FF0000, 0) else test_respond t c
  | _ => test_respond t c
  end.

Definition cached_env : Env :=
  {| respond := cached_respond; stack := fun _ => 0; fuel := 64 |}.

(** * Properties *)

Ltac unfold_prims :=
  cbv [bind ret call ghost goto_END END_label when status_of
       XNvm_EfuseReadReg XNvm_EfuseWriteReg Xil_WaitForEvents
       XNvm_EfuseSetupController XNvm_EfuseResetReadMode
       XNvm_EfuseDisableProgramming XNvm_EfuseLockController
       XNvm_EfuseCacheReload XNvm_EfuseCheckZeros XNvm_EfuseCheckAesKeyCrc
       XNvm_AesCrcCalc XNvm_EfuseValidateAesKeyWriteReq
       XNvm_EfuseValidatePpkHashWriteReq XNvm_EfuseValidateIvWriteReq
       XNvm_EfuseValidateDecOnlyRequest XNvm_EfuseValidateFipsInfo
       xil_printf addr_of zero_array env_checks_TODO].


Section Properties.
Context {xst : XStatus_h} {api : XNvm_Efuse_h} {hw : XNvm_EfuseHw_h}
        {layout : XNvm_EfuseLayout_h}.

Lemma app_assoc3 {A} (t : list A) a b c :
  ((t ++ [a]) ++ [b]) ++ [c] = t ++ [a; b; c].
Proof. now rewrite <- !app_assoc. Qed.

Lemma app_assoc4 {A} (t : list A) a b c d :
  (((t ++ [a]) ++ [b]) ++ [c]) ++ [d] = t ++ [a; b; c; d].
Proof. now rewrite <- !app_assoc. Qed.

(** ** Words *)

Lemma u32_range (x : Z) : 0 <= u32 x < 2 ^ 32.
Proof. unfold u32. apply Z.mod_pos_bound. lia. Qed.

Lemma u32_small (x : Z) : 0 <= x < 2 ^ 32 -> u32 x = x.
Proof. intros. unfold u32. now apply Z.mod_small. Qed.

Lemma u32_testbit (x k : Z) : 0 <= k < 32 -> Z.testbit (u32 x) k = Z.testbit x k.
Proof. intros. unfold u32. apply Z.mod_pow2_bits_low. lia. Qed.

Lemma u32_shl_1 (c : Z) : 0 <= c < 32 -> u32_shl 1 c = 2 ^ c.
Proof.
  intros. unfold u32_shl. rewrite Z.shiftl_1_l. apply u32_small.
  split; [apply Z.pow_nonneg; lia | apply Z.pow_lt_mono_r; lia].
Qed.

Lemma land_pow2 (x c : Z) :
  0 <= c -> Z.land x (2 ^ c) = if Z.testbit x c then 2 ^ c else 0.
Proof.
  intros Hc. apply Z.bits_inj'. intros k Hk. rewrite Z.land_spec.
  destruct (Z.eq_dec k c) as [->|Hne].
  - rewrite Z.pow2_bits_true by lia.
    destruct (Z.testbit x c); [now rewrite Z.pow2_bits_true by lia
                              | now rewrite Z.bits_0].
  - rewrite (Z.pow2_bits_false c k) by lia. rewrite andb_false_r.
    destruct (Z.testbit x c); [now rewrite Z.pow2_bits_false by lia
                              | now rewrite Z.bits_0].
Qed.

Lemma land_1_testbit (x : Z) : (Z.land x 1 !=? 0) = Z.testbit x 0.
Proof.
  change 1 with (2 ^ 0). rewrite land_pow2 by lia.
  destruct (Z.testbit x 0); reflexivity.
Qed.

(** ** The bit primitives *)

(** C6. [XNvm_EfusePgmBit] writes the packed address to the program-address
    register, waits for the done or error event, and ends by writing the
    done and error bits to the ISR register whatever the outcome; it returns
    the timeout code when the wait times out, the program-error code when
    the error event is reported, and success otherwise. *)
Theorem XNvm_EfusePgmBit_outcomes (e : Env) (t : Trace) (Page Row Col : Z) :
  let PgmAddr :=
    Z.lor (Z.lor (u32_shl Page XNVM_EFUSE_ADDR_PAGE_SHIFT)
                 (u32_shl Row XNVM_EFUSE_ADDR_ROW_SHIFT))
          (u32_shl Col XNVM_EFUSE_ADDR_COLUMN_SHIFT) in
  let events := Z.lor XNVM_EFUSE_ISR_PGM_DONE XNVM_EFUSE_ISR_PGM_ERROR in
  let write_addr :=
    CWriteReg XNVM_EFUSE_CTRL_BASEADDR XNVM_EFUSE_PGM_ADDR_REG_OFFSET PgmAddr in
  let wait :=
    CWaitForEvents (XNVM_EFUSE_CTRL_BASEADDR + XNVM_EFUSE_ISR_REG_OFFSET)
                   events events XNVM_EFUSE_PGM_TIMEOUT_VAL in
  let clear :=
    CWriteReg XNVM_EFUSE_CTRL_BASEADDR XNVM_EFUSE_ISR_REG_OFFSET events in
  exists r1 w r3 Status,
    XNvm_EfusePgmBit Page Row Col e t
      = Normal Status (t ++ [Ext write_addr r1; Ext wait w; Ext clear r3]) /\
    w = respond e (t ++ [Ext write_addr r1]) wait /\
    (fst w = XST_TIMEOUT -> Status = XNVM_EFUSE_ERR_PGM_TIMEOUT) /\
    (fst w <> XST_TIMEOUT ->
     Z.land (u32 (snd w)) XNVM_EFUSE_ISR_PGM_ERROR = XNVM_EFUSE_ISR_PGM_ERROR ->
     Status = XNVM_EFUSE_ERR_PGM) /\
    (fst w <> XST_TIMEOUT ->
     Z.land (u32 (snd w)) XNVM_EFUSE_ISR_PGM_ERROR <> XNVM_EFUSE_ISR_PGM_ERROR ->
     Status = XST_SUCCESS).
Proof.
  intros PgmAddr events write_addr wait clear.
  unfold XNvm_EfusePgmBit. unfold_prims. cbn [fst snd].
  fold PgmAddr. fold events. fold write_addr. fold wait. fold clear.
  set (r1 := respond e t write_addr).
  set (w := respond e (t ++ [Ext write_addr r1]) wait).
  set (r3 := respond e _ clear).
  exists r1, w, r3. eexists. split; [rewrite app_assoc3; reflexivity|].
  split; [reflexivity|].
  repeat split; intros.
  - rewrite H. now rewrite Z.eqb_refl.
  - destruct (Z.eqb_spec XST_TIMEOUT (fst w)); [congruence|].
    rewrite H0. now rewrite Z.eqb_refl.
  - destruct (Z.eqb_spec XST_TIMEOUT (fst w)); [congruence|].
    destruct (Z.eqb_spec (Z.land (u32 (snd w)) XNVM_EFUSE_ISR_PGM_ERROR)
                         XNVM_EFUSE_ISR_PGM_ERROR); [congruence|reflexivity].
Qed.

(** C7 (what the code does when the bit reads back clear).  When the read
    completes with the read-done event and bit [Col] of the read-data
    register is clear, [XNvm_EfuseVerifyBit] returns the generic
    [XST_FAILURE], not [XNVM_EFUSE_ERR_PGM_VERIFY]; it still ends by writing
    the read-done bit to the ISR register. *)
Theorem XNvm_EfuseVerifyBit_bit_clear (e : Env) (t : Trace) (Page Row Col : Z) :
  let RdAddr :=
    Z.lor (u32_shl Page XNVM_EFUSE_ADDR_PAGE_SHIFT)
          (u32_shl Row XNVM_EFUSE_ADDR_ROW_SHIFT) in
  let write_addr :=
    CWriteReg XNVM_EFUSE_CTRL_BASEADDR XNVM_EFUSE_RD_ADDR_REG_OFFSET RdAddr in
  let wait :=
    CWaitForEvents (XNVM_EFUSE_CTRL_BASEADDR + XNVM_EFUSE_ISR_REG_OFFSET)
                   XNVM_EFUSE_ISR_RD_DONE XNVM_EFUSE_ISR_RD_DONE
                   XNVM_EFUSE_RD_TIMEOUT_VAL in
  let read_data :=
    CReadReg XNVM_EFUSE_CTRL_BASEADDR XNVM_EFUSE_RD_DATA_REG_OFFSET in
  let clear :=
    CWriteReg XNVM_EFUSE_CTRL_BASEADDR XNVM_EFUSE_ISR_REG_OFFSET
              XNVM_EFUSE_ISR_RD_DONE in
  let r1 := respond e t write_addr in
  let w := respond e (t ++ [Ext write_addr r1]) wait in
  let rd := respond e (t ++ [Ext write_addr r1; Ext wait w]) read_data in
  fst w <> XST_TIMEOUT ->
  Z.land (u32 (snd w)) XNVM_EFUSE_ISR_RD_DONE = XNVM_EFUSE_ISR_RD_DONE ->
  Z.testbit (u32 (fst rd)) Col = false ->
  0 <= Col < 32 ->
  exists r4,
    XNvm_EfuseVerifyBit Page Row Col e t
      = Normal XST_FAILURE
          (t ++ [Ext write_addr r1; Ext wait w; Ext read_data rd;
                 Ext clear r4]).
Proof.
  intros RdAddr write_addr wait read_data clear r1 w rd Hw Hev Hbit HCol.
  unfold XNvm_EfuseVerifyBit. unfold_prims. cbn [fst snd].
  fold RdAddr. fold write_addr. fold wait. fold read_data. fold clear.
  fold r1. fold w.
  destruct (Z.eqb_spec XST_TIMEOUT (fst w)); [congruence|].
  rewrite Hev, Z.eqb_refl.
  replace ((t ++ [Ext write_addr r1]) ++ [Ext wait w])
    with (t ++ [Ext write_addr r1; Ext wait w]) by now rewrite <- app_assoc.
  fold rd.
  rewrite u32_shl_1, land_pow2, Hbit by lia. cbn [neqb Z.eqb negb].
  eexists. f_equal.
  rewrite <- !app_assoc. reflexivity.
Qed.

(** The other outcomes of [XNvm_EfuseVerifyBit]: the read-timeout code when
    the wait times out, success when the bit reads back set, and
    [XNVM_EFUSE_ERR_PGM_VERIFY] only when the wait ends without a timeout
    and without the read-done event; each ends by writing the read-done bit
    to the ISR register. *)
Lemma XNvm_EfuseVerifyBit_outcomes (e : Env) (t : Trace) (Page Row Col : Z) :
  let RdAddr :=
    Z.lor (u32_shl Page XNVM_EFUSE_ADDR_PAGE_SHIFT)
          (u32_shl Row XNVM_EFUSE_ADDR_ROW_SHIFT) in
  let write_addr :=
    CWriteReg XNVM_EFUSE_CTRL_BASEADDR XNVM_EFUSE_RD_ADDR_REG_OFFSET RdAddr in
  let wait :=
    CWaitForEvents (XNVM_EFUSE_CTRL_BASEADDR + XNVM_EFUSE_ISR_REG_OFFSET)
                   XNVM_EFUSE_ISR_RD_DONE XNVM_EFUSE_ISR_RD_DONE
                   XNVM_EFUSE_RD_TIMEOUT_VAL in
  let read_data :=
    CReadReg XNVM_EFUSE_CTRL_BASEADDR XNVM_EFUSE_RD_DATA_REG_OFFSET in
  let clear :=
    CWriteReg XNVM_EFUSE_CTRL_BASEADDR XNVM_EFUSE_ISR_REG_OFFSET
              XNVM_EFUSE_ISR_RD_DONE in
  let r1 := respond e t write_addr in
  let w := respond e (t ++ [Ext write_addr r1]) wait in
  let rd := respond e (t ++ [Ext write_addr r1; Ext wait w]) read_data in
  0 <= Col < 32 ->
  exists Status d r4,
    XNvm_EfuseVerifyBit Page Row Col e t
      = Normal Status
          (t ++ [Ext write_addr r1; Ext wait w] ++ d ++ [Ext clear r4]) /\
    (fst w = XST_TIMEOUT -> Status = XNVM_EFUSE_ERR_RD_TIMEOUT /\ d = []) /\
    (fst w <> XST_TIMEOUT ->
     Z.land (u32 (snd w)) XNVM_EFUSE_ISR_RD_DONE = XNVM_EFUSE_ISR_RD_DONE ->
     d = [Ext read_data rd] /\
     Status = if Z.testbit (u32 (fst rd)) Col then XST_SUCCESS
              else XST_FAILURE) /\
    (fst w <> XST_TIMEOUT ->
     Z.land (u32 (snd w)) XNVM_EFUSE_ISR_RD_DONE <> XNVM_EFUSE_ISR_RD_DONE ->
     Status = XNVM_EFUSE_ERR_PGM_VERIFY /\ d = []).
Proof.
  intros RdAddr write_addr wait read_data clear r1 w rd HCol.
  unfold XNvm_EfuseVerifyBit. unfold_prims. cbn [fst snd].
  fold RdAddr. fold write_addr. fold wait. fold read_data. fold clear.
  fold r1. fold w.
  replace ((t ++ [Ext write_addr r1]) ++ [Ext wait w])
    with (t ++ [Ext write_addr r1; Ext wait w]) by now rewrite <- app_assoc.
  fold rd.
  destruct (Z.eqb_spec XST_TIMEOUT (fst w)) as [Ht|Ht].
  - exists XNVM_EFUSE_ERR_RD_TIMEOUT, []. eexists.
    split; [rewrite <- !app_assoc; reflexivity|].
    repeat split; intros; congruence.
  - destruct (Z.eqb_spec (Z.land (u32 (snd w)) XNVM_EFUSE_ISR_RD_DONE)
                         XNVM_EFUSE_ISR_RD_DONE) as [Hd|Hd].
    + rewrite u32_shl_1, land_pow2 by lia.
      assert (Hpow : ((2 ^ Col) !=? 0) = true).
      { unfold neqb. destruct (Z.eqb_spec (2 ^ Col) 0); [|reflexivity].
        pose proof (Z.pow_pos_nonneg 2 Col). lia. }
      exists (if Z.testbit (u32 (fst rd)) Col then XST_SUCCESS
              else XST_FAILURE), [Ext read_data rd].
      subst rd.
      destruct (Z.testbit _ Col); [rewrite Hpow | cbn [neqb Z.eqb negb]];
        (eexists; split; [rewrite <- !app_assoc; reflexivity|]);
        repeat split; intros; congruence.
    + exists XNVM_EFUSE_ERR_PGM_VERIFY, []. eexists.
      split; [rewrite <- !app_assoc; reflexivity|].
      repeat split; intros; congruence.
Qed.

(** ** The close discipline *)

Lemma close_count_app (a b : Trace) :
  close_count (a ++ b) = (close_count a + close_count b)%nat.
Proof. unfold close_count. now rewrite filter_app, length_app. Qed.

Lemma no_close_ret {A} (a : A) : no_close (ret a).
Proof. intros e t. exists []. now rewrite app_nil_r. Qed.

Lemma no_close_goto {A} (s : Z) : no_close (@goto_END A s).
Proof. intros e t. exists []. now rewrite app_nil_r. Qed.

Lemma no_close_bind {A B} (m : M A) (k : A -> M B) :
  no_close m -> (forall a, no_close (k a)) -> no_close (bind m k).
Proof.
  intros Hm Hk e t. unfold bind. specialize (Hm e t).
  destruct (m e t) as [a t1|s t1|]; [| exact Hm | exact I].
  destruct Hm as (d1 & -> & H1). specialize (Hk a e (t ++ d1)).
  destruct (k a e (t ++ d1)) as [b t2|s t2|]; [| | exact I];
    destruct Hk as (d2 & -> & H2); exists (d1 ++ d2);
    (split; [now rewrite app_assoc | rewrite close_count_app; lia]).
Qed.

Lemma no_close_END (body : M Z) : no_close body -> no_close (END_label body).
Proof.
  intros H e t. unfold END_label. specialize (H e t).
  destruct (body e t); auto.
Qed.

Lemma no_close_when (c : bool) (m : M unit) : no_close m -> no_close (when c m).
Proof. destruct c; [auto | intros _; apply no_close_ret]. Qed.

Lemma no_close_call (c : Call) : no_close (call c).
Proof. intros e t. cbv [call]. eexists. split; reflexivity. Qed.

Lemma no_close_ghost (m : Mark) :
  m <> Enter_CloseController -> no_close (ghost m).
Proof.
  intros H e t. cbv [ghost]. eexists. split; [reflexivity|].
  destruct m; [congruence | reflexivity | reflexivity].
Qed.

Lemma no_close_undefined {A} : no_close (@undefined_behaviour A).
Proof. intros e t. exact I. Qed.

Lemma no_close_addr_of (v : Z) : no_close (addr_of v).
Proof. intros e t. exists []. now rewrite app_nil_r. Qed.

Lemma no_close_zero_array (n : Z) : no_close (zero_array n).
Proof. intros e t. exists []. now rewrite app_nil_r. Qed.

Lemma no_close_while_fuel {S} (n : nat) (cond : S -> bool) (body : S -> M S) :
  (forall s, no_close (body s)) -> forall s, no_close (while_fuel n cond body s).
Proof.
  intros Hb. induction n as [|n IH]; intros s; cbn [while_fuel].
  - intros e t. exact I.
  - destruct (cond s); [apply no_close_bind; auto | apply no_close_ret].
Qed.

Lemma no_close_while {S} (cond : S -> bool) (body : S -> M S) (s : S) :
  (forall s, no_close (body s)) -> no_close (while cond body s).
Proof. intros Hb e t. unfold while. now apply no_close_while_fuel. Qed.

Create HintDb no_close_db.

Ltac no_close_step :=
  match goal with
  | |- no_close (ret _) => apply no_close_ret
  | |- no_close (goto_END _) => apply no_close_goto
  | |- no_close undefined_behaviour => apply no_close_undefined
  | |- no_close (bind _ _) => apply no_close_bind; [|intro]
  | |- no_close (END_label _) => apply no_close_END
  | |- no_close (when _ _) => apply no_close_when
  | |- no_close (call _) => apply no_close_call
  | |- no_close (ghost _) => apply no_close_ghost; discriminate
  | |- no_close (addr_of _) => apply no_close_addr_of
  | |- no_close (zero_array _) => apply no_close_zero_array
  | |- no_close (while _ _ _) => apply no_close_while; intro
  | |- no_close (if ?c then _ else _) => destruct c
  | |- no_close (match ?x with _ => _ end) => destruct x
  | |- no_close _ => solve [auto with no_close_db]
  | |- no_close _ => progress cbv zeta
  | |- no_close _ =>
      progress unfold status_of, XNvm_EfuseReadReg, XNvm_EfuseWriteReg,
        Xil_WaitForEvents, XNvm_EfuseSetupController, XNvm_EfuseResetReadMode,
        XNvm_EfuseDisableProgramming, XNvm_EfuseLockController,
        XNvm_EfuseCacheReload, XNvm_EfuseCheckZeros, XNvm_EfuseCheckAesKeyCrc,
        XNvm_AesCrcCalc, XNvm_EfuseValidateAesKeyWriteReq,
        XNvm_EfuseValidatePpkHashWriteReq, XNvm_EfuseValidateIvWriteReq,
        XNvm_EfuseValidateDecOnlyRequest, XNvm_EfuseValidateFipsInfo,
        xil_printf, env_checks_TODO, XNvm_EfuseCacheLoadNPrgmProtectionBits
  end.

Ltac no_close_tac := repeat no_close_step.

Lemma no_close_PgmBit Page Row Col : no_close (XNvm_EfusePgmBit Page Row Col).
Proof. unfold XNvm_EfusePgmBit. no_close_tac. Qed.
#[local] Hint Resolve no_close_PgmBit : no_close_db.

Lemma no_close_VerifyBit Page Row Col :
  no_close (XNvm_EfuseVerifyBit Page Row Col).
Proof. unfold XNvm_EfuseVerifyBit. no_close_tac. Qed.
#[local] Hint Resolve no_close_VerifyBit : no_close_db.

Lemma no_close_PgmAndVerifyBit Page Row Col Skip :
  no_close (XNvm_EfusePgmAndVerifyBit Page Row Col Skip).
Proof. unfold XNvm_EfusePgmAndVerifyBit. no_close_tac. Qed.
#[local] Hint Resolve no_close_PgmAndVerifyBit : no_close_db.

Lemma no_close_PgmAndVerifyData info RowData :
  no_close (XNvm_EfusePgmAndVerifyData info RowData).
Proof.
  unfold XNvm_EfusePgmAndVerifyData, XNvm_EfusePgmAndVerifyData_walk,
    walk_row, walk_bit.
  no_close_tac.
Qed.
#[local] Hint Resolve no_close_PgmAndVerifyData : no_close_db.

Lemma no_close_ComputeProgrammableBits Req Prgm s n :
  no_close (XNvm_EfuseComputeProgrammableBits Req Prgm s n).
Proof. unfold XNvm_EfuseComputeProgrammableBits. no_close_tac. Qed.
#[local] Hint Resolve no_close_ComputeProgrammableBits : no_close_db.

Lemma no_close_ComputeProgrammableBits_array Len Req Prgm s n :
  no_close (XNvm_EfuseComputeProgrammableBits_array Len Req Prgm s n).
Proof. unfold XNvm_EfuseComputeProgrammableBits_array. no_close_tac. Qed.
#[local] Hint Resolve no_close_ComputeProgrammableBits_array : no_close_db.

Lemma no_close_PrgmFipsInfo a b : no_close (XNvm_EfusePrgmFipsInfo a b).
Proof. unfold XNvm_EfusePrgmFipsInfo. no_close_tac. Qed.
#[local] Hint Resolve no_close_PrgmFipsInfo : no_close_db.

Lemma no_close_WritePufSecCtrl a : no_close (XNvm_EfuseWritePufSecCtrl a).
Proof. unfold XNvm_EfuseWritePufSecCtrl. no_close_tac. Qed.
#[local] Hint Resolve no_close_WritePufSecCtrl : no_close_db.

Lemma no_close_WritePufSynData a : no_close (XNvm_EfuseWritePufSynData a).
Proof. unfold XNvm_EfuseWritePufSynData. no_close_tac. Qed.
#[local] Hint Resolve no_close_WritePufSynData : no_close_db.

Lemma no_close_WritePufChash a : no_close (XNvm_EfuseWritePufChash a).
Proof. unfold XNvm_EfuseWritePufChash. no_close_tac. Qed.
#[local] Hint Resolve no_close_WritePufChash : no_close_db.

Lemma no_close_WritePufAux a : no_close (XNvm_EfuseWritePufAux a).
Proof. unfold XNvm_EfuseWritePufAux. no_close_tac. Qed.
#[local] Hint Resolve no_close_WritePufAux : no_close_db.

Lemma no_close_WriteRoSwapEn a : no_close (XNvm_EfuseWriteRoSwapEn a).
Proof. unfold XNvm_EfuseWriteRoSwapEn. no_close_tac. Qed.
#[local] Hint Resolve no_close_WriteRoSwapEn : no_close_db.

Lemma no_close_IsPufHelperDataEmpty : no_close (XNvm_EfuseIsPufHelperDataEmpty).
Proof. unfold XNvm_EfuseIsPufHelperDataEmpty. no_close_tac. Qed.
#[local] Hint Resolve no_close_IsPufHelperDataEmpty : no_close_db.

Lemma no_close_PrgmDmeUserKey a b : no_close (XNvm_EfusePrgmDmeUserKey a b).
Proof. unfold XNvm_EfusePrgmDmeUserKey. no_close_tac. Qed.
#[local] Hint Resolve no_close_PrgmDmeUserKey : no_close_db.

Lemma no_close_PrgmIv a b : no_close (XNvm_EfusePrgmIv a b).
Proof. unfold XNvm_EfusePrgmIv. no_close_tac. Qed.
#[local] Hint Resolve no_close_PrgmIv : no_close_db.

Lemma no_close_PrgmPpkHash a b : no_close (XNvm_EfusePrgmPpkHash a b).
Proof. unfold XNvm_EfusePrgmPpkHash. no_close_tac. Qed.
#[local] Hint Resolve no_close_PrgmPpkHash : no_close_db.

Lemma no_close_PrgmAesKey a b : no_close (XNvm_EfusePrgmAesKey a b).
Proof. unfold XNvm_EfusePrgmAesKey. no_close_tac. Qed.
#[local] Hint Resolve no_close_PrgmAesKey : no_close_db.

Lemma no_close_WriteAesKey_body a b : no_close (XNvm_EfuseWriteAesKey_body a b).
Proof. unfold XNvm_EfuseWriteAesKey_body. no_close_tac. Qed.

Lemma no_close_WritePpkHash_body a b :
  no_close (XNvm_EfuseWritePpkHash_body a b).
Proof. unfold XNvm_EfuseWritePpkHash_body. no_close_tac. Qed.

Lemma no_close_WriteIv_body a b : no_close (XNvm_EfuseWriteIv_body a b).
Proof. unfold XNvm_EfuseWriteIv_body. no_close_tac. Qed.

Lemma no_close_WriteGlitchConfigBits_body a b :
  no_close (XNvm_EfuseWriteGlitchConfigBits_body a b).
Proof. unfold XNvm_EfuseWriteGlitchConfigBits_body. no_close_tac. Qed.

Lemma no_close_WriteDecOnly_body a : no_close (XNvm_EfuseWriteDecOnly_body a).
Proof. unfold XNvm_EfuseWriteDecOnly_body. no_close_tac. Qed.

Lemma no_close_WriteRevocationID_body a b :
  no_close (XNvm_EfuseWriteRevocationID_body a b).
Proof. unfold XNvm_EfuseWriteRevocationID_body. no_close_tac. Qed.

Lemma no_close_WriteOffChipRevokeID_body a b :
  no_close (XNvm_EfuseWriteOffChipRevokeID_body a b).
Proof. unfold XNvm_EfuseWriteOffChipRevokeID_body. no_close_tac. Qed.

Lemma no_close_WriteMiscCtrlBits_body a b :
  no_close (XNvm_EfuseWriteMiscCtrlBits_body a b).
Proof. unfold XNvm_EfuseWriteMiscCtrlBits_body. no_close_tac. Qed.

Lemma no_close_WriteSecCtrlBits_body a b :
  no_close (XNvm_EfuseWriteSecCtrlBits_body a b).
Proof. unfold XNvm_EfuseWriteSecCtrlBits_body. no_close_tac. Qed.

Lemma no_close_WriteMisc1Bits_body a b :
  no_close (XNvm_EfuseWriteMisc1Bits_body a b).
Proof. unfold XNvm_EfuseWriteMisc1Bits_body. no_close_tac. Qed.

Lemma no_close_WriteBootEnvCtrlBits_body a b :
  no_close (XNvm_EfuseWriteBootEnvCtrlBits_body a b).
Proof. unfold XNvm_EfuseWriteBootEnvCtrlBits_body. no_close_tac. Qed.

Lemma no_close_WriteFipsInfo_body a b c :
  no_close (XNvm_EfuseWriteFipsInfo_body a b c).
Proof. unfold XNvm_EfuseWriteFipsInfo_body. no_close_tac. Qed.

Lemma no_close_WriteUds_body a b : no_close (XNvm_EfuseWriteUds_body a b).
Proof. unfold XNvm_EfuseWriteUds_body. no_close_tac. Qed.

Lemma no_close_WriteDmeUserKey_body a b :
  no_close (XNvm_EfuseWriteDmeUserKey_body a b).
Proof.
  unfold XNvm_EfuseWriteDmeUserKey_body, XNvm_EfuseWriteDmeUserKey_checked.
  no_close_tac.
Qed.

Lemma no_close_WriteDmeRevoke_body a b :
  no_close (XNvm_EfuseWriteDmeRevoke_body a b).
Proof. unfold XNvm_EfuseWriteDmeRevoke_body. no_close_tac. Qed.

Lemma no_close_WriteDisableInplacePlmUpdate_body a :
  no_close (XNvm_EfuseWriteDisableInplacePlmUpdate_body a).
Proof. unfold XNvm_EfuseWriteDisableInplacePlmUpdate_body. no_close_tac. Qed.

Lemma no_close_WriteBootModeDisable_body a b :
  no_close (XNvm_EfuseWriteBootModeDisable_body a b).
Proof. unfold XNvm_EfuseWriteBootModeDisable_body. no_close_tac. Qed.

Lemma no_close_WriteDmeMode_body a b :
  no_close (XNvm_EfuseWriteDmeMode_body a b).
Proof. unfold XNvm_EfuseWriteDmeMode_body. no_close_tac. Qed.

Lemma no_close_WritePuf_body a : no_close (XNvm_EfuseWritePuf_body a).
Proof. unfold XNvm_EfuseWritePuf_body. no_close_tac. Qed.

Lemma END_label_returns (body : M Z) e t s t' :
  END_label body e t <> GotoEND s t'.
Proof. unfold END_label. destruct (body e t); discriminate. Qed.

(** The close sequence always returns; it enters once and then only talks to
    the controller. *)
Lemma CloseController_runs (e : Env) (t : Trace) :
  exists CloseStatus d,
    XNvm_EfuseCloseController e t = Normal CloseStatus (t ++ d) /\
    close_count d = 1%nat /\ pgm_ops d = [] /\ visits d = [] /\
    setup_count d = 0%nat.
Proof.
  unfold XNvm_EfuseCloseController. unfold_prims. cbn [fst snd].
  repeat match goal with
         | |- context [if ?c then _ else _] => destruct c
         end;
    do 2 eexists; rewrite <- ?app_assoc; cbn [app];
    (split; [reflexivity | repeat split]).
Qed.

Lemma closes_once_intro (body : M Z) :
  no_close body ->
  (forall e t s t', body e t <> GotoEND s t') ->
  closes_once body
    (Status <- body ;;
     CloseStatus <- XNvm_EfuseCloseController ;;
     ret (if XST_SUCCESS =? Status then CloseStatus else Status)).
Proof.
  intros Hnc Hret e t. unfold bind at 1. specialize (Hnc e t).
  specialize (Hret e t).
  destruct (body e t) as [Status t1|s t1|]; [| now apply (Hret s t1) | reflexivity].
  destruct Hnc as (d1 & -> & Hd1).
  destruct (CloseController_runs e (t ++ d1)) as (cs & d2 & Hc & Hd2 & _).
  unfold bind, ret. rewrite Hc.
  exists Status, d1, cs, d2. rewrite <- app_assoc in Hc |- *.
  repeat split; auto. rewrite close_count_app. lia.
Qed.

Ltac closes_once_tac lem :=
  intros; apply closes_once_intro;
  [apply lem | intros; apply END_label_returns].

(** ** The range walk *)

Lemma visits_app (a b : Trace) : visits (a ++ b) = visits a ++ visits b.
Proof.
  induction a as [|[c r|[| |]] a IH]; cbn [app visits]; auto.
  now rewrite IH.
Qed.

Lemma pgm_ops_app (a b : Trace) : pgm_ops (a ++ b) = pgm_ops a ++ pgm_ops b.
Proof.
  induction a as [|[c r|[| |]] a IH]; cbn [app pgm_ops]; auto.
  now rewrite IH.
Qed.

Lemma ops_of_app info a b : ops_of info (a ++ b) = ops_of info a ++ ops_of info b.
Proof. unfold ops_of. now rewrite filter_app, map_app. Qed.

(** A single-bit operation always returns; it is entered once and visits
    nothing. *)
Lemma PgmAndVerifyBit_runs (e : Env) (t : Trace) (Page Row Col Skip : Z) :
  exists Status d,
    XNvm_EfusePgmAndVerifyBit Page Row Col Skip e t = Normal Status (t ++ d) /\
    visits d = [] /\ pgm_ops d = [(Page, Row, Col, Skip)] /\
    close_count d = 0%nat /\ setup_count d = 0%nat.
Proof.
  unfold XNvm_EfusePgmAndVerifyBit, XNvm_EfusePgmBit, XNvm_EfuseVerifyBit.
  unfold_prims. cbn [fst snd].
  repeat match goal with
         | |- context [if ?c then _ else _] => destruct c
         end;
    do 2 eexists; rewrite <- ?app_assoc; cbn [app];
    (split; [reflexivity | repeat split]).
Qed.

(** On cooperative hardware a single-bit operation on a column of a row
    succeeds. *)
Lemma cooperative_bit_succeeds (e : Env) (t : Trace) (Page Row Col Skip : Z) :
  XST_TIMEOUT <> XST_SUCCESS ->
  programs_promptly e -> reads_back_set e ->
  0 <= Col < 32 ->
  exists t',
    XNvm_EfusePgmAndVerifyBit Page Row Col Skip e t = Normal XST_SUCCESS t'.
Proof.
  intros Hto Hp Hr HCol.
  unfold XNvm_EfusePgmAndVerifyBit, XNvm_EfusePgmBit, XNvm_EfuseVerifyBit.
  unfold_prims. cbn [fst snd].
  match goal with
  | |- context [XST_TIMEOUT =? fst (respond e ?t0 ?c)] =>
      destruct (Hp t0) as (Hw1 & Hw2)
  end.
  cbv zeta in Hw1, Hw2. rewrite Hw1.
  destruct (Z.eqb_spec XST_TIMEOUT XST_SUCCESS) as [?|_]; [congruence|].
  match goal with
  | |- context [if ?c =? XNVM_EFUSE_ISR_PGM_ERROR then _ else _] =>
      destruct (Z.eqb_spec c XNVM_EFUSE_ISR_PGM_ERROR) as [?|_];
        [congruence|]
  end.
  rewrite Z.eqb_refl.
  destruct (Skip =? 0); [|eexists; reflexivity].
  match goal with
  | |- context [XST_TIMEOUT =? fst (respond e ?t0 ?c)] =>
      destruct (Hr t0) as (Hr1 & Hr2 & _)
  end.
  cbv zeta in Hr1, Hr2. rewrite Hr1.
  destruct (Z.eqb_spec XST_TIMEOUT XST_SUCCESS) as [?|_]; [congruence|].
  rewrite Hr2, Z.eqb_refl.
  match goal with
  | |- context [u32 (fst (respond e ?t0 (CReadReg _ _)))] =>
      destruct (Hr t0) as (_ & _ & Hr3)
  end.
  rewrite Hr3.
  rewrite u32_shl_1, land_pow2 by lia.
  change 4294967295 with (Z.ones 32). rewrite Z.ones_spec_low by lia.
  assert (H : (2 ^ Col !=? 0) = true).
  { cbv [neqb]. destruct (Z.eqb_spec (2 ^ Col) 0) as [E|_]; [|reflexivity].
    apply Z.pow_nonzero in E; [contradiction|lia|lia]. }
  rewrite H. eexists; reflexivity.
Qed.

Section Walk.
Variables (e : Env) (info : XNvm_EfusePrgmInfo) (D : words).


Lemma bits_ok_app n a b :
  bits_ok D n a -> bits_ok D (n + Z.of_nat (length a)) b -> bits_ok D n (a ++ b).
Proof.
  revert n. induction a as [|x a IH]; intros n Ha Hb; cbn [app bits_ok length] in *.
  - now rewrite Z.add_0_r in Hb.
  - destruct Ha as [Hx Ha]. split; [exact Hx|]. apply IH; [exact Ha|].
    replace (n + 1 + Z.of_nat (length a))
      with (n + Z.of_nat (S (length a))) by lia. exact Hb.
Qed.

Lemma bits_ok_nth n l :
  bits_ok D n l ->
  forall k x, nth_error l k = Some x -> snd x = stream_bit D (n + Z.of_nat k).
Proof.
  revert n. induction l as [|y l IH]; intros n H k x Hk.
  - destruct k; discriminate.
  - destruct H as [Hy Hl]. destruct k as [|k]; cbn [nth_error] in Hk.
    + injection Hk as <-. now rewrite Z.add_0_r.
    + rewrite (IH _ Hl _ _ Hk). f_equal. lia.
Qed.

Lemma stream_inv_bit n s :
  0 <= n -> stream_inv D n s -> (Z.land (Data s) 1 !=? 0) = stream_bit D n.
Proof.
  intros Hn (_ & _ & HD). rewrite land_1_testbit, HD.
  assert (0 <= n mod 32 < 32) by (apply Z.mod_pos_bound; lia).
  rewrite Z.shiftr_spec by lia. unfold load, stream_bit.
  rewrite Z.add_0_l. now apply u32_testbit.
Qed.

Lemma stream_inv_next n s :
  0 <= n -> stream_inv D n s ->
  let Idx' := u32_add (Idx s) 1 in
  (Idx' =? 32) = true /\
    stream_inv D (n + 1)
      {| Row := Row s; Col := u32_add (Col s) 1; Idx := 0;
         DataPtr := DataPtr s + 1; Data := load D (DataPtr s + 1) |}
  \/
  (Idx' =? 32) = false /\
    stream_inv D (n + 1)
      {| Row := Row s; Col := u32_add (Col s) 1; Idx := Idx';
         DataPtr := DataPtr s; Data := u32_shr (Data s) 1 |}.
Proof.
  intros Hn (HI & HP & HD) Idx'.
  assert (Hm : 0 <= n mod 32 < 32) by (apply Z.mod_pos_bound; lia).
  assert (HIdx' : Idx' = n mod 32 + 1).
  { unfold Idx', u32_add. rewrite HI. apply u32_small. lia. }
  assert (Hdm : n = 32 * (n / 32) + n mod 32) by (apply Z.div_mod; lia).
  destruct (Z.eqb_spec Idx' 32) as [E|E]; [left|right]; (split; [reflexivity|]);
    unfold stream_inv; cbn [Idx DataPtr Data].
  - assert (Hq : (n + 1) / 32 = n / 32 + 1).
    { symmetry. apply (Z.div_unique (n + 1) 32 (n / 32 + 1) 0); lia. }
    assert (Hr : (n + 1) mod 32 = 0).
    { symmetry. apply (Z.mod_unique (n + 1) 32 (n / 32 + 1) 0); lia. }
    rewrite Hq, Hr, HP, Z.shiftr_0_r. auto.
  - assert (Hq : (n + 1) / 32 = n / 32).
    { symmetry. apply (Z.div_unique (n + 1) 32 (n / 32) (n mod 32 + 1)); lia. }
    assert (Hr : (n + 1) mod 32 = n mod 32 + 1).
    { symmetry. apply (Z.mod_unique (n + 1) 32 (n / 32) (n mod 32 + 1)); lia. }
    rewrite Hq, Hr, HIdx', HP, HD. unfold u32_shr.
    rewrite Z.shiftr_shiftr by lia. auto.
Qed.

Hypothesis bits_in_row : XNVM_EFUSE_MAX_BITS_IN_ROW = 32.

(** What one turn of the column loop does, whatever the hardware answers. *)
Lemma walk_bit_step n s t :
  0 <= n -> stream_inv D n s ->
  exists d,
    visits d = [(Row s, Col s, stream_bit D n)] /\
    pgm_ops d = ops_of info (visits d) /\
    match walk_bit info D s e t with
    | Normal s' t' =>
        t' = t ++ d /\ stream_inv D (n + 1) s' /\ Row s' = Row s /\
        Col s' = u32_add (Col s) 1
    | GotoEND _ t' => t' = t ++ d
    | OutOfFuel => False
    end.
Proof.
  intros Hn Hinv. unfold walk_bit.
  rewrite bits_in_row. rewrite (stream_inv_bit n s Hn Hinv).
  unfold bind at 1. cbv [ghost].
  destruct (stream_bit D n) eqn:Hb; cbv [when].
  - destruct (PgmAndVerifyBit_runs e
                (t ++ [Ghost (Visit (Row s) (Col s) true)])
                (EfuseType info) (Row s) (Col s) (SkipVerify info))
      as (st & d & Hrun & Hv & Hp & _).
    exists (Ghost (Visit (Row s) (Col s) true) :: d).
    cbn [visits pgm_ops]. rewrite Hv, Hp.
    split; [reflexivity|]. split; [reflexivity|].
    unfold bind. rewrite Hrun. rewrite <- app_assoc. cbn [app].
    destruct (st !=? XST_SUCCESS); cbv [goto_END ret]; [reflexivity|].
    destruct (stream_inv_next n s Hn Hinv) as [[E H]|[E H]];
      cbv zeta in E; rewrite E; auto.
  - exists [Ghost (Visit (Row s) (Col s) false)].
    cbn [visits pgm_ops]. split; [reflexivity|]. split; [reflexivity|].
    unfold bind, ret.
    destruct (stream_inv_next n s Hn Hinv) as [[E H]|[E H]];
      cbv zeta in E; rewrite E; auto.
Qed.

(** The column loop: every bit it looks at is the next bit of the stream. *)
Lemma walk_cols_bits fuel : forall n s t,
  0 <= n -> stream_inv D n s ->
  match while_fuel fuel (fun s => Col s <=? ColEnd info) (walk_bit info D) s e t
  with
  | Normal s' t' =>
      exists d, t' = t ++ d /\ bits_ok D n (visits d) /\
                pgm_ops d = ops_of info (visits d) /\
                stream_inv D (n + Z.of_nat (length (visits d))) s' /\
                Row s' = Row s
  | GotoEND _ t' =>
      exists d, t' = t ++ d /\ bits_ok D n (visits d) /\
                pgm_ops d = ops_of info (visits d)
  | OutOfFuel => True
  end.
Proof.
  induction fuel as [|fuel IH]; intros n s t Hn Hinv; cbn [while_fuel]; [exact I|].
  destruct (Col s <=? ColEnd info).
  - destruct (walk_bit_step n s t Hn Hinv) as (d1 & Hv1 & Hp1 & Hstep).
    unfold bind. destruct (walk_bit info D s e t) as [s1 t1|st t1|]; [| |contradiction].
    + destruct Hstep as (-> & Hinv1 & HR & HC).
      assert (Hn1 : 0 <= n + 1) by lia.
      specialize (IH (n + 1) s1 (t ++ d1) Hn1 Hinv1).
      destruct (while_fuel fuel _ _ s1 e (t ++ d1)) as [s2 t2|st t2|]; [| |exact I].
      * destruct IH as (d2 & -> & Hb2 & Hp2 & Hinv2 & HR2).
        exists (d1 ++ d2). rewrite visits_app, pgm_ops_app, ops_of_app.
        rewrite Hp1, Hp2, Hv1.
        rewrite app_assoc. split; [reflexivity|].
        cbn [app length bits_ok snd].
        split; [auto|]. split; [reflexivity|]. split; [|congruence].
        replace (n + Z.of_nat (S (length (visits d2))))
          with (n + 1 + Z.of_nat (length (visits d2))) by lia. exact Hinv2.
      * destruct IH as (d2 & -> & Hb2 & Hp2).
        exists (d1 ++ d2). rewrite visits_app, pgm_ops_app, ops_of_app.
        rewrite Hp1, Hp2, Hv1.
        rewrite app_assoc. split; [reflexivity|].
        cbn [app bits_ok snd].
        repeat split; auto.
    + exists d1. rewrite Hp1, Hv1. cbn [bits_ok snd]. repeat split; auto.
  - exists []. cbn [visits length]. rewrite app_nil_r, Z.add_0_r.
    cbv [ret]. cbn [bits_ok pgm_ops]. auto.
Qed.

(** One row: the column loop, then [Row++]. *)
Lemma walk_row_bits n s t :
  0 <= n -> stream_inv D n s ->
  match walk_row info D s e t with
  | Normal s' t' =>
      exists d, t' = t ++ d /\ bits_ok D n (visits d) /\
                pgm_ops d = ops_of info (visits d) /\
                stream_inv D (n + Z.of_nat (length (visits d))) s'
  | GotoEND _ t' =>
      exists d, t' = t ++ d /\ bits_ok D n (visits d) /\
                pgm_ops d = ops_of info (visits d)
  | OutOfFuel => True
  end.
Proof.
  intros Hn Hinv. unfold walk_row. cbv [xil_printf]. unfold bind at 1 2.
  cbv [call ret]. cbn [Row Col Idx DataPtr Data]. unfold bind at 1.
  unfold while.
  match goal with
  | |- context [while_fuel ?f ?c ?b ?s0 e ?t0] =>
      pose proof (walk_cols_bits f n s0 t0 Hn) as H;
      destruct (while_fuel f c b s0 e t0) as [s1 t1|st t1|]
  end; [| |exact I].
  - destruct H as (d & -> & Hb & Hp & Hinv1 & _); [exact Hinv|].
    eexists (_ :: d). rewrite <- app_assoc. cbn [app visits pgm_ops].
    split; [reflexivity|]. split; [exact Hb|]. split; [exact Hp|].
    exact Hinv1.
  - destruct H as (d & -> & Hb & Hp); [exact Hinv|].
    eexists (_ :: d). rewrite <- app_assoc. cbn [app visits pgm_ops].
    split; [reflexivity|]. split; [exact Hb|]. exact Hp.
Qed.

(** The row loop. *)
Lemma walk_rows_bits EndRow fuel : forall n s t,
  0 <= n -> stream_inv D n s ->
  match while_fuel fuel (fun s => Row s <? EndRow) (walk_row info D) s e t with
  | Normal s' t' | GotoEND s' t' =>
      exists d, t' = t ++ d /\ bits_ok D n (visits d) /\
                pgm_ops d = ops_of info (visits d)
  | OutOfFuel => True
  end.
Proof.
  induction fuel as [|fuel IH]; intros n s t Hn Hinv; cbn [while_fuel]; [exact I|].
  destruct (Row s <? EndRow).
  - pose proof (walk_row_bits n s t Hn Hinv) as H1. unfold bind.
    destruct (walk_row info D s e t) as [s1 t1|st t1|]; [| |exact I].
    + destruct H1 as (d1 & -> & Hb1 & Hp1 & Hinv1).
      assert (Hn1 : 0 <= n + Z.of_nat (length (visits d1))) by lia.
      specialize (IH _ s1 (t ++ d1) Hn1 Hinv1).
      destruct (while_fuel fuel _ _ s1 e (t ++ d1)) as [s2 t2|st t2|];
        [| |exact I];
        destruct IH as (d2 & -> & Hb2 & Hp2);
        exists (d1 ++ d2); rewrite visits_app, pgm_ops_app, ops_of_app;
        rewrite Hp1, Hp2, app_assoc;
        (split; [reflexivity|]); (split; [|reflexivity]);
        apply bits_ok_app; assumption.
    + destruct H1 as (d1 & -> & Hb1 & Hp1). exists d1. auto.
  - exists []. rewrite app_nil_r. cbv [ret]. cbn [visits bits_ok pgm_ops]. auto.
Qed.

End Walk.

(** Whatever the hardware does, a range walk that returns has consumed the
    word stream bit by bit, and has started a single-bit operation exactly
    at the positions whose bit was set. *)
Lemma PgmAndVerifyData_bits (e : Env) (info : XNvm_EfusePrgmInfo)
  (RowData : ptr) (t : Trace) :
  XNVM_EFUSE_MAX_BITS_IN_ROW = 32 ->
  match XNvm_EfusePgmAndVerifyData info RowData e t with
  | Normal _ t' =>
      exists d, t' = t ++ d /\
        pgm_ops d = ops_of info (visits d) /\
        match RowData with
        | Some D => bits_ok D 0 (visits d)
        | None => visits d = []
        end
  | GotoEND _ _ => False
  | OutOfFuel => True
  end.
Proof.
  intros HW.
  unfold XNvm_EfusePgmAndVerifyData. unfold END_label.
  unfold bind at 1.
  assert (Hnil : exists d : Trace, t = t ++ d /\
            pgm_ops d = ops_of info (visits d) /\
            match RowData with
            | Some D => bits_ok D 0 (visits d) | None => visits d = [] end).
  { exists []. rewrite app_nil_r. destruct RowData; cbn; auto. }
  destruct (_ && _); cbv [when goto_END ret]; [exact Hnil|].
  destruct RowData as [D|]; [|exact Hnil].
  unfold bind at 1.
  destruct (NumOfRows info =? 0); [exact Hnil|].
  unfold bind. unfold XNvm_EfusePgmAndVerifyData_walk, while.
  match goal with
  | |- context [while_fuel ?f ?c ?b ?s0 e t] =>
      assert (Hinv : stream_inv D 0 s0)
        by (unfold stream_inv; cbn [Idx DataPtr Data];
            rewrite Z.shiftr_0_r; auto);
      pose proof (walk_rows_bits e info D HW
                    (u32_add (StartRow info) (NumOfRows info)) f 0 s0 t
                    (Z.le_refl 0) Hinv) as H;
      destruct (while_fuel f c b s0 e t) as [s1 t1|st t1|]
  end; [| |exact I].
  - destruct H as (d & -> & Hb & Hp).
    destruct (_ !=? _); cbv [ret]; exists d; auto.
  - destruct H as (d & -> & Hb & Hp). exists d; auto.
Qed.

(** C4. The N-th bit the range walk consumes from the caller's data is bit
    [N mod 32] of word [N / 32], whatever the width of the column window and
    whatever the hardware answers. *)
Theorem walk_reads_stream_in_order (e : Env) (info : XNvm_EfusePrgmInfo)
  (RowData : words) (t t' : Trace) (Status : Z) :
  XNVM_EFUSE_MAX_BITS_IN_ROW = 32 ->
  XNvm_EfusePgmAndVerifyData info (Some RowData) e t = Normal Status t' ->
  exists d,
    t' = t ++ d /\
    forall (N : nat) (r c : Z) (b : bool),
      nth_error (visits d) N = Some (r, c, b) ->
      b = Z.testbit (RowData (Z.of_nat N / 32)) (Z.of_nat N mod 32).
Proof.
  intros HW Hrun.
  pose proof (PgmAndVerifyData_bits e info (Some RowData) t HW) as H.
  rewrite Hrun in H. destruct H as (d & -> & _ & Hb).
  exists d. split; [reflexivity|]. intros N r c b HN.
  apply (bits_ok_nth RowData 0 _ Hb) in HN. exact HN.
Qed.

Lemma flat_map_seq_shift {A} (f : nat -> list A) (a k : nat) :
  flat_map f (seq (S a) k) = flat_map (fun i => f (S i)) (seq a k).
Proof.
  rewrite <- seq_shift, !flat_map_concat_map, map_map. reflexivity.
Qed.

Lemma flat_map_map {A B C} (g : A -> B) (f : B -> list C) (l : list A) :
  flat_map f (map g l) = flat_map (fun x => f (g x)) l.
Proof. rewrite !flat_map_concat_map, map_map. reflexivity. Qed.

Section WalkSucceeds.
Variables (e : Env) (info : XNvm_EfusePrgmInfo) (D : words).
Hypothesis Hrange : range_ok info.
Hypothesis Hok : every_bit_succeeds e info.

Lemma walk_bit_ok (s : Cursor) (t : Trace) :
  StartRow info <= Row s < StartRow info + NumOfRows info ->
  ColStart info <= Col s <= ColEnd info ->
  exists s' d,
    walk_bit info D s e t = Normal s' (t ++ d) /\
    map fst (visits d) = [(Row s, Col s)] /\
    Row s' = Row s /\ Col s' = Col s + 1.
Proof.
  intros HR HC. destruct Hrange as (_ & _ & _ & _ & HC0 & _ & HCE).
  assert (HCol : u32_add (Col s) 1 = Col s + 1)
    by (unfold u32_add; apply u32_small; lia).
  unfold walk_bit. unfold bind at 1. cbv [ghost].
  destruct (Z.land (Data s) 1 !=? 0); cbv [when].
  - destruct (Hok (t ++ [Ghost (Visit (Row s) (Col s) true)]) _ _ HR HC)
      as (t' & Hrun).
    destruct (PgmAndVerifyBit_runs e
                (t ++ [Ghost (Visit (Row s) (Col s) true)])
                (EfuseType info) (Row s) (Col s) (SkipVerify info))
      as (st & d & Hrun' & Hv & _).
    rewrite Hrun in Hrun'. injection Hrun' as <- ->.
    unfold bind. rewrite Hrun. cbv [neqb]. rewrite Z.eqb_refl. cbv [negb ret].
    destruct (_ =? XNVM_EFUSE_MAX_BITS_IN_ROW);
      do 2 eexists; rewrite <- app_assoc; cbn [app];
      (split; [reflexivity|]); cbn [visits map fst Row Col]; rewrite Hv;
      auto.
  - unfold bind. cbv [ret].
    destruct (_ =? XNVM_EFUSE_MAX_BITS_IN_ROW);
      do 2 eexists; (split; [reflexivity|]); cbn [visits map fst Row Col];
      auto.
Qed.

(** The column loop with [k] columns left. *)
Lemma walk_cols_ok (k : nat) : forall (fuel : nat) (s : Cursor) (t : Trace),
  (k < fuel)%nat ->
  StartRow info <= Row s < StartRow info + NumOfRows info ->
  ColStart info <= Col s ->
  Col s + Z.of_nat k = ColEnd info + 1 ->
  exists s' d,
    while_fuel fuel (fun s => Col s <=? ColEnd info) (walk_bit info D) s e t
      = Normal s' (t ++ d) /\
    map fst (visits d)
      = map (fun i => (Row s, Col s + Z.of_nat i)) (seq 0 k) /\
    Row s' = Row s /\ Col s' = ColEnd info + 1 /\
    pgm_ops d = ops_of info (visits d).
Proof.
  induction k as [|k IH]; intros fuel s t Hf HR HC Hk;
    (destruct fuel as [|fuel]; [lia|]); cbn [while_fuel].
  - destruct (Z.leb_spec (Col s) (ColEnd info)); [lia|].
    exists s, []. rewrite app_nil_r. cbv [ret]. cbn. repeat split; auto. lia.
  - destruct (Z.leb_spec (Col s) (ColEnd info)); [|lia].
    destruct (walk_bit_ok s t HR) as (s1 & d1 & Hstep & Hv1 & HR1 & HC1);
      [lia|].
    unfold bind. rewrite Hstep.
    destruct (IH fuel s1 (t ++ d1)) as (s2 & d2 & Hrun & Hv2 & HR2 & HC2 & Hp2);
      [lia | now rewrite HR1 | lia | lia |].
    rewrite Hrun. exists s2, (d1 ++ d2). rewrite app_assoc.
    split; [reflexivity|].
    rewrite visits_app, map_app, Hv1, Hv2. cbn [seq map app].
    rewrite <- seq_shift, map_map. rewrite HR1, HC1, Z.add_0_r.
    split; [|split; [congruence|split; [exact HC2|]]].
    + f_equal. apply map_ext. intros i. f_equal. lia.
    + rewrite pgm_ops_app, ops_of_app, Hp2. f_equal.
      (* the first step, taken alone *)
      clear - Hstep Hv1.
      unfold walk_bit in Hstep. unfold bind at 1 in Hstep. cbv [ghost] in Hstep.
      destruct (Z.land (Data s) 1 !=? 0) eqn:Hb; cbv [when] in Hstep.
      * destruct (PgmAndVerifyBit_runs e
                    (t ++ [Ghost (Visit (Row s) (Col s) true)])
                    (EfuseType info) (Row s) (Col s) (SkipVerify info))
          as (st & d & Hrun' & Hv & Hp & _).
        unfold bind in Hstep. rewrite Hrun' in Hstep.
        destruct (st !=? XST_SUCCESS); cbv [goto_END ret] in Hstep;
          [discriminate|].
        assert (E : t ++ d1 = t ++ Ghost (Visit (Row s) (Col s) true) :: d).
        { destruct (_ =? XNVM_EFUSE_MAX_BITS_IN_ROW) in Hstep;
            injection Hstep as _ <-; now rewrite <- app_assoc. }
        apply app_inv_head in E. subst d1. cbn [pgm_ops visits].
        rewrite Hp, Hv. reflexivity.
      * unfold bind in Hstep. cbv [ret] in Hstep.
        assert (E : t ++ d1 = t ++ [Ghost (Visit (Row s) (Col s) false)]).
        { destruct (_ =? XNVM_EFUSE_MAX_BITS_IN_ROW) in Hstep;
            injection Hstep as _ <-; reflexivity. }
        apply app_inv_head in E. subst d1. reflexivity.
Qed.

Hypothesis Hfuel_cols : ColEnd info - ColStart info + 1 < Z.of_nat (fuel e).

Lemma walk_row_ok (s : Cursor) (t : Trace) :
  StartRow info <= Row s < StartRow info + NumOfRows info ->
  exists s' d,
    walk_row info D s e t = Normal s' (t ++ d) /\
    map fst (visits d) = map (pair (Row s)) (range_cols info) /\
    Row s' = Row s + 1 /\
    pgm_ops d = ops_of info (visits d).
Proof.
  intros HR. destruct Hrange as (_ & _ & HR0 & HRE & HC0 & HCle & HCE).
  unfold walk_row. cbv [xil_printf]. unfold bind at 1 2. cbv [call ret].
  cbn [Row Col Idx DataPtr Data]. unfold bind at 1. unfold while.
  match goal with
  | |- context [while_fuel _ _ _ ?s0 e ?t0] =>
      destruct (walk_cols_ok (Z.to_nat (ColEnd info - ColStart info + 1))
                  (fuel e) s0 t0)
        as (s1 & d & Hrun & Hv & HR1 & HC1 & Hp)
  end; cbn [Row Col]; try lia.
  rewrite Hrun. cbn [Row Col] in *.
  eexists _, (_ :: d). rewrite <- app_assoc. cbn [app].
  split; [reflexivity|]. cbn [visits pgm_ops Row].
  split; [|split; [|exact Hp]].
  - rewrite Hv. unfold range_cols. rewrite map_map. reflexivity.
  - rewrite HR1. unfold u32_add. apply u32_small. lia.
Qed.

(** The row loop with [k] rows left. *)
Lemma walk_rows_ok (k : nat) : forall (fuel : nat) (s : Cursor) (t : Trace),
  (k < fuel)%nat ->
  StartRow info <= Row s ->
  Row s + Z.of_nat k = StartRow info + NumOfRows info ->
  exists s' d,
    while_fuel fuel
      (fun s => Row s <? u32_add (StartRow info) (NumOfRows info))
      (walk_row info D) s e t
      = Normal s' (t ++ d) /\
    map fst (visits d)
      = flat_map (fun i => map (pair (Row s + Z.of_nat i)) (range_cols info))
                 (seq 0 k) /\
    Row s' = StartRow info + NumOfRows info /\
    pgm_ops d = ops_of info (visits d).
Proof.
  assert (HE : u32_add (StartRow info) (NumOfRows info)
               = StartRow info + NumOfRows info).
  { destruct Hrange as (_ & ? & ? & ? & _). unfold u32_add.
    apply u32_small. lia. }
  rewrite HE.
  induction k as [|k IH]; intros fuel s t Hf HR Hk;
    (destruct fuel as [|fuel]; [lia|]); cbn [while_fuel].
  - destruct (Z.ltb_spec (Row s) (StartRow info + NumOfRows info)); [lia|].
    exists s, []. rewrite app_nil_r. cbv [ret]. cbn. repeat split; auto. lia.
  - destruct (Z.ltb_spec (Row s) (StartRow info + NumOfRows info)); [|lia].
    destruct (walk_row_ok s t) as (s1 & d1 & Hstep & Hv1 & HR1 & Hp1); [lia|].
    unfold bind. rewrite Hstep.
    destruct (IH fuel s1 (t ++ d1)) as (s2 & d2 & Hrun & Hv2 & HR2 & Hp2);
      [lia | lia | lia |].
    rewrite Hrun. exists s2, (d1 ++ d2). rewrite app_assoc.
    split; [reflexivity|].
    rewrite visits_app, map_app, Hv1, Hv2, pgm_ops_app, ops_of_app, Hp1, Hp2.
    cbn [seq flat_map]. rewrite Z.add_0_r.
    split; [|split; [exact HR2|reflexivity]].
    f_equal. rewrite flat_map_seq_shift.
    apply flat_map_ext. intros i. rewrite HR1. do 2 f_equal. lia.
Qed.

End WalkSucceeds.

Lemma window_length (info : XNvm_EfusePrgmInfo) :
  0 <= NumOfRows info -> ColStart info <= ColEnd info ->
  Z.of_nat (length (window info))
  = NumOfRows info * (ColEnd info - ColStart info + 1).
Proof.
  intros HN HC. unfold window, range_rows, range_cols.
  set (cols := map _ (seq 0 (Z.to_nat (ColEnd info - ColStart info + 1)))).
  assert (Hcols : Z.of_nat (length cols) = ColEnd info - ColStart info + 1).
  { unfold cols. rewrite length_map, length_seq. lia. }
  rewrite <- Hcols.
  replace (NumOfRows info) with (Z.of_nat (Z.to_nat (NumOfRows info))) at 2
    by lia.
  generalize (Z.to_nat (NumOfRows info)) as n. generalize 0%nat as a.
  intros a n. revert a. induction n as [|n IH]; intros a; cbn [seq map flat_map].
  - reflexivity.
  - rewrite length_app, length_map, Nat2Z.inj_add, IH. lia.
Qed.

Lemma walk_window_ok (e : Env) (info : XNvm_EfusePrgmInfo)
  (RowData : words) (t : Trace) :
  range_ok info ->
  every_bit_succeeds e info ->
  NumOfRows info < Z.of_nat (fuel e) ->
  ColEnd info - ColStart info + 1 < Z.of_nat (fuel e) ->
  exists s d,
    XNvm_EfusePgmAndVerifyData_walk info RowData e t = Normal s (t ++ d) /\
    map fst (visits d) = window info /\
    Z.of_nat (length (visits d))
      = NumOfRows info * (ColEnd info - ColStart info + 1) /\
    Row s = StartRow info + NumOfRows info /\
    (Row s !=? u32_add (StartRow info) (NumOfRows info)) = false /\
    XNvm_EfusePgmAndVerifyData info (Some RowData) e t
      = Normal XST_SUCCESS (t ++ d).
Proof.
  intros Hrange Hok Hf1 Hf2.
  pose proof Hrange as (Hpage & HN & HR0 & HRE & HC0 & HCle & HCE).
  assert (HE : u32_add (StartRow info) (NumOfRows info)
               = StartRow info + NumOfRows info)
    by (unfold u32_add; apply u32_small; lia).
  assert (Hwalk : exists s d,
    XNvm_EfusePgmAndVerifyData_walk info RowData e t = Normal s (t ++ d) /\
    map fst (visits d) = window info /\
    Row s = StartRow info + NumOfRows info).
  { unfold XNvm_EfusePgmAndVerifyData_walk, while.
    set (s0 := {| Row := StartRow info; Col := 0; Idx := 0; DataPtr := 0;
                  Data := load RowData 0 |}).
    destruct (walk_rows_ok e info RowData Hrange Hok Hf2
                (Z.to_nat (NumOfRows info)) (fuel e) s0 t)
      as (s1 & d & Hrun & Hv & HR1 & _).
    - lia.
    - subst s0. cbn [Row]. lia.
    - subst s0. cbn [Row]. lia.
    - exists s1, d. split; [exact Hrun|]. split; [|exact HR1].
      rewrite Hv. subst s0. cbn [Row]. unfold window, range_rows.
      rewrite flat_map_map. reflexivity. }
  destruct Hwalk as (s & d & Hw & Hv & HR).
  assert (Hneq : (Row s !=? u32_add (StartRow info) (NumOfRows info)) = false)
    by (rewrite HE, HR; cbv [neqb]; now rewrite Z.eqb_refl).
  exists s, d. split; [exact Hw|]. split; [exact Hv|].
  split; [|split; [exact HR|split; [exact Hneq|]]].
  - rewrite <- (length_map fst), Hv. apply window_length; lia.
  - unfold XNvm_EfusePgmAndVerifyData, END_label.
    assert (Hp : (EfuseType info !=? XNVM_EFUSE_PAGE_0) &&
                 (EfuseType info !=? XNVM_EFUSE_PAGE_1) &&
                 (EfuseType info !=? XNVM_EFUSE_PAGE_2) = false).
    { cbv [neqb]. destruct Hpage as [-> | [-> | ->]]; rewrite Z.eqb_refl;
        cbn [negb andb]; rewrite ?andb_false_r; reflexivity. }
    unfold bind at 1. rewrite Hp. cbv [when ret]. unfold bind at 1.
    destruct (Z.eqb_spec (NumOfRows info) 0); [lia|].
    unfold bind. rewrite Hw, Hneq. reflexivity.
Qed.

(** C3. On a well-formed program range, with data present and every
    single-bit operation succeeding, the walk visits the positions of the
    window row by row -- [NumOfRows * (ColEnd - ColStart + 1)] of them --,
    leaves the row cursor at [StartRow + NumOfRows], does not take the
    glitch branch, and the function returns success. *)
Theorem PgmAndVerifyData_walks_window (e : Env) (info : XNvm_EfusePrgmInfo)
  (RowData : words) (t : Trace) :
  range_ok info ->
  every_bit_succeeds e info ->
  NumOfRows info < Z.of_nat (fuel e) ->
  ColEnd info - ColStart info + 1 < Z.of_nat (fuel e) ->
  exists s d,
    XNvm_EfusePgmAndVerifyData_walk info RowData e t = Normal s (t ++ d) /\
    map fst (visits d) = window info /\
    Z.of_nat (length (visits d))
      = NumOfRows info * (ColEnd info - ColStart info + 1) /\
    Row s = StartRow info + NumOfRows info /\
    (Row s !=? u32_add (StartRow info) (NumOfRows info)) = false /\
    XNvm_EfusePgmAndVerifyData info (Some RowData) e t
      = Normal XST_SUCCESS (t ++ d).
Proof. exact (walk_window_ok e info RowData t). Qed.

(** ** The programmable-bits calculator *)

Lemma land_not_disjoint (c r : Z) : Z.land (Z.land (u32_not c) r) c = 0.
Proof.
  apply Z.bits_inj'. intros k Hk. rewrite !Z.land_spec, Z.bits_0.
  unfold u32_not, u32.
  destruct (Z.ltb_spec k 32).
  - rewrite Z.mod_pow2_bits_low by lia. rewrite Z.lnot_spec by lia.
    destruct (Z.testbit c k), (Z.testbit r k); reflexivity.
  - rewrite Z.mod_pow2_bits_high by lia. reflexivity.
Qed.

Lemma run_ReadReg {A} (b o : Z) (k : Z -> M A) (e : Env) (t : Trace) :
  bind (XNvm_EfuseReadReg b o) k e t
  = k (u32 (fst (respond e t (CReadReg b o)))) e
      (t ++ [Ext (CReadReg b o) (respond e t (CReadReg b o))]).
Proof. reflexivity. Qed.

Section Compute.
Variables (e : Env) (Req Prgm : words) (StartOffset EndOffset : Z).
Variable cache : Z -> Z.
Hypothesis Hword : 0 < XNVM_WORD_LEN.
Hypothesis Hstart : 0 <= StartOffset.
Hypothesis Hend : EndOffset + XNVM_WORD_LEN < 2 ^ 32.
Hypothesis Hcache : cache_holds e cache.

(** The loop, [j] words already done. *)
Lemma compute_loop (fuel : nat) : forall (j : Z) (P : words) (t : Trace),
  0 <= j ->
  Z.max 0 (EndOffset - (StartOffset + j * XNVM_WORD_LEN) + 1) < Z.of_nat fuel ->
  (forall i, 0 <= i < j ->
     P i = Z.land (u32_not (cache (StartOffset + i * XNVM_WORD_LEN)))
                  (load Req i)) ->
  exists s d,
    while_fuel fuel (fun s : Z * words => fst s <=? EndOffset)
      (fun s =>
         let Offset := fst s in
         ReadReg <- XNvm_EfuseReadReg XNVM_EFUSE_CACHE_BASEADDR Offset ;;
         let Idx := u32_sub Offset StartOffset / XNVM_WORD_LEN in
         ret (u32_add Offset XNVM_WORD_LEN,
              store (snd s) Idx (Z.land (u32_not ReadReg) (load Req Idx))))
      (StartOffset + j * XNVM_WORD_LEN, P) e t
    = Normal s (t ++ d) /\
    forall i, 0 <= i -> StartOffset + i * XNVM_WORD_LEN <= EndOffset ->
      snd s i = Z.land (u32_not (cache (StartOffset + i * XNVM_WORD_LEN)))
                       (load Req i).
Proof.
  match goal with
  | |- context [while_fuel _ _ ?b] => set (body := b)
  end.
  induction fuel as [|fuel IH]; intros j P t Hj Hf HP; [lia|].
  cbn [while_fuel fst snd].
  destruct (Z.leb_spec (StartOffset + j * XNVM_WORD_LEN) EndOffset) as [Hin|Hout].
  - assert (HjW : 0 <= j * XNVM_WORD_LEN)
      by (apply Z.mul_nonneg_nonneg; lia).
    assert (HIdx : u32_sub (StartOffset + j * XNVM_WORD_LEN) StartOffset
                   / XNVM_WORD_LEN = j).
    { unfold u32_sub.
      replace (StartOffset + j * XNVM_WORD_LEN - StartOffset)
        with (j * XNVM_WORD_LEN) by lia.
      rewrite u32_small by lia. apply Z.div_mul. lia. }
    assert (HOff : u32_add (StartOffset + j * XNVM_WORD_LEN) XNVM_WORD_LEN
                   = StartOffset + (j + 1) * XNVM_WORD_LEN).
    { unfold u32_add. rewrite u32_small by lia. lia. }
    unfold bind at 1. unfold body at 1. cbv beta zeta. cbn [fst snd].
    rewrite run_ReadReg. rewrite Hcache, HIdx, HOff. unfold ret at 1.
    destruct (IH (j + 1)
                (store P j
                   (Z.land (u32_not (cache (StartOffset + j * XNVM_WORD_LEN)))
                           (load Req j)))
                (t ++ [Ext (CReadReg XNVM_EFUSE_CACHE_BASEADDR
                                     (StartOffset + j * XNVM_WORD_LEN))
                           (respond e t
                              (CReadReg XNVM_EFUSE_CACHE_BASEADDR
                                 (StartOffset + j * XNVM_WORD_LEN)))]))
      as (s & d & Hrun & Hs); try lia.
    + intros i Hi. unfold store. destruct (Z.eqb_spec i j) as [->|Hne].
      * reflexivity.
      * apply HP. lia.
    + rewrite Hrun. eexists s, (_ :: d). rewrite <- app_assoc.
      split; [reflexivity | exact Hs].
  - exists (StartOffset + j * XNVM_WORD_LEN, P), []. rewrite app_nil_r.
    split; [reflexivity|]. cbn [snd]. intros i Hi Hi'. apply HP.
    split; [exact Hi|]. apply Z.nle_gt. intros Hji.
    assert (j * XNVM_WORD_LEN <= i * XNVM_WORD_LEN)
      by (apply Z.mul_le_mono_nonneg_r; lia).
    lia.
Qed.

End Compute.

(** C1. With both buffers present, the cache-error flag clear and the cache
    holding [cache], the calculator returns success and has set, for each
    word offset of the range, the output word to the requested bits that the
    cache word does not have; so no output bit is a bit of the cache word.
    With cache word [0xFFFF0000], requested [0x0000FFFF] gives [0x0000FFFF]
    and requested [0xFFFF0000] gives [0]. *)
Theorem ComputeProgrammableBits_masks_burned_bits (e : Env) (t : Trace)
  (Req Prgm : words) (StartOffset EndOffset : Z) (cache : Z -> Z) :
  0 < XNVM_WORD_LEN ->
  0 <= StartOffset ->
  EndOffset + XNVM_WORD_LEN < 2 ^ 32 ->
  Z.max 0 (EndOffset - StartOffset + 1) < Z.of_nat (fuel e) ->
  isr_cache_error e t = false ->
  cache_holds e cache ->
  exists out d,
    XNvm_EfuseComputeProgrammableBits (Some Req) (Some Prgm)
      StartOffset EndOffset e t
    = Normal (XST_SUCCESS, Some out) (t ++ d) /\
    forall i, 0 <= i -> StartOffset + i * XNVM_WORD_LEN <= EndOffset ->
      let cacheWord := cache (StartOffset + i * XNVM_WORD_LEN) in
      out i = Z.land (u32_not cacheWord) (load Req i) /\
      Z.land (out i) cacheWord = 0 /\
      (cacheWord = 0xFFFF0000 -> load Req i = 0x0000FFFF ->
       out i = 0x0000FFFF) /\
      (cacheWord = 0xFFFF0000 -> load Req i = 0xFFFF0000 -> out i = 0).
Proof.
  intros Hword Hstart Hend Hfuel Hisr Hcache.
  unfold XNvm_EfuseComputeProgrammableBits.
  rewrite run_ReadReg. unfold isr_cache_error in Hisr. cbv zeta in Hisr.
  rewrite Hisr. unfold bind at 1, while.
  destruct (compute_loop e Req StartOffset EndOffset cache Hword Hstart Hend
              Hcache (fuel e) 0 Prgm
              (t ++ [Ext (CReadReg XNVM_EFUSE_CTRL_BASEADDR
                                   XNVM_EFUSE_ISR_REG_OFFSET)
                         (respond e t
                            (CReadReg XNVM_EFUSE_CTRL_BASEADDR
                                      XNVM_EFUSE_ISR_REG_OFFSET))]))
    as (s & d & Hrun & Hs);
    [lia | rewrite Z.mul_0_l, Z.add_0_r; lia | intros; lia |].
  rewrite Z.mul_0_l, Z.add_0_r in Hrun. cbv zeta in Hrun |- *. rewrite Hrun.
  eexists (snd s), (_ :: d). rewrite <- app_assoc.
  split; [reflexivity|]. intros i Hi Hin.
  specialize (Hs i Hi Hin).
  split; [exact Hs|]. rewrite Hs.
  split; [apply land_not_disjoint|].
  split; intros -> ->; reflexivity.
Qed.

(** C5. With the cache-error flag set the calculator computes nothing: it
    hands back the output buffer as it received it and reads no register
    other than the ISR, and with both buffers present it returns the
    cache-parity error. *)
Theorem ComputeProgrammableBits_cache_error (e : Env) (t : Trace)
  (ReqData PrgmData : ptr) (StartOffset EndOffset : Z) :
  isr_cache_error e t = true ->
  let read_isr :=
    Ext (CReadReg XNVM_EFUSE_CTRL_BASEADDR XNVM_EFUSE_ISR_REG_OFFSET)
        (respond e t (CReadReg XNVM_EFUSE_CTRL_BASEADDR
                               XNVM_EFUSE_ISR_REG_OFFSET)) in
  exists Status d,
    XNvm_EfuseComputeProgrammableBits ReqData PrgmData
      StartOffset EndOffset e t
    = Normal (Status, PrgmData) (t ++ d) /\
    (d = [] \/ d = [read_isr]) /\
    (ReqData <> None -> PrgmData <> None ->
     Status = XNVM_EFUSE_ERR_CACHE_PARITY /\ d = [read_isr]).
Proof.
  intros Hisr read_isr. unfold XNvm_EfuseComputeProgrammableBits.
  destruct ReqData as [Req|], PrgmData as [Prgm|];
    try (exists XNVM_EFUSE_ERR_INVALID_PARAM, []; rewrite app_nil_r;
         split; [reflexivity|]; split; [now left | congruence]).
  rewrite run_ReadReg. unfold isr_cache_error in Hisr. cbv zeta in Hisr.
  rewrite Hisr. exists XNVM_EFUSE_ERR_CACHE_PARITY, [read_isr].
  split; [reflexivity|]. split; [now right | auto].
Qed.

(** ** Field writers *)

Lemma setup_count_app (a b : Trace) :
  setup_count (a ++ b) = (setup_count a + setup_count b)%nat.
Proof. unfold setup_count. now rewrite filter_app, length_app. Qed.

Lemma run_status_of {A} (c : Call) (k : Z -> M A) (e : Env) (t : Trace) :
  bind (status_of c) k e t
  = k (fst (respond e t c)) e (t ++ [Ext c (respond e t c)]).
Proof. reflexivity. Qed.

Lemma run_bind {A B} (m : M A) (k : A -> M B) (e : Env) (t t' : Trace) (a : A) :
  m e t = Normal a t' -> bind m k e t = k a e t'.
Proof. intros H. unfold bind. now rewrite H. Qed.

Lemma neqb_refl (x : Z) : (x !=? x) = false.
Proof. cbv [neqb]. now rewrite Z.eqb_refl. Qed.

Lemma neqb_neq (x y : Z) : x <> y -> (x !=? y) = true.
Proof. intros H. cbv [neqb]. now destruct (Z.eqb_spec x y). Qed.

(** The code after [END]: the close sequence runs on the trace [body]
    left, and the statuses are merged. *)
Lemma run_epilogue (body : M Z) (e : Env) (t d1 : Trace) (Status : Z) :
  body e t = Normal Status (t ++ d1) ->
  exists CloseStatus d2,
    (Status <- body ;;
     CloseStatus <- XNvm_EfuseCloseController ;;
     ret (if XST_SUCCESS =? Status then CloseStatus else Status)) e t
    = Normal (if XST_SUCCESS =? Status then CloseStatus else Status)
             (t ++ d1 ++ d2) /\
    pgm_ops d2 = [] /\ setup_count d2 = 0%nat /\ close_count d2 = 1%nat.
Proof.
  intros Hb.
  destruct (CloseController_runs e (t ++ d1)) as (cs & d2 & Hc & Hcl & Hp & _ & Hs).
  exists cs, d2. rewrite (run_bind _ _ _ _ _ _ Hb), (run_bind _ _ _ _ _ _ Hc).
  rewrite <- app_assoc. auto.
Qed.

Lemma status_not_success (s cs : Z) :
  s <> XST_SUCCESS -> (if XST_SUCCESS =? s then cs else s) = s.
Proof. intros H. now destruct (Z.eqb_spec XST_SUCCESS s); [congruence|]. Qed.

(** C9. [XNvm_EfuseWriteRevocationID] with an id from 1 to 255 and the
    controller opening normally starts exactly one single-bit operation, on
    page 0 with verification, at the position the specification gives: the
    low-range base for ids up to 128, the high-range base from 129 on, moved
    by [(id-1)/8] rows and [(id-1)%8] columns.  Id 1 is the low base itself,
    id 128 the low base moved by (15, 7), id 129 the high base moved by
    (16, 0).  Id 0 and ids above the maximum return the invalid-parameter
    error without opening the controller or programming anything. *)
Theorem WriteRevocationID_position (e : Env) (t : Trace)
  (EnvDisFlag RevokeIdNum : Z) :
  revoke_layout_ok ->
  255 <= XNVM_MAX_REVOKE_ID_FUSES ->
  XNVM_EFUSE_ERR_INVALID_PARAM <> XST_SUCCESS ->
  (1 <= RevokeIdNum <= 255 -> setup_succeeds e ->
   exists Status d,
     XNvm_EfuseWriteRevocationID EnvDisFlag RevokeIdNum e t
       = Normal Status (t ++ d) /\
     pgm_ops d = [(XNVM_EFUSE_PAGE_0, fst (revoke_id_position RevokeIdNum),
                   snd (revoke_id_position RevokeIdNum),
                   XNVM_EFUSE_PROGRAM_VERIFY)]) /\
  (RevokeIdNum = 0 \/ XNVM_MAX_REVOKE_ID_FUSES < RevokeIdNum ->
   exists d,
     XNvm_EfuseWriteRevocationID EnvDisFlag RevokeIdNum e t
       = Normal XNVM_EFUSE_ERR_INVALID_PARAM (t ++ d) /\
     pgm_ops d = [] /\ setup_count d = 0%nat) /\
  revoke_id_position 1
    = (XNVM_EFUSE_REVOKE_ID_0_TO_127_START_ROW,
       XNVM_EFUSE_REVOKE_ID_0_TO_127_START_COL_NUM) /\
  revoke_id_position 128
    = (XNVM_EFUSE_REVOKE_ID_0_TO_127_START_ROW + 127 / 8,
       XNVM_EFUSE_REVOKE_ID_0_TO_127_START_COL_NUM + 127 mod 8) /\
  revoke_id_position 129
    = (XNVM_EFUSE_REVOKE_ID_128_TO_255_START_ROW + 128 / 8,
       XNVM_EFUSE_REVOKE_ID_128_TO_255_START_COL_NUM + 128 mod 8).
Proof.
  intros Hlay Hmax Hinv. split; [|split; [|split; [|split]]].
  - intros Hid Hsetup.
    assert (Hbody : exists Status d,
      XNvm_EfuseWriteRevocationID_body EnvDisFlag RevokeIdNum e t
        = Normal Status (t ++ d) /\
      pgm_ops d = [(XNVM_EFUSE_PAGE_0, fst (revoke_id_position RevokeIdNum),
                    snd (revoke_id_position RevokeIdNum),
                    XNVM_EFUSE_PROGRAM_VERIFY)]).
    { unfold XNvm_EfuseWriteRevocationID_body, END_label.
      destruct (Z.eqb_spec RevokeIdNum 0) as [?|_]; [lia|].
      destruct (Z.gtb_spec RevokeIdNum XNVM_MAX_REVOKE_ID_FUSES) as [?|_]; [lia|].
      cbn [orb]. unfold when at 1. unfold bind at 1, ret at 1.
      unfold env_checks_TODO. unfold bind at 1.
      replace (when (EnvDisFlag !=? TRUE) (ret tt) e t) with (Normal tt t)
        by (destruct (EnvDisFlag !=? TRUE); reflexivity).
      unfold XNvm_EfuseSetupController. rewrite run_status_of, Hsetup.
      rewrite neqb_refl. unfold when at 1. unfold bind at 1, ret at 1.
      assert (Hpos :
        (let '(RevokeIdRow, RevokeIdCol) :=
           if (RevokeIdNum >=? 1) && (RevokeIdNum <=? 128)
           then (XNVM_EFUSE_REVOKE_ID_0_TO_127_START_ROW,
                 XNVM_EFUSE_REVOKE_ID_0_TO_127_START_COL_NUM)
           else (XNVM_EFUSE_REVOKE_ID_128_TO_255_START_ROW,
                 XNVM_EFUSE_REVOKE_ID_128_TO_255_START_COL_NUM) in
         (u32_add RevokeIdRow
            (u32_sub RevokeIdNum 1 / XNVM_EFUSE_BITS_IN_A_BYTE),
          u32_add RevokeIdCol
            (u32_sub RevokeIdNum 1 mod XNVM_EFUSE_BITS_IN_A_BYTE)))
        = revoke_id_position RevokeIdNum).
      { unfold revoke_id_position, revoke_id_base, XNVM_EFUSE_BITS_IN_A_BYTE.
        destruct Hlay as (? & ? & ? & ? & ? & ? & ? & ?).
        assert (Hsub : u32_sub RevokeIdNum 1 = RevokeIdNum - 1)
          by (unfold u32_sub; apply u32_small; lia).
        assert (0 <= (RevokeIdNum - 1) / 8 <= 31).
        { split; [apply Z.div_pos; lia|].
          apply Z.lt_succ_r, Z.div_lt_upper_bound; lia. }
        assert (0 <= (RevokeIdNum - 1) mod 8 < 8)
          by (apply Z.mod_pos_bound; lia).
        rewrite Hsub.
        destruct (Z.geb_spec RevokeIdNum 1) as [_|?]; [|lia].
        cbn [andb fst snd].
        destruct (Z.leb_spec RevokeIdNum 128); cbn [fst snd];
          unfold u32_add; rewrite !u32_small by lia; reflexivity. }
      destruct (if (RevokeIdNum >=? 1) && (RevokeIdNum <=? 128) then _ else _)
        as [RevokeIdRow RevokeIdCol].
      rewrite <- Hpos. cbn [fst snd].
      match goal with
      | |- context [bind (XNvm_EfusePgmAndVerifyBit ?p ?r ?c ?s) _ _ ?t0] =>
          destruct (PgmAndVerifyBit_runs e t0 p r c s)
            as (st & d & Hrun & _ & Hp & _)
      end.
      rewrite (run_bind _ _ _ _ _ _ Hrun).
      destruct (st !=? XST_SUCCESS); cbv [ret];
        eexists _, (_ :: d); rewrite <- app_assoc;
        (split; [reflexivity | exact Hp]). }
    destruct Hbody as (Status & d & Hb & Hp).
    destruct (run_epilogue _ e t d Status Hb) as (cs & d2 & Hrun & Hp2 & _).
    unfold XNvm_EfuseWriteRevocationID. rewrite Hrun.
    eexists _, (d ++ d2). split; [reflexivity|].
    rewrite pgm_ops_app, Hp, Hp2. reflexivity.
  - intros Hbad.
    assert (Hb : XNvm_EfuseWriteRevocationID_body EnvDisFlag RevokeIdNum e t
                 = Normal XNVM_EFUSE_ERR_INVALID_PARAM (t ++ [])).
    { unfold XNvm_EfuseWriteRevocationID_body, END_label.
      assert (Hc : (RevokeIdNum =? 0)
                   || (RevokeIdNum >? XNVM_MAX_REVOKE_ID_FUSES) = true).
      { apply orb_true_iff. destruct Hbad; [left|right]; lia. }
      rewrite Hc, app_nil_r. reflexivity. }
    destruct (run_epilogue _ e t [] _ Hb) as (cs & d2 & Hrun & Hp2 & Hs2 & _).
    unfold XNvm_EfuseWriteRevocationID. rewrite Hrun.
    rewrite (status_not_success _ _ Hinv). exists d2. auto.
  - unfold revoke_id_position, revoke_id_base.
    change (1 <=? 128) with true. cbn [fst snd].
    change ((1 - 1) / 8) with 0. change ((1 - 1) mod 8) with 0.
    now rewrite !Z.add_0_r.
  - reflexivity.
  - reflexivity.
Qed.

(** The close sequence starts with its own mark. *)
Lemma CloseController_starts (e : Env) (t t' : Trace) (CloseStatus : Z) :
  XNvm_EfuseCloseController e t = Normal CloseStatus t' ->
  exists d, t' = t ++ Ghost Enter_CloseController :: d.
Proof.
  unfold XNvm_EfuseCloseController. unfold_prims. cbn [fst snd].
  repeat match goal with
         | |- context [if ?c then _ else _] => destruct c
         end;
    intros H; injection H as _ <-; rewrite <- ?app_assoc; cbn [app];
    eexists; reflexivity.
Qed.

(** With a valid key type and a key, the first thing
    [XNvm_EfuseWriteDmeUserKey] does is to read the cache word of the DME
    mode. *)
Lemma WriteDmeUserKey_reads_mode_first (KeyType : Z) (Key : words) (e : Env)
  (t : Trace) :
  DmeKeyType_rejected KeyType = false ->
  match XNvm_EfuseWriteDmeUserKey KeyType (Some Key) e t with
  | Normal _ t' =>
      exists d,
        t' = t ++ Ext (CReadReg XNVM_EFUSE_CACHE_BASEADDR
                                XNVM_EFUSE_CACHE_DME_FIPS_OFFSET)
                      (respond e t (CReadReg XNVM_EFUSE_CACHE_BASEADDR
                                      XNVM_EFUSE_CACHE_DME_FIPS_OFFSET)) :: d
  | GotoEND _ _ => False
  | OutOfFuel => True
  end.
Proof.
  intros Hacc.
  set (read := Ext (CReadReg XNVM_EFUSE_CACHE_BASEADDR
                             XNVM_EFUSE_CACHE_DME_FIPS_OFFSET)
                   (respond e t (CReadReg XNVM_EFUSE_CACHE_BASEADDR
                                   XNVM_EFUSE_CACHE_DME_FIPS_OFFSET))).
  assert (Hbody :
    match XNvm_EfuseWriteDmeUserKey_body KeyType (Some Key) e t with
    | Normal _ t1 => exists d1, t1 = t ++ read :: d1
    | GotoEND _ _ => False
    | OutOfFuel => True
    end).
  { unfold XNvm_EfuseWriteDmeUserKey_body, END_label. rewrite Hacc.
    cbv [when]. unfold bind at 1. cbv [ret].
    unfold XNvm_EfuseWriteDmeUserKey_checked. rewrite run_ReadReg.
    fold read.
    match goal with
    | |- match (match ?k e (t ++ [read]) with _ => _ end) with _ => _ end =>
        assert (Hk : no_close k) by no_close_tac;
          specialize (Hk e (t ++ [read]));
          destruct (k e (t ++ [read])) as [s t1|s t1|]
    end; try exact I;
      destruct Hk as (d & -> & _); exists d; rewrite <- app_assoc;
      reflexivity. }
  unfold XNvm_EfuseWriteDmeUserKey. unfold bind at 1.
  destruct (XNvm_EfuseWriteDmeUserKey_body KeyType (Some Key) e t)
    as [Status t1|Status t1|]; [|contradiction|exact I].
  destruct Hbody as (d1 & ->).
  destruct (CloseController_runs e (t ++ read :: d1))
    as (cs & d2 & Hc & _).
  unfold bind, ret. rewrite Hc. exists (d1 ++ d2).
  rewrite <- app_assoc. reflexivity.
Qed.

(** C10. The key-type check of [XNvm_EfuseWriteDmeUserKey], written with
    its odd parentheses, rejects a key type exactly when it is none of the
    four DME user keys, so no valid key type is rejected at this check.
    The function turns a request away at the door, returning the
    invalid-parameter code with nothing done but the close sequence,
    exactly when the key type is none of the four or there is no key.  With
    a valid key type and a key it goes on to read the DME mode. *)
Theorem WriteDmeUserKey_refuses_bad_type_or_null_key (KeyType : Z) :
  (DmeKeyType_rejected KeyType = true <->
   KeyType <> XNVM_EFUSE_DME_USER_KEY_0 /\
   KeyType <> XNVM_EFUSE_DME_USER_KEY_1 /\
   KeyType <> XNVM_EFUSE_DME_USER_KEY_2 /\
   KeyType <> XNVM_EFUSE_DME_USER_KEY_3) /\
  (XNVM_EFUSE_ERR_INVALID_PARAM <> XST_SUCCESS ->
   forall (EfuseKey : ptr) (e : Env) (t : Trace),
     ((KeyType <> XNVM_EFUSE_DME_USER_KEY_0 /\
       KeyType <> XNVM_EFUSE_DME_USER_KEY_1 /\
       KeyType <> XNVM_EFUSE_DME_USER_KEY_2 /\
       KeyType <> XNVM_EFUSE_DME_USER_KEY_3) \/ EfuseKey = None) <->
     exists CloseStatus d,
       XNvm_EfuseCloseController e t = Normal CloseStatus (t ++ d) /\
       XNvm_EfuseWriteDmeUserKey KeyType EfuseKey e t
       = Normal XNVM_EFUSE_ERR_INVALID_PARAM (t ++ d)) /\
  (DmeKeyType_rejected KeyType = false ->
   forall (Key : words) (e : Env) (t : Trace),
     match XNvm_EfuseWriteDmeUserKey KeyType (Some Key) e t with
     | Normal _ t' =>
         exists d,
           t' = t ++ Ext (CReadReg XNVM_EFUSE_CACHE_BASEADDR
                                   XNVM_EFUSE_CACHE_DME_FIPS_OFFSET)
                         (respond e t (CReadReg XNVM_EFUSE_CACHE_BASEADDR
                                         XNVM_EFUSE_CACHE_DME_FIPS_OFFSET))
                     :: d
     | GotoEND _ _ => False
     | OutOfFuel => True
     end).
Proof.
  assert (Hchk : DmeKeyType_rejected KeyType = true <->
                 KeyType <> XNVM_EFUSE_DME_USER_KEY_0 /\
                 KeyType <> XNVM_EFUSE_DME_USER_KEY_1 /\
                 KeyType <> XNVM_EFUSE_DME_USER_KEY_2 /\
                 KeyType <> XNVM_EFUSE_DME_USER_KEY_3).
  { unfold DmeKeyType_rejected, neqb.
    rewrite !andb_true_iff, !negb_true_iff, !Z.eqb_neq. tauto. }
  split; [exact Hchk|]. split.
  - intros Hinv EfuseKey e t. rewrite <- Hchk. split.
    + intros Hbad.
      assert (Hb : XNvm_EfuseWriteDmeUserKey_body KeyType EfuseKey e t
                   = Normal XNVM_EFUSE_ERR_INVALID_PARAM (t ++ [])).
      { unfold XNvm_EfuseWriteDmeUserKey_body, END_label.
        rewrite app_nil_r.
        destruct (DmeKeyType_rejected KeyType); [reflexivity|].
        destruct Hbad as [Hbad| ->]; [discriminate | reflexivity]. }
      destruct (CloseController_runs e t) as (cs & d & Hc & _).
      exists cs, d. split; [exact Hc|].
      unfold XNvm_EfuseWriteDmeUserKey.
      rewrite (run_bind _ _ _ _ _ _ Hb). rewrite app_nil_r.
      rewrite (run_bind _ _ _ _ _ _ Hc).
      rewrite (status_not_success _ _ Hinv). reflexivity.
    + intros (cs & d & Hc & Hrun).
      destruct (DmeKeyType_rejected KeyType) eqn:Hrej; [now left|].
      destruct EfuseKey as [Key|]; [|now right]. exfalso.
      pose proof (WriteDmeUserKey_reads_mode_first KeyType Key e t Hrej)
        as Hfirst.
      rewrite Hrun in Hfirst. destruct Hfirst as (d' & E).
      apply app_inv_head in E.
      destruct (CloseController_starts e t _ _ Hc) as (d'' & E').
      apply app_inv_head in E'. congruence.
  - intros Hacc Key e t.
    exact (WriteDmeUserKey_reads_mode_first KeyType Key e t Hacc).
Qed.

Lemma bits_ok_combine (D : words) (v : list (Z * Z * bool)) : forall n,
  bits_ok D n v ->
  v = combine (map fst v)
              (map (fun k => stream_bit D (n + Z.of_nat k))
                   (seq 0 (length v))).
Proof.
  induction v as [|[p b] v IH]; intros n H; [reflexivity|].
  destruct H as [Hb Hv]. cbn [snd] in Hb. cbn [map fst length seq combine].
  rewrite Z.add_0_r, <- Hb. f_equal.
  rewrite <- seq_shift, map_map. rewrite (IH (n + 1) Hv) at 1.
  f_equal. apply map_ext. intros k. f_equal. lia.
Qed.

(** A range walk on which every bit operation succeeds, seen as a whole. *)
Lemma PgmAndVerifyData_ok_ops (e : Env) (info : XNvm_EfusePrgmInfo)
  (RowData : words) (t : Trace) :
  XNVM_EFUSE_MAX_BITS_IN_ROW = 32 ->
  range_ok info ->
  every_bit_succeeds e info ->
  NumOfRows info < Z.of_nat (fuel e) ->
  ColEnd info - ColStart info + 1 < Z.of_nat (fuel e) ->
  exists d,
    XNvm_EfusePgmAndVerifyData info (Some RowData) e t
      = Normal XST_SUCCESS (t ++ d) /\
    visits d = expected_visits info RowData /\
    pgm_ops d = ops_of info (expected_visits info RowData).
Proof.
  intros HW Hr Hok Hf1 Hf2.
  destruct (walk_window_ok e info RowData t Hr Hok Hf1 Hf2)
    as (s & d & _ & Hv & _ & _ & _ & Hrun).
  pose proof (PgmAndVerifyData_bits e info (Some RowData) t HW) as Hb.
  rewrite Hrun in Hb. destruct Hb as (d' & E & Hp & Hb).
  apply app_inv_head in E. subst d'.
  assert (Hexp : visits d = expected_visits info RowData).
  { rewrite (bits_ok_combine RowData (visits d) 0 Hb).
    unfold expected_visits. rewrite Hv.
    rewrite <- (length_map fst (visits d)), Hv. reflexivity. }
  exists d. rewrite Hp, Hexp. auto.
Qed.

Lemma run_addr_of {A} (v : Z) (k : words -> M A) (e : Env) (t : Trace) :
  bind (addr_of v) k e t = k (local_word e v) e t.
Proof. reflexivity. Qed.

Lemma land_1_eqb (x : Z) : (Z.land x 0x01 =? 0x01) = Z.testbit x 0.
Proof.
  change 1 with (2 ^ 0). rewrite land_pow2 by lia.
  destruct (Z.testbit x 0); reflexivity.
Qed.

Section Fips.
Variables (e : Env).
Hypothesis bits_in_row : XNVM_EFUSE_MAX_BITS_IN_ROW = 32.
Hypothesis Hrange : range_ok fips_mode_range.
Hypothesis Hmode_ok : every_bit_succeeds e fips_mode_range.
Hypothesis Hver_ok : fips_version_bits_succeed e.
Hypothesis Hfuel_rows : NumOfRows fips_mode_range < Z.of_nat (fuel e).
Hypothesis Hfuel_cols :
  ColEnd fips_mode_range - ColStart fips_mode_range + 1 < Z.of_nat (fuel e).

Lemma version_bit_runs (t : Trace) (Col : Z) :
  Col = XNVM_EFUSE_FIPS_VERSION_COL_0_NUM \/
  Col = XNVM_EFUSE_FIPS_VERSION_COL_1_NUM \/
  Col = XNVM_EFUSE_FIPS_VERSION_COL_2_NUM ->
  exists d,
    XNvm_EfusePgmAndVerifyBit XNVM_EFUSE_PAGE_0 XNVM_EFUSE_IP_DISABLE_ROW
      Col XNVM_EFUSE_PROGRAM_VERIFY e t
    = Normal XST_SUCCESS (t ++ d) /\
    pgm_ops d = [fips_version_op Col].
Proof.
  intros HCol. destruct (Hver_ok t Col HCol) as (t' & Hrun).
  destruct (PgmAndVerifyBit_runs e t XNVM_EFUSE_PAGE_0
              XNVM_EFUSE_IP_DISABLE_ROW Col XNVM_EFUSE_PROGRAM_VERIFY)
    as (st & d & Hrun' & _ & Hp & _).
  rewrite Hrun in Hrun'. injection Hrun' as <- ->.
  exists d. rewrite Hrun. auto.
Qed.

(** [XNvm_EfusePrgmFipsInfo] on cooperative hardware: the mode bits, then
    the version bits that are set. *)
Lemma PrgmFipsInfo_ops (t : Trace) (FipsMode FipsVersion : Z) :
  exists d,
    XNvm_EfusePrgmFipsInfo FipsMode FipsVersion e t
      = Normal XST_SUCCESS (t ++ d) /\
    pgm_ops d = fips_mode_ops e FipsMode ++ fips_version_ops FipsVersion.
Proof.
  unfold XNvm_EfusePrgmFipsInfo, END_label. cbv zeta.
  rewrite run_addr_of.
  destruct (PgmAndVerifyData_ok_ops e fips_mode_range
              (local_word e FipsMode) t bits_in_row Hrange Hmode_ok
              Hfuel_rows Hfuel_cols) as (d0 & Hrun0 & _ & Hp0).
  fold fips_mode_range.
  rewrite (run_bind _ _ _ _ _ _ Hrun0). rewrite neqb_refl.
  unfold when at 1. unfold bind at 1, ret at 1.
  unfold fips_version_ops, fips_mode_ops. rewrite <- Hp0.
  rewrite !land_1_eqb. unfold u32_shr.
  rewrite !Z.shiftr_spec by lia.
  change (0 + 1 + 1) with 2. change (0 + 1) with 1.
  (* bit 0 *)
  unfold bind at 1.
  destruct (Z.testbit FipsVersion 0).
  - destruct (version_bit_runs (t ++ d0) XNVM_EFUSE_FIPS_VERSION_COL_0_NUM)
      as (d1 & Hrun1 & Hp1); [tauto|].
    rewrite (run_bind _ _ _ _ _ _ Hrun1), neqb_refl.
    unfold when at 1. unfold bind at 1, ret at 1 2.
    unfold bind at 1.
    destruct (Z.testbit FipsVersion 1).
    + destruct (version_bit_runs ((t ++ d0) ++ d1)
                  XNVM_EFUSE_FIPS_VERSION_COL_1_NUM)
        as (d2 & Hrun2 & Hp2); [tauto|].
      rewrite (run_bind _ _ _ _ _ _ Hrun2), neqb_refl.
      unfold when at 1. unfold bind at 1, ret at 1 2.
      destruct (Z.testbit FipsVersion 2).
      * destruct (version_bit_runs (((t ++ d0) ++ d1) ++ d2)
                    XNVM_EFUSE_FIPS_VERSION_COL_2_NUM)
        as (d3 & Hrun3 & Hp3); [tauto|].
        rewrite Hrun3. exists (d0 ++ d1 ++ d2 ++ d3).
        rewrite !pgm_ops_app, Hp1, Hp2, Hp3, <- !app_assoc. auto.
      * exists (d0 ++ d1 ++ d2). cbv [ret].
        rewrite !pgm_ops_app, Hp1, Hp2, <- !app_assoc. auto.
    + unfold ret at 1.
      destruct (Z.testbit FipsVersion 2).
      * destruct (version_bit_runs ((t ++ d0) ++ d1)
                    XNVM_EFUSE_FIPS_VERSION_COL_2_NUM)
        as (d3 & Hrun3 & Hp3); [tauto|].
        rewrite Hrun3. exists (d0 ++ d1 ++ d3).
        rewrite !pgm_ops_app, Hp1, Hp3, <- !app_assoc. auto.
      * exists (d0 ++ d1). cbv [ret].
        rewrite !pgm_ops_app, Hp1, <- !app_assoc. auto.
  - unfold ret at 1. unfold bind at 1.
    destruct (Z.testbit FipsVersion 1).
    + destruct (version_bit_runs (t ++ d0)
                  XNVM_EFUSE_FIPS_VERSION_COL_1_NUM)
        as (d2 & Hrun2 & Hp2); [tauto|].
      rewrite (run_bind _ _ _ _ _ _ Hrun2), neqb_refl.
      unfold when at 1. unfold bind at 1, ret at 1 2.
      destruct (Z.testbit FipsVersion 2).
      * destruct (version_bit_runs ((t ++ d0) ++ d2)
                    XNVM_EFUSE_FIPS_VERSION_COL_2_NUM)
        as (d3 & Hrun3 & Hp3); [tauto|].
        rewrite Hrun3. exists (d0 ++ d2 ++ d3).
        rewrite !pgm_ops_app, Hp2, Hp3, <- !app_assoc. auto.
      * exists (d0 ++ d2). cbv [ret].
        rewrite !pgm_ops_app, Hp2, <- !app_assoc. auto.
    + unfold ret at 1.
      destruct (Z.testbit FipsVersion 2).
      * destruct (version_bit_runs (t ++ d0)
                    XNVM_EFUSE_FIPS_VERSION_COL_2_NUM)
        as (d3 & Hrun3 & Hp3); [tauto|].
        rewrite Hrun3. exists (d0 ++ d3).
        rewrite !pgm_ops_app, Hp3, <- !app_assoc. auto.
      * exists d0. cbv [ret]. rewrite app_nil_r. auto.
Qed.

End Fips.

Lemma WriteFipsInfo_runs (e : Env) (t : Trace)
  (EnvDisFlag FipsMode FipsVersion : Z) :
  XNVM_EFUSE_MAX_BITS_IN_ROW = 32 ->
  range_ok fips_mode_range ->
  NumOfRows fips_mode_range < Z.of_nat (fuel e) ->
  ColEnd fips_mode_range - ColStart fips_mode_range + 1 < Z.of_nat (fuel e) ->
  setup_succeeds e ->
  fips_validation_succeeds e ->
  every_bit_succeeds e fips_mode_range ->
  fips_version_bits_succeed e ->
  FipsVersion <= 7 -> FipsMode <= 0xFF ->
  exists Status d,
    XNvm_EfuseWriteFipsInfo EnvDisFlag FipsMode FipsVersion e t
      = Normal Status (t ++ d) /\
    pgm_ops d = fips_mode_ops e FipsMode ++ fips_version_ops FipsVersion.
Proof.
  intros HW Hr Hf1 Hf2 Hsetup Hval Hmode Hver Hv Hm.
  assert (Hbody : exists d,
    XNvm_EfuseWriteFipsInfo_body EnvDisFlag FipsMode FipsVersion e t
      = Normal XST_SUCCESS (t ++ d) /\
    pgm_ops d = fips_mode_ops e FipsMode ++ fips_version_ops FipsVersion).
  { unfold XNvm_EfuseWriteFipsInfo_body, END_label.
    unfold XNVM_EFUSE_MAX_FIPS_VERSION, XNVM_EFUSE_MAX_FIPS_MODE.
    destruct (Z.gtb_spec FipsVersion 7) as [?|_]; [lia|].
    destruct (Z.gtb_spec FipsMode 255) as [?|_]; [lia|].
    unfold when at 1. unfold bind at 1, ret at 1.
    unfold when at 1. unfold bind at 1, ret at 1.
    unfold env_checks_TODO. unfold bind at 1.
    replace (when (EnvDisFlag !=? TRUE) (ret tt) e t) with (Normal tt t)
      by (destruct (EnvDisFlag !=? TRUE); reflexivity).
    unfold XNvm_EfuseSetupController. rewrite run_status_of, Hsetup.
    rewrite neqb_refl. unfold when at 1. unfold bind at 1, ret at 1.
    unfold XNvm_EfuseValidateFipsInfo. rewrite run_status_of, Hval.
    rewrite neqb_refl. unfold when at 1. unfold bind at 1, ret at 1.
    match goal with
    | |- context [XNvm_EfusePrgmFipsInfo _ _ _ ?t0] =>
        destruct (PrgmFipsInfo_ops e HW Hr Hmode Hver Hf1 Hf2 t0
                    FipsMode FipsVersion) as (d & Hrun & Hp)
    end.
    rewrite Hrun. eexists (_ :: _ :: d). rewrite <- !app_assoc.
    split; [reflexivity | exact Hp]. }
  destruct Hbody as (d & Hb & Hp).
  destruct (run_epilogue _ e t d _ Hb) as (cs & d2 & Hrun & Hp2 & _).
  unfold XNvm_EfuseWriteFipsInfo. rewrite Hrun.
  eexists _, (d ++ d2). split; [reflexivity|].
  rewrite pgm_ops_app, Hp, Hp2, app_nil_r. reflexivity.
Qed.

(** C8. On cooperative hardware, [XNvm_EfuseWriteFipsInfo] with the
    environment flag set, mode [0x05] and version [0x3] starts the
    single-bit operations of the mode bits and then exactly two more, for
    version bits 0 and 1; with version [0x07] it is three, for bits 0, 1 and
    2.  A version above 7 or a mode above [0xFF] makes it return the
    invalid-parameter error without opening the controller or programming
    anything. *)
Theorem WriteFipsInfo_scenario (e : Env) (t : Trace) :
  XNVM_EFUSE_MAX_BITS_IN_ROW = 32 ->
  range_ok fips_mode_range ->
  NumOfRows fips_mode_range < Z.of_nat (fuel e) ->
  ColEnd fips_mode_range - ColStart fips_mode_range + 1 < Z.of_nat (fuel e) ->
  XNVM_EFUSE_ERR_INVALID_PARAM <> XST_SUCCESS ->
  (setup_succeeds e ->
   fips_validation_succeeds e ->
   every_bit_succeeds e fips_mode_range ->
   fips_version_bits_succeed e ->
   (exists Status d,
      XNvm_EfuseWriteFipsInfo TRUE 0x05 0x3 e t = Normal Status (t ++ d) /\
      pgm_ops d
      = fips_mode_ops e 0x05 ++
        [fips_version_op XNVM_EFUSE_FIPS_VERSION_COL_0_NUM;
         fips_version_op XNVM_EFUSE_FIPS_VERSION_COL_1_NUM]) /\
   (exists Status d,
      XNvm_EfuseWriteFipsInfo TRUE 0x05 0x07 e t = Normal Status (t ++ d) /\
      pgm_ops d
      = fips_mode_ops e 0x05 ++
        [fips_version_op XNVM_EFUSE_FIPS_VERSION_COL_0_NUM;
         fips_version_op XNVM_EFUSE_FIPS_VERSION_COL_1_NUM;
         fips_version_op XNVM_EFUSE_FIPS_VERSION_COL_2_NUM])) /\
  (forall EnvDisFlag FipsMode FipsVersion,
     FipsVersion > 7 \/ FipsMode > 0xFF ->
     exists d,
       XNvm_EfuseWriteFipsInfo EnvDisFlag FipsMode FipsVersion e t
         = Normal XNVM_EFUSE_ERR_INVALID_PARAM (t ++ d) /\
       pgm_ops d = [] /\ setup_count d = 0%nat).
Proof.
  intros HW Hr Hf1 Hf2 Hinv. split.
  - intros Hsetup Hval Hmode Hver. split.
    + apply (WriteFipsInfo_runs e t TRUE 0x05 0x3); auto; lia.
    + apply (WriteFipsInfo_runs e t TRUE 0x05 0x07); auto; lia.
  - intros EnvDisFlag FipsMode FipsVersion Hbad.
    assert (Hb : XNvm_EfuseWriteFipsInfo_body EnvDisFlag FipsMode FipsVersion
                   e t
                 = Normal XNVM_EFUSE_ERR_INVALID_PARAM (t ++ [])).
    { unfold XNvm_EfuseWriteFipsInfo_body, END_label.
      unfold XNVM_EFUSE_MAX_FIPS_VERSION, XNVM_EFUSE_MAX_FIPS_MODE.
      rewrite app_nil_r.
      destruct (Z.gtb_spec FipsVersion 7); [reflexivity|].
      destruct (Z.gtb_spec FipsMode 255); [reflexivity|]. lia. }
    destruct (run_epilogue _ e t [] _ Hb) as (cs & d2 & Hrun & Hp2 & Hs2 & _).
    unfold XNvm_EfuseWriteFipsInfo. rewrite Hrun.
    rewrite (status_not_success _ _ Hinv). exists d2. auto.
Qed.

(** ** Termination of the write functions *)

Lemma ar_ret {A} (a : A) : always_returns (ret a).
Proof. intros e t _. now exists a, t. Qed.

Lemma ar_bind {A B} (m : M A) (k : A -> M B) :
  always_returns m -> (forall a, always_returns (k a)) ->
  always_returns (bind m k).
Proof.
  intros Hm Hk e t Hf. destruct (Hm e t Hf) as (a & t1 & E).
  unfold bind. rewrite E. now apply Hk.
Qed.

Lemma ar_call (c : Call) : always_returns (call c).
Proof. intros e t _. cbv [call]. eauto. Qed.

Lemma ar_ghost (m : Mark) : always_returns (ghost m).
Proof. intros e t _. cbv [ghost]. eauto. Qed.

Lemma ar_addr_of (v : Z) : always_returns (addr_of v).
Proof. intros e t _. cbv [addr_of]. eauto. Qed.

Lemma ar_zero_array (n : Z) : always_returns (zero_array n).
Proof. intros e t _. cbv [zero_array]. eauto. Qed.

Lemma ar_END (body : M Z) : ends body -> always_returns (END_label body).
Proof.
  intros H e t Hf. specialize (H e t Hf). unfold END_label.
  destruct (body e t); [eauto | eauto | congruence].
Qed.

Lemma ends_of_ar {A} (m : M A) : always_returns m -> ends m.
Proof. intros H e t Hf. destruct (H e t Hf) as (a & t' & ->). discriminate. Qed.

Lemma ends_ret {A} (a : A) : ends (ret a).
Proof. intros e t _. discriminate. Qed.

Lemma ends_goto {A} (s : Z) : ends (@goto_END A s).
Proof. intros e t _. discriminate. Qed.

Lemma ends_END (body : M Z) : ends body -> ends (END_label body).
Proof. intros H. apply ends_of_ar, ar_END, H. Qed.

Lemma ends_bind {A B} (m : M A) (k : A -> M B) :
  ends m -> (forall a, ends (k a)) -> ends (bind m k).
Proof.
  intros Hm Hk e t Hf. specialize (Hm e t Hf). unfold bind.
  destruct (m e t) as [a t1|s t1|]; [now apply Hk | discriminate | congruence].
Qed.

(** A returned value reaches the continuation as it is, so that what the code
    selected is still known there. *)
Lemma ends_bind_ret {A B} (a : A) (k : A -> M B) :
  ends (k a) -> ends (bind (ret a) k).
Proof. intros H e t Hf. exact (H e t Hf). Qed.

Lemma ends_bind_goto {A B} (s : Z) (k : A -> M B) : ends (bind (goto_END s) k).
Proof. intros e t _. discriminate. Qed.

Lemma ends_bind_assoc {A B C} (m : M A) (k1 : A -> M B) (k2 : B -> M C) :
  ends (bind m (fun a => bind (k1 a) k2)) -> ends (bind (bind m k1) k2).
Proof.
  intros H e t Hf. specialize (H e t Hf). unfold bind in *.
  destruct (m e t); auto.
Qed.

(** The loops. *)

Lemma walk_bit_moves (info : XNvm_EfusePrgmInfo) (D : words) (s : Cursor)
  (e : Env) (t : Trace) :
  match walk_bit info D s e t with
  | Normal s' _ => Col s' = u32_add (Col s) 1 /\ Row s' = Row s
  | GotoEND _ _ => True
  | OutOfFuel => False
  end.
Proof.
  unfold walk_bit. unfold bind at 1. cbv [ghost].
  destruct (Z.land (Data s) 1 !=? 0); cbv [when].
  - destruct (PgmAndVerifyBit_runs e
                (t ++ [Ghost (Visit (Row s) (Col s) true)])
                (EfuseType info) (Row s) (Col s) (SkipVerify info))
      as (st & d & Hrun & _).
    unfold bind. rewrite Hrun.
    destruct (st !=? XST_SUCCESS); cbv [goto_END ret]; [exact I|].
    destruct (_ =? XNVM_EFUSE_MAX_BITS_IN_ROW); cbn [Row Col]; auto.
  - unfold bind. cbv [ret].
    destruct (_ =? XNVM_EFUSE_MAX_BITS_IN_ROW); cbn [Row Col]; auto.
Qed.

Lemma walk_cols_ends (info : XNvm_EfusePrgmInfo) (D : words) (e : Env)
  (n : nat) : forall (s : Cursor) (t : Trace),
  ColEnd info < 2 ^ 32 - 1 ->
  0 <= Col s ->
  Z.max 0 (ColEnd info - Col s + 1) < Z.of_nat n ->
  match while_fuel n (fun s => Col s <=? ColEnd info) (walk_bit info D) s e t
  with
  | Normal s' _ => Row s' = Row s
  | GotoEND _ _ => True
  | OutOfFuel => False
  end.
Proof.
  induction n as [|n IH]; intros s t HCE HC Hf; [lia|].
  cbn [while_fuel]. destruct (Z.leb_spec (Col s) (ColEnd info)); [|reflexivity].
  unfold bind. pose proof (walk_bit_moves info D s e t) as Hs.
  destruct (walk_bit info D s e t) as [s1 t1|st t1|]; [|exact I|exact Hs].
  destruct Hs as (HC1 & HR1).
  assert (Col s1 = Col s + 1)
    by (rewrite HC1; unfold u32_add; apply u32_small; lia).
  specialize (IH s1 t1 HCE). rewrite <- HR1.
  apply IH; lia.
Qed.

Lemma walk_rows_ends (info : XNvm_EfusePrgmInfo) (D : words) (e : Env)
  (EndRow : Z) (n : nat) : forall (s : Cursor) (t : Trace),
  2 ^ 32 < Z.of_nat (fuel e) ->
  ColEnd info < 2 ^ 32 - 1 -> 0 <= ColStart info ->
  EndRow < 2 ^ 32 -> 0 <= Row s ->
  Z.max 0 (EndRow - Row s) < Z.of_nat n ->
  while_fuel n (fun s => Row s <? EndRow) (walk_row info D) s e t
  <> OutOfFuel.
Proof.
  induction n as [|n IH]; intros s t He HCE HCS HER HR Hf; [lia|].
  cbn [while_fuel]. destruct (Z.ltb_spec (Row s) EndRow); [|discriminate].
  unfold bind at 1. unfold walk_row at 1. cbv [xil_printf].
  unfold bind at 1 2. cbv [call ret]. cbn [Row Col Idx DataPtr Data].
  unfold bind at 1. unfold while.
  match goal with
  | |- context [while_fuel _ _ _ ?s0 e ?t0] =>
      pose proof (walk_cols_ends info D e (fuel e) s0 t0 HCE)
        as Hc;
      destruct (while_fuel (fuel e) _ _ s0 e t0)
        as [s1 t1|st t1|]
  end; cbn [Row Col] in Hc.
  - apply IH; auto; cbn [Row]; rewrite Hc by lia.
    + unfold u32_add. rewrite u32_small by lia. lia.
    + unfold u32_add. rewrite u32_small by lia. lia.
  - discriminate.
  - exfalso. apply Hc; lia.
Qed.

Lemma ends_PgmAndVerifyData (info : XNvm_EfusePrgmInfo) (RowData : ptr) :
  0 <= StartRow info -> 0 <= ColStart info -> ColEnd info < 2 ^ 32 - 1 ->
  ends (XNvm_EfusePgmAndVerifyData info RowData).
Proof.
  intros HR HCS HCE. apply ends_END. intros e t Hf.
  unfold XNvm_EfusePgmAndVerifyData_walk, when.
  destruct (_ && _); [discriminate|].
  destruct RowData as [D|]; [|discriminate].
  destruct (NumOfRows info =? 0); [discriminate|].
  unfold bind, ret, while.
  pose proof (u32_range (StartRow info + NumOfRows info)) as HE.
  fold (u32_add (StartRow info) (NumOfRows info)) in HE.
  match goal with
  | |- context [while_fuel _ _ _ ?s0 e ?t0] =>
      pose proof (walk_rows_ends info D e
                    (u32_add (StartRow info) (NumOfRows info))
                    (fuel e) s0 t0 Hf HCE HCS (proj2 HE) HR) as Hw;
      destruct (while_fuel (fuel e) _ _ s0 e t0) as [s1 t1|st t1|]
  end; cbn [Row] in Hw.
  - destruct (_ !=? _); discriminate.
  - discriminate.
  - exfalso. apply Hw; [lia | reflexivity].
Qed.

Lemma compute_loop_ends (Req : words) (StartOffset EndOffset : Z) (e : Env)
  (n : nat) : forall (s : Z * words) (t : Trace),
  0 < XNVM_WORD_LEN -> EndOffset + XNVM_WORD_LEN < 2 ^ 32 -> 0 <= fst s ->
  Z.max 0 (EndOffset - fst s + 1) < Z.of_nat n ->
  exists s' t',
    while_fuel n (fun s : Z * words => fst s <=? EndOffset)
      (fun s =>
         let Offset := fst s in
         ReadReg <- XNvm_EfuseReadReg XNVM_EFUSE_CACHE_BASEADDR Offset ;;
         let Idx := u32_sub Offset StartOffset / XNVM_WORD_LEN in
         ret (u32_add Offset XNVM_WORD_LEN,
              store (snd s) Idx (Z.land (u32_not ReadReg) (load Req Idx))))
      s e t = Normal s' t'.
Proof.
  induction n as [|n IH]; intros s t HW HE Hs Hn; [lia|].
  cbn [while_fuel]. destruct (Z.leb_spec (fst s) EndOffset); [|cbv [ret]; eauto].
  unfold bind at 1. cbv zeta. rewrite run_ReadReg. cbv [ret].
  apply IH; auto; cbn [fst]; unfold u32_add; rewrite u32_small by lia; lia.
Qed.

Lemma ends_ComputeProgrammableBits (ReqData PrgmData : ptr)
  (StartOffset EndOffset : Z) :
  0 < XNVM_WORD_LEN -> 0 <= StartOffset ->
  EndOffset + XNVM_WORD_LEN < 2 ^ 32 ->
  ends
    (XNvm_EfuseComputeProgrammableBits ReqData PrgmData StartOffset EndOffset).
Proof.
  intros HW HS HE. apply ends_of_ar. intros e t Hf. unfold XNvm_EfuseComputeProgrammableBits.
  destruct ReqData as [Req|], PrgmData as [Prgm|];
    try solve [cbv [ret]; eauto].
  rewrite run_ReadReg. destruct (_ =? _); [cbv [ret]; eauto|].
  unfold bind at 1. unfold while.
  match goal with
  | |- context [while_fuel _ _ _ ?s0 e ?t0] =>
      destruct (compute_loop_ends Req StartOffset EndOffset e (fuel e) s0 t0
                  HW HE) as (s' & t' & E); cbn [fst]; [lia | lia |];
      cbv zeta in E |- *; rewrite E; cbv [ret]; eauto
  end.
Qed.

Lemma ends_call (c : Call) : ends (call c).
Proof. intros e t _. discriminate. Qed.

Lemma ends_ghost (m : Mark) : ends (ghost m).
Proof. intros e t _. discriminate. Qed.

Lemma ends_addr_of (v : Z) : ends (addr_of v).
Proof. intros e t _. discriminate. Qed.

Lemma ends_zero_array (n : Z) : ends (zero_array n).
Proof. intros e t _. discriminate. Qed.

Lemma ends_PgmAndVerifyBit (Page Row Col Skip : Z) :
  ends (XNvm_EfusePgmAndVerifyBit Page Row Col Skip).
Proof.
  intros e t _.
  destruct (PgmAndVerifyBit_runs e t Page Row Col Skip) as (s & d & -> & _).
  discriminate.
Qed.

Lemma ar_CloseController : always_returns XNvm_EfuseCloseController.
Proof.
  intros e t _. destruct (CloseController_runs e t) as (s & d & -> & _). eauto.
Qed.

(** With its code before [END] ending, a public write function returns. *)
Lemma ar_write (body : M Z) :
  ends body ->
  (forall e t s t', body e t <> GotoEND s t') ->
  always_returns
    (Status <- body ;;
     CloseStatus <- XNvm_EfuseCloseController ;;
     ret (if XST_SUCCESS =? Status then CloseStatus else Status)).
Proof.
  intros H Hj. apply ar_bind.
  - intros e t Hf. specialize (H e t Hf). specialize (Hj e t).
    destruct (body e t) as [a t1|s t1|]; [eauto | | congruence].
    now destruct (Hj s t1).
  - intros Status. apply ar_bind; [apply ar_CloseController|].
    intros CloseStatus. apply ar_ret.
Qed.

Section Returns.
Hypothesis Hfit : layout_in_range.

Lemma layout_number_fits (c : Z) :
  In c layout_numbers -> 0 <= c < 2 ^ 32 - 1.
Proof. destruct Hfit as (H & _). rewrite Forall_forall in H. apply H. Qed.

Lemma word_len_positive : 0 < XNVM_WORD_LEN.
Proof. apply Hfit. Qed.

Lemma cache_offset_fits (o : Z) :
  In o cache_offsets -> 0 <= o /\ o + XNVM_WORD_LEN < 2 ^ 32.
Proof.
  destruct Hfit as (_ & _ & H & _). rewrite Forall_forall in H. apply H.
Qed.

Lemma iv_cache_offset_fits (o : Z) :
  In o iv_cache_offsets ->
  0 <= o /\
  u32_add o (u32_mul XNVM_EFUSE_IV_NUM_OF_CACHE_ROWS XNVM_WORD_LEN)
  + XNVM_WORD_LEN < 2 ^ 32.
Proof.
  destruct Hfit as (_ & _ & _ & H). rewrite Forall_forall in H. apply H.
Qed.

Ltac in_list :=
  solve [repeat match goal with
                | |- In ?c (?c :: _) => left; reflexivity
                | |- In _ (_ :: _) => right
                end].

(** The side conditions of the two loops, from [layout_in_range]. *)
Ltac fits :=
  cbn [StartRow ColStart ColEnd NumOfRows];
  match goal with
  | |- 0 < XNVM_WORD_LEN => exact word_len_positive
  | |- 0 <= ?c =>
      first
        [ apply (proj1 (layout_number_fits c
                          ltac:(unfold layout_numbers; in_list)))
        | apply (proj1 (cache_offset_fits c
                          ltac:(unfold cache_offsets; in_list)))
        | apply (proj1 (iv_cache_offset_fits c
                          ltac:(unfold iv_cache_offsets; in_list))) ]
  | |- ?c < 2 ^ 32 - 1 =>
      apply (proj2 (layout_number_fits c
                      ltac:(unfold layout_numbers; in_list)))
  | |- ?o + XNVM_WORD_LEN < 2 ^ 32 =>
      apply (proj2 (cache_offset_fits o
                      ltac:(unfold cache_offsets; in_list)))
  | |- u32_add ?o _ + XNVM_WORD_LEN < 2 ^ 32 =>
      apply (proj2 (iv_cache_offset_fits o
                      ltac:(unfold iv_cache_offsets; in_list)))
  end.

Create HintDb ends_db.

Ltac ends_step :=
  match goal with
  | |- ends (ret _) => apply ends_ret
  | |- ends (goto_END _) => apply ends_goto
  | |- ends (bind (ret _) _) => apply ends_bind_ret; cbv beta iota
  | |- ends (bind (goto_END _) _) => apply ends_bind_goto
  | |- ends (bind (bind _ _) _) => apply ends_bind_assoc; cbv beta
  | |- ends (bind (if ?c then _ else _) _) => destruct c
  | |- ends (bind (when _ _) _) => apply ends_bind; [|intro]
  | |- ends (bind (match ?x with _ => _ end) _) => destruct x
  | |- ends (bind _ _) => apply ends_bind; [|intro]
  | |- ends (END_label _) => apply ends_END
  | |- ends (when ?c _) => destruct c; unfold when
  | |- ends (call _) => apply ends_call
  | |- ends (ghost _) => apply ends_ghost
  | |- ends (addr_of _) => apply ends_addr_of
  | |- ends (zero_array _) => apply ends_zero_array
  | |- ends (XNvm_EfusePgmAndVerifyBit _ _ _ _) => apply ends_PgmAndVerifyBit
  | |- ends (XNvm_EfusePgmAndVerifyData _ _) =>
      apply ends_PgmAndVerifyData; fits
  | |- ends (XNvm_EfuseComputeProgrammableBits _ _ _ _) =>
      apply ends_ComputeProgrammableBits; fits
  | |- ends (if ?c then _ else _) => destruct c
  | |- ends (match ?x with _ => _ end) => destruct x
  | |- ends _ => solve [auto with ends_db]
  | |- ends _ => progress cbv zeta
  | |- ends _ =>
      progress unfold status_of, XNvm_EfuseReadReg, XNvm_EfuseWriteReg,
        Xil_WaitForEvents, XNvm_EfuseSetupController, XNvm_EfuseResetReadMode,
        XNvm_EfuseDisableProgramming, XNvm_EfuseLockController,
        XNvm_EfuseCacheReload, XNvm_EfuseCheckZeros, XNvm_EfuseCheckAesKeyCrc,
        XNvm_AesCrcCalc, XNvm_EfuseValidateAesKeyWriteReq,
        XNvm_EfuseValidatePpkHashWriteReq, XNvm_EfuseValidateIvWriteReq,
        XNvm_EfuseValidateDecOnlyRequest, XNvm_EfuseValidateFipsInfo,
        xil_printf, env_checks_TODO, XNvm_EfuseCacheLoadNPrgmProtectionBits
  end.

Ltac ends_tac := repeat ends_step.

Lemma ends_PrgmFipsInfo a b : ends (XNvm_EfusePrgmFipsInfo a b).
Proof. unfold XNvm_EfusePrgmFipsInfo. ends_tac. Qed.
#[local] Hint Resolve ends_PrgmFipsInfo : ends_db.

Lemma ends_WritePufSecCtrl a : ends (XNvm_EfuseWritePufSecCtrl a).
Proof. unfold XNvm_EfuseWritePufSecCtrl. ends_tac. Qed.
#[local] Hint Resolve ends_WritePufSecCtrl : ends_db.

Lemma ends_WritePufSynData a : ends (XNvm_EfuseWritePufSynData a).
Proof. unfold XNvm_EfuseWritePufSynData. ends_tac. Qed.
#[local] Hint Resolve ends_WritePufSynData : ends_db.

Lemma ends_WritePufChash a : ends (XNvm_EfuseWritePufChash a).
Proof. unfold XNvm_EfuseWritePufChash. ends_tac. Qed.
#[local] Hint Resolve ends_WritePufChash : ends_db.

Lemma ends_WritePufAux a : ends (XNvm_EfuseWritePufAux a).
Proof. unfold XNvm_EfuseWritePufAux. ends_tac. Qed.
#[local] Hint Resolve ends_WritePufAux : ends_db.

Lemma ends_WriteRoSwapEn a : ends (XNvm_EfuseWriteRoSwapEn a).
Proof. unfold XNvm_EfuseWriteRoSwapEn. ends_tac. Qed.
#[local] Hint Resolve ends_WriteRoSwapEn : ends_db.

Lemma ends_IsPufHelperDataEmpty : ends (XNvm_EfuseIsPufHelperDataEmpty).
Proof. unfold XNvm_EfuseIsPufHelperDataEmpty. ends_tac. Qed.
#[local] Hint Resolve ends_IsPufHelperDataEmpty : ends_db.

Lemma ends_PrgmDmeUserKey a b : ends (XNvm_EfusePrgmDmeUserKey a b).
Proof. unfold XNvm_EfusePrgmDmeUserKey. ends_tac. Qed.
#[local] Hint Resolve ends_PrgmDmeUserKey : ends_db.

Lemma ends_PrgmPpkHash a b : ends (XNvm_EfusePrgmPpkHash a b).
Proof. unfold XNvm_EfusePrgmPpkHash. ends_tac. Qed.
#[local] Hint Resolve ends_PrgmPpkHash : ends_db.

Lemma ends_PrgmAesKey a b : ends (XNvm_EfusePrgmAesKey a b).
Proof. unfold XNvm_EfusePrgmAesKey. ends_tac. Qed.
#[local] Hint Resolve ends_PrgmAesKey : ends_db.

Lemma ends_WriteAesKey_body a b : ends (XNvm_EfuseWriteAesKey_body a b).
Proof. unfold XNvm_EfuseWriteAesKey_body. ends_tac. Qed.

Lemma ends_WritePpkHash_body a b : ends (XNvm_EfuseWritePpkHash_body a b).
Proof. unfold XNvm_EfuseWritePpkHash_body. ends_tac. Qed.

Lemma ends_WriteGlitchConfigBits_body a b :
  ends (XNvm_EfuseWriteGlitchConfigBits_body a b).
Proof. unfold XNvm_EfuseWriteGlitchConfigBits_body. ends_tac. Qed.

Lemma ends_WriteDecOnly_body a : ends (XNvm_EfuseWriteDecOnly_body a).
Proof. unfold XNvm_EfuseWriteDecOnly_body. ends_tac. Qed.

Lemma ends_WriteRevocationID_body a b :
  ends (XNvm_EfuseWriteRevocationID_body a b).
Proof. unfold XNvm_EfuseWriteRevocationID_body. ends_tac. Qed.

Lemma ends_WriteOffChipRevokeID_body a b :
  ends (XNvm_EfuseWriteOffChipRevokeID_body a b).
Proof. unfold XNvm_EfuseWriteOffChipRevokeID_body. ends_tac. Qed.

Lemma ends_WriteMiscCtrlBits_body a b :
  ends (XNvm_EfuseWriteMiscCtrlBits_body a b).
Proof. unfold XNvm_EfuseWriteMiscCtrlBits_body. ends_tac. Qed.

Lemma ends_WriteSecCtrlBits_body a b :
  ends (XNvm_EfuseWriteSecCtrlBits_body a b).
Proof. unfold XNvm_EfuseWriteSecCtrlBits_body. ends_tac. Qed.

Lemma ends_WriteMisc1Bits_body a b : ends (XNvm_EfuseWriteMisc1Bits_body a b).
Proof. unfold XNvm_EfuseWriteMisc1Bits_body. ends_tac. Qed.

Lemma ends_WriteBootEnvCtrlBits_body a b :
  ends (XNvm_EfuseWriteBootEnvCtrlBits_body a b).
Proof. unfold XNvm_EfuseWriteBootEnvCtrlBits_body. ends_tac. Qed.

Lemma ends_WriteFipsInfo_body a b c : ends (XNvm_EfuseWriteFipsInfo_body a b c).
Proof. unfold XNvm_EfuseWriteFipsInfo_body. ends_tac. Qed.

Lemma ends_WriteUds_body a b : ends (XNvm_EfuseWriteUds_body a b).
Proof. unfold XNvm_EfuseWriteUds_body. ends_tac. Qed.

Lemma ends_WriteDmeUserKey_body a b : ends (XNvm_EfuseWriteDmeUserKey_body a b).
Proof.
  unfold XNvm_EfuseWriteDmeUserKey_body, XNvm_EfuseWriteDmeUserKey_checked.
  ends_tac.
Qed.

Lemma ends_WriteDmeRevoke_body a b : ends (XNvm_EfuseWriteDmeRevoke_body a b).
Proof. unfold XNvm_EfuseWriteDmeRevoke_body. ends_tac. Qed.

Lemma ends_WriteDisableInplacePlmUpdate_body a :
  ends (XNvm_EfuseWriteDisableInplacePlmUpdate_body a).
Proof. unfold XNvm_EfuseWriteDisableInplacePlmUpdate_body. ends_tac. Qed.

Lemma ends_WriteBootModeDisable_body a b :
  ends (XNvm_EfuseWriteBootModeDisable_body a b).
Proof. unfold XNvm_EfuseWriteBootModeDisable_body. ends_tac. Qed.

Lemma ends_WriteDmeMode_body a b : ends (XNvm_EfuseWriteDmeMode_body a b).
Proof. unfold XNvm_EfuseWriteDmeMode_body. ends_tac. Qed.

Lemma ends_WritePuf_body a : ends (XNvm_EfuseWritePuf_body a).
Proof. unfold XNvm_EfuseWritePuf_body. ends_tac. Qed.

End Returns.

(** ** The IV through the calculator: the store past [PrgmIv] *)

Section ArrayLoop.
Variables (e : Env) (Req : words) (StartOffset : Z) (Len Rows : Z).
Hypothesis Hword : 0 < XNVM_WORD_LEN.
Hypothesis Hstart : 0 <= StartOffset.
Hypothesis Hrows : 0 <= Rows.
Hypothesis Hend : StartOffset + Rows * XNVM_WORD_LEN < 2 ^ 32.
Hypothesis Hlen : Len <= Rows.

(** The loop over the offsets up to and including the one [Rows] words
    past the start, on an array of at most [Rows] words: whatever the
    iteration budget, it stores past the array before it is done. *)
Lemma array_loop_overflows (n : nat) : forall (j : Z) (P : words) (t : Trace),
  0 <= j <= Rows ->
  while_fuel n
    (fun s : Z * words => fst s <=? StartOffset + Rows * XNVM_WORD_LEN)
    (fun s =>
       let Offset := fst s in
       ReadReg <- XNvm_EfuseReadReg XNVM_EFUSE_CACHE_BASEADDR Offset ;;
       let Idx := u32_sub Offset StartOffset / XNVM_WORD_LEN in
       if Idx <? Len
       then ret (u32_add Offset XNVM_WORD_LEN,
                 store (snd s) Idx (Z.land (u32_not ReadReg) (load Req Idx)))
       else undefined_behaviour)
    (StartOffset + j * XNVM_WORD_LEN, P) e t
  = OutOfFuel.
Proof.
  match goal with
  | |- context [while_fuel _ _ ?b] => set (body := b)
  end.
  induction n as [|n IH]; intros j P t Hj; [reflexivity|].
  cbn [while_fuel fst snd].
  assert (HjW : 0 <= j * XNVM_WORD_LEN)
    by (apply Z.mul_nonneg_nonneg; lia).
  assert (HjR : j * XNVM_WORD_LEN <= Rows * XNVM_WORD_LEN)
    by (apply Z.mul_le_mono_nonneg_r; lia).
  destruct (Z.leb_spec (StartOffset + j * XNVM_WORD_LEN)
              (StartOffset + Rows * XNVM_WORD_LEN)) as [_|Hout]; [|lia].
  assert (HIdx : u32_sub (StartOffset + j * XNVM_WORD_LEN) StartOffset
                 / XNVM_WORD_LEN = j).
  { unfold u32_sub.
    replace (StartOffset + j * XNVM_WORD_LEN - StartOffset)
      with (j * XNVM_WORD_LEN) by lia.
    rewrite u32_small by lia. apply Z.div_mul. lia. }
  unfold bind at 1. unfold body at 1. cbv beta zeta. cbn [fst snd].
  rewrite run_ReadReg. rewrite HIdx.
  destruct (Z.ltb_spec j Len) as [Hin|Hpast]; [|reflexivity].
  assert (HjR' : (j + 1) * XNVM_WORD_LEN <= Rows * XNVM_WORD_LEN)
    by (apply Z.mul_le_mono_nonneg_r; lia).
  assert (HOff : u32_add (StartOffset + j * XNVM_WORD_LEN) XNVM_WORD_LEN
                 = StartOffset + (j + 1) * XNVM_WORD_LEN).
  { unfold u32_add. rewrite u32_small by lia. lia. }
  rewrite HOff. unfold ret at 1. apply IH. lia.
Qed.

(** With the cache error flag clear, the calculator called on such an array
    has no outcome. *)
Lemma ComputeProgrammableBits_array_overflows (Prgm : words) (t : Trace) :
  isr_cache_error e t = false ->
  XNvm_EfuseComputeProgrammableBits_array Len (Some Req) (Some Prgm)
    StartOffset (StartOffset + Rows * XNVM_WORD_LEN) e t
  = OutOfFuel.
Proof.
  intros Hisr. unfold XNvm_EfuseComputeProgrammableBits_array.
  rewrite run_ReadReg. unfold isr_cache_error in Hisr. cbv zeta in Hisr.
  rewrite Hisr. unfold bind at 1, while.
  pose proof (array_loop_overflows (fuel e) 0 Prgm) as H.
  rewrite Z.mul_0_l, Z.add_0_r in H. rewrite H; [reflexivity | lia].
Qed.

End ArrayLoop.
Section ArrayFits.
Variables (e : Env) (Req : words) (StartOffset EndOffset Len : Z).
Hypothesis Hword : 0 < XNVM_WORD_LEN.
Hypothesis Hstart : 0 <= StartOffset.
Hypothesis Hend : EndOffset + XNVM_WORD_LEN < 2 ^ 32.
Hypothesis Hlen :
  EndOffset < StartOffset \/ (EndOffset - StartOffset) / XNVM_WORD_LEN < Len.

Lemma array_loop_fits (n : nat) : forall (j : Z) (P : words) (t : Trace),
  0 <= j ->
  while_fuel n (fun s : Z * words => fst s <=? EndOffset)
    (fun s =>
       let Offset := fst s in
       ReadReg <- XNvm_EfuseReadReg XNVM_EFUSE_CACHE_BASEADDR Offset ;;
       let Idx := u32_sub Offset StartOffset / XNVM_WORD_LEN in
       if Idx <? Len
       then ret (u32_add Offset XNVM_WORD_LEN,
                 store (snd s) Idx (Z.land (u32_not ReadReg) (load Req Idx)))
       else undefined_behaviour)
    (StartOffset + j * XNVM_WORD_LEN, P) e t
  = while_fuel n (fun s : Z * words => fst s <=? EndOffset)
      (fun s =>
         let Offset := fst s in
         ReadReg <- XNvm_EfuseReadReg XNVM_EFUSE_CACHE_BASEADDR Offset ;;
         let Idx := u32_sub Offset StartOffset / XNVM_WORD_LEN in
         ret (u32_add Offset XNVM_WORD_LEN,
              store (snd s) Idx (Z.land (u32_not ReadReg) (load Req Idx))))
      (StartOffset + j * XNVM_WORD_LEN, P) e t.
Proof.
  match goal with
  | |- forall j P t, _ -> while_fuel _ _ ?b _ _ _ = while_fuel _ _ ?b' _ _ _ =>
      set (checked := b); set (plain := b')
  end.
  induction n as [|n IH]; intros j P t Hj; [reflexivity|].
  cbn [while_fuel fst snd].
  assert (HjW : 0 <= j * XNVM_WORD_LEN)
    by (apply Z.mul_nonneg_nonneg; lia).
  destruct (Z.leb_spec (StartOffset + j * XNVM_WORD_LEN) EndOffset)
    as [Hin|Hout]; [|reflexivity].
  assert (HIdx : u32_sub (StartOffset + j * XNVM_WORD_LEN) StartOffset
                 / XNVM_WORD_LEN = j).
  { unfold u32_sub.
    replace (StartOffset + j * XNVM_WORD_LEN - StartOffset)
      with (j * XNVM_WORD_LEN) by lia.
    rewrite u32_small by lia. apply Z.div_mul. lia. }
  assert (HjLen : j < Len).
  { destruct Hlen as [Hlt|Hlt]; [lia|].
    apply Z.le_lt_trans with (2 := Hlt).
    apply Z.div_le_lower_bound; lia. }
  assert (Hstep : checked (StartOffset + j * XNVM_WORD_LEN, P) e t
                  = plain (StartOffset + j * XNVM_WORD_LEN, P) e t).
  { unfold checked, plain. cbv beta zeta. cbn [fst snd].
    rewrite !run_ReadReg. rewrite HIdx.
    destruct (Z.ltb_spec j Len); [reflexivity | lia]. }
  assert (HOff : u32_add (StartOffset + j * XNVM_WORD_LEN) XNVM_WORD_LEN
                 = StartOffset + (j + 1) * XNVM_WORD_LEN).
  { unfold u32_add. rewrite u32_small by lia. lia. }
  assert (Hplain : exists v ev,
            plain (StartOffset + j * XNVM_WORD_LEN, P) e t
            = Normal (StartOffset + (j + 1) * XNVM_WORD_LEN, store P j v)
                     (t ++ [ev])).
  { unfold plain. cbv beta zeta. cbn [fst snd].
    rewrite run_ReadReg. rewrite HIdx, HOff. do 2 eexists. reflexivity. }
  destruct Hplain as (v & ev & Hplain).
  unfold bind. rewrite Hstep, Hplain. apply IH. lia.
Qed.

End ArrayFits.

(** On an array that holds every word of the range, the calculator does
    what it does on a buffer without an end. *)
Lemma ComputeProgrammableBits_array_fits (e : Env) (t : Trace)
  (ReqData PrgmData : ptr) (StartOffset EndOffset Len : Z) :
  0 < XNVM_WORD_LEN ->
  0 <= StartOffset ->
  EndOffset + XNVM_WORD_LEN < 2 ^ 32 ->
  EndOffset < StartOffset \/
  (EndOffset - StartOffset) / XNVM_WORD_LEN < Len ->
  XNvm_EfuseComputeProgrammableBits_array Len ReqData PrgmData
    StartOffset EndOffset e t
  = XNvm_EfuseComputeProgrammableBits ReqData PrgmData
      StartOffset EndOffset e t.
Proof.
  intros Hword Hstart Hend Hlen.
  unfold XNvm_EfuseComputeProgrammableBits_array,
    XNvm_EfuseComputeProgrammableBits.
  destruct ReqData as [Req|]; [|reflexivity].
  destruct PrgmData as [Prgm|]; [|reflexivity].
  rewrite !run_ReadReg. destruct (_ =? _); [reflexivity|].
  unfold bind, while.
  pose proof (array_loop_fits e Req StartOffset EndOffset Len Hword Hstart
                Hend Hlen (fuel e) 0 Prgm) as H.
  rewrite Z.mul_0_l, Z.add_0_r in H. rewrite H by lia. reflexivity.
Qed.

(** What [XNvm_EfusePrgmIv] selects for a valid IV type. *)
Lemma PrgmIv_selected (IvType : Z) (EfuseIv : words) (IvOffset : Z)
  (info : XNvm_EfusePrgmInfo) (e : Env) (t : Trace) :
  iv_range_of IvType = Some (IvOffset, info) ->
  exists Prgm : words,
    XNvm_EfusePrgmIv IvType EfuseIv e t
    = END_label
        ('(Status, PrgmIv) <-
           XNvm_EfuseComputeProgrammableBits_array
             XNVM_EFUSE_IV_NUM_OF_CACHE_ROWS (Some EfuseIv) (Some Prgm)
             IvOffset
             (u32_add IvOffset
                (u32_mul XNVM_EFUSE_IV_NUM_OF_CACHE_ROWS XNVM_WORD_LEN)) ;;
         when (Status !=? XST_SUCCESS) (goto_END Status) ;;
         Status <- XNvm_EfusePgmAndVerifyData info PrgmIv ;;
         if Status !=? XST_SUCCESS
         then ret (Z.lor Status
                     (XNVM_EFUSE_ERR_WRITE_META_HEADER_IV_RANGE +
                      Z.shiftl IvType XNVM_EFUSE_ERROR_BYTE_SHIFT))
         else ret Status) e t.
Proof.
  intros Hsel.
  exists (fun i => if (0 <=? i) && (i <? XNVM_EFUSE_IV_NUM_OF_CACHE_ROWS)
                   then 0 else stack e i).
  unfold XNvm_EfusePrgmIv, END_label. unfold bind at 1. cbv [zero_array].
  unfold iv_range_of in Hsel. unfold bind at 1.
  destruct (IvType =? XNVM_EFUSE_META_HEADER_IV_RANGE);
    [|destruct (IvType =? XNVM_EFUSE_BLACK_IV);
      [|destruct (IvType =? XNVM_EFUSE_PLM_IV_RANGE);
        [|destruct (IvType =? XNVM_EFUSE_DATA_PARTITION_IV_RANGE);
          [|discriminate]]]];
    injection Hsel as <- <-; reflexivity.
Qed.

(** With a valid IV type and the cache error flag clear,
    [XNvm_EfusePrgmIv] has no outcome: its calculator call stores word
    [XNVM_EFUSE_IV_NUM_OF_CACHE_ROWS] of [PrgmIv], past the array. *)
Lemma PrgmIv_overflows (e : Env) (t : Trace) (IvType : Z) (EfuseIv : words)
  (IvOffset : Z) (info : XNvm_EfusePrgmInfo) :
  0 < XNVM_WORD_LEN ->
  0 <= XNVM_EFUSE_IV_NUM_OF_CACHE_ROWS ->
  iv_range_of IvType = Some (IvOffset, info) ->
  0 <= IvOffset ->
  IvOffset + XNVM_EFUSE_IV_NUM_OF_CACHE_ROWS * XNVM_WORD_LEN < 2 ^ 32 ->
  isr_cache_error e t = false ->
  XNvm_EfusePrgmIv IvType EfuseIv e t = OutOfFuel.
Proof.
  intros Hword Hrows Hsel HO0 HO1 Hisr.
  destruct (PrgmIv_selected IvType EfuseIv IvOffset info e t Hsel)
    as (Prgm & ->).
  assert (HRW : 0 <= XNVM_EFUSE_IV_NUM_OF_CACHE_ROWS * XNVM_WORD_LEN)
    by (apply Z.mul_nonneg_nonneg; lia).
  assert (HEnd : u32_add IvOffset
                   (u32_mul XNVM_EFUSE_IV_NUM_OF_CACHE_ROWS XNVM_WORD_LEN)
                 = IvOffset + XNVM_EFUSE_IV_NUM_OF_CACHE_ROWS * XNVM_WORD_LEN).
  { unfold u32_add, u32_mul.
    rewrite (u32_small (XNVM_EFUSE_IV_NUM_OF_CACHE_ROWS * XNVM_WORD_LEN))
      by lia.
    apply u32_small. lia. }
  rewrite HEnd. unfold END_label. unfold bind at 1.
  rewrite (ComputeProgrammableBits_array_overflows e EfuseIv IvOffset
             XNVM_EFUSE_IV_NUM_OF_CACHE_ROWS XNVM_EFUSE_IV_NUM_OF_CACHE_ROWS
             Hword HO0 Hrows HO1 (Z.le_refl _) Prgm t Hisr).
  reflexivity.
Qed.

(** C2. The discipline fails for [XNvm_EfuseWriteIv].  On a call with a
    valid IV type and an IV, whose controller setup and request validation
    succeed and which finds the cache error flag clear, the calculator
    runs its loop over [XNVM_EFUSE_IV_NUM_OF_CACHE_ROWS + 1] words, the
    loop bound including the end offset it is handed, and stores the last
    of them past the local array [PrgmIv] of
    [XNVM_EFUSE_IV_NUM_OF_CACHE_ROWS] words.  The call has no outcome: no
    status and trace that it returns, so no close sequence that it is known
    to run. *)
Theorem WriteIv_overflows_before_close (e : Env) (t t1 t2 : Trace)
  (IvType : Z) (EfuseIv : words) (IvOffset : Z) (info : XNvm_EfusePrgmInfo) :
  0 < XNVM_WORD_LEN ->
  0 <= XNVM_EFUSE_IV_NUM_OF_CACHE_ROWS ->
  iv_range_of IvType = Some (IvOffset, info) ->
  0 <= IvOffset ->
  IvOffset + XNVM_EFUSE_IV_NUM_OF_CACHE_ROWS * XNVM_WORD_LEN < 2 ^ 32 ->
  XNvm_EfuseSetupController XNVM_EFUSE_MODE_PGM XNVM_EFUSE_MARGIN_RD e t
    = Normal XST_SUCCESS t1 ->
  XNvm_EfuseValidateIvWriteReq IvType EfuseIv e t1 = Normal XST_SUCCESS t2 ->
  isr_cache_error e t2 = false ->
  XNvm_EfuseWriteIv IvType (Some EfuseIv) e t = undefined_behaviour e t /\
  forall Status t',
    XNvm_EfuseWriteIv IvType (Some EfuseIv) e t <> Normal Status t'.
Proof.
  intros Hword Hrows Hsel HO0 HO1 Hsetup Hval Hisr.
  assert (Hrun : XNvm_EfuseWriteIv IvType (Some EfuseIv) e t = OutOfFuel).
  { unfold XNvm_EfuseWriteIv. unfold bind at 1.
    unfold XNvm_EfuseWriteIv_body, END_label.
    assert (Hchk : (IvType !=? XNVM_EFUSE_META_HEADER_IV_RANGE) &&
                   (IvType !=? XNVM_EFUSE_BLACK_IV) &&
                   (IvType !=? XNVM_EFUSE_PLM_IV_RANGE) &&
                   (IvType !=? XNVM_EFUSE_DATA_PARTITION_IV_RANGE) = false).
    { unfold iv_range_of in Hsel. unfold neqb.
      destruct (IvType =? XNVM_EFUSE_META_HEADER_IV_RANGE); [reflexivity|].
      destruct (IvType =? XNVM_EFUSE_BLACK_IV); [reflexivity|].
      destruct (IvType =? XNVM_EFUSE_PLM_IV_RANGE); [reflexivity|].
      destruct (IvType =? XNVM_EFUSE_DATA_PARTITION_IV_RANGE);
        [reflexivity | discriminate]. }
    rewrite Hchk. cbv [when]. unfold bind at 1. cbv [ret].
    unfold bind at 1. rewrite Hsetup. rewrite neqb_refl.
    unfold bind at 1. cbv [ret]. unfold bind at 1. rewrite Hval.
    rewrite neqb_refl. unfold bind at 1. cbv [ret].
    rewrite (PrgmIv_overflows e t2 IvType EfuseIv IvOffset info Hword Hrows
               Hsel HO0 HO1 Hisr).
    reflexivity. }
  split; [exact Hrun|]. intros Status t'. rewrite Hrun. discriminate.
Qed.

Ltac write_discipline_tac closes returns :=
  intros; split;
  [ closes_once_tac closes
  | let Hfit := fresh "Hfit" in
    intro Hfit; apply ar_write;
    [ first [apply (returns Hfit) | apply returns]
    | intros; apply END_label_returns ] ].

(** ** The discipline of the public write functions *)

(** X24. Every public write function other than [XNvm_EfuseWriteIv] runs
    the close sequence exactly once on every call that returns, after the
    code before [END] and whatever the status that code reached [END] with;
    the status returned is that status unless it is success, and then it is
    the status of the close sequence.  No call leaves through a stray jump.
    And every call returns, when the row and column numbers of the layout
    are 32-bit numbers other than [0xFFFFFFFF], the cache windows end a word
    below [2^32], and the iteration budget is above [2^32]. *)
Theorem other_public_writes_close_once :
  (forall KeyType EfuseKey,
     write_discipline (XNvm_EfuseWriteAesKey_body KeyType EfuseKey)
                      (XNvm_EfuseWriteAesKey KeyType EfuseKey)) /\
  (forall PpkType EfuseHash,
     write_discipline (XNvm_EfuseWritePpkHash_body PpkType EfuseHash)
                      (XNvm_EfuseWritePpkHash PpkType EfuseHash)) /\
  (forall EnvDisFlag GlitchConfig,
     write_discipline
       (XNvm_EfuseWriteGlitchConfigBits_body EnvDisFlag GlitchConfig)
       (XNvm_EfuseWriteGlitchConfigBits EnvDisFlag GlitchConfig)) /\
  (forall EnvDisFlag,
     write_discipline (XNvm_EfuseWriteDecOnly_body EnvDisFlag)
                      (XNvm_EfuseWriteDecOnly EnvDisFlag)) /\
  (forall EnvDisFlag RevokeIdNum,
     write_discipline (XNvm_EfuseWriteRevocationID_body EnvDisFlag RevokeIdNum)
                      (XNvm_EfuseWriteRevocationID EnvDisFlag RevokeIdNum)) /\
  (forall EnvDisFlag OffchipIdNum,
     write_discipline
       (XNvm_EfuseWriteOffChipRevokeID_body EnvDisFlag OffchipIdNum)
       (XNvm_EfuseWriteOffChipRevokeID EnvDisFlag OffchipIdNum)) /\
  (forall EnvDisFlag MiscCtrlBits,
     write_discipline (XNvm_EfuseWriteMiscCtrlBits_body EnvDisFlag MiscCtrlBits)
                      (XNvm_EfuseWriteMiscCtrlBits EnvDisFlag MiscCtrlBits)) /\
  (forall EnvDisFlag SecCtrlBits,
     write_discipline (XNvm_EfuseWriteSecCtrlBits_body EnvDisFlag SecCtrlBits)
                      (XNvm_EfuseWriteSecCtrlBits EnvDisFlag SecCtrlBits)) /\
  (forall EnvDisFlag Misc1Bits,
     write_discipline (XNvm_EfuseWriteMisc1Bits_body EnvDisFlag Misc1Bits)
                      (XNvm_EfuseWriteMisc1Bits EnvDisFlag Misc1Bits)) /\
  (forall EnvDisFlag BootEnvCtrlBits,
     write_discipline
       (XNvm_EfuseWriteBootEnvCtrlBits_body EnvDisFlag BootEnvCtrlBits)
       (XNvm_EfuseWriteBootEnvCtrlBits EnvDisFlag BootEnvCtrlBits)) /\
  (forall EnvDisFlag FipsMode FipsVersion,
     write_discipline
       (XNvm_EfuseWriteFipsInfo_body EnvDisFlag FipsMode FipsVersion)
       (XNvm_EfuseWriteFipsInfo EnvDisFlag FipsMode FipsVersion)) /\
  (forall EnvDisFlag EfuseUds,
     write_discipline (XNvm_EfuseWriteUds_body EnvDisFlag EfuseUds)
                      (XNvm_EfuseWriteUds EnvDisFlag EfuseUds)) /\
  (forall KeyType EfuseKey,
     write_discipline (XNvm_EfuseWriteDmeUserKey_body KeyType EfuseKey)
                      (XNvm_EfuseWriteDmeUserKey KeyType EfuseKey)) /\
  (forall EnvDisFlag RevokeNum,
     write_discipline (XNvm_EfuseWriteDmeRevoke_body EnvDisFlag RevokeNum)
                      (XNvm_EfuseWriteDmeRevoke EnvDisFlag RevokeNum)) /\
  (forall EnvDisFlag,
     write_discipline (XNvm_EfuseWriteDisableInplacePlmUpdate_body EnvDisFlag)
                      (XNvm_EfuseWriteDisableInplacePlmUpdate EnvDisFlag)) /\
  (forall EnvDisFlag BootModeMask,
     write_discipline
       (XNvm_EfuseWriteBootModeDisable_body EnvDisFlag BootModeMask)
       (XNvm_EfuseWriteBootModeDisable EnvDisFlag BootModeMask)) /\
  (forall EnvDisFlag DmeMode,
     write_discipline (XNvm_EfuseWriteDmeMode_body EnvDisFlag DmeMode)
                      (XNvm_EfuseWriteDmeMode EnvDisFlag DmeMode)) /\
  (forall PufHelperData,
     write_discipline (XNvm_EfuseWritePuf_body PufHelperData)
                      (XNvm_EfuseWritePuf PufHelperData)).
Proof.
  repeat apply conj.
  - write_discipline_tac no_close_WriteAesKey_body ends_WriteAesKey_body.
  - write_discipline_tac no_close_WritePpkHash_body ends_WritePpkHash_body.
  - write_discipline_tac no_close_WriteGlitchConfigBits_body
      ends_WriteGlitchConfigBits_body.
  - write_discipline_tac no_close_WriteDecOnly_body ends_WriteDecOnly_body.
  - write_discipline_tac no_close_WriteRevocationID_body
      ends_WriteRevocationID_body.
  - write_discipline_tac no_close_WriteOffChipRevokeID_body
      ends_WriteOffChipRevokeID_body.
  - write_discipline_tac no_close_WriteMiscCtrlBits_body
      ends_WriteMiscCtrlBits_body.
  - write_discipline_tac no_close_WriteSecCtrlBits_body
      ends_WriteSecCtrlBits_body.
  - write_discipline_tac no_close_WriteMisc1Bits_body ends_WriteMisc1Bits_body.
  - write_discipline_tac no_close_WriteBootEnvCtrlBits_body
      ends_WriteBootEnvCtrlBits_body.
  - write_discipline_tac no_close_WriteFipsInfo_body ends_WriteFipsInfo_body.
  - write_discipline_tac no_close_WriteUds_body ends_WriteUds_body.
  - write_discipline_tac no_close_WriteDmeUserKey_body
      ends_WriteDmeUserKey_body.
  - write_discipline_tac no_close_WriteDmeRevoke_body ends_WriteDmeRevoke_body.
  - write_discipline_tac no_close_WriteDisableInplacePlmUpdate_body
      ends_WriteDisableInplacePlmUpdate_body.
  - write_discipline_tac no_close_WriteBootModeDisable_body
      ends_WriteBootModeDisable_body.
  - write_discipline_tac no_close_WriteDmeMode_body ends_WriteDmeMode_body.
  - write_discipline_tac no_close_WritePuf_body ends_WritePuf_body.
Qed.

(** ** Further properties of the bit primitives *)

(** A run of [XNvm_EfusePgmBit], with the answers of the hardware named. *)
Lemma PgmBit_run (e : Env) (t : Trace) (Page Row Col : Z) :
  let events := Z.lor XNVM_EFUSE_ISR_PGM_DONE XNVM_EFUSE_ISR_PGM_ERROR in
  let wait :=
    CWaitForEvents (XNVM_EFUSE_CTRL_BASEADDR + XNVM_EFUSE_ISR_REG_OFFSET)
                   events events XNVM_EFUSE_PGM_TIMEOUT_VAL in
  exists a w c,
    XNvm_EfusePgmBit Page Row Col e t
      = Normal (if XST_TIMEOUT =? fst w then XNVM_EFUSE_ERR_PGM_TIMEOUT
                else if Z.land (u32 (snd w)) XNVM_EFUSE_ISR_PGM_ERROR
                        =? XNVM_EFUSE_ISR_PGM_ERROR
                     then XNVM_EFUSE_ERR_PGM else XST_SUCCESS)
               (t ++ [a; Ext wait w; c]).
Proof.
  intros events wait. unfold XNvm_EfusePgmBit. unfold_prims. cbn [fst snd].
  fold events. fold wait.
  do 3 eexists. rewrite app_assoc3. reflexivity.
Qed.

(** X1. [XNvm_EfuseVerifyBit] writes the page and row to the read-address
    register and waits for the read-done event.  On a timeout it returns the
    read-timeout code without reading the row; when the event is reported it
    reads the row and returns success if bit [Col] is set and the generic
    failure code if it is clear; on every path its last action is writing
    the read-done bit to the ISR register. *)
Theorem VerifyBit_reads_once_and_clears (e : Env) (t : Trace)
  (Page Row Col : Z) :
  let RdAddr :=
    Z.lor (u32_shl Page XNVM_EFUSE_ADDR_PAGE_SHIFT)
          (u32_shl Row XNVM_EFUSE_ADDR_ROW_SHIFT) in
  let write_addr :=
    CWriteReg XNVM_EFUSE_CTRL_BASEADDR XNVM_EFUSE_RD_ADDR_REG_OFFSET RdAddr in
  let wait :=
    CWaitForEvents (XNVM_EFUSE_CTRL_BASEADDR + XNVM_EFUSE_ISR_REG_OFFSET)
                   XNVM_EFUSE_ISR_RD_DONE XNVM_EFUSE_ISR_RD_DONE
                   XNVM_EFUSE_RD_TIMEOUT_VAL in
  let read_data :=
    CReadReg XNVM_EFUSE_CTRL_BASEADDR XNVM_EFUSE_RD_DATA_REG_OFFSET in
  let clear :=
    CWriteReg XNVM_EFUSE_CTRL_BASEADDR XNVM_EFUSE_ISR_REG_OFFSET
              XNVM_EFUSE_ISR_RD_DONE in
  let r1 := respond e t write_addr in
  let w := respond e (t ++ [Ext write_addr r1]) wait in
  let rd := respond e (t ++ [Ext write_addr r1; Ext wait w]) read_data in
  0 <= Col < 32 ->
  exists Status d r4,
    XNvm_EfuseVerifyBit Page Row Col e t
      = Normal Status
          (t ++ [Ext write_addr r1; Ext wait w] ++ d ++ [Ext clear r4]) /\
    (fst w = XST_TIMEOUT -> Status = XNVM_EFUSE_ERR_RD_TIMEOUT /\ d = []) /\
    (fst w <> XST_TIMEOUT ->
     Z.land (u32 (snd w)) XNVM_EFUSE_ISR_RD_DONE = XNVM_EFUSE_ISR_RD_DONE ->
     d = [Ext read_data rd] /\
     Status = if Z.testbit (u32 (fst rd)) Col then XST_SUCCESS
              else XST_FAILURE) /\
    (fst w <> XST_TIMEOUT ->
     Z.land (u32 (snd w)) XNVM_EFUSE_ISR_RD_DONE <> XNVM_EFUSE_ISR_RD_DONE ->
     Status = XNVM_EFUSE_ERR_PGM_VERIFY /\ d = []).
Proof. exact (XNvm_EfuseVerifyBit_outcomes e t Page Row Col). Qed.

(** What a successful read-back has seen. *)
Lemma VerifyBit_success (e : Env) (t t' : Trace) (Page Row Col : Z) :
  bit_errors_are_failures -> 0 <= Col < 32 ->
  XNvm_EfuseVerifyBit Page Row Col e t = Normal XST_SUCCESS t' ->
  exists a b rd c,
    t' = t ++ [a; b;
               Ext (CReadReg XNVM_EFUSE_CTRL_BASEADDR
                             XNVM_EFUSE_RD_DATA_REG_OFFSET) rd; c] /\
    Z.testbit (u32 (fst rd)) Col = true.
Proof.
  intros (_ & _ & E3 & E4 & E5) HCol Hrun.
  destruct (XNvm_EfuseVerifyBit_outcomes e t Page Row Col HCol)
    as (Status & d & r4 & Hrun' & Hto & Hrd & Hnone).
  rewrite Hrun in Hrun'. injection Hrun' as <- ->.
  match type of Hto with
  | fst ?w = _ -> _ => destruct (Z.eq_dec (fst w) XST_TIMEOUT) as [H|H]
  end.
  { destruct (Hto H) as (E & _). congruence. }
  match type of Hrd with
  | _ -> Z.land ?m ?k = _ -> _ =>
      destruct (Z.eq_dec (Z.land m k) k) as [H'|H']
  end.
  - destruct (Hrd H H') as (-> & E).
    match type of E with
    | _ = if Z.testbit ?x Col then _ else _ =>
        destruct (Z.testbit x Col) eqn:Hbit; [|congruence]
    end.
    do 4 eexists. split; [reflexivity | exact Hbit].
  - destruct (Hnone H H') as (E & _). congruence.
Qed.

(** X2. A single-bit operation with verification returns success only when
    the program wait ended without timeout and without the error event, and
    the row read back afterwards has bit [Col] set. *)
Theorem PgmAndVerifyBit_success_is_verified (e : Env) (t t' : Trace)
  (Page Row Col : Z) :
  bit_errors_are_failures ->
  0 <= Col < 32 ->
  XNvm_EfusePgmAndVerifyBit Page Row Col 0 e t = Normal XST_SUCCESS t' ->
  exists d1 w d2 rd d3,
    t' = t ++ d1 ++
         Ext (CWaitForEvents
                (XNVM_EFUSE_CTRL_BASEADDR + XNVM_EFUSE_ISR_REG_OFFSET)
                (Z.lor XNVM_EFUSE_ISR_PGM_DONE XNVM_EFUSE_ISR_PGM_ERROR)
                (Z.lor XNVM_EFUSE_ISR_PGM_DONE XNVM_EFUSE_ISR_PGM_ERROR)
                XNVM_EFUSE_PGM_TIMEOUT_VAL) w :: d2 ++
         Ext (CReadReg XNVM_EFUSE_CTRL_BASEADDR
                       XNVM_EFUSE_RD_DATA_REG_OFFSET) rd :: d3 /\
    fst w <> XST_TIMEOUT /\
    Z.land (u32 (snd w)) XNVM_EFUSE_ISR_PGM_ERROR <> XNVM_EFUSE_ISR_PGM_ERROR /\
    Z.testbit (u32 (fst rd)) Col = true.
Proof.
  intros Herr HCol. unfold XNvm_EfusePgmAndVerifyBit.
  unfold bind at 1. cbv [ghost].
  destruct (PgmBit_run e (t ++ [Ghost (Enter_PgmAndVerifyBit Page Row Col 0)])
              Page Row Col) as (a & w & c & Hpgm).
  cbv zeta in Hpgm. rewrite (run_bind _ _ _ _ _ _ Hpgm).
  destruct Herr as (E1 & E2 & E3).
  destruct (Z.eqb_spec XST_TIMEOUT (fst w)) as [Hto|Hto].
  { destruct (Z.eqb_spec XST_SUCCESS XNVM_EFUSE_ERR_PGM_TIMEOUT);
      [congruence | cbv [ret]; intros H; injection H; congruence]. }
  destruct (Z.eqb_spec (Z.land (u32 (snd w)) XNVM_EFUSE_ISR_PGM_ERROR)
                       XNVM_EFUSE_ISR_PGM_ERROR) as [Her|Her].
  { destruct (Z.eqb_spec XST_SUCCESS XNVM_EFUSE_ERR_PGM);
      [congruence | cbv [ret]; intros H; injection H; congruence]. }
  rewrite Z.eqb_refl. cbn [Z.eqb]. intros Hver.
  destruct (VerifyBit_success e _ _ Page Row Col
              (conj E1 (conj E2 E3)) HCol Hver) as (x & y & rd & z & -> & Hbit).
  exists [Ghost (Enter_PgmAndVerifyBit Page Row Col 0); a], w, [c; x; y], rd,
    [z].
  split; [rewrite <- !app_assoc; reflexivity|].
  split; [congruence|]. split; [exact Her | exact Hbit].
Qed.

(** ** Further properties of the range walk *)

(** X3. A program range with a page that is none of the three pages, with
    no data, or with no rows is refused with the invalid-parameter code
    before anything is sent to the hardware. *)
Theorem PgmAndVerifyData_refuses_bad_request (e : Env) (t : Trace)
  (info : XNvm_EfusePrgmInfo) (RowData : ptr) :
  (EfuseType info <> XNVM_EFUSE_PAGE_0 /\
   EfuseType info <> XNVM_EFUSE_PAGE_1 /\
   EfuseType info <> XNVM_EFUSE_PAGE_2) \/
  RowData = None \/ NumOfRows info = 0 ->
  XNvm_EfusePgmAndVerifyData info RowData e t
  = Normal XNVM_EFUSE_ERR_INVALID_PARAM t.
Proof.
  intros H. unfold XNvm_EfusePgmAndVerifyData, END_label.
  unfold bind at 1. cbv zeta.
  destruct ((EfuseType info !=? XNVM_EFUSE_PAGE_0) &&
            (EfuseType info !=? XNVM_EFUSE_PAGE_1) &&
            (EfuseType info !=? XNVM_EFUSE_PAGE_2)) eqn:Hpage;
    [reflexivity|].
  cbv [when ret]. destruct RowData as [D|]; [|reflexivity].
  unfold bind at 1. destruct (Z.eqb_spec (NumOfRows info) 0); [reflexivity|].
  exfalso. destruct H as [(H0 & H1 & H2)|[H|H]]; [|discriminate|contradiction].
  rewrite !neqb_neq in Hpage by assumption. discriminate.
Qed.

Section WalkStops.
Variables (e : Env) (info : XNvm_EfusePrgmInfo) (D : words).

(** One turn of the column loop visits the position it is at; it goes on
    to the next column of the row, or stops on a failed operation. *)
Lemma walk_bit_visit (s : Cursor) (t : Trace) :
  match walk_bit info D s e t with
  | Normal s' t' =>
      exists d, t' = t ++ d /\ map fst (visits d) = [(Row s, Col s)] /\
                Row s' = Row s /\ Col s' = u32_add (Col s) 1
  | GotoEND st t' =>
      (exists d, t' = t ++ d /\ map fst (visits d) = [(Row s, Col s)]) /\
      stopped_by e info t st t'
  | OutOfFuel => False
  end.
Proof.
  unfold walk_bit. unfold bind at 1. cbv [ghost].
  destruct (Z.land (Data s) 1 !=? 0); cbv [when].
  - destruct (PgmAndVerifyBit_runs e
                (t ++ [Ghost (Visit (Row s) (Col s) true)])
                (EfuseType info) (Row s) (Col s) (SkipVerify info))
      as (st & d & Hrun & Hv & _).
    unfold bind. rewrite Hrun.
    destruct (Z.eqb_spec st XST_SUCCESS) as [->|Hst]; cbv [neqb negb].
    + rewrite Z.eqb_refl. cbv [ret].
      destruct (_ =? XNVM_EFUSE_MAX_BITS_IN_ROW);
        (eexists (_ :: d); rewrite <- app_assoc; cbn [app visits map fst];
         rewrite Hv; auto).
    + destruct (Z.eqb_spec st XST_SUCCESS) as [?|_]; [contradiction|].
      cbv [goto_END]. split.
      * eexists (_ :: d). rewrite <- app_assoc. cbn [app visits map fst].
        rewrite Hv. auto.
      * exists [Ghost (Visit (Row s) (Col s) true)], (Row s), (Col s).
        unfold bit_op. rewrite Hrun. auto.
  - unfold bind. cbv [ret].
    destruct (_ =? XNVM_EFUSE_MAX_BITS_IN_ROW);
      (eexists [_]; cbn [visits map fst]; auto).
Qed.

End WalkStops.

(** ** The statuses of the single-bit operations *)

Lemma bit_results_app (e : Env) (d1 d2 : Trace) : forall t,
  bit_results e t (d1 ++ d2)
  = bit_results e t d1 ++ bit_results e (t ++ d1) d2.
Proof.
  induction d1 as [|ev d1 IH]; intros t; cbn [app bit_results].
  - now rewrite app_nil_r.
  - rewrite IH, <- !app_assoc. reflexivity.
Qed.

Lemma bit_results_quiet (e : Env) (d : Trace) : forall t,
  pgm_ops d = [] -> bit_results e t d = [].
Proof.
  induction d as [|[c r|[|p r c s|r c b]] d IH]; intros t H;
    cbn [bit_results pgm_ops app] in *; try discriminate; auto.
Qed.

(** A single-bit operation leaves its mark first and starts no other. *)
Lemma PgmAndVerifyBit_shape (e : Env) (t : Trace) (Page Row Col Skip : Z) :
  exists Status d,
    XNvm_EfusePgmAndVerifyBit Page Row Col Skip e t
    = Normal Status
        (t ++ Ghost (Enter_PgmAndVerifyBit Page Row Col Skip) :: d) /\
    pgm_ops d = [] /\ visits d = [].
Proof.
  unfold XNvm_EfusePgmAndVerifyBit, XNvm_EfusePgmBit, XNvm_EfuseVerifyBit.
  unfold_prims. cbn [fst snd].
  repeat match goal with
         | |- context [if ?c then _ else _] => destruct c
         end;
    do 2 eexists; rewrite <- ?app_assoc; cbn [app];
    (split; [reflexivity | split; reflexivity]).
Qed.

(** Its results are itself with its status. *)
Lemma PgmAndVerifyBit_result (e : Env) (t : Trace) (Page Row Col Skip : Z) :
  exists Status d,
    XNvm_EfusePgmAndVerifyBit Page Row Col Skip e t = Normal Status (t ++ d) /\
    bit_results e t d = [(Page, Row, Col, Skip, Status)] /\
    pgm_ops d = [(Page, Row, Col, Skip)] /\ visits d = [].
Proof.
  destruct (PgmAndVerifyBit_shape e t Page Row Col Skip)
    as (Status & d & Hrun & Hp & Hv).
  exists Status, (Ghost (Enter_PgmAndVerifyBit Page Row Col Skip) :: d).
  split; [exact Hrun|]. cbn [bit_results pgm_ops visits].
  rewrite Hrun, Hp, Hv, (bit_results_quiet e d _ Hp). auto.
Qed.

(** The operations with a result are the operations started. *)
Lemma bit_results_ops (e : Env) (d : Trace) : forall t,
  map fst (bit_results e t d) = pgm_ops d.
Proof.
  induction d as [|[c r|[|p r c s|r c b]] d IH]; intros t;
    cbn [bit_results pgm_ops app]; auto.
  destruct (PgmAndVerifyBit_shape e t p r c s) as (st & d' & -> & _).
  cbn [map fst app]. now rewrite IH.
Qed.

Section WalkResults.
Variables (e : Env) (info : XNvm_EfusePrgmInfo) (D : words).

Lemma failed_last_later (t d : Trace) (st : Z) (t' : Trace) :
  all_succeeded (bit_results e t d) ->
  failed_last e info (t ++ d) st t' -> failed_last e info t st t'.
Proof.
  intros Hd (d0 & r & c & dop & -> & H0 & Hrun & Hres & Hst).
  exists (d ++ d0), r, c, dop. rewrite bit_results_app.
  rewrite <- ?app_assoc in *. repeat split; auto.
  apply Forall_app. auto.
Qed.

Lemma walk_bit_results (s : Cursor) (t : Trace) :
  match walk_bit info D s e t with
  | Normal _ t' => exists d, t' = t ++ d /\ all_succeeded (bit_results e t d)
  | GotoEND st t' => failed_last e info t st t'
  | OutOfFuel => False
  end.
Proof.
  unfold walk_bit. unfold bind at 1. cbv [ghost].
  destruct (Z.land (Data s) 1 !=? 0); cbv [when].
  - destruct (PgmAndVerifyBit_result e
                (t ++ [Ghost (Visit (Row s) (Col s) true)])
                (EfuseType info) (Row s) (Col s) (SkipVerify info))
      as (st & d & Hrun & Hres & _).
    unfold bind. rewrite Hrun.
    destruct (Z.eqb_spec st XST_SUCCESS) as [->|Hst]; cbv [neqb negb].
    + rewrite Z.eqb_refl. cbv [ret].
      destruct (_ =? XNVM_EFUSE_MAX_BITS_IN_ROW);
        (eexists (_ :: d); rewrite <- app_assoc; cbn [app bit_results];
         rewrite Hres; split; [reflexivity|];
         repeat constructor).
    + destruct (Z.eqb_spec st XST_SUCCESS) as [?|_]; [contradiction|].
      cbv [goto_END].
      exists [Ghost (Visit (Row s) (Col s) true)], (Row s), (Col s), d.
      rewrite <- app_assoc in Hrun |- *. unfold bit_op.
      repeat split; auto. constructor.
  - unfold bind. cbv [ret].
    destruct (_ =? XNVM_EFUSE_MAX_BITS_IN_ROW);
      (eexists [_]; cbn [bit_results app]; split; [reflexivity|constructor]).
Qed.

Lemma walk_cols_results (n : nat) : forall (s : Cursor) (t : Trace),
  match while_fuel n (fun s => Col s <=? ColEnd info) (walk_bit info D) s e t
  with
  | Normal _ t' => exists d, t' = t ++ d /\ all_succeeded (bit_results e t d)
  | GotoEND st t' => failed_last e info t st t'
  | OutOfFuel => True
  end.
Proof.
  induction n as [|n IH]; intros s t; cbn [while_fuel]; [exact I|].
  destruct (Col s <=? ColEnd info).
  - pose proof (walk_bit_results s t) as H1. unfold bind.
    destruct (walk_bit info D s e t) as [s1 t1|st t1|]; [| |contradiction].
    + destruct H1 as (d1 & -> & Hd1). specialize (IH s1 (t ++ d1)).
      destruct (while_fuel n _ _ s1 e (t ++ d1)) as [s2 t2|st t2|];
        [| |exact I].
      * destruct IH as (d2 & -> & Hd2). exists (d1 ++ d2).
        rewrite app_assoc. split; [reflexivity|].
        rewrite bit_results_app. apply Forall_app. auto.
      * now apply failed_last_later in IH.
    + exact H1.
  - exists []. rewrite app_nil_r. split; [reflexivity | constructor].
Qed.

Lemma walk_row_results (s : Cursor) (t : Trace) :
  match walk_row info D s e t with
  | Normal _ t' => exists d, t' = t ++ d /\ all_succeeded (bit_results e t d)
  | GotoEND st t' => failed_last e info t st t'
  | OutOfFuel => True
  end.
Proof.
  unfold walk_row. cbv [xil_printf]. unfold bind at 1 2.
  cbv [call ret]. cbn [Row Col Idx DataPtr Data]. unfold bind at 1.
  unfold while.
  match goal with
  | |- context [while_fuel ?f ?c ?b ?s0 e ?t0] =>
      pose proof (walk_cols_results f s0 t0) as H;
      destruct (while_fuel f c b s0 e t0) as [s1 t1|st t1|]
  end; [| |exact I].
  - destruct H as (d & -> & Hd). eexists (_ :: d). rewrite <- app_assoc.
    split; [reflexivity|]. cbn [bit_results app]. exact Hd.
  - apply failed_last_later in H; [exact H|]. constructor.
Qed.

Lemma walk_rows_results (EndRow : Z) (n : nat) : forall (s : Cursor) (t : Trace),
  match while_fuel n (fun s => Row s <? EndRow) (walk_row info D) s e t with
  | Normal _ t' => exists d, t' = t ++ d /\ all_succeeded (bit_results e t d)
  | GotoEND st t' => failed_last e info t st t'
  | OutOfFuel => True
  end.
Proof.
  induction n as [|n IH]; intros s t; cbn [while_fuel]; [exact I|].
  destruct (Row s <? EndRow).
  - pose proof (walk_row_results s t) as H1. unfold bind.
    destruct (walk_row info D s e t) as [s1 t1|st t1|]; [| |exact I].
    + destruct H1 as (d1 & -> & Hd1). specialize (IH s1 (t ++ d1)).
      destruct (while_fuel n _ _ s1 e (t ++ d1)) as [s2 t2|st t2|];
        [| |exact I].
      * destruct IH as (d2 & -> & Hd2). exists (d1 ++ d2).
        rewrite app_assoc. split; [reflexivity|].
        rewrite bit_results_app. apply Forall_app. auto.
      * now apply failed_last_later in IH.
    + exact H1.
  - exists []. rewrite app_nil_r. split; [reflexivity | constructor].
Qed.

End WalkResults.

(** X5. The range walk stops at the first single-bit operation that fails.
    Of the operations of a walk that returns, every one before the last
    returned success.  When one fails it is the last thing the walk did:
    nothing follows it in the trace, and the walk returns its status.
    Otherwise every operation succeeded, and the walk returns success, the
    glitch code, or the invalid-parameter code of a refused request, for
    which nothing was sent to the hardware. *)
Theorem PgmAndVerifyData_stops_at_first_failure (e : Env)
  (info : XNvm_EfusePrgmInfo) (RowData : ptr) (t t' : Trace) (Status : Z) :
  XNvm_EfusePgmAndVerifyData info RowData e t = Normal Status t' ->
  exists d,
    t' = t ++ d /\
    ((all_succeeded (bit_results e t d) /\
      (Status = XST_SUCCESS \/
       Status = XNVM_EFUSE_ERR_GLITCH_DETECTED \/
       (Status = XNVM_EFUSE_ERR_INVALID_PARAM /\ d = []))) \/
     (exists d0 r c dop,
        d = d0 ++ dop /\
        all_succeeded (bit_results e t d0) /\
        XNvm_EfusePgmAndVerifyBit (EfuseType info) r c (SkipVerify info) e
          (t ++ d0) = Normal Status (t ++ d0 ++ dop) /\
        bit_results e t d
        = bit_results e t d0
          ++ [(EfuseType info, r, c, SkipVerify info, Status)] /\
        Status <> XST_SUCCESS)).
Proof.
  unfold XNvm_EfusePgmAndVerifyData, END_label. unfold bind at 1.
  assert (Hnone : forall st, st = XNVM_EFUSE_ERR_INVALID_PARAM ->
            exists d, t = t ++ d /\
              ((all_succeeded (bit_results e t d) /\
                (st = XST_SUCCESS \/ st = XNVM_EFUSE_ERR_GLITCH_DETECTED \/
                 (st = XNVM_EFUSE_ERR_INVALID_PARAM /\ d = []))) \/
               (exists d0 r c dop,
                  d = d0 ++ dop /\
                  all_succeeded (bit_results e t d0) /\
                  XNvm_EfusePgmAndVerifyBit (EfuseType info) r c
                    (SkipVerify info) e (t ++ d0)
                  = Normal st (t ++ d0 ++ dop) /\
                  bit_results e t d
                  = bit_results e t d0
                    ++ [(EfuseType info, r, c, SkipVerify info, st)] /\
                  st <> XST_SUCCESS))).
  { intros st ->. exists []. rewrite app_nil_r. split; [reflexivity|].
    left. split; [constructor | auto]. }
  destruct (_ && _); cbv [when goto_END ret].
  { intros H; injection H as <- <-. now apply Hnone. }
  destruct RowData as [D|];
    [|intros H; injection H as <- <-; now apply Hnone].
  unfold bind at 1. destruct (NumOfRows info =? 0).
  { intros H; injection H as <- <-. now apply Hnone. }
  clear Hnone.
  unfold bind. unfold XNvm_EfusePgmAndVerifyData_walk, while.
  match goal with
  | |- context [while_fuel ?f ?c ?b ?s0 e t] =>
      pose proof (walk_rows_results e info D
                    (u32_add (StartRow info) (NumOfRows info)) f s0 t) as H;
      destruct (while_fuel f c b s0 e t) as [s1 t1|st t1|]
  end; [| |discriminate].
  - destruct H as (d & -> & Hd).
    destruct (_ !=? _); intros E; injection E as <- <-;
      exists d; (split; [reflexivity|]); left; auto.
  - intros E; injection E as <- <-.
    destruct H as (d0 & r & c & dop & -> & H0 & Hrun & Hres & Hst).
    exists (d0 ++ dop). split; [reflexivity|]. right.
    exists d0, r, c, dop. unfold bit_op in Hrun.
    rewrite bit_results_app, Hres. auto 6.
Qed.

Section WalkSafety.
Variables (e : Env) (info : XNvm_EfusePrgmInfo) (D : words).
Hypothesis Hcol0 : 0 <= ColStart info.
Hypothesis Hcol1 : ColEnd info < 2 ^ 32 - 1.

Lemma walk_cols_safe (n : nat) : forall (s : Cursor) (t : Trace),
  ColStart info <= Col s ->
  match while_fuel n (fun s => Col s <=? ColEnd info) (walk_bit info D) s e t
  with
  | Normal s' t' =>
      exists d, t' = t ++ d /\
                Forall (in_row (ColStart info) (ColEnd info) (Row s))
                       (map fst (visits d)) /\
                Row s' = Row s
  | GotoEND st t' =>
      exists d, t' = t ++ d /\
                Forall (in_row (ColStart info) (ColEnd info) (Row s))
                       (map fst (visits d))
  | OutOfFuel => True
  end.
Proof.
  induction n as [|n IH]; intros s t HC; cbn [while_fuel]; [exact I|].
  destruct (Z.leb_spec (Col s) (ColEnd info)) as [Hle|Hgt].
  - pose proof (walk_bit_visit e info D s t) as H1. unfold bind.
    assert (Hin : in_row (ColStart info) (ColEnd info) (Row s)
                    (Row s, Col s)) by (split; cbn [fst snd]; auto).
    destruct (walk_bit info D s e t) as [s1 t1|st t1|]; [| |contradiction].
    + destruct H1 as (d1 & -> & Hv1 & HR & HCs).
      assert (HC1 : ColStart info <= Col s1).
      { rewrite HCs. unfold u32_add. rewrite u32_small by lia. lia. }
      specialize (IH s1 (t ++ d1) HC1). rewrite HR in IH.
      destruct (while_fuel n _ _ s1 e (t ++ d1)) as [s2 t2|st t2|];
        [| |exact I].
      * destruct IH as (d2 & -> & Hf & HR2). exists (d1 ++ d2).
        rewrite visits_app, map_app, Hv1, app_assoc.
        repeat split; [|congruence]. constructor; assumption.
      * destruct IH as (d2 & -> & Hf).
        exists (d1 ++ d2). rewrite visits_app, map_app, Hv1, app_assoc.
        split; [reflexivity|]. constructor; assumption.
    + destruct H1 as ((d1 & -> & Hv1) & _).
      exists d1. rewrite Hv1. split; [reflexivity|].
      constructor; [exact Hin | constructor].
  - exists []. rewrite app_nil_r. cbv [ret]. cbn [visits map]. auto.
Qed.

Lemma walk_row_safe (s : Cursor) (t : Trace) :
  match walk_row info D s e t with
  | Normal s' t' =>
      exists d, t' = t ++ d /\
                Forall (in_row (ColStart info) (ColEnd info) (Row s))
                       (map fst (visits d)) /\
                Row s' = u32_add (Row s) 1
  | GotoEND st t' =>
      exists d, t' = t ++ d /\
                Forall (in_row (ColStart info) (ColEnd info) (Row s))
                       (map fst (visits d))
  | OutOfFuel => True
  end.
Proof.
  unfold walk_row. cbv [xil_printf]. unfold bind at 1 2.
  cbv [call ret]. cbn [Row Col Idx DataPtr Data]. unfold bind at 1.
  unfold while.
  match goal with
  | |- context [while_fuel ?f ?c ?b ?s0 e ?t0] =>
      pose proof (walk_cols_safe f s0 t0) as H;
      destruct (while_fuel f c b s0 e t0) as [s1 t1|st t1|]
  end; [| |exact I]; cbn [Row Col] in H.
  - destruct H as (d & -> & Hf & HR); [lia|].
    eexists (_ :: d). rewrite <- app_assoc. cbn [app visits Row].
    rewrite HR. auto.
  - destruct H as (d & -> & Hf); [lia|].
    eexists (_ :: d). rewrite <- app_assoc. cbn [app visits]. auto.
Qed.

Lemma walk_rows_safe (EndRow : Z) (n : nat) : forall (s : Cursor) (t : Trace),
  EndRow < 2 ^ 32 -> 0 <= Row s ->
  match while_fuel n (fun s => Row s <? EndRow) (walk_row info D) s e t with
  | Normal _ t' | GotoEND _ t' =>
      exists d, t' = t ++ d /\
                Forall (fun p => Row s <= fst p < EndRow /\
                                 ColStart info <= snd p <= ColEnd info)
                       (map fst (visits d))
  | OutOfFuel => True
  end.
Proof.
  induction n as [|n IH]; intros s t HE HR; cbn [while_fuel]; [exact I|].
  destruct (Z.ltb_spec (Row s) EndRow) as [Hlt|Hge].
  - pose proof (walk_row_safe s t) as H1. unfold bind.
    assert (Hweak : forall l,
              Forall (in_row (ColStart info) (ColEnd info) (Row s)) l ->
              Forall (fun p => Row s <= fst p < EndRow /\
                               ColStart info <= snd p <= ColEnd info) l).
    { intros l. apply Forall_impl. intros p (Hp & Hc). rewrite Hp. lia. }
    destruct (walk_row info D s e t) as [s1 t1|st t1|]; [| |exact I].
    + destruct H1 as (d1 & -> & Hf1 & HR1).
      assert (HR1' : Row s1 = Row s + 1)
        by (rewrite HR1; unfold u32_add; apply u32_small; lia).
      specialize (IH s1 (t ++ d1) HE). rewrite HR1' in IH.
      assert (Hshift : forall l,
                Forall (fun p => Row s + 1 <= fst p < EndRow /\
                                 ColStart info <= snd p <= ColEnd info) l ->
                Forall (fun p => Row s <= fst p < EndRow /\
                                 ColStart info <= snd p <= ColEnd info) l).
      { intros l. apply Forall_impl. intros p. lia. }
      destruct (while_fuel n _ _ s1 e (t ++ d1)) as [s2 t2|st t2|];
        [| |exact I];
        (destruct IH as (d2 & -> & Hf2); [lia|]; exists (d1 ++ d2);
         rewrite visits_app, map_app, app_assoc; split; [reflexivity|];
         apply Forall_app; auto).
    + destruct H1 as (d1 & -> & Hf1). exists d1. auto.
  - exists []. rewrite app_nil_r. cbv [ret]. cbn [visits map]. auto.
Qed.

(** The whole function, whatever the hardware answers. *)
Lemma PgmAndVerifyData_safe (t : Trace) :
  0 <= StartRow info ->
  match XNvm_EfusePgmAndVerifyData info (Some D) e t with
  | Normal Status t' =>
      exists d, t' = t ++ d /\
                Forall (in_window info) (map fst (visits d))
  | GotoEND _ _ => False
  | OutOfFuel => True
  end.
Proof.
  intros HR.
  assert (Hnil : exists d : Trace, t = t ++ d /\
            Forall (in_window info) (map fst (visits d))).
  { exists []. rewrite app_nil_r. cbn [visits map]. auto. }
  unfold XNvm_EfusePgmAndVerifyData, END_label. unfold bind at 1.
  destruct (_ && _); cbv [when goto_END ret]; [exact Hnil|].
  unfold bind at 1. destruct (NumOfRows info =? 0); [exact Hnil|].
  unfold bind. unfold XNvm_EfusePgmAndVerifyData_walk, while.
  pose proof (u32_range (StartRow info + NumOfRows info)) as HE.
  fold (u32_add (StartRow info) (NumOfRows info)) in HE.
  match goal with
  | |- context [while_fuel ?f ?c ?b ?s0 e t] =>
      pose proof (walk_rows_safe (u32_add (StartRow info) (NumOfRows info))
                    f s0 t (proj2 HE) HR) as H;
      destruct (while_fuel f c b s0 e t) as [s1 t1|st t1|]
  end; [| |exact I]; cbn [Row] in H.
  - destruct (_ !=? _); cbv [ret]; exact H.
  - exact H.
Qed.

End WalkSafety.

(** X4. Whatever the hardware answers, a range walk programs only what it
    was asked to: every single-bit operation it starts is on the page and
    with the verification mode of the range, at a position inside the
    window of the range, and for a data bit that is set -- the operation for
    the N-th position visited is there because bit [N mod 32] of data word
    [N / 32] is 1. *)
Theorem PgmAndVerifyData_programs_only_requested_bits (e : Env)
  (info : XNvm_EfusePrgmInfo) (D : words) (t t' : Trace) (Status : Z) :
  XNVM_EFUSE_MAX_BITS_IN_ROW = 32 ->
  0 <= StartRow info -> 0 <= ColStart info -> ColEnd info < 2 ^ 32 - 1 ->
  XNvm_EfusePgmAndVerifyData info (Some D) e t = Normal Status t' ->
  exists d,
    t' = t ++ d /\
    forall p r c s,
      In (p, r, c, s) (pgm_ops d) ->
      p = EfuseType info /\ s = SkipVerify info /\
      in_window info (r, c) /\
      exists N, nth_error (visits d) N = Some (r, c, true) /\
                stream_bit D (Z.of_nat N) = true.
Proof.
  intros HW HR HC0 HC1 Hrun.
  pose proof (PgmAndVerifyData_bits e info (Some D) t HW) as Hb.
  pose proof (PgmAndVerifyData_safe e info D HC0 HC1 t HR) as Hs.
  rewrite Hrun in Hb, Hs.
  destruct Hb as (d & -> & Hp & Hbits). destruct Hs as (d' & E & Hwin).
  apply app_inv_head in E. subst d'.
  exists d. split; [reflexivity|]. intros p r c s Hin.
  rewrite Hp in Hin. unfold ops_of in Hin.
  apply in_map_iff in Hin. destruct Hin as ([[r0 c0] b] & Hop & Hx).
  cbn [fst snd] in Hop. injection Hop as <- <- <- <-.
  apply filter_In in Hx. destruct Hx as (Hx & Hb). cbn [snd] in Hb. subst b.
  split; [reflexivity|]. split; [reflexivity|]. split.
  - rewrite Forall_forall in Hwin. apply (Hwin (r0, c0)).
    apply in_map_iff. exists (r0, c0, true). auto.
  - apply In_nth_error in Hx. destruct Hx as (N & HN). exists N.
    split; [exact HN|].
    pose proof (bits_ok_nth D 0 (visits d) Hbits N _ HN) as E.
    cbn [snd] in E. now rewrite Z.add_0_l in E.
Qed.

(** ** The close sequence, and programming only with the controller open *)

(** X6. The close sequence stops at the first step that fails: programming
    is disabled only after the read mode was reset with success, the
    controller is locked only after both succeeded, and the status is that
    of the first failing step, or of the lock. *)
Theorem CloseController_stops_at_first_failure (e : Env) (t : Trace) :
  let enter := Ghost Enter_CloseController in
  let r1 := respond e (t ++ [enter]) CResetReadMode in
  let t1 := t ++ [enter; Ext CResetReadMode r1] in
  let r2 := respond e t1 CDisableProgramming in
  let t2 := t1 ++ [Ext CDisableProgramming r2] in
  let r3 := respond e t2 CLockController in
  XNvm_EfuseCloseController e t
  = if fst r1 !=? XST_SUCCESS then Normal (fst r1) t1
    else if fst r2 !=? XST_SUCCESS then Normal (fst r2) t2
    else Normal (fst r3) (t2 ++ [Ext CLockController r3]).
Proof.
  cbv zeta. unfold XNvm_EfuseCloseController. unfold_prims.
  rewrite <- !app_assoc. cbn [app].
  repeat match goal with
         | |- context [if ?c then _ else _] => destruct c
         end; rewrite <- ?app_assoc; reflexivity.
Qed.

Lemma opened_first_quiet (d : Trace) : pgm_ops d = [] -> opened_first d = true.
Proof.
  induction d as [|[c r|[| |]] d IH]; cbn [pgm_ops opened_first]; auto;
    [|discriminate].
  intros H. destruct c; auto. destruct (_ && _); auto.
Qed.

Lemma opened_first_app (d1 d2 : Trace) :
  pgm_ops d1 = [] -> opened_first d2 = true -> opened_first (d1 ++ d2) = true.
Proof.
  intros H1 H2.
  induction d1 as [|[c r|[| |]] d1 IH]; cbn [app pgm_ops opened_first] in *;
    auto; [|discriminate].
  destruct c; auto. destruct (_ && _); auto.
Qed.

Lemma quiet_ret {A} (a : A) : quiet (ret a).
Proof. intros e t. exists []. now rewrite app_nil_r. Qed.

Lemma quiet_goto {A} (s : Z) : quiet (@goto_END A s).
Proof. intros e t. exists []. now rewrite app_nil_r. Qed.

Lemma quiet_bind {A B} (m : M A) (k : A -> M B) :
  quiet m -> (forall a, quiet (k a)) -> quiet (bind m k).
Proof.
  intros Hm Hk e t. unfold bind. specialize (Hm e t).
  destruct (m e t) as [a t1|s t1|]; [| exact Hm | exact I].
  destruct Hm as (d1 & -> & H1). specialize (Hk a e (t ++ d1)).
  destruct (k a e (t ++ d1)) as [b t2|s t2|]; [| | exact I];
    destruct Hk as (d2 & -> & H2); exists (d1 ++ d2);
    (split; [now rewrite app_assoc | now rewrite pgm_ops_app, H1, H2]).
Qed.

Lemma quiet_call (c : Call) : quiet (call c).
Proof. intros e t. cbv [call]. eexists. split; reflexivity. Qed.

Lemma quiet_when (c : bool) (m : M unit) : quiet m -> quiet (when c m).
Proof. destruct c; [auto | intros _; apply quiet_ret]. Qed.

Lemma quiet_addr_of (v : Z) : quiet (addr_of v).
Proof. intros e t. exists []. now rewrite app_nil_r. Qed.

Lemma quiet_stop {A} (c : bool) (s : Z) (k : unit -> M A) :
  c = true -> quiet (bind (when c (goto_END s)) k).
Proof. intros ->. intros e t. exists []. now rewrite app_nil_r. Qed.

Lemma quiet_END (body : M Z) : quiet body -> quiet (END_label body).
Proof.
  intros H e t. unfold END_label. specialize (H e t).
  destruct (body e t); auto.
Qed.

Lemma grows_of_no_close {A} (m : M A) : no_close m -> grows m.
Proof.
  intros H e t. specialize (H e t).
  destruct (m e t); auto; destruct H as (d & -> & _); eauto.
Qed.

Lemma guarded_of_quiet {A} (m : M A) : quiet m -> guarded m.
Proof.
  intros H e t. specialize (H e t).
  destruct (m e t); auto; destruct H as (d & -> & Hd); exists d;
    auto using opened_first_quiet.
Qed.

Lemma guarded_bind {A B} (m : M A) (k : A -> M B) :
  quiet m -> (forall a, guarded (k a)) -> guarded (bind m k).
Proof.
  intros Hm Hk e t. unfold bind. specialize (Hm e t).
  destruct (m e t) as [a t1|s t1|]; [| | exact I].
  - destruct Hm as (d1 & -> & H1). specialize (Hk a e (t ++ d1)).
    destruct (k a e (t ++ d1)) as [b t2|s t2|]; [| | exact I];
      destruct Hk as (d2 & -> & H2); exists (d1 ++ d2);
      (split; [now rewrite app_assoc | now apply opened_first_app]).
  - destruct Hm as (d1 & -> & H1). exists d1.
    auto using opened_first_quiet.
Qed.

(** After the call that opens the controller: on failure nothing is
    programmed; on success anything may follow. *)
Lemma guarded_setup {A} (k : Z -> M A) :
  (forall s, s <> XST_SUCCESS -> quiet (k s)) ->
  grows (k XST_SUCCESS) ->
  guarded (bind (XNvm_EfuseSetupController XNVM_EFUSE_MODE_PGM
                                           XNVM_EFUSE_MARGIN_RD) k).
Proof.
  intros Hfail Hok e t. unfold XNvm_EfuseSetupController.
  rewrite run_status_of.
  set (c := CSetupController XNVM_EFUSE_MODE_PGM XNVM_EFUSE_MARGIN_RD).
  set (r := respond e t c).
  destruct (Z.eq_dec (fst r) XST_SUCCESS) as [E|E].
  - rewrite E. specialize (Hok e (t ++ [Ext c r])).
    destruct (k XST_SUCCESS e (t ++ [Ext c r])); auto;
      destruct Hok as (d & ->); exists (Ext c r :: d);
      rewrite <- app_assoc; (split; [reflexivity|]);
      subst c; cbn [opened_first]; rewrite !Z.eqb_refl, E, Z.eqb_refl;
      reflexivity.
  - specialize (Hfail _ E e (t ++ [Ext c r])).
    destruct (k (fst r) e (t ++ [Ext c r])); auto;
      destruct Hfail as (d & -> & Hd); exists (Ext c r :: d);
      rewrite <- app_assoc; (split; [reflexivity|]);
      apply opened_first_quiet; exact Hd.
Qed.

Lemma guarded_END (body : M Z) : guarded body -> guarded (END_label body).
Proof.
  intros H e t. unfold END_label. specialize (H e t).
  destruct (body e t); auto.
Qed.

(** The code after [END] keeps what the code before it established. *)
Lemma guarded_write (body : M Z) :
  guarded body ->
  programs_only_when_open
    (Status <- body ;;
     CloseStatus <- XNvm_EfuseCloseController ;;
     ret (if XST_SUCCESS =? Status then CloseStatus else Status)).
Proof.
  intros H e t Status t'. unfold bind at 1. specialize (H e t).
  destruct (body e t) as [s t1|s t1|]; [| discriminate | discriminate].
  destruct H as (d1 & -> & H1).
  destruct (CloseController_runs e (t ++ d1)) as (cs & d2 & Hc & _ & Hp & _).
  unfold bind, ret. rewrite Hc. intros E. injection E as _ <-.
  exists (d1 ++ d2). rewrite app_assoc. split; [reflexivity|].
  clear - H1 Hp. induction d1 as [|[c r|[| |]] d1 IH];
    cbn [app opened_first] in *; auto using opened_first_quiet.
  destruct c; auto. destruct (_ && _); auto.
Qed.

Ltac quiet_step :=
  match goal with
  | |- quiet (ret _) => apply quiet_ret
  | |- quiet (goto_END _) => apply quiet_goto
  | |- quiet (END_label _) => apply quiet_END
  | |- quiet (bind _ _) => apply quiet_bind; [|intro]
  | |- quiet (when _ _) => apply quiet_when
  | |- quiet (call _) => apply quiet_call
  | |- quiet (addr_of _) => apply quiet_addr_of
  | |- quiet (if ?c then _ else _) => destruct c
  | |- quiet (match ?x with _ => _ end) => destruct x
  | |- quiet _ => progress cbv zeta
  | |- quiet _ =>
      progress unfold status_of, XNvm_EfuseReadReg, XNvm_EfuseWriteReg,
        XNvm_EfuseCheckZeros, env_checks_TODO
  end.

Ltac quiet_tac := repeat quiet_step.

Ltac guarded_step :=
  match goal with
  | |- guarded (END_label _) => apply guarded_END
  | |- guarded (bind (XNvm_EfuseSetupController _ _) _) =>
      apply guarded_setup;
      [ let s := fresh "s" in let Hs := fresh "Hs" in
        intros s Hs; apply quiet_stop; apply neqb_neq; exact Hs
      | apply grows_of_no_close; cbv beta; no_close_tac ]
  | |- guarded (bind _ _) => apply guarded_bind; [quiet_tac | intro]
  | |- guarded (if ?c then _ else _) => destruct c
  | |- guarded (match ?x with _ => _ end) => destruct x
  | |- guarded (goto_END _) => apply guarded_of_quiet, quiet_goto
  | |- guarded _ => progress cbv beta zeta
  end.

Ltac guarded_tac := repeat guarded_step.


(** X7. No public write function starts a single-bit operation before it
    has opened the controller for programming and the call has returned
    success: when the setup fails, or the request is refused before it,
    nothing is programmed. *)
Theorem public_writes_program_only_when_open :
  (forall KeyType EfuseKey,
     programs_only_when_open (XNvm_EfuseWriteAesKey KeyType EfuseKey)) /\
  (forall PpkType EfuseHash,
     programs_only_when_open (XNvm_EfuseWritePpkHash PpkType EfuseHash)) /\
  (forall IvType EfuseIv,
     programs_only_when_open (XNvm_EfuseWriteIv IvType EfuseIv)) /\
  (forall EnvDisFlag GlitchConfig,
     programs_only_when_open
       (XNvm_EfuseWriteGlitchConfigBits EnvDisFlag GlitchConfig)) /\
  (forall EnvDisFlag,
     programs_only_when_open (XNvm_EfuseWriteDecOnly EnvDisFlag)) /\
  (forall EnvDisFlag RevokeIdNum,
     programs_only_when_open
       (XNvm_EfuseWriteRevocationID EnvDisFlag RevokeIdNum)) /\
  (forall EnvDisFlag OffchipIdNum,
     programs_only_when_open
       (XNvm_EfuseWriteOffChipRevokeID EnvDisFlag OffchipIdNum)) /\
  (forall EnvDisFlag MiscCtrlBits,
     programs_only_when_open
       (XNvm_EfuseWriteMiscCtrlBits EnvDisFlag MiscCtrlBits)) /\
  (forall EnvDisFlag SecCtrlBits,
     programs_only_when_open
       (XNvm_EfuseWriteSecCtrlBits EnvDisFlag SecCtrlBits)) /\
  (forall EnvDisFlag Misc1Bits,
     programs_only_when_open (XNvm_EfuseWriteMisc1Bits EnvDisFlag Misc1Bits)) /\
  (forall EnvDisFlag BootEnvCtrlBits,
     programs_only_when_open
       (XNvm_EfuseWriteBootEnvCtrlBits EnvDisFlag BootEnvCtrlBits)) /\
  (forall EnvDisFlag FipsMode FipsVersion,
     programs_only_when_open
       (XNvm_EfuseWriteFipsInfo EnvDisFlag FipsMode FipsVersion)) /\
  (forall EnvDisFlag EfuseUds,
     programs_only_when_open (XNvm_EfuseWriteUds EnvDisFlag EfuseUds)) /\
  (forall KeyType EfuseKey,
     programs_only_when_open (XNvm_EfuseWriteDmeUserKey KeyType EfuseKey)) /\
  (forall EnvDisFlag RevokeNum,
     programs_only_when_open (XNvm_EfuseWriteDmeRevoke EnvDisFlag RevokeNum)) /\
  (forall EnvDisFlag,
     programs_only_when_open
       (XNvm_EfuseWriteDisableInplacePlmUpdate EnvDisFlag)) /\
  (forall EnvDisFlag BootModeMask,
     programs_only_when_open
       (XNvm_EfuseWriteBootModeDisable EnvDisFlag BootModeMask)) /\
  (forall EnvDisFlag DmeMode,
     programs_only_when_open (XNvm_EfuseWriteDmeMode EnvDisFlag DmeMode)) /\
  (forall PufHelperData,
     programs_only_when_open (XNvm_EfuseWritePuf PufHelperData)).
Proof.
  repeat apply conj.
  - intros. apply guarded_write. unfold XNvm_EfuseWriteAesKey_body. guarded_tac.
  - intros. apply guarded_write.
    unfold XNvm_EfuseWritePpkHash_body. guarded_tac.
  - intros. apply guarded_write. unfold XNvm_EfuseWriteIv_body. guarded_tac.
  - intros. apply guarded_write.
    unfold XNvm_EfuseWriteGlitchConfigBits_body. guarded_tac.
  - intros. apply guarded_write.
    unfold XNvm_EfuseWriteDecOnly_body. guarded_tac.
  - intros. apply guarded_write.
    unfold XNvm_EfuseWriteRevocationID_body. guarded_tac.
  - intros. apply guarded_write.
    unfold XNvm_EfuseWriteOffChipRevokeID_body. guarded_tac.
  - intros. apply guarded_write.
    unfold XNvm_EfuseWriteMiscCtrlBits_body. guarded_tac.
  - intros. apply guarded_write.
    unfold XNvm_EfuseWriteSecCtrlBits_body. guarded_tac.
  - intros. apply guarded_write.
    unfold XNvm_EfuseWriteMisc1Bits_body. guarded_tac.
  - intros. apply guarded_write.
    unfold XNvm_EfuseWriteBootEnvCtrlBits_body. guarded_tac.
  - intros. apply guarded_write.
    unfold XNvm_EfuseWriteFipsInfo_body. guarded_tac.
  - intros. apply guarded_write. unfold XNvm_EfuseWriteUds_body. guarded_tac.
  - intros. apply guarded_write.
    unfold XNvm_EfuseWriteDmeUserKey_body, XNvm_EfuseWriteDmeUserKey_checked.
    guarded_tac.
  - intros. apply guarded_write.
    unfold XNvm_EfuseWriteDmeRevoke_body. guarded_tac.
  - intros. apply guarded_write.
    unfold XNvm_EfuseWriteDisableInplacePlmUpdate_body. guarded_tac.
  - intros. apply guarded_write.
    unfold XNvm_EfuseWriteBootModeDisable_body. guarded_tac.
  - intros. apply guarded_write.
    unfold XNvm_EfuseWriteDmeMode_body. guarded_tac.
  - intros. apply guarded_write. unfold XNvm_EfuseWritePuf_body. guarded_tac.
Qed.

(** ** What the write functions do before they program *)

(** A write function whose code before [END] stops with a failure [S]
    returns [S]; the close sequence adds no operation and no setup. *)
Lemma run_refusal (body : M Z) (e : Env) (t d1 : Trace) (S : Z) :
  body e t = Normal S (t ++ d1) -> S <> XST_SUCCESS ->
  exists d,
    (Status <- body ;;
     CloseStatus <- XNvm_EfuseCloseController ;;
     ret (if XST_SUCCESS =? Status then CloseStatus else Status)) e t
    = Normal S (t ++ d) /\
    pgm_ops d = pgm_ops d1 /\ setup_count d = setup_count d1.
Proof.
  intros Hb HS.
  destruct (run_epilogue body e t d1 S Hb) as (cs & d2 & Hrun & Hp & Hs & _).
  exists (d1 ++ d2). rewrite Hrun, (status_not_success _ _ HS).
  rewrite pgm_ops_app, setup_count_app, Hp, Hs, app_nil_r, Nat.add_0_r. auto.
Qed.

Lemma lor_not_success (s tag : Z) :
  XST_SUCCESS = 0 -> s <> XST_SUCCESS -> Z.lor s tag <> XST_SUCCESS.
Proof.
  intros E Hs H. rewrite E in *. apply Z.lor_eq_0_iff in H. tauto.
Qed.

Lemma neqb_false (x y : Z) : (x !=? y) = false -> x = y.
Proof. cbv [neqb]. destruct (Z.eqb_spec x y); [auto | discriminate]. Qed.

(** The three cases of [validates_before_programming], from the runs of the
    code before [END]. *)
Lemma validates_intro (accepted : Prop) (validate : Call) (body : M Z) :
  XST_SUCCESS = 0 -> XNVM_EFUSE_ERR_INVALID_PARAM <> 0 ->
  (~ accepted ->
   forall e t, body e t = Normal XNVM_EFUSE_ERR_INVALID_PARAM (t ++ [])) ->
  (accepted ->
   forall e t,
     let setup := CSetupController XNVM_EFUSE_MODE_PGM XNVM_EFUSE_MARGIN_RD in
     let r1 := respond e t setup in
     let r2 := respond e (t ++ [Ext setup r1]) validate in
     (fst r1 <> XST_SUCCESS ->
      body e t = Normal (fst r1) (t ++ [Ext setup r1])) /\
     (fst r1 = XST_SUCCESS -> fst r2 <> XST_SUCCESS ->
      body e t = Normal (Z.lor (fst r2) XNVM_EFUSE_ERR_BEFORE_PROGRAMMING)
                        (t ++ [Ext setup r1; Ext validate r2]))) ->
  validates_before_programming accepted validate
    (Status <- body ;;
     CloseStatus <- XNvm_EfuseCloseController ;;
     ret (if XST_SUCCESS =? Status then CloseStatus else Status)).
Proof.
  intros E0 Einv Hno Hyes. split.
  - intros Hna e t.
    destruct (run_refusal body e t [] _ (Hno Hna e t)) as (d & Hrun & Hp & Hs);
      [congruence|].
    exists d. auto.
  - intros Ha e t setup r1 r2. destruct (Hyes Ha e t) as (H1 & H2).
    fold setup r1 r2 in H1, H2. split.
    + intros Hr1.
      destruct (run_refusal body e t _ _ (H1 Hr1) Hr1) as (d & Hrun & Hp & _).
      exists d. auto.
    + intros Hr1 Hr2.
      destruct (run_refusal body e t _ _ (H2 Hr1 Hr2)
                  (lor_not_success _ _ E0 Hr2)) as (d & Hrun & Hp & _).
      exists d. auto.
Qed.

(** Runs the code before [END] up to the point where it stops. *)
Ltac run_to_stop :=
  unfold END_label; unfold_prims; cbn [fst snd];
  repeat match goal with
         | H : fst ?r = _ |- context [fst ?r] => rewrite H
         | H : Z.land ?a ?b = _ |- context [Z.land ?a ?b] => rewrite H
         | H : ?c = false |- context [if ?c then _ else _] => rewrite H
         | H : ?c = true |- context [if ?c then _ else _] => rewrite H
         | H : ?x <> ?y |- context [?x !=? ?y] => rewrite (neqb_neq x y H)
         | |- context [?x !=? ?x] => rewrite (neqb_refl x)
         | |- context [?x !=? TRUE] => destruct (x !=? TRUE)
         end;
  cbn [andb orb negb]; rewrite <- ?app_assoc, ?app_nil_r; try reflexivity.

(** X8. The five write functions with a validation step -- AES key, PPK
    hash, IV, decrypt-only and FIPS information -- refuse a request with a
    key, hash or IV type they do not know, with a null pointer or with a
    FIPS version or mode out of range, before they open the controller;
    they return the status of a failed setup as it is, and the status of a
    failed validation tagged as an error before programming; in all these
    cases they program nothing. *)
Theorem validated_writes_stop_before_programming :
  XST_SUCCESS = 0 -> XNVM_EFUSE_ERR_INVALID_PARAM <> 0 ->
  (forall KeyType Key,
     validates_before_programming
       (KeyType = XNVM_EFUSE_AES_KEY \/ KeyType = XNVM_EFUSE_USER_KEY_0 \/
        KeyType = XNVM_EFUSE_USER_KEY_1)
       (CValidateAesKeyWriteReq KeyType)
       (XNvm_EfuseWriteAesKey KeyType (Some Key))) /\
  (forall KeyType, refused (XNvm_EfuseWriteAesKey KeyType None)) /\
  (forall PpkType Hash,
     validates_before_programming
       (PpkType = XNVM_EFUSE_PPK0 \/ PpkType = XNVM_EFUSE_PPK1 \/
        PpkType = XNVM_EFUSE_PPK2)
       (CValidatePpkHashWriteReq PpkType)
       (XNvm_EfuseWritePpkHash PpkType (Some Hash))) /\
  (forall PpkType, refused (XNvm_EfuseWritePpkHash PpkType None)) /\
  (forall IvType Iv,
     validates_before_programming
       (IvType = XNVM_EFUSE_META_HEADER_IV_RANGE \/
        IvType = XNVM_EFUSE_BLACK_IV \/ IvType = XNVM_EFUSE_PLM_IV_RANGE \/
        IvType = XNVM_EFUSE_DATA_PARTITION_IV_RANGE)
       (CValidateIvWriteReq IvType Iv)
       (XNvm_EfuseWriteIv IvType (Some Iv))) /\
  (forall IvType, refused (XNvm_EfuseWriteIv IvType None)) /\
  (forall EnvDisFlag,
     validates_before_programming True CValidateDecOnlyRequest
       (XNvm_EfuseWriteDecOnly EnvDisFlag)) /\
  (forall EnvDisFlag FipsMode FipsVersion,
     validates_before_programming
       (FipsVersion <= 7 /\ FipsMode <= 0xFF)
       (CValidateFipsInfo FipsMode FipsVersion)
       (XNvm_EfuseWriteFipsInfo EnvDisFlag FipsMode FipsVersion)).
Proof.
  intros E0 Einv.
  assert (Hnull : forall body : M Z,
            (forall e t,
               body e t = Normal XNVM_EFUSE_ERR_INVALID_PARAM (t ++ [])) ->
            refused (Status <- body ;;
                     CloseStatus <- XNvm_EfuseCloseController ;;
                     ret (if XST_SUCCESS =? Status then CloseStatus
                          else Status))).
  { intros body Hb e t.
    destruct (run_refusal body e t [] _ (Hb e t)) as (d & Hrun & Hp & Hs);
      [congruence|].
    exists d. auto. }
  repeat apply conj.
  - intros KeyType Key. apply validates_intro; auto.
    + intros Hna e t. unfold XNvm_EfuseWriteAesKey_body.
      destruct ((KeyType !=? XNVM_EFUSE_AES_KEY) &&
                (KeyType !=? XNVM_EFUSE_USER_KEY_0) &&
                (KeyType !=? XNVM_EFUSE_USER_KEY_1)) eqn:Hc;
        [run_to_stop|].
      exfalso. apply Hna. rewrite !andb_false_iff in Hc.
      destruct Hc as [[Hc|Hc]|Hc]; apply neqb_false in Hc; auto.
    + intros Ha e t setup r1 r2.
      assert (Hc : (KeyType !=? XNVM_EFUSE_AES_KEY) &&
                   (KeyType !=? XNVM_EFUSE_USER_KEY_0) &&
                   (KeyType !=? XNVM_EFUSE_USER_KEY_1) = false).
      { destruct Ha as [-> | [-> | ->]]; rewrite neqb_refl;
          rewrite ?andb_false_r; reflexivity. }
      unfold XNvm_EfuseWriteAesKey_body. subst setup r1 r2.
      split; intros; run_to_stop.
  - intros KeyType. apply Hnull. intros e t.
    unfold XNvm_EfuseWriteAesKey_body.
    destruct (_ && _); run_to_stop.
  - intros PpkType Hash. apply validates_intro; auto.
    + intros Hna e t. unfold XNvm_EfuseWritePpkHash_body.
      destruct ((PpkType !=? XNVM_EFUSE_PPK0) &&
                (PpkType !=? XNVM_EFUSE_PPK1) &&
                (PpkType !=? XNVM_EFUSE_PPK2)) eqn:Hc;
        [run_to_stop|].
      exfalso. apply Hna. rewrite !andb_false_iff in Hc.
      destruct Hc as [[Hc|Hc]|Hc]; apply neqb_false in Hc; auto.
    + intros Ha e t setup r1 r2.
      assert (Hc : (PpkType !=? XNVM_EFUSE_PPK0) &&
                   (PpkType !=? XNVM_EFUSE_PPK1) &&
                   (PpkType !=? XNVM_EFUSE_PPK2) = false).
      { destruct Ha as [-> | [-> | ->]]; rewrite neqb_refl;
          rewrite ?andb_false_r; reflexivity. }
      unfold XNvm_EfuseWritePpkHash_body. subst setup r1 r2.
      split; intros; run_to_stop.
  - intros PpkType. apply Hnull. intros e t.
    unfold XNvm_EfuseWritePpkHash_body.
    destruct (_ && _); run_to_stop.
  - intros IvType Iv. apply validates_intro; auto.
    + intros Hna e t. unfold XNvm_EfuseWriteIv_body.
      destruct ((IvType !=? XNVM_EFUSE_META_HEADER_IV_RANGE) &&
                (IvType !=? XNVM_EFUSE_BLACK_IV) &&
                (IvType !=? XNVM_EFUSE_PLM_IV_RANGE) &&
                (IvType !=? XNVM_EFUSE_DATA_PARTITION_IV_RANGE)) eqn:Hc;
        [run_to_stop|].
      exfalso. apply Hna. rewrite !andb_false_iff in Hc.
      destruct Hc as [[[Hc|Hc]|Hc]|Hc]; apply neqb_false in Hc; auto.
    + intros Ha e t setup r1 r2.
      assert (Hc : (IvType !=? XNVM_EFUSE_META_HEADER_IV_RANGE) &&
                   (IvType !=? XNVM_EFUSE_BLACK_IV) &&
                   (IvType !=? XNVM_EFUSE_PLM_IV_RANGE) &&
                   (IvType !=? XNVM_EFUSE_DATA_PARTITION_IV_RANGE) = false).
      { destruct Ha as [-> | [-> | [-> | ->]]]; rewrite neqb_refl;
          rewrite ?andb_false_r; reflexivity. }
      unfold XNvm_EfuseWriteIv_body. subst setup r1 r2.
      split; intros; run_to_stop.
  - intros IvType. apply Hnull. intros e t.
    unfold XNvm_EfuseWriteIv_body.
    destruct (_ && _); run_to_stop.
  - intros EnvDisFlag. apply validates_intro; auto; [tauto|].
    intros _ e t setup r1 r2.
    unfold XNvm_EfuseWriteDecOnly_body. subst setup r1 r2.
    split; intros; run_to_stop.
  - intros EnvDisFlag FipsMode FipsVersion. apply validates_intro; auto.
    + intros Hna e t. unfold XNvm_EfuseWriteFipsInfo_body,
        XNVM_EFUSE_MAX_FIPS_VERSION, XNVM_EFUSE_MAX_FIPS_MODE.
      destruct (Z.gtb_spec FipsVersion 7); [run_to_stop|].
      destruct (Z.gtb_spec FipsMode 0xFF); [run_to_stop|].
      exfalso. apply Hna. lia.
    + intros (Hv & Hm) e t setup r1 r2.
      unfold XNvm_EfuseWriteFipsInfo_body,
        XNVM_EFUSE_MAX_FIPS_VERSION, XNVM_EFUSE_MAX_FIPS_MODE.
      destruct (Z.gtb_spec FipsVersion 7); [lia|].
      destruct (Z.gtb_spec FipsMode 0xFF); [lia|].
      subst setup r1 r2. split; intros; run_to_stop.
Qed.

(** A null pointer, or any request the code before [END] answers with the
    invalid-parameter code at once, is refused. *)
Lemma refused_intro (body : M Z) :
  XNVM_EFUSE_ERR_INVALID_PARAM <> XST_SUCCESS ->
  (forall e t, body e t = Normal XNVM_EFUSE_ERR_INVALID_PARAM (t ++ [])) ->
  refused (Status <- body ;;
           CloseStatus <- XNvm_EfuseCloseController ;;
           ret (if XST_SUCCESS =? Status then CloseStatus else Status)).
Proof.
  intros Hinv Hb e t.
  destruct (run_refusal body e t [] _ (Hb e t) Hinv) as (d & Hrun & Hp & Hs).
  exists d. auto.
Qed.

(** X9. [XNvm_EfuseWriteUds] refuses a null pointer before opening the
    controller, returns the status of a failed setup as it is, and when the
    cache shows the UDS write lock it returns the fuse-protected error
    tagged with the UDS and before-programming codes; in all three cases
    nothing is programmed. *)
Theorem WriteUds_stops_before_programming (EnvDisFlag : Z) :
  XST_SUCCESS = 0 -> XNVM_EFUSE_ERR_INVALID_PARAM <> 0 ->
  XNVM_EFUSE_ERR_BEFORE_PROGRAMMING <> 0 ->
  refused (XNvm_EfuseWriteUds EnvDisFlag None) /\
  forall (Uds : words) (e : Env) (t : Trace),
    let setup := CSetupController XNVM_EFUSE_MODE_PGM XNVM_EFUSE_MARGIN_RD in
    let r1 := respond e t setup in
    let read_ctrl :=
      CReadReg XNVM_EFUSE_CACHE_BASEADDR
               XNVM_EFUSE_CACHE_SECURITY_CTRL_OFFSET in
    let r2 := respond e (t ++ [Ext setup r1]) read_ctrl in
    (fst r1 <> XST_SUCCESS ->
     exists d,
       XNvm_EfuseWriteUds EnvDisFlag (Some Uds) e t
         = Normal (fst r1) (t ++ d) /\
       pgm_ops d = []) /\
    (fst r1 = XST_SUCCESS ->
     Z.land (u32 (fst r2)) XNVM_EFUSE_CACHE_SECURITY_CONTROL_UDS_WR_LK_MASK
       <> 0 ->
     exists d,
       XNvm_EfuseWriteUds EnvDisFlag (Some Uds) e t
         = Normal (Z.lor (Z.lor XNVM_EFUSE_ERR_FUSE_PROTECTED
                                XNVM_EFUSE_ERR_WRITE_UDS)
                         XNVM_EFUSE_ERR_BEFORE_PROGRAMMING) (t ++ d) /\
       pgm_ops d = []).
Proof.
  intros E0 Einv Ebp. split.
  - apply refused_intro; [congruence|]. intros e t.
    unfold XNvm_EfuseWriteUds_body. run_to_stop.
  - intros Uds e t setup r1 read_ctrl r2. split.
    + intros Hr1.
      assert (Hb : XNvm_EfuseWriteUds_body EnvDisFlag (Some Uds) e t
                   = Normal (fst r1) (t ++ [Ext setup r1])).
      { subst setup r1. unfold XNvm_EfuseWriteUds_body. run_to_stop. }
      destruct (run_refusal _ e t _ _ Hb Hr1) as (d & Hrun & Hp & _).
      exists d. auto.
    + intros Hr1 Hlk.
      assert (Hb : XNvm_EfuseWriteUds_body EnvDisFlag (Some Uds) e t
                   = Normal (Z.lor (Z.lor XNVM_EFUSE_ERR_FUSE_PROTECTED
                                          XNVM_EFUSE_ERR_WRITE_UDS)
                                   XNVM_EFUSE_ERR_BEFORE_PROGRAMMING)
                            (t ++ [Ext setup r1; Ext read_ctrl r2])).
      { subst setup r1 read_ctrl r2. unfold XNvm_EfuseWriteUds_body.
        run_to_stop. }
      destruct (run_refusal _ e t _ _ Hb) as (d & Hrun & Hp & _).
      { rewrite E0. intros H. apply Z.lor_eq_0_iff in H. tauto. }
      exists d. auto.
Qed.

(** X10. [XNvm_EfuseWriteDmeUserKey], given one of the four key types:
    a null pointer is refused; when the cache shows a DME mode bit set the
    function returns the DME-mode error tagged as before programming,
    without opening the controller; when the setup fails its status is
    returned; nothing is programmed in any of these cases. *)
Theorem WriteDmeUserKey_stops_before_programming (KeyType : Z) :
  XST_SUCCESS = 0 -> XNVM_EFUSE_ERR_INVALID_PARAM <> 0 ->
  XNVM_EFUSE_ERR_BEFORE_PROGRAMMING <> 0 ->
  DmeKeyType_rejected KeyType = false ->
  refused (XNvm_EfuseWriteDmeUserKey KeyType None) /\
  forall (Key : words) (e : Env) (t : Trace),
    let read_mode :=
      CReadReg XNVM_EFUSE_CACHE_BASEADDR XNVM_EFUSE_CACHE_DME_FIPS_OFFSET in
    let r0 := respond e t read_mode in
    let setup := CSetupController XNVM_EFUSE_MODE_PGM XNVM_EFUSE_MARGIN_RD in
    let r1 := respond e (t ++ [Ext read_mode r0]) setup in
    (Z.land (u32 (fst r0)) XNVM_EFUSE_CACHE_DME_FIPS_DME_MODE_MASK <> 0 ->
     exists d,
       XNvm_EfuseWriteDmeUserKey KeyType (Some Key) e t
         = Normal (Z.lor XNVM_EFUSE_ERR_DME_MODE_SET
                         XNVM_EFUSE_ERR_BEFORE_PROGRAMMING) (t ++ d) /\
       pgm_ops d = [] /\ setup_count d = 0%nat) /\
    (Z.land (u32 (fst r0)) XNVM_EFUSE_CACHE_DME_FIPS_DME_MODE_MASK = 0 ->
     fst r1 <> XST_SUCCESS ->
     exists d,
       XNvm_EfuseWriteDmeUserKey KeyType (Some Key) e t
         = Normal (fst r1) (t ++ d) /\
       pgm_ops d = []).
Proof.
  intros E0 Einv Ebp Hacc. split.
  - apply refused_intro; [congruence|]. intros e t.
    unfold XNvm_EfuseWriteDmeUserKey_body, XNvm_EfuseWriteDmeUserKey_checked.
    run_to_stop.
  - intros Key e t read_mode r0 setup r1. split.
    + intros Hmode.
      assert (Hb : XNvm_EfuseWriteDmeUserKey_body KeyType (Some Key) e t
                   = Normal (Z.lor XNVM_EFUSE_ERR_DME_MODE_SET
                                   XNVM_EFUSE_ERR_BEFORE_PROGRAMMING)
                            (t ++ [Ext read_mode r0])).
      { subst read_mode r0. unfold XNvm_EfuseWriteDmeUserKey_body,
          XNvm_EfuseWriteDmeUserKey_checked. run_to_stop. }
      destruct (run_refusal _ e t _ _ Hb) as (d & Hrun & Hp & Hs).
      { rewrite E0. intros H. apply Z.lor_eq_0_iff in H. tauto. }
      exists d. auto.
    + intros Hmode Hr1.
      assert (Hb : XNvm_EfuseWriteDmeUserKey_body KeyType (Some Key) e t
                   = Normal (fst r1)
                            (t ++ [Ext read_mode r0; Ext setup r1])).
      { subst read_mode r0 setup r1. unfold XNvm_EfuseWriteDmeUserKey_body,
          XNvm_EfuseWriteDmeUserKey_checked. run_to_stop. }
      destruct (run_refusal _ e t _ _ Hb Hr1) as (d & Hrun & Hp & _).
      exists d. auto.
Qed.

(** Runs the single-bit operations met on the way, each with a status and
    a trace of its own, and splits on the tests between them. *)
Ltac run_bit_ops :=
  repeat match goal with
         | |- context [XNvm_EfusePgmAndVerifyBit ?p ?r ?c ?s ?e ?t] =>
             let st := fresh "st" in
             let d := fresh "d" in
             let Hr := fresh "Hr" in
             let Hp := fresh "Hp" in
             destruct (PgmAndVerifyBit_runs e t p r c s)
               as (st & d & Hr & _ & Hp & _);
             rewrite Hr; clear Hr
         | |- context [if ?x !=? XST_SUCCESS then _ else _] =>
             let E := fresh "E" in
             destruct (Z.eqb_spec x XST_SUCCESS) as [E|E];
             [ rewrite E, ?neqb_refl in * | rewrite (neqb_neq _ _ E) ]
         end.

(** Closes [Normal s t1 = Normal ?s (t ++ ?d)] when [t1] extends [t]. *)
Ltac trace_eq :=
  rewrite <- ?app_assoc;
  first [ reflexivity
        | match goal with
          | |- Normal _ ?t = Normal _ (?t ++ _) =>
              rewrite <- (app_nil_r t) at 1; reflexivity
          end ].

Lemma PufSecCtrl_ops (e : Env) (t : Trace) (PufSecCtrlBits : Z) :
  exists Status d rest,
    XNvm_EfuseWritePufSecCtrl PufSecCtrlBits e t = Normal Status (t ++ d) /\
    puf_sec_ctrl_ops PufSecCtrlBits = pgm_ops d ++ rest /\
    (Status = XST_SUCCESS -> rest = []) /\
    (puf_sec_ctrl_ops PufSecCtrlBits = [] -> Status = XST_SUCCESS /\ d = []).
Proof.
  unfold XNvm_EfuseWritePufSecCtrl, END_label, puf_sec_ctrl_ops. cbv zeta.
  rewrite !land_1_eqb. unfold u32_shr. rewrite !Z.shiftr_spec by lia.
  change (0 + 1 + 1) with 2. change (0 + 1) with 1.
  cbv [bind when ret goto_END].
  destruct (Z.testbit PufSecCtrlBits 0), (Z.testbit PufSecCtrlBits 1),
    (Z.testbit PufSecCtrlBits 2); run_bit_ops;
    (eexists _, _, _; split; [trace_eq|];
     rewrite ?pgm_ops_app;
     repeat match goal with
            | H : pgm_ops _ = _ |- _ => rewrite H; clear H
            end;
     unfold puf_sec_ctrl_op; cbn [app];
     split; [reflexivity|];
     split; [intros; first [reflexivity | congruence]|];
     let H := fresh in intros H; first [discriminate H | split; reflexivity]).
Qed.

(** Runs the single-bit operations met on the way, each with a status, a
    trace and a result of its own, and splits on the tests between them. *)
Ltac run_bit_results :=
  repeat match goal with
         | |- context [XNvm_EfusePgmAndVerifyBit ?p ?r ?c ?s ?e ?t] =>
             let st := fresh "st" in
             let d := fresh "d" in
             let Hr := fresh "Hr" in
             let Hres := fresh "Hres" in
             destruct (PgmAndVerifyBit_result e t p r c s)
               as (st & d & Hr & Hres & _);
             rewrite Hr; clear Hr
         | |- context [if ?x !=? XST_SUCCESS then _ else _] =>
             let E := fresh "E" in
             destruct (Z.eqb_spec x XST_SUCCESS) as [E|E];
             [ rewrite E, ?neqb_refl in * | rewrite (neqb_neq _ _ E) ]
         end.

Ltac rewrite_results :=
  rewrite ?bit_results_app;
  repeat match goal with
         | H : bit_results _ _ _ = _ |- _ => rewrite H; clear H
         end;
  cbn [app map bit_results].

(** Closes the alternative between a sequence that ran to its end and one
    that stopped at a failed operation, on explicit lists. *)
Ltac stopped_or_done :=
  first
    [ left; split; reflexivity
    | right; eexists nil, _, _; cbn [app map];
      split; [reflexivity|]; split; [reflexivity | assumption]
    | right; eexists [_], _, _; cbn [app map];
      split; [reflexivity|]; split; [reflexivity | assumption]
    | right; eexists [_; _], _, _; cbn [app map];
      split; [reflexivity|]; split; [reflexivity | assumption] ].

(** X11. [XNvm_EfuseWritePufSecCtrl] runs a single-bit operation for each
    of the three low bits of its argument that is set, lowest bit first, and
    stops at the first one that fails.  Either every requested operation
    was run and returned success, and the function returns success; or the
    operations before some requested operation returned success, that one
    failed, no later one was run, and the function returns the status of
    the failed one.  With none of the three bits set nothing is sent to the
    hardware. *)
Theorem WritePufSecCtrl_programs_requested_bits (e : Env) (t : Trace)
  (PufSecCtrlBits : Z) :
  exists Status d,
    XNvm_EfuseWritePufSecCtrl PufSecCtrlBits e t = Normal Status (t ++ d) /\
    ((bit_results e t d
      = map (fun op => (op, XST_SUCCESS)) (puf_sec_ctrl_ops PufSecCtrlBits) /\
      Status = XST_SUCCESS) \/
     (exists done op rest,
        puf_sec_ctrl_ops PufSecCtrlBits = done ++ op :: rest /\
        bit_results e t d
        = map (fun op => (op, XST_SUCCESS)) done ++ [(op, Status)] /\
        Status <> XST_SUCCESS)) /\
    (puf_sec_ctrl_ops PufSecCtrlBits = [] -> d = []).
Proof.
  unfold XNvm_EfuseWritePufSecCtrl, END_label, puf_sec_ctrl_ops. cbv zeta.
  rewrite !land_1_eqb. unfold u32_shr. rewrite !Z.shiftr_spec by lia.
  change (0 + 1 + 1) with 2. change (0 + 1) with 1.
  cbv [bind when ret goto_END].
  destruct (Z.testbit PufSecCtrlBits 0), (Z.testbit PufSecCtrlBits 1),
    (Z.testbit PufSecCtrlBits 2); run_bit_results;
    (eexists _, _; split; [trace_eq|];
     rewrite_results; unfold puf_sec_ctrl_op;
     split;
     [ first
         [ stopped_or_done
         | match goal with
           | |- context [(_, _, _, _, ?st)] =>
               is_var st;
               destruct (Z.eq_dec st XST_SUCCESS) as [->|?]; stopped_or_done
           end ]
     | let H := fresh in intros H; first [discriminate H | reflexivity] ]).
Qed.

(** X12. [XNvm_EfuseIsPufHelperDataEmpty] checks the CHASH rows, then the
    AUX bits, then the syndrome rows of the cache, and stops at the first
    that is programmed, which it reports with a code of its own; it returns
    success when all three are empty. *)
Theorem IsPufHelperDataEmpty_reports_first_programmed (e : Env) (t : Trace) :
  let chash :=
    CCheckZeros XNVM_EFUSE_CACHE_PUF_CHASH_OFFSET
                XNVM_EFUSE_PUF_CHASH_NUM_OF_ROWS in
  let r1 := respond e t chash in
  let t1 := t ++ [Ext chash r1] in
  let aux :=
    CReadReg XNVM_EFUSE_CACHE_BASEADDR
             XNVM_EFUSE_CACHE_PUF_ECC_PUF_CTRL_OFFSET in
  let r2 := respond e t1 aux in
  let t2 := t1 ++ [Ext aux r2] in
  let syn :=
    CCheckZeros XNVM_EFUSE_CACHE_PUF_SYN_DATA_OFFSET
                XNVM_EFUSE_PUF_SYN_DATA_NUM_OF_ROWS in
  let r3 := respond e t2 syn in
  XNvm_EfuseIsPufHelperDataEmpty e t
  = if fst r1 !=? XST_SUCCESS
    then Normal XNVM_EFUSE_ERR_PUF_CHASH_ALREADY_PRGMD t1
    else if Z.land (u32 (fst r2))
                   XNVM_EFUSE_CACHE_PUF_ECC_PUF_CTRL_ECC_23_0_MASK !=? 0
    then Normal XNVM_EFUSE_ERR_PUF_AUX_ALREADY_PRGMD t2
    else if fst r3 !=? XST_SUCCESS
    then Normal XNVM_EFUSE_ERR_PUF_SYN_ALREADY_PRGMD (t2 ++ [Ext syn r3])
    else Normal XST_SUCCESS (t2 ++ [Ext syn r3]).
Proof.
  cbv zeta. unfold XNvm_EfuseIsPufHelperDataEmpty. unfold_prims.
  cbn [fst snd].
  repeat match goal with
         | |- context [if ?x !=? ?y then _ else _] =>
             let E := fresh "E" in destruct (x !=? y) eqn:E
         end;
    try match goal with
        | H : (?x !=? XST_SUCCESS) = false |- Normal ?x _ = _ =>
            apply neqb_false in H; rewrite H
        end;
    rewrite <- ?app_assoc; reflexivity.
Qed.


Lemma quiet_IsPufHelperDataEmpty : quiet XNvm_EfuseIsPufHelperDataEmpty.
Proof. unfold XNvm_EfuseIsPufHelperDataEmpty. quiet_tac. Qed.

(** X13. [XNvm_EfuseWritePuf] refuses a null pointer before opening the
    controller and returns the status of a failed setup as it is.  When the
    cache shows the PUF disabled or its syndrome data locked it returns the
    fuse-protected error; when helper data is to be programmed and the
    cache shows some already there, it returns what the check reported,
    tagged as an error before programming.  Nothing is programmed in these
    cases.  When [PrgmPufHelperData] is not [TRUE], only the PUF security
    control bits asked for are programmed, none of the helper data. *)
Theorem WritePuf_guards_helper_data (P : XNvm_EfusePufHdAddr) :
  XST_SUCCESS = 0 -> XNVM_EFUSE_ERR_INVALID_PARAM <> 0 ->
  XNVM_EFUSE_ERR_BEFORE_PROGRAMMING <> 0 ->
  XNVM_EFUSE_ERR_FUSE_PROTECTED <> 0 ->
  refused (XNvm_EfuseWritePuf None) /\
  forall (e : Env) (t : Trace),
    let setup := CSetupController XNVM_EFUSE_MODE_PGM XNVM_EFUSE_MARGIN_RD in
    let r1 := respond e t setup in
    let read_ctrl :=
      CReadReg XNVM_EFUSE_CACHE_BASEADDR
               XNVM_EFUSE_CACHE_PUF_ECC_PUF_CTRL_OFFSET in
    let r2 := respond e (t ++ [Ext setup r1]) read_ctrl in
    let locks :=
      Z.land (u32 (fst r2))
             (Z.lor XNVM_EFUSE_CACHE_SECURITY_CONTROL_PUF_DIS_MASK
                    XNVM_EFUSE_CACHE_SECURITY_CONTROL_PUF_SYN_LK_MASK) in
    let t2 := t ++ [Ext setup r1; Ext read_ctrl r2] in
    (fst r1 <> XST_SUCCESS ->
     exists d,
       XNvm_EfuseWritePuf (Some P) e t = Normal (fst r1) (t ++ d) /\
       pgm_ops d = []) /\
    (fst r1 = XST_SUCCESS -> locks <> 0 ->
     exists d,
       XNvm_EfuseWritePuf (Some P) e t
         = Normal (Z.lor XNVM_EFUSE_ERR_FUSE_PROTECTED
                         XNVM_EFUSE_ERR_WRITE_PUF_HELPER_DATA) (t ++ d) /\
       pgm_ops d = []) /\
    (fst r1 = XST_SUCCESS -> locks = 0 ->
     PrgmPufHelperData P = TRUE ->
     forall s t3,
       XNvm_EfuseIsPufHelperDataEmpty e t2 = Normal s t3 ->
       s <> XST_SUCCESS ->
       exists d,
         XNvm_EfuseWritePuf (Some P) e t
           = Normal (Z.lor s XNVM_EFUSE_ERR_BEFORE_PROGRAMMING) (t ++ d) /\
         pgm_ops d = []) /\
    (fst r1 = XST_SUCCESS -> locks = 0 ->
     PrgmPufHelperData P <> TRUE ->
     exists Status d rest,
       XNvm_EfuseWritePuf (Some P) e t = Normal Status (t ++ d) /\
       puf_sec_ctrl_ops (PufSecCtrlBits P) = pgm_ops d ++ rest).
Proof.
  intros E0 Einv Ebp Efp. split.
  - apply refused_intro; [congruence|]. intros e t.
    unfold XNvm_EfuseWritePuf_body. run_to_stop.
  - intros e t setup r1 read_ctrl r2 locks t2.
    split; [|split; [|split]].
    + intros Hr1.
      assert (Hb : XNvm_EfuseWritePuf_body (Some P) e t
                   = Normal (fst r1) (t ++ [Ext setup r1])).
      { subst setup r1. unfold XNvm_EfuseWritePuf_body. run_to_stop. }
      destruct (run_refusal _ e t _ _ Hb Hr1) as (d & Hrun & Hp & _).
      exists d. auto.
    + intros Hr1 Hlk.
      assert (Hb : XNvm_EfuseWritePuf_body (Some P) e t
                   = Normal (Z.lor XNVM_EFUSE_ERR_FUSE_PROTECTED
                                   XNVM_EFUSE_ERR_WRITE_PUF_HELPER_DATA) t2).
      { subst setup r1 read_ctrl r2 locks t2.
        unfold XNvm_EfuseWritePuf_body. run_to_stop. }
      destruct (run_refusal _ e t _ _ Hb) as (d & Hrun & Hp & _).
      { rewrite E0. intros H. apply Z.lor_eq_0_iff in H. tauto. }
      exists d. auto.
    + intros Hr1 Hlk Hprgm s t3 Hempty Hs.
      pose proof (quiet_IsPufHelperDataEmpty e t2) as Hq.
      rewrite Hempty in Hq. destruct Hq as (d3 & -> & Hp3).
      assert (Hb : XNvm_EfuseWritePuf_body (Some P) e t
                   = Normal (Z.lor s XNVM_EFUSE_ERR_BEFORE_PROGRAMMING)
                            (t ++ [Ext setup r1; Ext read_ctrl r2] ++ d3)).
      { subst setup r1 read_ctrl r2 locks t2.
        unfold XNvm_EfuseWritePuf_body.
        run_to_stop; rewrite Hprgm, Z.eqb_refl; cbn [app]; rewrite Hempty;
          rewrite (neqb_neq _ _ Hs); rewrite <- ?app_assoc; reflexivity. }
      destruct (run_refusal _ e t _ _ Hb (lor_not_success _ _ E0 Hs))
        as (d & Hrun & Hp & _).
      exists d. rewrite Hp, pgm_ops_app, Hp3. auto.
    + intros Hr1 Hlk Hprgm.
      destruct (PufSecCtrl_ops e t2 (PufSecCtrlBits P))
        as (Status & d3 & rest & Hsec & Hops & _).
      assert (Hb : XNvm_EfuseWritePuf_body (Some P) e t
                   = Normal Status
                            (t ++ [Ext setup r1; Ext read_ctrl r2] ++ d3)).
      { subst setup r1 read_ctrl r2 locks t2.
        unfold XNvm_EfuseWritePuf_body. apply Z.eqb_neq in Hprgm.
        run_to_stop; rewrite ?Hprgm; cbn [app]; rewrite Hsec;
          rewrite <- ?app_assoc; reflexivity. }
      destruct (run_epilogue _ e t _ _ Hb) as (cs & d2 & Hrun & Hp2 & _).
      eexists _, _, rest. split; [exact Hrun|].
      rewrite !pgm_ops_app, Hp2, app_nil_r. exact Hops.
Qed.


(** ** Single-bit fields *)

(** X14. [XNvm_EfuseWriteOffChipRevokeID] with an id from 1 to the maximum
    and the controller opening normally starts exactly one single-bit
    operation, on page 0 with verification, in row
    [start + (id-1)/32] and column [(id-1)%32]; different ids go to
    different fuses.  Id 0 and ids above the maximum are refused before the
    controller is opened. *)
Theorem WriteOffChipRevokeID_position (EnvDisFlag OffchipIdNum : Z) :
  XNVM_EFUSE_MAX_BITS_IN_ROW = 32 ->
  0 <= XNVM_EFUSE_OFFCHIP_REVOKE_ID_START_ROW ->
  XNVM_EFUSE_OFFCHIP_REVOKE_ID_START_ROW + XNVM_MAX_REVOKE_ID_FUSES
    < 2 ^ 32 ->
  XNVM_EFUSE_ERR_INVALID_PARAM <> XST_SUCCESS ->
  (1 <= OffchipIdNum <= XNVM_MAX_REVOKE_ID_FUSES ->
   forall e t, setup_succeeds e ->
   exists Status d,
     XNvm_EfuseWriteOffChipRevokeID EnvDisFlag OffchipIdNum e t
       = Normal Status (t ++ d) /\
     pgm_ops d = [(XNVM_EFUSE_PAGE_0,
                   fst (offchip_revoke_position OffchipIdNum),
                   snd (offchip_revoke_position OffchipIdNum),
                   XNVM_EFUSE_PROGRAM_VERIFY)]) /\
  (OffchipIdNum = 0 \/ XNVM_MAX_REVOKE_ID_FUSES < OffchipIdNum ->
   refused (XNvm_EfuseWriteOffChipRevokeID EnvDisFlag OffchipIdNum)) /\
  (forall id id',
     1 <= id -> 1 <= id' ->
     offchip_revoke_position id = offchip_revoke_position id' -> id = id').
Proof.
  intros HW Hrow Hmax Hinv. split; [|split].
  - intros Hid e t Hsetup.
    assert (Hsub : u32_sub OffchipIdNum 1 = OffchipIdNum - 1)
      by (unfold u32_sub; apply u32_small; lia).
    assert (Hq : 0 <= (OffchipIdNum - 1) / 32 <= OffchipIdNum - 1).
    { split; [apply Z.div_pos; lia|].
      apply Z.div_le_upper_bound; lia. }
    assert (Hb : exists Status d,
      XNvm_EfuseWriteOffChipRevokeID_body EnvDisFlag OffchipIdNum e t
        = Normal Status (t ++ d) /\
      pgm_ops d = [(XNVM_EFUSE_PAGE_0,
                    fst (offchip_revoke_position OffchipIdNum),
                    snd (offchip_revoke_position OffchipIdNum),
                    XNVM_EFUSE_PROGRAM_VERIFY)]).
    { unfold XNvm_EfuseWriteOffChipRevokeID_body, END_label,
        offchip_revoke_position. cbv zeta. cbn [fst snd].
      rewrite HW, Hsub. unfold u32_add. rewrite u32_small by lia.
      destruct (Z.eqb_spec OffchipIdNum 0) as [?|_]; [lia|].
      destruct (Z.gtb_spec OffchipIdNum XNVM_MAX_REVOKE_ID_FUSES) as [?|_];
        [lia|].
      cbn [orb]. unfold_prims. cbn [fst snd].
      destruct (EnvDisFlag !=? TRUE); rewrite Hsetup, neqb_refl;
        run_bit_ops;
        (eexists _, _; split; [trace_eq|]; rewrite ?pgm_ops_app;
         cbn [app pgm_ops]; assumption). }
    destruct Hb as (Status & d & Hb & Hp).
    destruct (run_epilogue _ e t d Status Hb) as (cs & d2 & Hrun & Hp2 & _).
    unfold XNvm_EfuseWriteOffChipRevokeID. rewrite Hrun.
    eexists _, (d ++ d2). split; [reflexivity|].
    rewrite pgm_ops_app, Hp, Hp2. reflexivity.
  - intros Hbad. apply refused_intro; [exact Hinv|]. intros e t.
    unfold XNvm_EfuseWriteOffChipRevokeID_body, END_label.
    assert (Hc : (OffchipIdNum =? 0)
                 || (OffchipIdNum >? XNVM_MAX_REVOKE_ID_FUSES) = true).
    { apply orb_true_iff. destruct Hbad; [left|right]; lia. }
    rewrite Hc, app_nil_r. reflexivity.
  - intros id id' Hid Hid' E. unfold offchip_revoke_position in E.
    injection E as Eq Er.
    assert (Eq' : (id - 1) / 32 = (id' - 1) / 32) by lia.
    pose proof (Z.div_mod (id - 1) 32). pose proof (Z.div_mod (id' - 1) 32).
    lia.
Qed.


(** X15. [XNvm_EfuseWriteDmeRevoke] refuses a revoke number that is none of
    the four it knows.  For a known one, with the controller opening
    normally, it runs the single-bit operation of the first of the two bits
    of that number, on page 0 with verification, and the one of the second
    bit only if the first returned success.  A failure of the first bit is
    returned with the error code of the revoke number, with the second bit
    left untouched; so is a failure of the second. *)
Theorem WriteDmeRevoke_programs_both_bits (EnvDisFlag RevokeNum : Z) :
  XST_SUCCESS = 0 -> XNVM_EFUSE_ERR_INVALID_PARAM <> 0 ->
  (dme_revoke_bits RevokeNum = None ->
   refused (XNvm_EfuseWriteDmeRevoke EnvDisFlag RevokeNum)) /\
  (forall Row Col_0 Col_1,
     dme_revoke_bits RevokeNum = Some (Row, Col_0, Col_1) ->
     forall e t, setup_succeeds e ->
     let tag := XNVM_EFUSE_ERR_WRITE_DME_REVOKE_0 +
                Z.shiftl RevokeNum XNVM_EFUSE_ERROR_BYTE_SHIFT in
     exists Status d,
       XNvm_EfuseWriteDmeRevoke EnvDisFlag RevokeNum e t
         = Normal Status (t ++ d) /\
       ((exists s1,
           s1 <> XST_SUCCESS /\
           bit_results e t d
           = [(XNVM_EFUSE_PAGE_0, Row, Col_0, XNVM_EFUSE_PROGRAM_VERIFY, s1)] /\
           Status = Z.lor s1 tag) \/
        (exists s2,
           bit_results e t d
           = [(XNVM_EFUSE_PAGE_0, Row, Col_0, XNVM_EFUSE_PROGRAM_VERIFY,
               XST_SUCCESS);
              (XNVM_EFUSE_PAGE_0, Row, Col_1, XNVM_EFUSE_PROGRAM_VERIFY, s2)] /\
           (s2 <> XST_SUCCESS -> Status = Z.lor s2 tag)))).
Proof.
  intros E0 Einv. split.
  - intros Hnone. apply refused_intro; [congruence|]. intros e t.
    unfold XNvm_EfuseWriteDmeRevoke_body, END_label.
    unfold dme_revoke_bits in Hnone.
    change (RevokeNum !=? XNVM_EFUSE_DME_REVOKE_0)
      with (negb (RevokeNum =? XNVM_EFUSE_DME_REVOKE_0)).
    change (RevokeNum !=? XNVM_EFUSE_DME_REVOKE_1)
      with (negb (RevokeNum =? XNVM_EFUSE_DME_REVOKE_1)).
    change (RevokeNum !=? XNVM_EFUSE_DME_REVOKE_2)
      with (negb (RevokeNum =? XNVM_EFUSE_DME_REVOKE_2)).
    change (RevokeNum !=? XNVM_EFUSE_DME_REVOKE_3)
      with (negb (RevokeNum =? XNVM_EFUSE_DME_REVOKE_3)).
    repeat match type of Hnone with
           | (if ?c then _ else _) = None =>
               destruct c; [discriminate Hnone|]
           end.
    cbn [negb andb]. rewrite app_nil_r. reflexivity.
  - intros Row Col_0 Col_1 Hbits e t Hsetup tag.
    assert (Hb : exists Status d,
      XNvm_EfuseWriteDmeRevoke_body EnvDisFlag RevokeNum e t
        = Normal Status (t ++ d) /\
      ((exists s1,
          s1 <> XST_SUCCESS /\
          bit_results e t d
          = [(XNVM_EFUSE_PAGE_0, Row, Col_0, XNVM_EFUSE_PROGRAM_VERIFY, s1)] /\
          Status = Z.lor s1 tag) \/
       (exists s2,
          bit_results e t d
          = [(XNVM_EFUSE_PAGE_0, Row, Col_0, XNVM_EFUSE_PROGRAM_VERIFY,
              XST_SUCCESS);
             (XNVM_EFUSE_PAGE_0, Row, Col_1, XNVM_EFUSE_PROGRAM_VERIFY, s2)] /\
          Status = (if s2 !=? XST_SUCCESS then Z.lor s2 tag else s2)))).
    { unfold XNvm_EfuseWriteDmeRevoke_body, END_label.
      unfold dme_revoke_bits in Hbits.
      change (RevokeNum !=? XNVM_EFUSE_DME_REVOKE_0)
        with (negb (RevokeNum =? XNVM_EFUSE_DME_REVOKE_0)).
      change (RevokeNum !=? XNVM_EFUSE_DME_REVOKE_1)
        with (negb (RevokeNum =? XNVM_EFUSE_DME_REVOKE_1)).
      change (RevokeNum !=? XNVM_EFUSE_DME_REVOKE_2)
        with (negb (RevokeNum =? XNVM_EFUSE_DME_REVOKE_2)).
      change (RevokeNum !=? XNVM_EFUSE_DME_REVOKE_3)
        with (negb (RevokeNum =? XNVM_EFUSE_DME_REVOKE_3)).
      repeat match type of Hbits with
             | (if ?c then _ else _) = Some _ =>
                 destruct c;
                 [ injection Hbits as <- <- <-
                 | try discriminate Hbits ]
             end;
        cbn [negb andb]; rewrite ?andb_false_r;
        unfold_prims; cbn [fst snd];
        (destruct (EnvDisFlag !=? TRUE); rewrite Hsetup, neqb_refl;
         run_bit_results;
         (eexists _, _; split; [trace_eq|]; rewrite_results;
          first [ left; eexists; split; [eassumption|];
                  split; reflexivity
                | right; eexists; split; [reflexivity|];
                  rewrite ?neqb_refl;
                  try match goal with
                      | H : ?s <> XST_SUCCESS |- _ =>
                          rewrite (neqb_neq _ _ H)
                      end;
                  reflexivity ])). }
    destruct Hb as (Status & d & Hb & Hres).
    destruct (run_epilogue _ e t d Status Hb) as (cs & d2 & Hrun & Hp2 & _).
    unfold XNvm_EfuseWriteDmeRevoke. rewrite Hrun.
    eexists _, (d ++ d2). split; [reflexivity|].
    rewrite bit_results_app, (bit_results_quiet e d2 _ Hp2), app_nil_r.
    destruct Hres as [(s1 & Hs1 & Hres & ->)|(s2 & Hres & ->)].
    + left. exists s1. split; [exact Hs1|]. split; [exact Hres|].
      apply status_not_success. now apply lor_not_success.
    + right. exists s2. split; [exact Hres|]. intros Hs2.
      rewrite (neqb_neq _ _ Hs2).
      apply status_not_success. now apply lor_not_success.
Qed.

(** ** The order of the walk, whatever the hardware answers *)

Section WalkOrder.
Variables (e : Env) (info : XNvm_EfusePrgmInfo) (D : words).
Hypothesis Hcol0 : 0 <= ColStart info.
Hypothesis Hcol1 : ColEnd info < 2 ^ 32 - 1.

Lemma walk_cols_order (n : nat) : forall (s : Cursor) (t : Trace),
  ColStart info <= Col s ->
  let cols :=
    map (fun i => (Row s, Col s + Z.of_nat i))
        (seq 0 (Z.to_nat (ColEnd info - Col s + 1))) in
  match while_fuel n (fun s => Col s <=? ColEnd info) (walk_bit info D) s e t
  with
  | Normal s' t' =>
      exists d, t' = t ++ d /\ map fst (visits d) = cols /\ Row s' = Row s
  | GotoEND st t' =>
      exists d rest, t' = t ++ d /\ cols = map fst (visits d) ++ rest /\
                     st <> XST_SUCCESS
  | OutOfFuel => True
  end.
Proof.
  induction n as [|n IH]; intros s t HC; cbn [while_fuel]; [exact I|].
  cbv zeta.
  destruct (Z.leb_spec (Col s) (ColEnd info)) as [Hle|Hgt].
  - assert (Hk : Z.to_nat (ColEnd info - Col s + 1)
                 = S (Z.to_nat (ColEnd info - (Col s + 1) + 1))) by lia.
    rewrite Hk. cbn [seq map]. rewrite <- seq_shift, map_map, Z.add_0_r.
    pose proof (walk_bit_visit e info D s t) as H1. unfold bind.
    destruct (walk_bit info D s e t) as [s1 t1|st t1|]; [| |contradiction].
    + destruct H1 as (d1 & -> & Hv1 & HR & HCs).
      assert (HC1 : Col s1 = Col s + 1).
      { rewrite HCs. unfold u32_add. rewrite u32_small by lia. lia. }
      specialize (IH s1 (t ++ d1)). cbv zeta in IH. rewrite HR, HC1 in IH.
      assert (Hext : map (fun i => (Row s, Col s + 1 + Z.of_nat i))
                         (seq 0 (Z.to_nat (ColEnd info - (Col s + 1) + 1)))
                     = map (fun i => (Row s, Col s + Z.of_nat (S i)))
                         (seq 0 (Z.to_nat (ColEnd info - (Col s + 1) + 1)))).
      { apply map_ext. intros i. f_equal. lia. }
      rewrite Hext in IH.
      destruct (while_fuel n _ _ s1 e (t ++ d1)) as [s2 t2|st t2|];
        [| |exact I].
      * destruct IH as (d2 & -> & Hv2 & HR2); [lia|]. exists (d1 ++ d2).
        rewrite visits_app, map_app, Hv1, Hv2, app_assoc. auto.
      * destruct IH as (d2 & rest & -> & Hv2 & Hst); [lia|].
        exists (d1 ++ d2), rest.
        rewrite visits_app, map_app, Hv1, Hv2, app_assoc. auto.
    + destruct H1 as ((d1 & -> & Hv1) & (_ & _ & _ & _ & Hst)).
      exists d1. eexists. rewrite Hv1. cbn [app]. auto.
  - replace (Z.to_nat (ColEnd info - Col s + 1)) with 0%nat by lia.
    exists []. rewrite app_nil_r. cbv [ret]. cbn [visits map seq]. auto.
Qed.

Lemma walk_row_order (s : Cursor) (t : Trace) :
  let cols := map (pair (Row s)) (range_cols info) in
  match walk_row info D s e t with
  | Normal s' t' =>
      exists d, t' = t ++ d /\ map fst (visits d) = cols /\
                Row s' = u32_add (Row s) 1
  | GotoEND st t' =>
      exists d rest, t' = t ++ d /\ cols = map fst (visits d) ++ rest /\
                     st <> XST_SUCCESS
  | OutOfFuel => True
  end.
Proof.
  cbv zeta. unfold range_cols. rewrite map_map.
  unfold walk_row. cbv [xil_printf]. unfold bind at 1 2.
  cbv [call ret]. cbn [Row Col Idx DataPtr Data]. unfold bind at 1.
  unfold while.
  match goal with
  | |- context [while_fuel ?f ?c ?b ?s0 e ?t0] =>
      pose proof (walk_cols_order f s0 t0) as H;
      destruct (while_fuel f c b s0 e t0) as [s1 t1|st t1|]
  end; [| |exact I]; cbv zeta in H; cbn [Row Col] in H.
  - destruct H as (d & -> & Hv & HR); [lia|].
    eexists (_ :: d). rewrite <- app_assoc. cbn [app visits Row].
    rewrite HR. auto.
  - destruct H as (d & rest & -> & Hv & Hst); [lia|].
    eexists (_ :: d), rest. rewrite <- app_assoc. cbn [app visits]. auto.
Qed.

Lemma walk_rows_order (EndRow : Z) (n : nat) : forall (s : Cursor) (t : Trace),
  EndRow < 2 ^ 32 -> 0 <= Row s ->
  let rows :=
    flat_map (fun i => map (pair (Row s + Z.of_nat i)) (range_cols info))
             (seq 0 (Z.to_nat (EndRow - Row s))) in
  match while_fuel n (fun s => Row s <? EndRow) (walk_row info D) s e t with
  | Normal s' t' =>
      exists d, t' = t ++ d /\ map fst (visits d) = rows
  | GotoEND st t' =>
      exists d rest, t' = t ++ d /\ rows = map fst (visits d) ++ rest /\
                     st <> XST_SUCCESS
  | OutOfFuel => True
  end.
Proof.
  induction n as [|n IH]; intros s t HE HR; cbn [while_fuel]; [exact I|].
  cbv zeta.
  destruct (Z.ltb_spec (Row s) EndRow) as [Hlt|Hge].
  - assert (Hk : Z.to_nat (EndRow - Row s)
                 = S (Z.to_nat (EndRow - (Row s + 1)))) by lia.
    rewrite Hk. cbn [seq flat_map]. rewrite flat_map_seq_shift, Z.add_0_r.
    pose proof (walk_row_order s t) as H1. cbv zeta in H1. unfold bind.
    destruct (walk_row info D s e t) as [s1 t1|st t1|]; [| |exact I].
    + destruct H1 as (d1 & -> & Hv1 & HR1).
      assert (HR1' : Row s1 = Row s + 1)
        by (rewrite HR1; unfold u32_add; apply u32_small; lia).
      specialize (IH s1 (t ++ d1) HE). cbv zeta in IH. rewrite HR1' in IH.
      assert (Hext :
        flat_map (fun i => map (pair (Row s + 1 + Z.of_nat i))
                               (range_cols info))
                 (seq 0 (Z.to_nat (EndRow - (Row s + 1))))
        = flat_map (fun i => map (pair (Row s + Z.of_nat (S i)))
                                 (range_cols info))
                   (seq 0 (Z.to_nat (EndRow - (Row s + 1))))).
      { apply flat_map_ext. intros i. do 2 f_equal. lia. }
      rewrite Hext in IH.
      destruct (while_fuel n _ _ s1 e (t ++ d1)) as [s2 t2|st t2|];
        [| |exact I].
      * destruct IH as (d2 & -> & Hv2); [lia|]. exists (d1 ++ d2).
        rewrite visits_app, map_app, Hv1, Hv2, app_assoc. auto.
      * destruct IH as (d2 & rest & -> & Hv2 & Hst); [lia|].
        exists (d1 ++ d2), rest.
        rewrite visits_app, map_app, Hv1, Hv2, !app_assoc. auto.
    + destruct H1 as (d1 & rest & -> & Hv1 & Hst).
      exists d1. eexists. rewrite Hv1, <- app_assoc. auto.
  - replace (Z.to_nat (EndRow - Row s)) with 0%nat by lia.
    exists []. rewrite app_nil_r. cbv [ret]. cbn [visits map seq flat_map].
    auto.
Qed.

End WalkOrder.

(** The whole function. *)
Lemma PgmAndVerifyData_order (e : Env) (info : XNvm_EfusePrgmInfo)
  (RowData : ptr) (t : Trace) :
  0 <= ColStart info -> ColEnd info < 2 ^ 32 - 1 ->
  0 <= StartRow info -> 0 <= NumOfRows info ->
  StartRow info + NumOfRows info < 2 ^ 32 ->
  XNVM_EFUSE_ERR_INVALID_PARAM <> XST_SUCCESS ->
  match XNvm_EfusePgmAndVerifyData info RowData e t with
  | Normal Status t' =>
      exists d rest,
        t' = t ++ d /\ window info = map fst (visits d) ++ rest /\
        (Status = XST_SUCCESS -> rest = [])
  | GotoEND _ _ => False
  | OutOfFuel => True
  end.
Proof.
  intros HC0 HC1 HR HN HE Hinv.
  assert (Hnil : exists (d : Trace) (rest : list (Z * Z)),
            t = t ++ d /\ window info = map fst (visits d) ++ rest /\
            (XNVM_EFUSE_ERR_INVALID_PARAM = XST_SUCCESS -> rest = [])).
  { exists [], (window info). rewrite app_nil_r. cbn [visits map app].
    repeat split. intros; contradiction. }
  unfold XNvm_EfusePgmAndVerifyData, END_label. unfold bind at 1.
  destruct (_ && _); cbv [when goto_END ret]; [exact Hnil|].
  destruct RowData as [W|]; [|exact Hnil].
  unfold bind at 1. destruct (NumOfRows info =? 0); [exact Hnil|].
  unfold bind. unfold XNvm_EfusePgmAndVerifyData_walk, while.
  assert (HEnd : u32_add (StartRow info) (NumOfRows info)
                 = StartRow info + NumOfRows info)
    by (unfold u32_add; apply u32_small; lia).
  rewrite HEnd.
  assert (Hwin : window info
                 = flat_map (fun i => map (pair (StartRow info + Z.of_nat i))
                                          (range_cols info))
                     (seq 0 (Z.to_nat (StartRow info + NumOfRows info
                                       - StartRow info)))).
  { unfold window, range_rows. rewrite flat_map_map.
    replace (StartRow info + NumOfRows info - StartRow info)
      with (NumOfRows info) by lia.
    reflexivity. }
  match goal with
  | |- context [while_fuel ?f ?c ?b ?s0 e t] =>
      pose proof (walk_rows_order e info W HC0 HC1
                    (StartRow info + NumOfRows info) f s0 t HE HR) as H;
      destruct (while_fuel f c b s0 e t) as [s1 t1|st t1|]
  end; [| |exact I]; cbv zeta in H; cbn [Row] in H; rewrite <- Hwin in H.
  - destruct H as (d & -> & Hv).
    destruct (_ !=? _); cbv [ret]; exists d, []; rewrite app_nil_r; auto.
  - destruct H as (d & rest & -> & Hv & Hst). exists d, rest.
    split; [reflexivity|]. split; [exact Hv|]. intros; contradiction.
Qed.

(** X16. Whatever the hardware answers, a range walk visits the positions
    of its window in order, row by row and column by column, from the first
    one on: what it visited is an initial segment of the window, and the
    whole window when it returns success. *)
Theorem PgmAndVerifyData_visits_window_in_order (e : Env)
  (info : XNvm_EfusePrgmInfo) (RowData : ptr) (t t' : Trace) (Status : Z) :
  0 <= StartRow info -> 0 <= NumOfRows info ->
  StartRow info + NumOfRows info < 2 ^ 32 ->
  0 <= ColStart info -> ColEnd info < 2 ^ 32 - 1 ->
  XNVM_EFUSE_ERR_INVALID_PARAM <> XST_SUCCESS ->
  XNvm_EfusePgmAndVerifyData info RowData e t = Normal Status t' ->
  exists d rest,
    t' = t ++ d /\
    window info = map fst (visits d) ++ rest /\
    (Status = XST_SUCCESS -> rest = []).
Proof.
  intros HR HN HE HC0 HC1 Hinv Hrun.
  pose proof (PgmAndVerifyData_order e info RowData t HC0 HC1 HR HN HE Hinv)
    as H.
  rewrite Hrun in H. exact H.
Qed.

(** ** The words of control bits *)

Lemma quiet_while {S} (cond : S -> bool) (body : S -> M S) (s : S) :
  (forall s, quiet (body s)) -> quiet (while cond body s).
Proof.
  intros Hb e t. unfold while. generalize (fuel e) as n. intros n.
  revert s t. induction n as [|n IH]; intros s t; cbn [while_fuel];
    [exact I|].
  destruct (cond s).
  - unfold bind. specialize (Hb s e t).
    destruct (body s e t) as [s1 t1|st t1|]; [| exact Hb | exact I].
    destruct Hb as (d1 & -> & H1). specialize (IH s1 (t ++ d1)).
    destruct (while_fuel n cond body s1 e (t ++ d1)) as [s2 t2|st t2|];
      [| | exact I];
      destruct IH as (d2 & -> & H2); exists (d1 ++ d2);
      (split; [now rewrite app_assoc | now rewrite pgm_ops_app, H1, H2]).
  - exists []. now rewrite app_nil_r.
Qed.

Lemma quiet_ComputeProgrammableBits (ReqData PrgmData : ptr)
  (StartOffset EndOffset : Z) :
  quiet (XNvm_EfuseComputeProgrammableBits ReqData PrgmData
           StartOffset EndOffset).
Proof.
  unfold XNvm_EfuseComputeProgrammableBits.
  destruct ReqData, PrgmData; try apply quiet_ret.
  quiet_tac. apply quiet_while. intros s. quiet_tac.
Qed.

Lemma programs_within_quiet (P : Z * Z * Z * Z -> Prop) (e : Env) {A}
  (m : M A) : quiet m -> programs_within P e m.
Proof.
  intros H t. specialize (H e t).
  destruct (m e t); auto; destruct H as (d & -> & Hd); exists d;
    rewrite Hd; auto.
Qed.

Lemma programs_within_bind (P : Z * Z * Z * Z -> Prop) (e : Env) {A B}
  (m : M A) (k : A -> M B) :
  programs_within P e m -> (forall a, programs_within P e (k a)) ->
  programs_within P e (bind m k).
Proof.
  intros Hm Hk t. unfold bind. specialize (Hm t).
  destruct (m e t) as [a t1|s t1|]; [| exact Hm | exact I].
  destruct Hm as (d1 & -> & H1). specialize (Hk a (t ++ d1)).
  destruct (k a e (t ++ d1)) as [b t2|s t2|]; [| | exact I];
    destruct Hk as (d2 & -> & H2); exists (d1 ++ d2);
    (split; [now rewrite app_assoc
            | rewrite pgm_ops_app; apply Forall_app; auto]).
Qed.

Lemma programs_within_END (P : Z * Z * Z * Z -> Prop) (e : Env)
  (body : M Z) :
  programs_within P e body -> programs_within P e (END_label body).
Proof.
  intros H t. unfold END_label. specialize (H t).
  destruct (body e t); auto.
Qed.

(** The code after [END] programs nothing. *)
Lemma programs_only_write (P : Z * Z * Z * Z -> Prop) (e : Env)
  (body : M Z) :
  programs_within P e body ->
  programs_only P e
    (Status <- body ;;
     CloseStatus <- XNvm_EfuseCloseController ;;
     ret (if XST_SUCCESS =? Status then CloseStatus else Status)).
Proof.
  intros H t Status t'. unfold bind at 1. specialize (H t).
  destruct (body e t) as [s t1|s t1|]; [| discriminate | discriminate].
  destruct H as (d1 & -> & H1).
  destruct (CloseController_runs e (t ++ d1)) as (cs & d2 & Hc & _ & Hp & _).
  unfold bind, ret. rewrite Hc. intros E. injection E as _ <-.
  exists (d1 ++ d2). rewrite app_assoc. split; [reflexivity|].
  rewrite pgm_ops_app, Hp, app_nil_r. exact H1.
Qed.

Section ControlBits.
Variables (e : Env) (cache : Z -> Z).
Hypothesis Hcache : cache_holds e cache.
Hypothesis Hbits : XNVM_EFUSE_MAX_BITS_IN_ROW = 32.
Hypothesis Hword : 0 < XNVM_WORD_LEN.
Hypothesis Hinv : XNVM_EFUSE_ERR_INVALID_PARAM <> XST_SUCCESS.

(** The calculator on one word: a result other than the cache-parity error
    comes with the requested bits the cache word does not have. *)
Lemma ComputeProgrammableBits_one_word (Req Prgm : words) (Offset : Z)
  (t : Trace) :
  0 <= Offset -> Offset + XNVM_WORD_LEN < 2 ^ 32 ->
  match XNvm_EfuseComputeProgrammableBits (Some Req) (Some Prgm)
          Offset Offset e t with
  | Normal (st, out) t' =>
      st = XNVM_EFUSE_ERR_CACHE_PARITY /\ out = Some Prgm \/
      exists o, out = Some o /\
                o 0 = Z.land (u32_not (cache Offset)) (load Req 0)
  | GotoEND _ _ => False
  | OutOfFuel => True
  end.
Proof.
  intros H0 H1. unfold XNvm_EfuseComputeProgrammableBits.
  rewrite run_ReadReg. destruct (_ =? XNVM_EFUSE_ISR_CACHE_ERROR).
  { cbv [ret]. auto. }
  unfold bind at 1, while.
  destruct (fuel e) as [|[|n]] eqn:Hf.
  - exact I.
  - cbn [while_fuel fst]. rewrite Z.leb_refl. unfold bind at 1.
    rewrite run_ReadReg. exact I.
  - match goal with
    | |- context [while_fuel _ _ _ _ e ?t0] =>
        destruct (compute_loop e Req Offset Offset cache Hword H0 H1 Hcache
                    (S (S n)) 0 Prgm t0) as (s & d & Hrun & Hs);
          [lia | rewrite Z.mul_0_l, Z.add_0_r; lia | intros; lia |]
    end.
    rewrite Z.mul_0_l, Z.add_0_r in Hrun. cbv zeta in Hrun |- *.
    rewrite Hrun. cbv [ret]. right. exists (snd s). split; [reflexivity|].
    specialize (Hs 0). rewrite Z.mul_0_l, Z.add_0_r in Hs. apply Hs; lia.
Qed.

(** The walk over the word the calculator produced. *)
Lemma walk_new_bits (Offset Bits : Z) (info : XNvm_EfusePrgmInfo)
  (o : words) :
  word_range_ok Offset info ->
  o 0 = Z.land (u32_not (cache Offset)) (u32 Bits) ->
  programs_within (new_bit_op cache Offset Bits info) e
    (XNvm_EfusePgmAndVerifyData info (Some o)).
Proof.
  intros (_ & _ & HR & HN & HE & HC0 & HC1 & Hlen) Ho t.
  pose proof (PgmAndVerifyData_bits e info (Some o) t Hbits) as Hb.
  pose proof (PgmAndVerifyData_order e info (Some o) t HC0 HC1 HR HN HE Hinv)
    as Hord.
  destruct (XNvm_EfusePgmAndVerifyData info (Some o) e t) as [st t'| |];
    [|contradiction|exact I].
  destruct Hb as (d & -> & Hp & Hbit).
  destruct Hord as (d' & rest & E & Hwin & _).
  apply app_inv_head in E. subst d'.
  exists d. split; [reflexivity|]. rewrite Hp. unfold ops_of.
  apply Forall_forall. intros op Hin.
  apply in_map_iff in Hin. destruct Hin as ([[r c] b] & Hop & Hx).
  cbn [fst snd] in Hop. apply filter_In in Hx. destruct Hx as (Hx & Hb).
  cbn [snd] in Hb. subst b.
  apply In_nth_error in Hx. destruct Hx as (N & HN').
  assert (HNlen : (N < length (visits d))%nat)
    by (apply nth_error_Some; congruence).
  assert (Hlen' : (length (visits d) <= length (window info))%nat).
  { rewrite Hwin, length_app, length_map. lia. }
  pose proof (bits_ok_nth o 0 (visits d) Hbit N _ HN') as Hs.
  cbn [snd] in Hs. rewrite Z.add_0_l in Hs. unfold stream_bit in Hs.
  rewrite Z.div_small, Z.mod_small in Hs by lia.
  rewrite Ho, Z.land_spec in Hs. symmetry in Hs.
  apply andb_true_iff in Hs. destruct Hs as (Hc & Hq).
  exists N, r, c. split; [now symmetry|]. split.
  - rewrite Hwin, nth_error_app1 by (rewrite length_map; exact HNlen).
    rewrite nth_error_map, HN'. reflexivity.
  - split; [lia|]. split.
    + rewrite u32_testbit in Hq by lia. exact Hq.
    + unfold u32_not in Hc. rewrite u32_testbit in Hc by lia.
      rewrite Z.lnot_spec in Hc by lia. now apply negb_true_iff in Hc.
Qed.

(** A write function of the shape the four control-bit writers have. *)
Lemma control_word_write (EnvDisFlag Bits Offset Tag : Z)
  (info : XNvm_EfusePrgmInfo) :
  XNVM_EFUSE_ERR_CACHE_PARITY <> XST_SUCCESS ->
  word_range_ok Offset info ->
  programs_only (new_bit_op cache Offset Bits info) e
    (Status <-
       END_label
         (env_checks_TODO EnvDisFlag ;;
          Status <- XNvm_EfuseSetupController XNVM_EFUSE_MODE_PGM
                                              XNVM_EFUSE_MARGIN_RD ;;
          when (Status !=? XST_SUCCESS) (goto_END Status) ;;
          pBits <- addr_of Bits ;;
          pRdBits <- addr_of 0 ;;
          '(Status, pRdBits) <-
            XNvm_EfuseComputeProgrammableBits (Some pBits) (Some pRdBits)
              Offset Offset ;;
          when (Status !=? XST_SUCCESS) (goto_END Status) ;;
          Status <- XNvm_EfusePgmAndVerifyData info pRdBits ;;
          if Status !=? XST_SUCCESS
          then ret (Z.lor Status Tag)
          else ret Status) ;;
     CloseStatus <- XNvm_EfuseCloseController ;;
     ret (if XST_SUCCESS =? Status then CloseStatus else Status)).
Proof.
  intros Hpar Hok. apply programs_only_write, programs_within_END.
  apply programs_within_bind; [apply programs_within_quiet; quiet_tac|].
  intros _.
  apply programs_within_bind;
    [apply programs_within_quiet;
     unfold XNvm_EfuseSetupController; quiet_tac|].
  intros Status.
  apply programs_within_bind; [apply programs_within_quiet; quiet_tac|].
  intros _. unfold bind at 1 2. cbv [addr_of].
  intros t. unfold bind at 1.
  pose proof (quiet_ComputeProgrammableBits
                (Some (fun i => if i =? 0 then Bits else stack e i))
                (Some (fun i => if i =? 0 then 0 else stack e i))
                Offset Offset e t) as Hq.
  destruct Hok as (HO0 & HO1 & Hrest).
  pose proof (ComputeProgrammableBits_one_word
                (fun i => if i =? 0 then Bits else stack e i)
                (fun i => if i =? 0 then 0 else stack e i)
                Offset t HO0 HO1) as Hc.
  destruct (XNvm_EfuseComputeProgrammableBits _ _ Offset Offset e t)
    as [[st out] t1|st t1|]; [|contradiction|exact I].
  destruct Hq as (d1 & -> & Hd1).
  assert (Hstop : exists d, t ++ d1 = t ++ d /\
            Forall (new_bit_op cache Offset Bits info) (pgm_ops d))
    by (exists d1; rewrite Hd1; auto).
  destruct Hc as [(-> & ->)|(o & -> & Ho)].
  { rewrite (neqb_neq _ _ Hpar). exact Hstop. }
  unfold bind at 1. destruct (st !=? XST_SUCCESS); cbv [when goto_END ret];
    [exact Hstop|].
  assert (Ho' : o 0 = Z.land (u32_not (cache Offset)) (u32 Bits)).
  { rewrite Ho. unfold load. reflexivity. }
  pose proof (walk_new_bits Offset Bits info o
                (conj HO0 (conj HO1 Hrest)) Ho' (t ++ d1)) as Hw.
  unfold bind.
  destruct (XNvm_EfusePgmAndVerifyData info (Some o) e (t ++ d1))
    as [st2 t2|st2 t2|]; [| |exact I].
  - destruct Hw as (d2 & -> & H2).
    assert (Hdone : exists d, (t ++ d1) ++ d2 = t ++ d /\
              Forall (new_bit_op cache Offset Bits info) (pgm_ops d)).
    { exists (d1 ++ d2). rewrite app_assoc, pgm_ops_app, Hd1. auto. }
    destruct (st2 !=? XST_SUCCESS); exact Hdone.
  - destruct Hw as (d2 & -> & H2).
    exists (d1 ++ d2). rewrite app_assoc, pgm_ops_app, Hd1. auto.
Qed.

End ControlBits.

(** X17. Whatever the hardware answers, as long as the cache reads as
    [cache], each of the four control-bit writers programs new bits only:
    every single-bit operation it starts is for a bit [N] of its word that
    is requested and is not yet set in the cache word, at the [N]-th
    position of the window of that word. *)
Theorem control_bit_writes_program_new_bits_only (e : Env)
  (cache : Z -> Z) (EnvDisFlag Bits : Z) :
  cache_holds e cache ->
  XNVM_EFUSE_MAX_BITS_IN_ROW = 32 ->
  0 < XNVM_WORD_LEN ->
  XNVM_EFUSE_ERR_INVALID_PARAM <> XST_SUCCESS ->
  XNVM_EFUSE_ERR_CACHE_PARITY <> XST_SUCCESS ->
  (word_range_ok XNVM_EFUSE_CACHE_MISC_CTRL_CACHE_OFFSET misc_ctrl_range ->
   programs_only
     (new_bit_op cache XNVM_EFUSE_CACHE_MISC_CTRL_CACHE_OFFSET Bits
        misc_ctrl_range) e
     (XNvm_EfuseWriteMiscCtrlBits EnvDisFlag Bits)) /\
  (word_range_ok XNVM_EFUSE_CACHE_SECURITY_CTRL_OFFSET sec_ctrl_range ->
   programs_only
     (new_bit_op cache XNVM_EFUSE_CACHE_SECURITY_CTRL_OFFSET Bits
        sec_ctrl_range) e
     (XNvm_EfuseWriteSecCtrlBits EnvDisFlag Bits)) /\
  (word_range_ok XNVM_EFUSE_CACHE_SEC_MISC_1_OFFSET misc1_range ->
   programs_only
     (new_bit_op cache XNVM_EFUSE_CACHE_SEC_MISC_1_OFFSET Bits misc1_range) e
     (XNvm_EfuseWriteMisc1Bits EnvDisFlag Bits)) /\
  (word_range_ok XNVM_EFUSE_CACHE_BOOT_ENV_CTRL_OFFSET boot_env_ctrl_range ->
   programs_only
     (new_bit_op cache XNVM_EFUSE_CACHE_BOOT_ENV_CTRL_OFFSET Bits
        boot_env_ctrl_range) e
     (XNvm_EfuseWriteBootEnvCtrlBits EnvDisFlag Bits)).
Proof.
  intros Hcache Hbits Hword Hinv Hpar. split; [|split; [|split]]; intros Hok.
  - exact (control_word_write e cache Hcache Hbits Hword Hinv EnvDisFlag Bits
             _ XNVM_EFUSE_ERR_WRITE_MISC_CTRL_BITS _ Hpar Hok).
  - exact (control_word_write e cache Hcache Hbits Hword Hinv EnvDisFlag Bits
             _ XNVM_EFUSE_ERR_WRITE_SEC_CTRL_BITS _ Hpar Hok).
  - exact (control_word_write e cache Hcache Hbits Hword Hinv EnvDisFlag Bits
             _ XNVM_EFUSE_ERR_WRITE_MISC1_CTRL_BITS _ Hpar Hok).
  - exact (control_word_write e cache Hcache Hbits Hword Hinv EnvDisFlag Bits
             _ XNVM_EFUSE_ERR_WRITE_BOOT_ENV_CTRL _ Hpar Hok).
Qed.

(** ** What the calculator reads and writes *)

Lemma calls_of_app (a b : Trace) : calls_of (a ++ b) = calls_of a ++ calls_of b.
Proof. unfold calls_of. apply flat_map_app. Qed.

Section ComputeFrame.
Variables (e : Env) (Req : words) (StartOffset EndOffset : Z).
Hypothesis Hword : 0 < XNVM_WORD_LEN.
Hypothesis Hstart : 0 <= StartOffset.
Hypothesis Hend : EndOffset + XNVM_WORD_LEN < 2 ^ 32.

(** The loop, [j] words already done, whatever the cache answers. *)
Lemma compute_loop_frame (n : nat) : forall (j : Z) (P : words) (t : Trace),
  0 <= j ->
  match
    while_fuel n (fun s : Z * words => fst s <=? EndOffset)
      (fun s =>
         let Offset := fst s in
         ReadReg <- XNvm_EfuseReadReg XNVM_EFUSE_CACHE_BASEADDR Offset ;;
         let Idx := u32_sub Offset StartOffset / XNVM_WORD_LEN in
         ret (u32_add Offset XNVM_WORD_LEN,
              store (snd s) Idx (Z.land (u32_not ReadReg) (load Req Idx))))
      (StartOffset + j * XNVM_WORD_LEN, P) e t
  with
  | Normal s t' =>
      exists d,
        t' = t ++ d /\
        calls_of d
        = map (fun k => CReadReg XNVM_EFUSE_CACHE_BASEADDR
                          (StartOffset + Z.of_nat k * XNVM_WORD_LEN))
              (seq (Z.to_nat j)
                   (Z.to_nat ((EndOffset
                               - (StartOffset + j * XNVM_WORD_LEN)
                               + XNVM_WORD_LEN) / XNVM_WORD_LEN))) /\
        forall i, i < j \/ EndOffset < StartOffset + i * XNVM_WORD_LEN ->
                  snd s i = P i
  | GotoEND _ _ => False
  | OutOfFuel => True
  end.
Proof.
  match goal with
  | |- context [while_fuel _ _ ?b] => set (body := b)
  end.
  induction n as [|n IH]; intros j P t Hj; [exact I|].
  cbn [while_fuel fst snd].
  assert (HjW : 0 <= j * XNVM_WORD_LEN)
    by (apply Z.mul_nonneg_nonneg; lia).
  destruct (Z.leb_spec (StartOffset + j * XNVM_WORD_LEN) EndOffset)
    as [Hin|Hout].
  - assert (HIdx : u32_sub (StartOffset + j * XNVM_WORD_LEN) StartOffset
                   / XNVM_WORD_LEN = j).
    { unfold u32_sub.
      replace (StartOffset + j * XNVM_WORD_LEN - StartOffset)
        with (j * XNVM_WORD_LEN) by lia.
      rewrite u32_small by lia. apply Z.div_mul. lia. }
    assert (HOff : u32_add (StartOffset + j * XNVM_WORD_LEN) XNVM_WORD_LEN
                   = StartOffset + (j + 1) * XNVM_WORD_LEN).
    { unfold u32_add. rewrite u32_small by lia. lia. }
    unfold bind at 1. unfold body at 1. cbv beta zeta. cbn [fst snd].
    rewrite run_ReadReg. rewrite HIdx, HOff. unfold ret at 1.
    match goal with
    | |- context [while_fuel n _ body (_, ?P1) e ?t1] =>
        specialize (IH (j + 1) P1 t1); set (Q := P1) in *
    end.
    destruct (while_fuel n _ body _ e _) as [s t'| |]; [| |exact I].
    + destruct IH as (d & -> & Hcalls & Hframe); [lia|].
      eexists (_ :: d). rewrite <- app_assoc. split; [reflexivity|].
      cbn [calls_of flat_map app]. fold (calls_of d). rewrite Hcalls.
      set (x := EndOffset - (StartOffset + (j + 1) * XNVM_WORD_LEN)
                + XNVM_WORD_LEN).
      replace (EndOffset - (StartOffset + j * XNVM_WORD_LEN) + XNVM_WORD_LEN)
        with (x + 1 * XNVM_WORD_LEN) by (unfold x; lia).
      rewrite Z.div_add by lia.
      assert (Hx : 0 <= x / XNVM_WORD_LEN)
        by (apply Z.div_pos; unfold x; lia).
      replace (Z.to_nat (x / XNVM_WORD_LEN + 1))
        with (S (Z.to_nat (x / XNVM_WORD_LEN))) by lia.
      replace (Z.to_nat (j + 1)) with (S (Z.to_nat j)) by lia.
      cbn [seq map]. rewrite Z2Nat.id by lia.
      split; [reflexivity|].
      intros i Hi. rewrite Hframe.
      * unfold Q, store. destruct (Z.eqb_spec i j) as [->|]; [|reflexivity].
        lia.
      * destruct Hi as [Hi|Hi]; [left; lia | right; exact Hi].
    + apply IH. lia.
  - exists []. rewrite app_nil_r. cbv [ret]. split; [reflexivity|].
    cbn [snd]. split; [|intros; reflexivity].
    assert (E : (EndOffset - (StartOffset + j * XNVM_WORD_LEN)
                 + XNVM_WORD_LEN) / XNVM_WORD_LEN <= 0).
    { apply Z.lt_succ_r. apply Z.div_lt_upper_bound; lia. }
    match goal with
    | |- context [seq _ (Z.to_nat ?x)] => replace (Z.to_nat x) with 0%nat by lia
    end.
    reflexivity.
Qed.

End ComputeFrame.

(** X18. Whatever the cache answers, a call of the calculator that finds no
    cache error reads the ISR and then each word of the cache from the
    start offset up to and including the end offset, once and in order of
    the offsets, and nothing else; it writes only the words of the output
    buffer that belong to that range, and with the cache error flag set it
    writes none. *)
Theorem ComputeProgrammableBits_stays_in_range (e : Env) (t t' : Trace)
  (Req Prgm : words) (StartOffset EndOffset Status : Z) (out : ptr) :
  0 < XNVM_WORD_LEN ->
  0 <= StartOffset ->
  EndOffset + XNVM_WORD_LEN < 2 ^ 32 ->
  XNvm_EfuseComputeProgrammableBits (Some Req) (Some Prgm)
    StartOffset EndOffset e t = Normal (Status, out) t' ->
  exists o d,
    out = Some o /\ t' = t ++ d /\
    (forall i, i < 0 \/ EndOffset < StartOffset + i * XNVM_WORD_LEN ->
               o i = Prgm i) /\
    (isr_cache_error e t = true ->
     Status = XNVM_EFUSE_ERR_CACHE_PARITY /\ o = Prgm) /\
    (isr_cache_error e t = false ->
     Status = XST_SUCCESS /\
     calls_of d
     = CReadReg XNVM_EFUSE_CTRL_BASEADDR XNVM_EFUSE_ISR_REG_OFFSET
       :: map (fun k => CReadReg XNVM_EFUSE_CACHE_BASEADDR
                          (StartOffset + Z.of_nat k * XNVM_WORD_LEN))
              (seq 0 (Z.to_nat ((EndOffset - StartOffset + XNVM_WORD_LEN)
                                / XNVM_WORD_LEN)))).
Proof.
  intros Hword Hstart Hend. unfold XNvm_EfuseComputeProgrammableBits.
  rewrite run_ReadReg. unfold isr_cache_error. cbv zeta.
  destruct (_ =? XNVM_EFUSE_ISR_CACHE_ERROR).
  { cbv [ret]. intros E. injection E as <- <- <-.
    eexists Prgm, [_]. repeat split; auto; discriminate. }
  unfold bind at 1, while.
  match goal with
  | |- context [while_fuel ?f _ _ _ e ?t0] =>
      pose proof (compute_loop_frame e Req StartOffset EndOffset
                    Hword Hstart Hend f 0 Prgm t0 (Z.le_refl 0)) as H
  end.
  rewrite Z.mul_0_l, Z.add_0_r in H. cbv zeta in H |- *.
  destruct (while_fuel _ _ _ _ e _) as [s t1| |];
    [|contradiction|discriminate].
  destruct H as (d & -> & Hcalls & Hframe).
  cbv [ret]. intros E. injection E as <- <- <-.
  eexists (snd s), (_ :: d). rewrite <- app_assoc.
  split; [reflexivity|]. split; [reflexivity|].
  split; [exact Hframe|]. split; [discriminate|].
  intros _. split; [reflexivity|].
  cbn [calls_of flat_map app]. fold (calls_of d). rewrite Hcalls.
  reflexivity.
Qed.

(** ** Pages and verification modes *)

Lemma quiet_zero_array (n : Z) : quiet (zero_array n).
Proof. intros e t. exists []. now rewrite app_nil_r. Qed.

Ltac quiet_leaf :=
  repeat first
    [ apply quiet_ComputeProgrammableBits
    | apply quiet_IsPufHelperDataEmpty
    | apply quiet_zero_array
    | quiet_step
    | progress unfold XNvm_EfuseSetupController,
        XNvm_EfuseCacheLoadNPrgmProtectionBits, XNvm_EfuseCacheReload,
        XNvm_EfuseCheckAesKeyCrc, XNvm_AesCrcCalc,
        XNvm_EfuseValidateAesKeyWriteReq,
        XNvm_EfuseValidatePpkHashWriteReq, XNvm_EfuseValidateIvWriteReq,
        XNvm_EfuseValidateDecOnlyRequest, XNvm_EfuseValidateFipsInfo,
        xil_printf ].

Lemma programs_within_walk (P : Z * Z * Z * Z -> Prop) (e : Env)
  (info : XNvm_EfusePrgmInfo) (RowData : ptr) :
  XNVM_EFUSE_MAX_BITS_IN_ROW = 32 ->
  (forall r c, P (EfuseType info, r, c, SkipVerify info)) ->
  programs_within P e (XNvm_EfusePgmAndVerifyData info RowData).
Proof.
  intros Hbits HP t.
  pose proof (PgmAndVerifyData_bits e info RowData t Hbits) as H.
  destruct (XNvm_EfusePgmAndVerifyData info RowData e t);
    [|contradiction|exact I].
  destruct H as (d & -> & Hp & _). exists d. split; [reflexivity|].
  rewrite Hp. unfold ops_of. apply Forall_forall. intros op Hin.
  apply in_map_iff in Hin. destruct Hin as (x & <- & _). apply HP.
Qed.

Lemma programs_within_bit (P : Z * Z * Z * Z -> Prop) (e : Env)
  (Page Row Col Skip : Z) :
  P (Page, Row, Col, Skip) ->
  programs_within P e (XNvm_EfusePgmAndVerifyBit Page Row Col Skip).
Proof.
  intros HP t.
  destruct (PgmAndVerifyBit_runs e t Page Row Col Skip)
    as (st & d & -> & _ & Hp & _).
  exists d. rewrite Hp. auto.
Qed.

Lemma programs_within_ret_bind (P : Z * Z * Z * Z -> Prop) (e : Env) {A B}
  (a : A) (k : A -> M B) :
  programs_within P e (k a) -> programs_within P e (bind (ret a) k).
Proof. intros H t. exact (H t). Qed.

Lemma programs_within_goto_bind (P : Z * Z * Z * Z -> Prop) (e : Env) {A B}
  (s : Z) (k : A -> M B) :
  programs_within P e (bind (goto_END s) k).
Proof. intros t. exists []. rewrite app_nil_r. cbn. auto. Qed.

Lemma programs_within_when (P : Z * Z * Z * Z -> Prop) (e : Env)
  (c : bool) (m : M unit) :
  programs_within P e m -> programs_within P e (when c m).
Proof.
  destruct c; [auto|]. intros _ t. exists []. rewrite app_nil_r. cbn. auto.
Qed.

Ltac within_side :=
  intros;
  unfold page0_unverified, page0_verified, page01_verified, op_page, op_skip;
  cbn [fst snd EfuseType SkipVerify]; auto.

Ltac within_step Hbits :=
  match goal with
  | |- programs_within _ _ (END_label _) => apply programs_within_END
  | |- programs_within _ _ (XNvm_EfusePgmAndVerifyData _ _) =>
      apply programs_within_walk; [exact Hbits | within_side]
  | |- programs_within _ _ (XNvm_EfusePgmAndVerifyBit _ _ _ _) =>
      apply programs_within_bit; within_side
  | |- programs_within _ _ (bind (if ?c then _ else _) _) => destruct c
  | |- programs_within _ _ (bind (ret _) _) =>
      apply programs_within_ret_bind
  | |- programs_within _ _ (bind (goto_END _) _) =>
      apply programs_within_goto_bind
  | |- programs_within _ _ (bind _ _) =>
      apply programs_within_bind; [|intro]
  | |- programs_within _ _ (if ?c then _ else _) => destruct c
  | |- programs_within _ _ (match ?x with _ => _ end) => destruct x
  | |- programs_within _ _ _ =>
      solve [apply programs_within_quiet; quiet_leaf]
  | |- programs_within _ _ (when _ _) => apply programs_within_when
  | |- programs_within _ _ _ => progress cbv beta zeta
  | |- programs_within _ _ _ =>
      progress unfold XNvm_EfusePrgmAesKey, XNvm_EfusePrgmIv,
        XNvm_EfusePrgmPpkHash, XNvm_EfusePrgmDmeUserKey,
        XNvm_EfusePrgmFipsInfo, XNvm_EfuseWritePufSecCtrl,
        XNvm_EfuseWritePufSynData, XNvm_EfuseWritePufChash,
        XNvm_EfuseWritePufAux, XNvm_EfuseWriteRoSwapEn,
        XNvm_EfuseWriteDmeUserKey_checked
  end.

Ltac within_tac Hbits := repeat within_step Hbits.

(** X19. The AES keys and the UDS are programmed without being read back:
    every single-bit operation [XNvm_EfuseWriteAesKey] and
    [XNvm_EfuseWriteUds] start is on page 0 and in skip-verify mode, and a
    single-bit operation in that mode is the programming step alone. *)
Theorem secrets_are_programmed_without_read_back :
  XNVM_EFUSE_MAX_BITS_IN_ROW = 32 ->
  (forall e KeyType EfuseKey,
     programs_only page0_unverified e
       (XNvm_EfuseWriteAesKey KeyType EfuseKey)) /\
  (forall e EnvDisFlag EfuseUds,
     programs_only page0_unverified e
       (XNvm_EfuseWriteUds EnvDisFlag EfuseUds)) /\
  (forall e t Page Row Col Skip,
     Skip <> 0 ->
     XNvm_EfusePgmAndVerifyBit Page Row Col Skip e t
     = XNvm_EfusePgmBit Page Row Col e
         (t ++ [Ghost (Enter_PgmAndVerifyBit Page Row Col Skip)])).
Proof.
  intros Hbits. split; [|split].
  - intros e KeyType EfuseKey. apply programs_only_write.
    unfold XNvm_EfuseWriteAesKey_body. within_tac Hbits.
  - intros e EnvDisFlag EfuseUds. apply programs_only_write.
    unfold XNvm_EfuseWriteUds_body. within_tac Hbits.
  - intros e t Page Row Col Skip HSkip.
    unfold XNvm_EfusePgmAndVerifyBit. unfold bind at 1. cbv [ghost].
    destruct (PgmBit_run e
                (t ++ [Ghost (Enter_PgmAndVerifyBit Page Row Col Skip)])
                Page Row Col) as (a & w & c & Hrun).
    unfold bind. rewrite Hrun.
    destruct (Z.eqb_spec Skip 0) as [?|_]; [contradiction|].
    destruct (XST_SUCCESS =? _); reflexivity.
Qed.

(** X20. Every write function other than those of the AES keys, the UDS
    and the IVs reads back each bit it programs: all its single-bit
    operations are in program-and-verify mode.  They are on page 0, except
    those of [XNvm_EfuseWritePuf], which are on page 0 or page 1; so none of
    these functions programs a bit of page 2. *)
Theorem other_writes_verify_every_bit :
  XNVM_EFUSE_MAX_BITS_IN_ROW = 32 ->
  forall e : Env,
  (forall a b, programs_only page0_verified e (XNvm_EfuseWritePpkHash a b)) /\
  (forall a b,
     programs_only page0_verified e (XNvm_EfuseWriteGlitchConfigBits a b)) /\
  (forall a, programs_only page0_verified e (XNvm_EfuseWriteDecOnly a)) /\
  (forall a b,
     programs_only page0_verified e (XNvm_EfuseWriteRevocationID a b)) /\
  (forall a b,
     programs_only page0_verified e (XNvm_EfuseWriteOffChipRevokeID a b)) /\
  (forall a b,
     programs_only page0_verified e (XNvm_EfuseWriteMiscCtrlBits a b)) /\
  (forall a b,
     programs_only page0_verified e (XNvm_EfuseWriteSecCtrlBits a b)) /\
  (forall a b, programs_only page0_verified e (XNvm_EfuseWriteMisc1Bits a b)) /\
  (forall a b,
     programs_only page0_verified e (XNvm_EfuseWriteBootEnvCtrlBits a b)) /\
  (forall a b c,
     programs_only page0_verified e (XNvm_EfuseWriteFipsInfo a b c)) /\
  (forall a b,
     programs_only page0_verified e (XNvm_EfuseWriteDmeUserKey a b)) /\
  (forall a b, programs_only page0_verified e (XNvm_EfuseWriteDmeRevoke a b)) /\
  (forall a,
     programs_only page0_verified e
       (XNvm_EfuseWriteDisableInplacePlmUpdate a)) /\
  (forall a b,
     programs_only page0_verified e (XNvm_EfuseWriteBootModeDisable a b)) /\
  (forall a b, programs_only page0_verified e (XNvm_EfuseWriteDmeMode a b)) /\
  (forall a, programs_only page01_verified e (XNvm_EfuseWritePuf a)).
Proof.
  intros Hbits e. repeat split; intros; apply programs_only_write.
  - unfold XNvm_EfuseWritePpkHash_body. within_tac Hbits.
  - unfold XNvm_EfuseWriteGlitchConfigBits_body. within_tac Hbits.
  - unfold XNvm_EfuseWriteDecOnly_body. within_tac Hbits.
  - unfold XNvm_EfuseWriteRevocationID_body. within_tac Hbits.
  - unfold XNvm_EfuseWriteOffChipRevokeID_body. within_tac Hbits.
  - unfold XNvm_EfuseWriteMiscCtrlBits_body. within_tac Hbits.
  - unfold XNvm_EfuseWriteSecCtrlBits_body. within_tac Hbits.
  - unfold XNvm_EfuseWriteMisc1Bits_body. within_tac Hbits.
  - unfold XNvm_EfuseWriteBootEnvCtrlBits_body. within_tac Hbits.
  - unfold XNvm_EfuseWriteFipsInfo_body. within_tac Hbits.
  - unfold XNvm_EfuseWriteDmeUserKey_body. within_tac Hbits.
  - unfold XNvm_EfuseWriteDmeRevoke_body. within_tac Hbits.
  - unfold XNvm_EfuseWriteDisableInplacePlmUpdate_body. within_tac Hbits.
  - unfold XNvm_EfuseWriteBootModeDisable_body. within_tac Hbits.
  - unfold XNvm_EfuseWriteDmeMode_body. within_tac Hbits.
  - unfold XNvm_EfuseWritePuf_body. within_tac Hbits.
Qed.

(** ** The glitch configuration and its write lock *)

Lemma walk_grows (e : Env) (info : XNvm_EfusePrgmInfo) (RowData : ptr)
  (t : Trace) :
  match XNvm_EfusePgmAndVerifyData info RowData e t with
  | Normal _ t' => exists d, t' = t ++ d
  | GotoEND _ _ => False
  | OutOfFuel => True
  end.
Proof.
  pose proof (no_close_PgmAndVerifyData info RowData e t) as H.
  unfold XNvm_EfusePgmAndVerifyData, END_label in *.
  match goal with
  | |- match (match ?m with _ => _ end) with _ => _ end =>
      destruct m as [s t1|s t1|]
  end; try exact I; destruct H as (d & -> & _); exists d; reflexivity.
Qed.

(** X21. [XNvm_EfuseWriteGlitchConfigBits] programs the write lock of the
    glitch configuration only after the configuration data has been
    programmed with success, and only when a bit outside the data mask is
    requested that the cache does not have.  A call that returns has
    programmed nothing, or it has walked the configuration range over the
    new data bits and then either stopped or started exactly the lock
    operation, the latter only after a walk that returned success. *)
Theorem WriteGlitchConfigBits_locks_after_config (e : Env) (cache : Z -> Z)
  (EnvDisFlag GlitchConfig : Z) (t t' : Trace) (Status : Z) :
  cache_holds e cache ->
  0 < XNVM_WORD_LEN ->
  0 <= XNVM_EFUSE_CACHE_ANLG_TRIM_3_OFFSET ->
  XNVM_EFUSE_CACHE_ANLG_TRIM_3_OFFSET + XNVM_WORD_LEN < 2 ^ 32 ->
  XNVM_EFUSE_ERR_CACHE_PARITY <> XST_SUCCESS ->
  XNvm_EfuseWriteGlitchConfigBits EnvDisFlag GlitchConfig e t
    = Normal Status t' ->
  let new :=
    u32 (Z.land (u32_not (cache XNVM_EFUSE_CACHE_ANLG_TRIM_3_OFFSET))
                (u32 GlitchConfig)) in
  exists d, t' = t ++ d /\ locks_after_config e new t d.
Proof.
  intros Hcache Hword HO0 HO1 Hpar Hrun new.
  assert (Hbody :
    match XNvm_EfuseWriteGlitchConfigBits_body EnvDisFlag GlitchConfig e t
    with
    | Normal _ t1 =>
        exists d, t1 = t ++ d /\ locks_after_config e new t d
    | GotoEND _ _ => False
    | OutOfFuel => True
    end).
  { unfold XNvm_EfuseWriteGlitchConfigBits_body, END_label.
    unfold bind at 1. unfold env_checks_TODO.
    assert (Henv : when (EnvDisFlag !=? TRUE) (ret tt) e t = Normal tt t)
      by (destruct (EnvDisFlag !=? TRUE); reflexivity).
    rewrite Henv. unfold XNvm_EfuseSetupController. rewrite run_status_of.
    set (ev := Ext _ (respond e t _)).
    unfold bind at 1.
    destruct (_ !=? XST_SUCCESS); cbv [when goto_END ret].
    { exists [ev]. split; [reflexivity | left; reflexivity]. }
    unfold bind at 1 2. cbv [addr_of]. unfold bind at 1.
    set (Req := fun i : Z => if i =? 0 then GlitchConfig else stack e i).
    set (Prgm := fun i : Z => if i =? 0 then 0 else stack e i).
    pose proof (quiet_ComputeProgrammableBits (Some Req) (Some Prgm)
                  XNVM_EFUSE_CACHE_ANLG_TRIM_3_OFFSET
                  XNVM_EFUSE_CACHE_ANLG_TRIM_3_OFFSET e (t ++ [ev])) as Hq.
    pose proof (ComputeProgrammableBits_one_word e cache Hcache Hword
                  Req Prgm XNVM_EFUSE_CACHE_ANLG_TRIM_3_OFFSET (t ++ [ev])
                  HO0 HO1) as Hc.
    destruct (XNvm_EfuseComputeProgrammableBits _ _ _ _ e (t ++ [ev]))
      as [[st0 out] t1|st0 t1|]; [|contradiction|exact I].
    destruct Hq as (d0 & -> & Hd0).
    assert (Hstop : exists d, (t ++ [ev]) ++ d0 = t ++ d /\
                                locks_after_config e new t d).
    { exists (ev :: d0). rewrite <- app_assoc. split; [reflexivity|].
      left. unfold ev. cbn [pgm_ops]. exact Hd0. }
    destruct Hc as [(-> & ->)|(o & -> & Ho)].
    { rewrite (neqb_neq _ _ Hpar). exact Hstop. }
    unfold bind at 1. destruct (st0 !=? XST_SUCCESS); cbv [when goto_END ret];
      [exact Hstop|].
    clear Hstop. cbv zeta. unfold bind at 1. cbv [addr_of].
    assert (Hnew : load o 0 = new).
    { unfold load, new. rewrite Ho. reflexivity. }
    rewrite Hnew.
    set (D := fun i : Z =>
                if i =? 0
                then Z.land new XNVM_EFUSE_GLITCH_CONFIG_DATA_MASK
                else stack e i).
    change (XNvm_EfusePgmAndVerifyData _ (Some D))
      with (XNvm_EfusePgmAndVerifyData glitch_config_range (Some D)).
    pose proof (walk_grows e glitch_config_range (Some D)
                  ((t ++ [ev]) ++ d0)) as Hw.
    unfold bind at 1.
    destruct (XNvm_EfusePgmAndVerifyData glitch_config_range (Some D) e
                ((t ++ [ev]) ++ d0)) as [st t2|st t2|] eqn:Hwalk;
      [|contradiction|exact I].
    destruct Hw as (d2 & ->).
    assert (Hwalk' :
      XNvm_EfusePgmAndVerifyData glitch_config_range (Some D) e
        (t ++ ev :: d0) = Normal st (t ++ (ev :: d0) ++ d2)).
    { rewrite <- !app_assoc in Hwalk. exact Hwalk. }
    assert (Hpre : pgm_ops (ev :: d0) = [])
      by (unfold ev; cbn [pgm_ops]; exact Hd0).
    unfold bind at 1.
    destruct (Z.eqb_spec st XST_SUCCESS) as [->|Hst]; cbv [neqb negb].
    - rewrite Z.eqb_refl. cbv [when ret].
      destruct (Z.eqb_spec
                  (Z.land new (u32_not XNVM_EFUSE_GLITCH_CONFIG_DATA_MASK)) 0)
        as [Hlk|Hlk]; cbv [negb].
      + exists ((ev :: d0) ++ d2 ++ []).
        split; [rewrite app_nil_r, <- !app_assoc; reflexivity|].
        right. exists (ev :: d0), D, XST_SUCCESS, d2, [].
        repeat split; auto.
      + destruct (PgmAndVerifyBit_runs e (((t ++ [ev]) ++ d0) ++ d2)
                    XNVM_EFUSE_PAGE_0 XNVM_EFUSE_GLITCH_DET_WR_LK_ROW
                    XNVM_EFUSE_GLITCH_DET_WR_LK_COL_NUM
                    XNVM_EFUSE_PROGRAM_VERIFY)
          as (st3 & d3 & Hbit & _ & Hp3 & _).
        unfold bind. rewrite Hbit.
        assert (Hend : exists d,
          ((((t ++ [ev]) ++ d0) ++ d2) ++ d3) = t ++ d /\
          locks_after_config e new t d).
        { exists ((ev :: d0) ++ d2 ++ d3).
          split; [rewrite <- !app_assoc; reflexivity|].
          right. exists (ev :: d0), D, XST_SUCCESS, d2, d3.
          repeat split; auto. }
        destruct (st3 =? XST_SUCCESS); exact Hend.
    - destruct (Z.eqb_spec st XST_SUCCESS) as [?|_]; [contradiction|].
      cbv [negb when goto_END].
      exists ((ev :: d0) ++ d2 ++ []).
      split; [rewrite app_nil_r, <- !app_assoc; reflexivity|].
      right. exists (ev :: d0), D, st, d2, [].
      repeat split; auto. }
  unfold XNvm_EfuseWriteGlitchConfigBits in Hrun. unfold bind at 1 in Hrun.
  destruct (XNvm_EfuseWriteGlitchConfigBits_body EnvDisFlag GlitchConfig e t)
    as [s t1|s t1|]; [|contradiction|discriminate].
  destruct Hbody as (d & -> & Hd).
  destruct (CloseController_runs e (t ++ d)) as (cs & dc & Hc & _ & Hpc & _).
  unfold bind, ret in Hrun. rewrite Hc in Hrun. injection Hrun as _ <-.
  exists (d ++ dc). rewrite app_assoc. split; [reflexivity|].
  destruct Hd as [Hd|(d1 & D & st & d2 & d3 & -> & Hd1 & HD & Hwalk & Hd3)].
  - left. rewrite pgm_ops_app, Hd, Hpc. reflexivity.
  - right. exists d1, D, st, d2, (d3 ++ dc).
    rewrite <- !app_assoc. repeat split; auto.
    rewrite pgm_ops_app, Hpc, app_nil_r. exact Hd3.
Qed.

(** ** The failures of the IV programming *)

(** X22. The failures of [XNvm_EfusePrgmIv] before the calculator's loop.
    An IV type that is none of the four is refused with the
    invalid-parameter code and nothing is read.  With a valid IV type and
    the cache error flag set, the function has read the ISR only and
    returns the cache-parity code as the calculator gave it, without the
    error code of the IV type. *)
Theorem PrgmIv_failures_before_the_loop (e : Env) (t : Trace) (IvType : Z)
  (EfuseIv : words) :
  (iv_range_of IvType = None ->
   XNvm_EfusePrgmIv IvType EfuseIv e t
   = Normal XNVM_EFUSE_ERR_INVALID_PARAM t) /\
  (iv_range_of IvType <> None ->
   isr_cache_error e t = true ->
   XNVM_EFUSE_ERR_CACHE_PARITY <> XST_SUCCESS ->
   XNvm_EfusePrgmIv IvType EfuseIv e t
   = Normal XNVM_EFUSE_ERR_CACHE_PARITY
       (t ++ [Ext (CReadReg XNVM_EFUSE_CTRL_BASEADDR XNVM_EFUSE_ISR_REG_OFFSET)
                  (respond e t (CReadReg XNVM_EFUSE_CTRL_BASEADDR
                                         XNVM_EFUSE_ISR_REG_OFFSET))])).
Proof.
  split.
  - intros Hsel. unfold XNvm_EfusePrgmIv, END_label. unfold bind at 1.
    cbv [zero_array]. unfold bind at 1. unfold iv_range_of in Hsel.
    destruct (IvType =? XNVM_EFUSE_META_HEADER_IV_RANGE); [discriminate|].
    destruct (IvType =? XNVM_EFUSE_BLACK_IV); [discriminate|].
    destruct (IvType =? XNVM_EFUSE_PLM_IV_RANGE); [discriminate|].
    destruct (IvType =? XNVM_EFUSE_DATA_PARTITION_IV_RANGE); [discriminate|].
    reflexivity.
  - intros Hsel Hisr Hne.
    destruct (iv_range_of IvType) as [[IvOffset info]|] eqn:E;
      [|congruence].
    destruct (PrgmIv_selected IvType EfuseIv IvOffset info e t E)
      as (Prgm & ->).
    unfold END_label. unfold bind at 1.
    unfold XNvm_EfuseComputeProgrammableBits_array.
    rewrite run_ReadReg. unfold isr_cache_error in Hisr. cbv zeta in Hisr.
    rewrite Hisr. cbv [ret]. unfold bind at 1.
    apply Z.eqb_neq in Hne. unfold neqb. rewrite Hne. reflexivity.
Qed.

(** ** The CRC of the UDS *)






End Properties.

(** * The properties at work on the test configuration *)

#[local] Existing Instance test_xstatus.
#[local] Existing Instance test_api.
#[local] Existing Instance test_hw.
#[local] Existing Instance test_layout.

Lemma test_env_programs_promptly : programs_promptly test_env.
Proof. intros t. split; [reflexivity | vm_compute; discriminate]. Qed.

Lemma test_env_reads_back_set : reads_back_set test_env.
Proof. intros t. repeat split. Qed.

(** On the favourable test hardware a single-bit operation on any column of
    a row succeeds. *)
Lemma test_env_bit_succeeds (t : Trace) (Page Row Col Skip : Z) :
  0 <= Col < 32 ->
  exists t',
    XNvm_EfusePgmAndVerifyBit Page Row Col Skip test_env t
      = Normal XST_SUCCESS t'.
Proof.
  intros HCol.
  apply (cooperative_bit_succeeds test_env t Page Row Col Skip).
  - discriminate.
  - exact test_env_programs_promptly.
  - exact test_env_reads_back_set.
  - exact HCol.
Qed.

Ltac concrete :=
  vm_compute; repeat split;
  first [ reflexivity | discriminate
        | let H := fresh in intro H; discriminate H ].

Lemma test_range_ok : range_ok test_range.
Proof. split; [left; reflexivity|]. repeat split; concrete. Qed.

Lemma test_range_bits_succeed : every_bit_succeeds test_env test_range.
Proof.
  intros t r c _ Hc. apply test_env_bit_succeeds.
  change (4 <= c <= 11) in Hc. lia.
Qed.

(** C1 on a cache word [0xFFFF0000] and the request [0x0000FFFF]. *)
Lemma ComputeProgrammableBits_masks_burned_bits_witness :
  exists out d,
    XNvm_EfuseComputeProgrammableBits (Some (one_word 0x0000FFFF))
      (Some (one_word 0)) 0x40 0x40 half_env []
    = Normal (XST_SUCCESS, Some out) ([] ++ d) /\
    out 0 = 0x0000FFFF /\ Z.land (out 0) 0xFFFF0000 = 0.
Proof.
  destruct (ComputeProgrammableBits_masks_burned_bits half_env []
              (one_word 0x0000FFFF) (one_word 0) 0x40 0x40
              (fun _ => 0xFFFF0000))
    as (out & d & Hrun & Hout).
  - concrete.
  - concrete.
  - concrete.
  - concrete.
  - reflexivity.
  - intros t o. reflexivity.
  - exists out, d. split; [exact Hrun|].
    destruct (Hout 0) as (_ & H2 & H3 & _); [concrete | concrete |].
    split; [apply H3; reflexivity | exact H2].
Defined.

(** C3 on the test range: 5 rows of 8 columns. *)
Lemma PgmAndVerifyData_walks_window_witness :
  exists s d,
    XNvm_EfusePgmAndVerifyData_walk test_range test_data test_env []
      = Normal s ([] ++ d) /\
    map fst (visits d) = window test_range /\
    Z.of_nat (length (visits d)) = 5 * (11 - 4 + 1) /\
    Row s = 2 + 5 /\
    XNvm_EfusePgmAndVerifyData test_range (Some test_data) test_env []
      = Normal XST_SUCCESS ([] ++ d).
Proof.
  destruct (PgmAndVerifyData_walks_window test_env test_range test_data [])
    as (s & d & H1 & H2 & H3 & H4 & _ & H6).
  - exact test_range_ok.
  - exact test_range_bits_succeed.
  - concrete.
  - concrete.
  - exists s, d. auto.
Defined.

(** C4 on the test range, whose rows are 8 bits wide: the walk crosses from
    the first data word into the second in the middle of the fifth row. *)
Lemma walk_reads_stream_in_order_witness :
  exists Status d,
    XNvm_EfusePgmAndVerifyData test_range (Some test_data) test_env []
      = Normal Status ([] ++ d) /\
    forall (N : nat) (r c : Z) (b : bool),
      nth_error (visits d) N = Some (r, c, b) ->
      b = Z.testbit (test_data (Z.of_nat N / 32)) (Z.of_nat N mod 32).
Proof.
  destruct (walk_window_ok test_env test_range test_data []
              test_range_ok test_range_bits_succeed)
    as (s & d0 & _ & _ & _ & _ & _ & Hrun); [concrete | concrete |].
  destruct (walk_reads_stream_in_order test_env test_range test_data []
              ([] ++ d0) XST_SUCCESS
              (eq_refl : @XNVM_EFUSE_MAX_BITS_IN_ROW test_hw = 32) Hrun)
    as (d & E & Hbits).
  apply app_inv_head in E. subst d0.
  exists XST_SUCCESS, d. split; [exact Hrun | exact Hbits].
Defined.

(** C5 on hardware with the cache-error flag raised. *)
Lemma ComputeProgrammableBits_cache_error_witness :
  exists d,
    XNvm_EfuseComputeProgrammableBits (Some (one_word 0x0000FFFF))
      (Some (one_word 0x1234)) 0x40 0x40 parity_env []
    = Normal (XNVM_EFUSE_ERR_CACHE_PARITY, Some (one_word 0x1234)) ([] ++ d).
Proof.
  destruct (ComputeProgrammableBits_cache_error parity_env []
              (Some (one_word 0x0000FFFF)) (Some (one_word 0x1234))
              0x40 0x40)
    as (Status & d & Hrun & _ & Hst); [reflexivity|].
  destruct Hst as (-> & _); [discriminate | discriminate |].
  exists d. exact Hrun.
Defined.

(** C6 on the favourable hardware: the pulse succeeds. *)
Lemma XNvm_EfusePgmBit_outcomes_witness :
  exists d, XNvm_EfusePgmBit 0 5 3 test_env [] = Normal XST_SUCCESS ([] ++ d).
Proof.
  destruct (XNvm_EfusePgmBit_outcomes test_env [] 0 5 3)
    as (r1 & w & r3 & Status & Hrun & Hw & _ & _ & Hok).
  rewrite Hok in Hrun.
  - eexists. exact Hrun.
  - rewrite Hw. concrete.
  - rewrite Hw. concrete.
Defined.

(** C7 on hardware whose fuses do not take: the read completes, the bit
    reads back clear, and the status is the generic failure. *)
Lemma XNvm_EfuseVerifyBit_bit_clear_witness :
  exists d,
    XNvm_EfuseVerifyBit 0 5 3 blank_env [] = Normal XST_FAILURE ([] ++ d) /\
    XST_FAILURE <> XNVM_EFUSE_ERR_PGM_VERIFY.
Proof.
  destruct (XNvm_EfuseVerifyBit_bit_clear blank_env [] 0 5 3)
    as (r4 & Hrun).
  - concrete.
  - concrete.
  - concrete.
  - concrete.
  - eexists. split; [exact Hrun | concrete].
Defined.

Lemma test_env_setup_succeeds : setup_succeeds test_env.
Proof. intros t. reflexivity. Qed.

Lemma test_env_fips_validation_succeeds : fips_validation_succeeds test_env.
Proof. intros t m v. reflexivity. Qed.

Lemma test_fips_range_ok : range_ok fips_mode_range.
Proof. split; [left; reflexivity|]. repeat split; concrete. Qed.

Lemma test_fips_mode_bits_succeed : every_bit_succeeds test_env fips_mode_range.
Proof.
  intros t r c _ Hc. apply test_env_bit_succeeds.
  change (0 <= c <= 7) in Hc. lia.
Qed.

Lemma test_fips_version_bits_succeed : fips_version_bits_succeed test_env.
Proof.
  intros t c Hc. apply test_env_bit_succeeds.
  destruct Hc as [-> | [-> | ->]]; concrete.
Qed.

(** C8 on the favourable hardware: mode [0x05] takes two operations in the
    mode window, version [0x3] two more and version [0x07] three more; a
    version of 8 is refused before the controller is opened. *)
Lemma WriteFipsInfo_scenario_witness :
  (exists Status d,
     XNvm_EfuseWriteFipsInfo TRUE 0x05 0x3 test_env []
       = Normal Status ([] ++ d) /\
     pgm_ops d
     = fips_mode_ops test_env 0x05 ++
       [fips_version_op XNVM_EFUSE_FIPS_VERSION_COL_0_NUM;
        fips_version_op XNVM_EFUSE_FIPS_VERSION_COL_1_NUM]) /\
  (exists Status d,
     XNvm_EfuseWriteFipsInfo TRUE 0x05 0x07 test_env []
       = Normal Status ([] ++ d) /\
     pgm_ops d
     = fips_mode_ops test_env 0x05 ++
       [fips_version_op XNVM_EFUSE_FIPS_VERSION_COL_0_NUM;
        fips_version_op XNVM_EFUSE_FIPS_VERSION_COL_1_NUM;
        fips_version_op XNVM_EFUSE_FIPS_VERSION_COL_2_NUM]) /\
  (exists d,
     XNvm_EfuseWriteFipsInfo TRUE 0x05 8 test_env []
       = Normal XNVM_EFUSE_ERR_INVALID_PARAM ([] ++ d) /\
     pgm_ops d = [] /\ setup_count d = 0%nat) /\
  length (fips_mode_ops test_env 0x05) = 2%nat.
Proof.
  destruct (WriteFipsInfo_scenario test_env []) as (Hgood & Hbad).
  - reflexivity.
  - exact test_fips_range_ok.
  - concrete.
  - concrete.
  - concrete.
  - destruct (Hgood test_env_setup_succeeds test_env_fips_validation_succeeds
                test_fips_mode_bits_succeed test_fips_version_bits_succeed)
      as (H3 & H7).
    split; [exact H3|]. split; [exact H7|].
    split; [apply Hbad; left; concrete | reflexivity].
Defined.

Lemma test_revoke_layout_ok : revoke_layout_ok.
Proof. repeat split; concrete. Qed.

(** C9 on id 129, the first id of the high range. *)
Lemma WriteRevocationID_position_witness :
  exists Status d,
    XNvm_EfuseWriteRevocationID TRUE 129 test_env [] = Normal Status ([] ++ d) /\
    pgm_ops d
    = [(XNVM_EFUSE_PAGE_0,
        XNVM_EFUSE_REVOKE_ID_128_TO_255_START_ROW + 16,
        XNVM_EFUSE_REVOKE_ID_128_TO_255_START_COL_NUM + 0,
        XNVM_EFUSE_PROGRAM_VERIFY)].
Proof.
  destruct (WriteRevocationID_position test_env [] TRUE 129)
    as (Hgood & _).
  - exact test_revoke_layout_ok.
  - concrete.
  - concrete.
  - apply Hgood; [split; concrete | exact test_env_setup_succeeds].
Defined.

(** C10 on a key type that is none of the four: the request is turned away
    at the door. *)
Lemma WriteDmeUserKey_refuses_bad_type_or_null_key_witness :
  DmeKeyType_rejected 7 = true /\
  exists CloseStatus d,
    XNvm_EfuseCloseController test_env [] = Normal CloseStatus ([] ++ d) /\
    XNvm_EfuseWriteDmeUserKey 7 (Some test_data) test_env []
      = Normal XNVM_EFUSE_ERR_INVALID_PARAM ([] ++ d).
Proof.
  destruct (WriteDmeUserKey_refuses_bad_type_or_null_key 7)
    as (Hiff & Hdoor & _).
  assert (H7 : 7 <> XNVM_EFUSE_DME_USER_KEY_0 /\
               7 <> XNVM_EFUSE_DME_USER_KEY_1 /\
               7 <> XNVM_EFUSE_DME_USER_KEY_2 /\
               7 <> XNVM_EFUSE_DME_USER_KEY_3)
    by (repeat split; concrete).
  split; [apply Hiff; exact H7|].
  apply (Hdoor ltac:(concrete) (Some test_data) test_env []).
  left. exact H7.
Defined.

(** The first DME user key is one of the four key types and passes the
    check, yet without a key the function returns the invalid-parameter
    code: that code does not tell that the key type is none of the four. *)
Lemma WriteDmeUserKey_valid_type_without_key :
  (XNVM_EFUSE_DME_USER_KEY_0 = XNVM_EFUSE_DME_USER_KEY_0 \/
   XNVM_EFUSE_DME_USER_KEY_0 = XNVM_EFUSE_DME_USER_KEY_1 \/
   XNVM_EFUSE_DME_USER_KEY_0 = XNVM_EFUSE_DME_USER_KEY_2 \/
   XNVM_EFUSE_DME_USER_KEY_0 = XNVM_EFUSE_DME_USER_KEY_3) /\
  DmeKeyType_rejected XNVM_EFUSE_DME_USER_KEY_0 = false /\
  exists t',
    XNvm_EfuseWriteDmeUserKey XNVM_EFUSE_DME_USER_KEY_0 None test_env []
    = Normal XNVM_EFUSE_ERR_INVALID_PARAM t'.
Proof.
  split; [left; reflexivity|]. split; [reflexivity|].
  eexists. vm_compute. reflexivity.
Qed.

Lemma test_layout_in_range : layout_in_range.
Proof.
  unfold layout_in_range, layout_numbers, cache_offsets, iv_cache_offsets.
  repeat apply conj;
    try (repeat (apply Forall_cons; [concrete|]); apply Forall_nil).
  reflexivity.
Qed.

(** C2 on the favourable hardware: the controller opens, the request is
    valid, the cache error flag is clear, and the call has no outcome. *)
Lemma WriteIv_overflows_before_close_witness :
  XNvm_EfuseWriteIv XNVM_EFUSE_META_HEADER_IV_RANGE (Some test_data)
    test_env []
  = undefined_behaviour test_env [].
Proof.
  refine (proj1 (WriteIv_overflows_before_close test_env [] _ _
                   XNVM_EFUSE_META_HEADER_IV_RANGE test_data _ _
                   _ _ _ _ _ _ _ _)).
  - concrete.
  - concrete.
  - reflexivity.
  - concrete.
  - concrete.
  - reflexivity.
  - reflexivity.
  - reflexivity.
Defined.

(** X24: the sample layout is sane, so the DME user-key write returns on
    every environment with the budget, whatever the hardware answers. *)
Lemma other_public_writes_close_once_witness :
  layout_in_range /\
  always_returns
    (XNvm_EfuseWriteDmeUserKey XNVM_EFUSE_DME_USER_KEY_0 (Some (one_word 5))).
Proof.
  split; [exact test_layout_in_range|].
  pose proof other_public_writes_close_once as H.
  do 12 apply proj2 in H. apply proj1 in H.
  apply (H XNVM_EFUSE_DME_USER_KEY_0 (Some (one_word 5))).
  exact test_layout_in_range.
Defined.

(** ** The close discipline, run

    A request with a bad key type: nothing is opened, the close sequence
    still runs once, and the invalid-parameter error is returned. *)
Example WriteAesKey_bad_key_type :
  exists t,
    XNvm_EfuseWriteAesKey 9 (Some test_data) test_env []
      = Normal XNVM_EFUSE_ERR_INVALID_PARAM t /\
    close_count t = 1%nat /\ setup_count t = 0%nat.
Proof. eexists. split; [vm_compute; reflexivity | split; reflexivity]. Qed.

(** The write succeeds and re-locking fails: the close error surfaces. *)
Example WriteDmeMode_close_error_surfaces :
  exists t,
    XNvm_EfuseWriteDmeMode TRUE 0x1 lock_fails_env [] = Normal 1 t /\
    close_count t = 1%nat.
Proof. eexists. split; [vm_compute; reflexivity | reflexivity]. Qed.

(** The write fails and re-locking fails too: the write error is kept. *)
Example WriteDmeMode_write_error_kept :
  exists t,
    XNvm_EfuseWriteDmeMode TRUE 0x1 pgm_error_env []
      = Normal (Z.lor XNVM_EFUSE_ERR_PGM XNVM_EFUSE_ERR_WRITE_DME_MODE) t /\
    close_count t = 1%nat.
Proof. eexists. split; [vm_compute; reflexivity | reflexivity]. Qed.

(** ** The further properties on the test configuration *)

Lemma test_bit_errors_are_failures : bit_errors_are_failures.
Proof. repeat split; concrete. Qed.

Lemma cached_env_cache : cache_holds cached_env (fun _ => 0x00FF0000).
Proof. intros t o. reflexivity. Qed.

(** X1 on the favourable hardware: the row reads back with bit 3 set. *)
Lemma VerifyBit_reads_once_and_clears_witness :
  exists d,
    XNvm_EfuseVerifyBit 0 5 3 test_env [] = Normal XST_SUCCESS ([] ++ d).
Proof.
  destruct (VerifyBit_reads_once_and_clears test_env [] 0 5 3)
    as (Status & d & r4 & Hrun & _ & Hok & _); [concrete|].
  destruct Hok as (_ & Hst); [concrete | concrete |].
  rewrite Hst in Hrun. eexists. exact Hrun.
Defined.

(** X2 on the favourable hardware. *)
Lemma PgmAndVerifyBit_success_is_verified_witness :
  exists (t' : Trace) (w rd : Z * Z),
    XNvm_EfusePgmAndVerifyBit 0 5 3 0 test_env [] = Normal XST_SUCCESS t' /\
    fst w <> XST_TIMEOUT /\ Z.testbit (u32 (fst rd)) 3 = true.
Proof.
  assert (Hrun : exists t',
            XNvm_EfusePgmAndVerifyBit 0 5 3 0 test_env []
            = Normal XST_SUCCESS t')
    by (eexists; vm_compute; reflexivity).
  destruct Hrun as (t' & Hrun).
  destruct (PgmAndVerifyBit_success_is_verified test_env [] t' 0 5 3
              test_bit_errors_are_failures ltac:(lia) Hrun)
    as (d1 & w & d2 & rd & d3 & _ & Hw & _ & Hrd).
  exists t', w, rd. auto.
Defined.

(** X3 on a request without data. *)
Lemma PgmAndVerifyData_refuses_bad_request_witness :
  XNvm_EfusePgmAndVerifyData test_range None test_env []
  = Normal XNVM_EFUSE_ERR_INVALID_PARAM [].
Proof.
  apply (PgmAndVerifyData_refuses_bad_request test_env [] test_range None).
  right. left. reflexivity.
Defined.

(** X4 on the test range. *)
Lemma PgmAndVerifyData_programs_only_requested_bits_witness :
  exists Status d,
    XNvm_EfusePgmAndVerifyData test_range (Some test_data) test_env []
      = Normal Status ([] ++ d) /\
    forall p r c s,
      In (p, r, c, s) (pgm_ops d) ->
      p = 0 /\ s = 0 /\ in_window test_range (r, c).
Proof.
  destruct (walk_window_ok test_env test_range test_data []
              test_range_ok test_range_bits_succeed)
    as (s & d0 & _ & _ & _ & _ & _ & Hrun); [concrete | concrete |].
  destruct (PgmAndVerifyData_programs_only_requested_bits test_env test_range
              test_data [] ([] ++ d0) XST_SUCCESS
              (eq_refl : @XNVM_EFUSE_MAX_BITS_IN_ROW test_hw = 32))
    as (d & E & Hops); [concrete | concrete | concrete | exact Hrun |].
  apply app_inv_head in E. subst d0.
  exists XST_SUCCESS, d. split; [exact Hrun|].
  intros p r c s0 Hin. destruct (Hops p r c s0 Hin) as (Hp & Hs & Hw & _).
  auto.
Defined.

(** X5 on hardware whose program pulses fail: the walk ends with the
    operation that failed and returns its status. *)
Lemma PgmAndVerifyData_stops_at_first_failure_witness :
  exists d d0 r c dop,
    XNvm_EfusePgmAndVerifyData test_range (Some test_data) pgm_error_env []
      = Normal XNVM_EFUSE_ERR_PGM ([] ++ d) /\
    d = d0 ++ dop /\
    all_succeeded (bit_results pgm_error_env [] d0) /\
    XNvm_EfusePgmAndVerifyBit (EfuseType test_range) r c
      (SkipVerify test_range) pgm_error_env ([] ++ d0)
    = Normal XNVM_EFUSE_ERR_PGM ([] ++ d0 ++ dop) /\
    bit_results pgm_error_env [] d
    = bit_results pgm_error_env [] d0
      ++ [(EfuseType test_range, r, c, SkipVerify test_range,
           XNVM_EFUSE_ERR_PGM)].
Proof.
  assert (Hrun : exists t',
            XNvm_EfusePgmAndVerifyData test_range (Some test_data)
              pgm_error_env [] = Normal XNVM_EFUSE_ERR_PGM t')
    by (eexists; vm_compute; reflexivity).
  destruct Hrun as (t' & Hrun).
  destruct (PgmAndVerifyData_stops_at_first_failure pgm_error_env test_range
              (Some test_data) [] t' XNVM_EFUSE_ERR_PGM Hrun)
    as (d & -> & [(_ & Hst)|(d0 & r & c & dop & Hd & H0 & Hop & Hres & _)]).
  - exfalso. destruct Hst as [Hst|[Hst|(Hst & _)]]; discriminate Hst.
  - exists d, d0, r, c, dop. auto.
Defined.

(** X8 on an IV write without an IV. *)
Lemma validated_writes_stop_before_programming_witness :
  exists d,
    XNvm_EfuseWriteIv 1 None test_env []
      = Normal XNVM_EFUSE_ERR_INVALID_PARAM ([] ++ d) /\
    pgm_ops d = [] /\ setup_count d = 0%nat.
Proof.
  destruct validated_writes_stop_before_programming
    as (_ & _ & _ & _ & _ & Hiv & _); [reflexivity | concrete |].
  exact (Hiv 1 test_env []).
Defined.

(** X9 on a UDS write without a UDS. *)
Lemma WriteUds_stops_before_programming_witness :
  exists d,
    XNvm_EfuseWriteUds TRUE None test_env []
      = Normal XNVM_EFUSE_ERR_INVALID_PARAM ([] ++ d) /\
    pgm_ops d = [] /\ setup_count d = 0%nat.
Proof.
  destruct (WriteUds_stops_before_programming TRUE) as (Hnone & _);
    [reflexivity | concrete | concrete |].
  exact (Hnone test_env []).
Defined.

(** X10 on the first DME key type, without a key. *)
Lemma WriteDmeUserKey_stops_before_programming_witness :
  exists d,
    XNvm_EfuseWriteDmeUserKey XNVM_EFUSE_DME_USER_KEY_0 None test_env []
    = Normal XNVM_EFUSE_ERR_INVALID_PARAM ([] ++ d) /\
    pgm_ops d = [] /\ setup_count d = 0%nat.
Proof.
  destruct (WriteDmeUserKey_stops_before_programming
              XNVM_EFUSE_DME_USER_KEY_0) as (Hnone & _);
    [reflexivity | concrete | concrete | reflexivity |].
  exact (Hnone test_env []).
Defined.

(** X13 on a call without helper data. *)
Lemma WritePuf_guards_helper_data_witness :
  exists d,
    XNvm_EfuseWritePuf None test_env []
      = Normal XNVM_EFUSE_ERR_INVALID_PARAM ([] ++ d) /\
    pgm_ops d = [] /\ setup_count d = 0%nat.
Proof.
  destruct (WritePuf_guards_helper_data
              {| EnvMonitorDis := TRUE; PrgmPufHelperData := 0;
                 EfuseSynData := test_data; Chash := 0; Aux := 0;
                 RoSwap := 0; PufSecCtrlBits := 1 |}) as (Hnone & _);
    [reflexivity | concrete | concrete | concrete |].
  exact (Hnone test_env []).
Defined.

(** X14 on id 33, the first id of the second row. *)
Lemma WriteOffChipRevokeID_position_witness :
  exists Status d,
    XNvm_EfuseWriteOffChipRevokeID TRUE 33 test_env []
      = Normal Status ([] ++ d) /\
    pgm_ops d
    = [(XNVM_EFUSE_PAGE_0, XNVM_EFUSE_OFFCHIP_REVOKE_ID_START_ROW + 1, 0,
        XNVM_EFUSE_PROGRAM_VERIFY)].
Proof.
  destruct (WriteOffChipRevokeID_position TRUE 33) as (Hgood & _);
    [reflexivity | concrete | concrete | concrete |].
  apply Hgood; [split; concrete | exact test_env_setup_succeeds].
Defined.

(** X15 on the first DME revoke number and the favourable hardware: both
    bits are programmed. *)
Lemma WriteDmeRevoke_programs_both_bits_witness :
  exists Status d s2,
    XNvm_EfuseWriteDmeRevoke TRUE XNVM_EFUSE_DME_REVOKE_0 test_env []
      = Normal Status ([] ++ d) /\
    bit_results test_env [] d
    = [(XNVM_EFUSE_PAGE_0, XNVM_EFUSE_DME_REVOKE_0_AND_1_ROW,
        XNVM_EFUSE_DME_REVOKE_0_0_COL_NUM, XNVM_EFUSE_PROGRAM_VERIFY,
        XST_SUCCESS);
       (XNVM_EFUSE_PAGE_0, XNVM_EFUSE_DME_REVOKE_0_AND_1_ROW,
        XNVM_EFUSE_DME_REVOKE_0_1_COL_NUM, XNVM_EFUSE_PROGRAM_VERIFY, s2)].
Proof.
  destruct (WriteDmeRevoke_programs_both_bits TRUE XNVM_EFUSE_DME_REVOKE_0)
    as (_ & Hsome); [reflexivity | concrete |].
  destruct (Hsome _ _ _ eq_refl test_env [] test_env_setup_succeeds)
    as (Status & d & Hrun & [(s1 & Hs1 & Hres & _)|(s2 & Hres & _)]).
  - exfalso.
    assert (Hall : exists t',
              XNvm_EfuseWriteDmeRevoke TRUE XNVM_EFUSE_DME_REVOKE_0 test_env []
              = Normal XST_SUCCESS t' /\
              length (pgm_ops t') = 2%nat)
      by (eexists; split; [vm_compute; reflexivity | reflexivity]).
    destruct Hall as (t' & Hall & Hlen). rewrite Hrun in Hall.
    injection Hall as _ <-. cbn [app] in Hlen.
    rewrite <- (bit_results_ops test_env d []), Hres in Hlen.
    discriminate Hlen.
  - exists Status, d, s2. auto.
Defined.

(** X16 on the test range and the favourable hardware: the whole window. *)
Lemma PgmAndVerifyData_visits_window_in_order_witness :
  exists d,
    XNvm_EfusePgmAndVerifyData test_range (Some test_data) test_env []
      = Normal XST_SUCCESS ([] ++ d) /\
    window test_range = map fst (visits d).
Proof.
  destruct (walk_window_ok test_env test_range test_data []
              test_range_ok test_range_bits_succeed)
    as (s & d0 & _ & _ & _ & _ & _ & Hrun); [concrete | concrete |].
  destruct (PgmAndVerifyData_visits_window_in_order test_env test_range
              (Some test_data) [] ([] ++ d0) XST_SUCCESS)
    as (d & rest & E & Hwin & Hall);
    [concrete | concrete | concrete | concrete | concrete | concrete
    | exact Hrun |].
  apply app_inv_head in E. subst d0.
  exists d. split; [exact Hrun|].
  rewrite Hwin, (Hall eq_refl), app_nil_r. reflexivity.
Defined.

Lemma test_misc_ctrl_range_ok :
  word_range_ok XNVM_EFUSE_CACHE_MISC_CTRL_CACHE_OFFSET misc_ctrl_range.
Proof. unfold word_range_ok. repeat split; concrete. Qed.

(** X17 on a cache word [0x00FF0000] and the request [0x00010003]: the
    two low bits are new, bit 16 is already there. *)
Lemma control_bit_writes_program_new_bits_only_witness :
  exists Status d,
    XNvm_EfuseWriteMiscCtrlBits TRUE 0x00010003 cached_env []
      = Normal Status ([] ++ d) /\
    Forall (new_bit_op (fun _ => 0x00FF0000)
              XNVM_EFUSE_CACHE_MISC_CTRL_CACHE_OFFSET 0x00010003
              misc_ctrl_range)
           (pgm_ops d) /\
    length (pgm_ops d) = 2%nat.
Proof.
  assert (Hrun : exists Status t',
            XNvm_EfuseWriteMiscCtrlBits TRUE 0x00010003 cached_env []
            = Normal Status t' /\
            length (pgm_ops t') = 2%nat)
    by (do 2 eexists; split; [vm_compute; reflexivity | reflexivity]).
  destruct Hrun as (Status & t' & Hrun & Hlen).
  destruct (control_bit_writes_program_new_bits_only cached_env
              (fun _ => 0x00FF0000) TRUE 0x00010003 cached_env_cache)
    as (Hmisc & _); [reflexivity | concrete | concrete | concrete |].
  destruct (Hmisc test_misc_ctrl_range_ok [] Status t' Hrun)
    as (d & -> & Hd).
  exists Status, d. auto.
Defined.

(** X18 on three words of a cache that reads [0x00FF0000]. *)
Lemma ComputeProgrammableBits_stays_in_range_witness :
  exists Status o d,
    XNvm_EfuseComputeProgrammableBits (Some (one_word 0x0000FFFF))
      (Some (one_word 0x1234)) 0x40 0x48 cached_env []
    = Normal (Status, Some o) ([] ++ d) /\
    o 3 = one_word 0x1234 3 /\
    calls_of d
    = [CReadReg XNVM_EFUSE_CTRL_BASEADDR XNVM_EFUSE_ISR_REG_OFFSET;
       CReadReg XNVM_EFUSE_CACHE_BASEADDR 0x40;
       CReadReg XNVM_EFUSE_CACHE_BASEADDR 0x44;
       CReadReg XNVM_EFUSE_CACHE_BASEADDR 0x48].
Proof.
  assert (Hrun : exists Status out t',
            XNvm_EfuseComputeProgrammableBits (Some (one_word 0x0000FFFF))
              (Some (one_word 0x1234)) 0x40 0x48 cached_env []
            = Normal (Status, out) t')
    by (do 3 eexists; vm_compute; reflexivity).
  destruct Hrun as (Status & out & t' & Hrun).
  destruct (ComputeProgrammableBits_stays_in_range cached_env [] t'
              (one_word 0x0000FFFF) (one_word 0x1234) 0x40 0x48 Status out)
    as (o & d & -> & -> & Hframe & _ & Hcalls);
    [concrete | concrete | concrete | exact Hrun |].
  exists Status, o, d. split; [exact Hrun|].
  split; [apply Hframe; right; concrete|].
  destruct Hcalls as (_ & Hcalls); [reflexivity|]. exact Hcalls.
Defined.

(** X19 on a skip-verify operation of the favourable hardware. *)
Lemma secrets_are_programmed_without_read_back_witness :
  XNvm_EfusePgmAndVerifyBit 0 5 3 XNVM_EFUSE_SKIP_VERIFY test_env []
  = XNvm_EfusePgmBit 0 5 3 test_env
      ([] ++ [Ghost (Enter_PgmAndVerifyBit 0 5 3 XNVM_EFUSE_SKIP_VERIFY)]) /\
  exists Status d,
    XNvm_EfuseWriteAesKey XNVM_EFUSE_AES_KEY (Some test_data) test_env []
      = Normal Status ([] ++ d) /\
    Forall page0_unverified (pgm_ops d) /\ pgm_ops d <> [].
Proof.
  destruct secrets_are_programmed_without_read_back as (Haes & _ & Hbit);
    [reflexivity|].
  split; [apply Hbit; discriminate|].
  assert (Hrun : exists Status t',
            XNvm_EfuseWriteAesKey XNVM_EFUSE_AES_KEY (Some test_data)
              test_env [] = Normal Status t' /\
            pgm_ops t' <> [])
    by (do 2 eexists; split; [vm_compute; reflexivity | discriminate]).
  destruct Hrun as (Status & t' & Hrun & Hops).
  destruct (Haes test_env XNVM_EFUSE_AES_KEY (Some test_data) [] Status t'
              Hrun) as (d & -> & Hd).
  exists Status, d. auto.
Defined.

(** X20 on a DME mode write of the favourable hardware. *)
Lemma other_writes_verify_every_bit_witness :
  exists Status d,
    XNvm_EfuseWriteDmeMode TRUE 0x5 test_env [] = Normal Status ([] ++ d) /\
    Forall page0_verified (pgm_ops d) /\ length (pgm_ops d) = 2%nat.
Proof.
  assert (Hrun : exists Status t',
            XNvm_EfuseWriteDmeMode TRUE 0x5 test_env [] = Normal Status t' /\
            length (pgm_ops t') = 2%nat)
    by (do 2 eexists; split; [vm_compute; reflexivity | reflexivity]).
  destruct Hrun as (Status & t' & Hrun & Hlen).
  pose proof (other_writes_verify_every_bit eq_refl test_env) as H.
  do 14 apply proj2 in H. apply proj1 in H.
  destruct (H TRUE 0x5 [] Status t' Hrun) as (d & -> & Hd).
  exists Status, d. auto.
Defined.

(** X21 on a cache word [0x00FF0000] and a request with a new data bit
    and a new lock bit: the data bit is programmed, then the lock. *)
Lemma WriteGlitchConfigBits_locks_after_config_witness :
  exists Status d,
    XNvm_EfuseWriteGlitchConfigBits TRUE 0x80000001 cached_env []
      = Normal Status ([] ++ d) /\
    locks_after_config cached_env
      (u32 (Z.land (u32_not 0x00FF0000) (u32 0x80000001))) [] d /\
    pgm_ops d
    = [(XNVM_EFUSE_PAGE_0, XNVM_EFUSE_ANLG_TRIM_3_START_ROW, 0,
        XNVM_EFUSE_PROGRAM_VERIFY); glitch_write_lock_op].
Proof.
  assert (Hrun : exists Status t',
            XNvm_EfuseWriteGlitchConfigBits TRUE 0x80000001 cached_env []
            = Normal Status t' /\
            pgm_ops t'
            = [(XNVM_EFUSE_PAGE_0, XNVM_EFUSE_ANLG_TRIM_3_START_ROW, 0,
                XNVM_EFUSE_PROGRAM_VERIFY); glitch_write_lock_op])
    by (do 2 eexists; split; [vm_compute; reflexivity | reflexivity]).
  destruct Hrun as (Status & t' & Hrun & Hops).
  destruct (WriteGlitchConfigBits_locks_after_config cached_env
              (fun _ => 0x00FF0000) TRUE 0x80000001 [] t' Status
              cached_env_cache)
    as (d & -> & Hd); [concrete | concrete | concrete | concrete
                      | exact Hrun |].
  exists Status, d. auto.
Defined.

(** X22 on the black IV and hardware with the cache error flag raised. *)
Lemma PrgmIv_failures_before_the_loop_witness :
  exists d,
    XNvm_EfusePrgmIv XNVM_EFUSE_BLACK_IV test_data parity_env []
    = Normal XNVM_EFUSE_ERR_CACHE_PARITY ([] ++ d) /\
    calls_of d = [CReadReg XNVM_EFUSE_CTRL_BASEADDR XNVM_EFUSE_ISR_REG_OFFSET].
Proof.
  destruct (PrgmIv_failures_before_the_loop parity_env []
              XNVM_EFUSE_BLACK_IV test_data) as (_ & Hparity).
  eexists. split; [apply Hparity; concrete | reflexivity].
Defined.

(** ** The CRC of the UDS, run

    Twelve zero words give the CRC [0x89BF7319], which comes back from
    [XNvm_UdsCrcCalc] as a negative [int] and is that CRC again in the
    [u32] of [XNvm_EfuseWriteUds]. *)
Example UdsCrcCalc_of_zero_uds :
  XNvm_UdsCrcCalc (fun _ => 0) = -1983941863 /\
  u32 (XNvm_UdsCrcCalc (fun _ => 0)) = 0x89BF7319.
Proof. split; vm_compute; reflexivity. Qed.
